(** * OpenCAPI bring-up and run-time control on the POWER9 NPU, and the
      spinlock core: a shallow embedding of [hw/npu2-opencapi.c] and
      [core/lock.c].

    Register accesses are modelled as events of a trace; what a read returns
    is taken from a hardware oracle, so every theorem holds whatever the
    hardware answers.  64-bit registers are integers in [0, 2^64), with the
    wrap-around written out. *)

From Stdlib Require Import ZArith List Bool Lia String.
From coqutil Require Import Z.bitblast.
Import ListNotations.
Local Open Scope Z_scope.

(* ================================================================== *)
(** * Part I: definitions                                              *)
(* ================================================================== *)

(** ** Machine integers *)

Definition u64 (z : Z) : Z := z mod 2 ^ 64.
Definition u32 (z : Z) : Z := z mod 2 ^ 32.
Definition u8 (z : Z) : Z := z mod 2 ^ 8.

(** [~m] on a 64-bit word. *)
Definition not64 (m : Z) : Z := Z.lxor m (Z.ones 64).

(** ** Bit fields

    Modelled from the spec: [skiboot.h] is not among the sources.  The spec
    numbers register bits the IBM way (bit 0 is the most significant bit of
    the 64-bit word: "bit 16", "bit15", "bit48", "bit position 8 + 4·i"), and
    a field is named by its mask.  The definitions follow the macros
    [PPC_BIT], [PPC_BITMASK], [MASK_TO_LSH], [GETFIELD] and [SETFIELD] that
    the sources use. *)

(** [0x8000000000000000UL >> bit] *)
Definition PPC_BIT (bit : Z) : Z := Z.shiftr (2 ^ 63) bit.

(** [(PPC_BIT(bs) - PPC_BIT(be)) | PPC_BIT(bs)] *)
Definition PPC_BITMASK (bs be : Z) : Z :=
  Z.lor (PPC_BIT bs - PPC_BIT be) (PPC_BIT bs).

(** Number of trailing zero bits of a positive number. *)
Fixpoint pos_ctz (p : positive) : Z :=
  match p with
  | xO q => 1 + pos_ctz q
  | _ => 0
  end.

(** [__builtin_ffsl(m) - 1]: the index of the lowest set bit ([-1] for 0). *)
Definition MASK_TO_LSH (m : Z) : Z :=
  match m with
  | Zpos p => pos_ctz p
  | _ => -1
  end.

(** [((v) & (m)) >> MASK_TO_LSH(m)] *)
Definition GETFIELD (m v : Z) : Z := Z.shiftr (Z.land v m) (MASK_TO_LSH m).

(** [((v) & ~(m)) | ((((typeof(v))(val)) << MASK_TO_LSH(m)) & (m))], on
    64-bit words. *)
Definition SETFIELD (m v val : Z) : Z :=
  Z.lor (Z.land v (not64 m))
        (Z.land (u64 (Z.shiftl (u64 val) (MASK_TO_LSH m))) m).

(** The field of [width] bits whose lowest bit is bit [lo], counted from the
    least significant end. *)
Definition field_mask (lo width : Z) : Z := Z.shiftl (Z.ones width) lo.

(** ** OPAL return codes ([opal-api.h]) *)

Inductive opal_rc : Type :=
| OPAL_SUCCESS
| OPAL_PARAMETER
| OPAL_BUSY
| OPAL_HARDWARE
| OPAL_UNSUPPORTED.

Definition opal_rc_eqb (a b : opal_rc) : bool :=
  match a, b with
  | OPAL_SUCCESS, OPAL_SUCCESS
  | OPAL_PARAMETER, OPAL_PARAMETER
  | OPAL_BUSY, OPAL_BUSY
  | OPAL_HARDWARE, OPAL_HARDWARE
  | OPAL_UNSUPPORTED, OPAL_UNSUPPORTED => true
  | _, _ => false
  end.

(** ** Register names ([npu2-regs.h], [xscom-p9-regs.h])

    The headers are not among the sources; stacks, blocks and registers are
    kept by name, and [NPU2_REG_OFFSET] is a constructor: two register
    addresses are equal exactly when they name the same stack, block and
    register. *)

Inductive npu2_stack : Type :=
| NPU2_STACK_STCK_0U
| NPU2_STACK_STCK_0
| NPU2_STACK_STCK_1U
| NPU2_STACK_STCK_1
| NPU2_STACK_STCK_2U
| NPU2_STACK_STCK_2
| NPU2_STACK_MISC.

Inductive npu2_block : Type :=
| NPU2_BLOCK_SM_0
| NPU2_BLOCK_SM_1
| NPU2_BLOCK_SM_2
| NPU2_BLOCK_SM_3
| NPU2_BLOCK_CTL
| NPU2_BLOCK_DAT
| NPU2_BLOCK_NTL0
| NPU2_BLOCK_NTL1
| NPU2_BLOCK_OTL0
| NPU2_BLOCK_OTL1
| NPU2_BLOCK_XSL
| NPU2_BLOCK_MISC.

Inductive npu2_offset : Type :=
| NPU2_XSL_WRAP_CFG
| NPU2_CQ_CTL_FENCE_CONTROL_0
| NPU2_CQ_CTL_FENCE_CONTROL_1
| NPU2_CQ_CTL_STATUS
| NPU2_CQ_CTL_MISC_CFG
| NPU2_CQ_DAT_MISC_CFG
| NPU2_CQ_SM_MISC_CFG0
| NPU2_LOW_WATER_MARKS
| NPU2_XSL_PSL_SCNTL_A0
| NPU2_XSL_GP
| NPU2_XSL_DEF
| NPU2_XSL_PSL_SPAP_A0
| NPU2_XSL_PSL_SPAP_A1
| NPU2_XSL_PSL_LLCMD_A0
| NPU2_PHY_BAR
| NPU2_NTL0_BAR
| NPU2_NTL1_BAR
| NPU2_GENID_BAR
| NPU2_CQ_CTL_MISC_MMIOPA0_CONFIG
| NPU2_CQ_CTL_MISC_MMIOPA1_CONFIG
| OTL_CONFIG0
| OTL_CONFIG1
| OTL_CONFIG2
| OTL_TLX_CREDITS
| OTL_VC_CREDITS
| NPU2_MISC_BRICK_BDF2PE_MAP0 (brick : Z).

Inductive npu2_reg : Type :=
| NPU2_REG_OFFSET (stack : npu2_stack) (block : npu2_block) (offset : npu2_offset)
| NPU2_MISC_OPTICAL_IO_CFG0
| NPU2_XTS_CFG
| NPU2_XTS_CFG2.

Definition NPU2_OTL_CONFIG0 (stack : npu2_stack) (block : npu2_block) : npu2_reg :=
  NPU2_REG_OFFSET stack block OTL_CONFIG0.
Definition NPU2_OTL_CONFIG1 (stack : npu2_stack) (block : npu2_block) : npu2_reg :=
  NPU2_REG_OFFSET stack block OTL_CONFIG1.
Definition NPU2_OTL_CONFIG2 (stack : npu2_stack) (block : npu2_block) : npu2_reg :=
  NPU2_REG_OFFSET stack block OTL_CONFIG2.
Definition NPU2_OTL_TLX_CREDITS (stack : npu2_stack) (block : npu2_block) : npu2_reg :=
  NPU2_REG_OFFSET stack block OTL_TLX_CREDITS.
Definition NPU2_OTL_VC_CREDITS (stack : npu2_stack) (block : npu2_block) : npu2_reg :=
  NPU2_REG_OFFSET stack block OTL_VC_CREDITS.

Inductive xscom_reg : Type :=
| OB0_ODL0_STATUS
| OB0_ODL1_STATUS
| OB3_ODL0_STATUS
| OB3_ODL1_STATUS
| OB0_ODL0_CONFIG
| OB0_ODL1_CONFIG
| OB3_ODL0_CONFIG
| OB3_ODL1_CONFIG
| OBUS_LL0_IOOL_PHY_CONFIG
| OBUS_LL3_IOOL_PHY_CONFIG
| PU_IOE_PB_MISC_CFG
| PU_IOE_PB_FP01_CFG
| PU_IOE_PB_FP23_CFG
| PU_IOE_PB_FP45_CFG
| PU_IOE_PB_FP67_CFG.

Scheme Equality for npu2_stack.
Scheme Equality for npu2_block.
Scheme Equality for xscom_reg.

Definition npu2_offset_eqb (a b : npu2_offset) : bool :=
  match a, b with
  | NPU2_XSL_WRAP_CFG, NPU2_XSL_WRAP_CFG
  | NPU2_CQ_CTL_FENCE_CONTROL_0, NPU2_CQ_CTL_FENCE_CONTROL_0
  | NPU2_CQ_CTL_FENCE_CONTROL_1, NPU2_CQ_CTL_FENCE_CONTROL_1
  | NPU2_CQ_CTL_STATUS, NPU2_CQ_CTL_STATUS
  | NPU2_CQ_CTL_MISC_CFG, NPU2_CQ_CTL_MISC_CFG
  | NPU2_CQ_DAT_MISC_CFG, NPU2_CQ_DAT_MISC_CFG
  | NPU2_CQ_SM_MISC_CFG0, NPU2_CQ_SM_MISC_CFG0
  | NPU2_LOW_WATER_MARKS, NPU2_LOW_WATER_MARKS
  | NPU2_XSL_PSL_SCNTL_A0, NPU2_XSL_PSL_SCNTL_A0
  | NPU2_XSL_GP, NPU2_XSL_GP
  | NPU2_XSL_DEF, NPU2_XSL_DEF
  | NPU2_XSL_PSL_SPAP_A0, NPU2_XSL_PSL_SPAP_A0
  | NPU2_XSL_PSL_SPAP_A1, NPU2_XSL_PSL_SPAP_A1
  | NPU2_XSL_PSL_LLCMD_A0, NPU2_XSL_PSL_LLCMD_A0
  | NPU2_PHY_BAR, NPU2_PHY_BAR
  | NPU2_NTL0_BAR, NPU2_NTL0_BAR
  | NPU2_NTL1_BAR, NPU2_NTL1_BAR
  | NPU2_GENID_BAR, NPU2_GENID_BAR
  | NPU2_CQ_CTL_MISC_MMIOPA0_CONFIG, NPU2_CQ_CTL_MISC_MMIOPA0_CONFIG
  | NPU2_CQ_CTL_MISC_MMIOPA1_CONFIG, NPU2_CQ_CTL_MISC_MMIOPA1_CONFIG
  | OTL_CONFIG0, OTL_CONFIG0
  | OTL_CONFIG1, OTL_CONFIG1
  | OTL_CONFIG2, OTL_CONFIG2
  | OTL_TLX_CREDITS, OTL_TLX_CREDITS
  | OTL_VC_CREDITS, OTL_VC_CREDITS => true
  | NPU2_MISC_BRICK_BDF2PE_MAP0 i, NPU2_MISC_BRICK_BDF2PE_MAP0 j => i =? j
  | _, _ => false
  end.

Definition npu2_reg_eqb (a b : npu2_reg) : bool :=
  match a, b with
  | NPU2_REG_OFFSET s1 b1 o1, NPU2_REG_OFFSET s2 b2 o2 =>
      npu2_stack_beq s1 s2 && npu2_block_beq b1 b2 && npu2_offset_eqb o1 o2
  | NPU2_MISC_OPTICAL_IO_CFG0, NPU2_MISC_OPTICAL_IO_CFG0
  | NPU2_XTS_CFG, NPU2_XTS_CFG
  | NPU2_XTS_CFG2, NPU2_XTS_CFG2 => true
  | _, _ => false
  end.

(** ** Brick-index algebra

    [None] stands for the [default: assert(false)] arm of the switch. *)

Definition index_to_stack (index : Z) : option npu2_stack :=
  match index with
  | 2 | 3 => Some NPU2_STACK_STCK_1
  | 4 | 5 => Some NPU2_STACK_STCK_2
  | _ => None
  end.

Definition index_to_stacku (index : Z) : option npu2_stack :=
  match index with
  | 2 | 3 => Some NPU2_STACK_STCK_1U
  | 4 | 5 => Some NPU2_STACK_STCK_2U
  | _ => None
  end.

Definition index_to_block (index : Z) : option npu2_block :=
  match index with
  | 2 | 4 => Some NPU2_BLOCK_OTL0
  | 3 | 5 => Some NPU2_BLOCK_OTL1
  | _ => None
  end.

(** The switch of [get_odl_status]. *)
Definition odl_status_xscom (index : Z) : option xscom_reg :=
  match index with
  | 2 => Some OB0_ODL0_STATUS
  | 3 => Some OB0_ODL1_STATUS
  | 4 => Some OB3_ODL1_STATUS
  | 5 => Some OB3_ODL0_STATUS
  | _ => None
  end.

(** The switch of [odl_train]. *)
Definition odl_config_xscom (index : Z) : option xscom_reg :=
  match index with
  | 2 => Some OB0_ODL0_CONFIG
  | 3 => Some OB0_ODL1_CONFIG
  | 4 => Some OB3_ODL1_CONFIG
  | 5 => Some OB3_ODL0_CONFIG
  | _ => None
  end.

(** The switch of [disable_nvlink] and of [enable_odl_phy_mux]. *)
Definition phy_config_scom (index : Z) : option xscom_reg :=
  match index with
  | 2 | 3 => Some OBUS_LL0_IOOL_PHY_CONFIG
  | 4 | 5 => Some OBUS_LL3_IOOL_PHY_CONFIG
  | _ => None
  end.

(** ** Header constants

    The bit masks of [npu2-regs.h], [xscom-p9-regs.h] and the comparison
    keys of [opal-api.h] are not among the sources: they are taken as
    parameters, one record field per macro, and every theorem holds for
    all values of them (a theorem that needs the shape of a field says so
    in a hypothesis). *)

Record constants : Type := {
  OBUS_IOOL_PHY_CONFIG_NV0_NPU_ENABLED : Z;
  OBUS_IOOL_PHY_CONFIG_NV1_NPU_ENABLED : Z;
  OBUS_IOOL_PHY_CONFIG_NV2_NPU_ENABLED : Z;
  OBUS_IOOL_PHY_CONFIG_ODL0_ENABLED : Z;
  OBUS_IOOL_PHY_CONFIG_ODL1_ENABLED : Z;
  OBUS_IOOL_PHY_CONFIG_ODL_PHY_SWAP : Z;
  OBUS_IOOL_PHY_CONFIG_LINK0_OLL_ENABLED : Z;
  OBUS_IOOL_PHY_CONFIG_LINK1_OLL_ENABLED : Z;
  NPU2_MISC_OPTICAL_IO_CFG0_NDLMUX_BRK0TO2 : Z;
  NPU2_MISC_OPTICAL_IO_CFG0_OCMUX_BRK0TO1 : Z;
  NPU2_MISC_OPTICAL_IO_CFG0_OCMUX_BRK4TO5 : Z;
  PU_IOE_PB_MISC_CFG_SEL_04_NPU_NOT_PB : Z;
  PU_IOE_PB_MISC_CFG_SEL_05_NPU_NOT_PB : Z;
  PU_IOE_PB_FP_CFG_FP0_FMR_DISABLE : Z;
  PU_IOE_PB_FP_CFG_FP0_PRS_DISABLE : Z;
  PU_IOE_PB_FP_CFG_FP1_FMR_DISABLE : Z;
  PU_IOE_PB_FP_CFG_FP1_PRS_DISABLE : Z;
  NPU2_XSL_WRAP_CFG_XSLO_CLOCK_ENABLE : Z;
  NPU2_CQ_CTL_FENCE_CONTROL_REQUEST_FENCE : Z;
  NPU2_CQ_CTL_STATUS_BRK0_AM_FENCED : Z;
  NPU2_CQ_CTL_STATUS_BRK1_AM_FENCED : Z;
  NPU2_OTL_CONFIG0_EN : Z;
  NPU2_OTL_CONFIG0_PE_MASK : Z;
  NPU2_CQ_CTL_MISC_CFG_CONFIG_OCAPI_MODE : Z;
  NPU2_CQ_CTL_MISC_CFG_CONFIG_OTL0_ENABLE : Z;
  NPU2_CQ_CTL_MISC_CFG_CONFIG_OTL1_ENABLE : Z;
  NPU2_CQ_DAT_MISC_CFG_CONFIG_OCAPI_MODE : Z;
  NPU2_CQ_SM_MISC_CFG0_CONFIG_OCAPI_MODE : Z;
  NPU2_CQ_SM_MISC_CFG0_CONFIG_ENABLE_PBUS : Z;
  NPU2_XTS_CFG_OPENCAPI : Z;
  NPU2_XTS_CFG2_XSL1_ENA : Z;
  NPU2_XTS_CFG2_XSL2_ENA : Z;
  NPU2_LOW_WATER_MARKS_ENABLE_MACHINE_ALLOC : Z;
  NPU2_OTL_CONFIG1_TX_TEMP1_EN : Z;
  NPU2_OTL_CONFIG1_TX_TEMP2_EN : Z;
  NPU2_OTL_CONFIG1_TX_TEMP3_EN : Z;
  NPU2_OTL_CONFIG2_TX_SEND_EN : Z;
  NPU2_XSL_PSL_SPAP_EN : Z;
  NPU2_MISC_BRICK_BDF2PE_MAP_ENABLE : Z;
  NPU2_MISC_BRICK_BDF2PE_MAP_PE : Z;
  NPU2_MISC_BRICK_BDF2PE_MAP_BDF : Z;
  NPU2_MAX_PE_NUM : Z;
  NPU2_CQ_CTL_CONFIG_ADDR_ENABLE : Z;
  NPU2_CQ_CTL_CONFIG_ADDR_BUS_NUMBER : Z;
  NPU2_CQ_CTL_CONFIG_ADDR_DEVICE_NUMBER : Z;
  NPU2_CQ_CTL_CONFIG_ADDR_FUNCTION_NUMBER : Z;
  NPU2_CQ_CTL_CONFIG_ADDR_REGISTER_NUMBER : Z;
  NPU2_PHY_BAR_ADDR : Z;
  NPU2_PHY_BAR_ENABLE : Z;
  NPU2_NTL_BAR_ADDR : Z;
  NPU2_NTL_BAR_SIZE : Z;
  NPU2_NTL_BAR_ENABLE : Z;
  NPU2_GENID_BAR_ADDR : Z;
  NPU2_GENID_BAR_ENABLE : Z;
  NPU2_CQ_CTL_MISC_MMIOPA_ADDR : Z;
  NPU2_CQ_CTL_MISC_MMIOPA_SIZE : Z;
  OB_ODL_CONFIG_RESET : Z;
  OB_ODL_CONFIG_VERSION : Z;
  OB_ODL_CONFIG_TRAIN_MODE : Z;
  OB_ODL_CONFIG_SUPPORTED_MODES : Z;
  OB_ODL_CONFIG_X4_BACKOFF_ENABLE : Z;
  OB_ODL_CONFIG_PHY_CNTR_LIMIT : Z;
  OB_ODL_CONFIG_DEBUG_ENABLE : Z;
  OB_ODL_CONFIG_FWD_PROGRESS_TIMER : Z;
  OB_ODL_STATUS_TRAINING_STATE_MACHINE : Z;
  OPAL_MAP_PE : Z;
  OPAL_UNMAP_PE : Z;
  OpalPciBusAll : Z;
  OPAL_COMPARE_RID_DEVICE_NUMBER : Z;
  OPAL_COMPARE_RID_FUNCTION_NUMBER : Z;
  NPU2_OTL_OSL_DSISR : npu2_stack -> npu2_block -> Z;
  NPU2_OTL_OSL_DAR : npu2_stack -> npu2_block -> Z;
  NPU2_OTL_OSL_TFC : npu2_stack -> npu2_block -> Z;
  NPU2_OTL_OSL_PEHANDLE : npu2_stack -> npu2_block -> Z
}.

(** [struct platform_ocapi] of [include/platform.h]. *)
Record platform_ocapi : Type := {
  i2c_engine : Z;
  i2c_port : Z;
  i2c_offset : Z * Z * Z;
  i2c_odl0_data : Z * Z * Z;
  i2c_odl1_data : Z * Z * Z;
  odl_phy_swap : bool
}.

(** ** Hardware accesses, events and the world *)

(** What an access names. *)
Inductive location : Type :=
| Xscom (gcid : Z) (addr : xscom_reg)
| NpuScom (gcid scom_base : Z) (reg : npu2_reg)
| NpuMmio (gcid : Z) (reg : npu2_reg)
| Mmio (addr : Z) (size : Z).

Inductive log_level : Type := PR_ERR | PR_WARNING | PR_NOTICE | PR_INFO | PR_DEBUG.

Inductive phys_map_kind : Type := NPU_PHY | NPU_REGS | NPU_OCAPI_MMIO | NPU_GENID.

Inductive event : Type :=
| EvRead (l : location) (v : Z)
| EvWrite (l : location) (v : Z)
| EvSync
| EvWait (ticks : Z)
| EvI2c (port offset data rc : Z)
| EvLog (lvl : log_level) (msg : string) (args : list Z)
| EvLock (gcid : Z)
| EvUnlock (gcid : Z)
| EvBumpLane (index : Z)
| EvPhySetup (index : Z)
| EvPhyPrbs31 (index : Z)
| EvDtNewPhb (addr : Z)
| EvDtProp (name : string) (cells : list Z)
| EvDtStrings (name : string) (values : list string)
| EvSlotCreate
| EvRegisterPhb.

(** The hardware as the firmware sees it: what the [n]-th access returns
    and how long it takes.  A theorem quantified over [hardware] holds for
    every behaviour of the device. *)
Record hardware : Type := {
  hw_read : location -> nat -> Z;
  hw_i2c : nat -> Z;
  hw_lat : nat -> nat;
  (** [phys_map_get(chip, kind, index)]: address and size. *)
  hw_phys_map : Z -> phys_map_kind -> Z -> Z * Z;
  (** The [ibm,opal-id] of the first [ibm,power9-i2c-port] node named
      [p8_<chip>_e<engine>p<port>], if the device tree has one. *)
  hw_i2c_port : Z -> Z -> Z -> option Z;
  hw_ics_phandle : Z;
  (** Whether [pci_slot_alloc] finds memory. *)
  hw_slot_alloc : bool
}.

(** [steps] counts the accesses made, [tb] is the time base, [trace] holds
    the events, the latest first. *)
Record world : Type := {
  steps : nat;
  tb : Z;
  trace : list event
}.

(** How a call ends: it returns, it dies on [assert(false)], or the model
    ran out of fuel in a timed loop. *)
Inductive outcome (A : Type) : Type :=
| Done (a : A) (w : world)
| Fatal (w : world)
| Spin.
Arguments Done {A} a w.
Arguments Fatal {A} w.
Arguments Spin {A}.

Definition M (A : Type) : Type := world -> outcome A.

Definition ret {A} (a : A) : M A := fun w => Done a w.

Definition bind {A B} (c : M A) (k : A -> M B) : M B :=
  fun w =>
    match c w with
    | Done a w' => k a w'
    | Fatal w' => Fatal w'
    | Spin => Spin
    end.

Notation "x <- c ;; k" := (bind c (fun x => k))
  (at level 61, c at next level, right associativity).
Notation "c ;;; k" := (bind c (fun _ => k))
  (at level 61, right associativity).

(** [assert(false)] on [None]. *)
Definition assert_some {A} (o : option A) : M A :=
  fun w => match o with Some a => Done a w | None => Fatal w end.

Definition emit (e : event) : M unit :=
  fun w => Done tt {| steps := steps w; tb := tb w; trace := e :: trace w |}.

(** ** Time base

    Modelled from the spec: [timebase.h] is not among the sources.  The
    time base is a monotonic counter of 512 ticks per microsecond; a wait
    lasts at least the time asked for. *)

Definition tb_hz : Z := 512000000.
Definition msecs_to_tb (ms : Z) : Z := ms * (tb_hz / 1000).
Definition usecs_to_tb (us : Z) : Z := us * (tb_hz / 1000000).

Inductive tb_cmpval : Type := TB_ABEFOREB | TB_AEQUALB | TB_AAFTERB.

Definition tb_compare (a b : Z) : tb_cmpval :=
  if a =? b then TB_AEQUALB else if a <? b then TB_ABEFOREB else TB_AAFTERB.

Definition tb_cmpval_eqb (a b : tb_cmpval) : bool :=
  match a, b with
  | TB_ABEFOREB, TB_ABEFOREB | TB_AEQUALB, TB_AEQUALB | TB_AAFTERB, TB_AAFTERB => true
  | _, _ => false
  end.

Definition mftb : M Z := fun w => Done (tb w) w.

Section Primitives.
Variable H : hardware.

(** One access: the step counter moves on and the access takes its time. *)
Definition access (e : event) : M unit :=
  fun w => Done tt {| steps := S (steps w);
                      tb := tb w + Z.of_nat (hw_lat H (steps w));
                      trace := e :: trace w |}.

(** A read returns what the hardware shows at this step, as a 64-bit
    word. *)
Definition read_loc (l : location) : M Z :=
  fun w => let v := u64 (hw_read H l (steps w)) in
           bind (access (EvRead l v)) (fun _ => ret v) w.

Definition write_loc (l : location) (v : Z) : M unit := access (EvWrite l v).

Definition xscom_read (gcid : Z) (addr : xscom_reg) : M Z :=
  read_loc (Xscom gcid addr).
Definition xscom_write (gcid : Z) (addr : xscom_reg) (v : Z) : M unit :=
  write_loc (Xscom gcid addr) v.
Definition npu2_scom_read (gcid scom_base : Z) (reg : npu2_reg) : M Z :=
  read_loc (NpuScom gcid scom_base reg).
Definition npu2_scom_write (gcid scom_base : Z) (reg : npu2_reg) (v : Z) : M unit :=
  write_loc (NpuScom gcid scom_base reg) v.

(** [time_wait_ms], [time_wait_us]: the time base moves on by the time
    asked for, and by whatever more the wait took. *)
Definition time_wait (ticks : Z) : M unit :=
  fun w => Done tt {| steps := S (steps w);
                      tb := tb w + ticks + Z.of_nat (hw_lat H (steps w));
                      trace := EvWait ticks :: trace w |}.
Definition time_wait_ms (ms : Z) : M unit := time_wait (msecs_to_tb ms).
Definition time_wait_us (us : Z) : M unit := time_wait (usecs_to_tb us).

Definition prlog (lvl : log_level) (msg : string) (args : list Z) : M unit :=
  emit (EvLog lvl msg args).
End Primitives.

Fixpoint for_each {A} (l : list A) (f : A -> M unit) : M unit :=
  match l with
  | [] => ret tt
  | a :: l' => f a ;;; for_each l' f
  end.

(** [for (block = NPU2_BLOCK_SM_0; block <= NPU2_BLOCK_SM_3; block++)] *)
Definition sm_blocks : list npu2_block :=
  [NPU2_BLOCK_SM_0; NPU2_BLOCK_SM_1; NPU2_BLOCK_SM_2; NPU2_BLOCK_SM_3].

Inductive npu2_dev_type : Type :=
| NPU2_DEV_TYPE_UNKNOWN
| NPU2_DEV_TYPE_NVLINK
| NPU2_DEV_TYPE_OPENCAPI.

(** How the polling loop of [set_fence_control] ends: by the [return] in
    its body, or by its guard, with the last status seen. *)
Inductive fence_poll_end : Type :=
| FenceMatched
| FenceExpired (status_val : Z).

Definition CQ_CTL_STATUS_TIMEOUT : Z := 10.

(** ** The brick bring-up pipeline *)

Section BrickConfig.
Variable K : constants.
Variable P : platform_ocapi.
Variable H : hardware.

Definition disable_nvlink (gcid index : Z) : M unit :=
  phy <- assert_some (phy_config_scom index) ;;
  reg <- xscom_read H gcid phy ;;
  let reg := Z.land reg (not64 (OBUS_IOOL_PHY_CONFIG_NV0_NPU_ENABLED K)) in
  let reg := Z.land reg (not64 (OBUS_IOOL_PHY_CONFIG_NV1_NPU_ENABLED K)) in
  let reg := Z.land reg (not64 (OBUS_IOOL_PHY_CONFIG_NV2_NPU_ENABLED K)) in
  xscom_write H gcid phy reg.

Definition set_transport_mux_controls (gcid scom_base index : Z)
    (type : npu2_dev_type) : M unit :=
  assert_some (match type with NPU2_DEV_TYPE_OPENCAPI => Some tt | _ => None end) ;;;
  prlog PR_DEBUG "OCAPI: %s: Setting transport mux controls" [] ;;;
  reg <- npu2_scom_read H gcid scom_base NPU2_MISC_OPTICAL_IO_CFG0 ;;
  reg <- assert_some
    (match index with
     | 2 =>
         let field := GETFIELD (NPU2_MISC_OPTICAL_IO_CFG0_NDLMUX_BRK0TO2 K) reg in
         let field := Z.land field (not64 4) in
         let reg := SETFIELD (NPU2_MISC_OPTICAL_IO_CFG0_NDLMUX_BRK0TO2 K) reg field in
         let field := GETFIELD (NPU2_MISC_OPTICAL_IO_CFG0_OCMUX_BRK0TO1 K) reg in
         let field := Z.lor field 2 in
         Some (SETFIELD (NPU2_MISC_OPTICAL_IO_CFG0_OCMUX_BRK0TO1 K) reg field)
     | 3 =>
         let field := GETFIELD (NPU2_MISC_OPTICAL_IO_CFG0_NDLMUX_BRK0TO2 K) reg in
         let field := Z.land field (not64 2) in
         let reg := SETFIELD (NPU2_MISC_OPTICAL_IO_CFG0_NDLMUX_BRK0TO2 K) reg field in
         let field := GETFIELD (NPU2_MISC_OPTICAL_IO_CFG0_OCMUX_BRK0TO1 K) reg in
         let field := Z.lor field 1 in
         Some (SETFIELD (NPU2_MISC_OPTICAL_IO_CFG0_OCMUX_BRK0TO1 K) reg field)
     | 4 =>
         let field := GETFIELD (NPU2_MISC_OPTICAL_IO_CFG0_OCMUX_BRK4TO5 K) reg in
         let field := Z.lor field 2 in
         Some (SETFIELD (NPU2_MISC_OPTICAL_IO_CFG0_OCMUX_BRK4TO5 K) reg field)
     | 5 =>
         let field := GETFIELD (NPU2_MISC_OPTICAL_IO_CFG0_OCMUX_BRK4TO5 K) reg in
         let field := Z.lor field 1 in
         Some (SETFIELD (NPU2_MISC_OPTICAL_IO_CFG0_OCMUX_BRK4TO5 K) reg field)
     | _ => None
     end) ;;
  npu2_scom_write H gcid scom_base NPU2_MISC_OPTICAL_IO_CFG0 reg ;;;
  reg <- xscom_read H gcid PU_IOE_PB_MISC_CFG ;;
  let reg :=
    match index with
    | 4 => SETFIELD (PU_IOE_PB_MISC_CFG_SEL_04_NPU_NOT_PB K) reg 1
    | 5 => SETFIELD (PU_IOE_PB_MISC_CFG_SEL_05_NPU_NOT_PB K) reg 1
    | _ => reg
    end in
  xscom_write H gcid PU_IOE_PB_MISC_CFG reg.

Definition enable_odl_phy_mux (gcid index : Z) : M unit :=
  prlog PR_DEBUG "OCAPI: %s: Enabling ODL to PHY MUXes" [] ;;;
  phy <- assert_some (phy_config_scom index) ;;
  reg <- xscom_read H gcid phy ;;
  let reg :=
    match index with
    | 2 | 5 => Z.lor reg (OBUS_IOOL_PHY_CONFIG_ODL0_ENABLED K)
    | 3 | 4 => Z.lor reg (OBUS_IOOL_PHY_CONFIG_ODL1_ENABLED K)
    | _ => reg
    end in
  let reg :=
    if odl_phy_swap P
    then Z.lor reg (OBUS_IOOL_PHY_CONFIG_ODL_PHY_SWAP K)
    else Z.land reg (not64 (OBUS_IOOL_PHY_CONFIG_ODL_PHY_SWAP K)) in
  let reg := Z.land reg (not64 (OBUS_IOOL_PHY_CONFIG_LINK0_OLL_ENABLED K)) in
  let reg := Z.land reg (not64 (OBUS_IOOL_PHY_CONFIG_LINK1_OLL_ENABLED K)) in
  xscom_write H gcid phy reg.

Definition disable_alink_fp (gcid : Z) : M unit :=
  prlog PR_DEBUG "OCAPI: %s: Disabling A-Link framer/parsers" [] ;;;
  let reg := 0 in
  let reg := Z.lor reg (PU_IOE_PB_FP_CFG_FP0_FMR_DISABLE K) in
  let reg := Z.lor reg (PU_IOE_PB_FP_CFG_FP0_PRS_DISABLE K) in
  let reg := Z.lor reg (PU_IOE_PB_FP_CFG_FP1_FMR_DISABLE K) in
  let reg := Z.lor reg (PU_IOE_PB_FP_CFG_FP1_PRS_DISABLE K) in
  xscom_write H gcid PU_IOE_PB_FP01_CFG reg ;;;
  xscom_write H gcid PU_IOE_PB_FP23_CFG reg ;;;
  xscom_write H gcid PU_IOE_PB_FP45_CFG reg ;;;
  xscom_write H gcid PU_IOE_PB_FP67_CFG reg.

Definition enable_xsl_clocks (gcid scom_base index : Z) : M unit :=
  prlog PR_DEBUG "OCAPI: %s: Enable clocks in XSL" [] ;;;
  stack <- assert_some (index_to_stack index) ;;
  npu2_scom_write H gcid scom_base
    (NPU2_REG_OFFSET stack NPU2_BLOCK_XSL NPU2_XSL_WRAP_CFG)
    (NPU2_XSL_WRAP_CFG_XSLO_CLOCK_ENABLE K).

(** The register [set_fence_control] writes for a brick. *)
Definition fence_control_reg (stack : npu2_stack) (block : npu2_block) : npu2_reg :=
  NPU2_REG_OFFSET stack NPU2_BLOCK_CTL
    (if npu2_block_beq block NPU2_BLOCK_OTL0
     then NPU2_CQ_CTL_FENCE_CONTROL_0
     else NPU2_CQ_CTL_FENCE_CONTROL_1).

(** The [do ... while (tb_compare(mftb(), timeout) == TB_ABEFOREB)] loop
    of [set_fence_control]; [fuel] bounds the iterations of the model. *)
Fixpoint fence_poll (fuel : nat) (gcid scom_base index status status_field timeout : Z)
    : M fence_poll_end :=
  match fuel with
  | O => fun _ => Spin
  | S fuel' =>
      stack <- assert_some (index_to_stack index) ;;
      reg <- npu2_scom_read H gcid scom_base
               (NPU2_REG_OFFSET stack NPU2_BLOCK_CTL NPU2_CQ_CTL_STATUS) ;;
      let status_val := u8 (GETFIELD status_field reg) in
      if status_val =? status then ret FenceMatched
      else
        time_wait_ms H 1 ;;;
        now <- mftb ;;
        if tb_cmpval_eqb (tb_compare now timeout) TB_ABEFOREB
        then fence_poll fuel' gcid scom_base index status status_field timeout
        else ret (FenceExpired status_val)
  end.

Definition set_fence_control (fuel : nat) (gcid scom_base index status : Z)
    : M opal_rc :=
  now <- mftb ;;
  let timeout := now + msecs_to_tb CQ_CTL_STATUS_TIMEOUT in
  stack <- assert_some (index_to_stack index) ;;
  block <- assert_some (index_to_block index) ;;
  let fence_control := fence_control_reg stack block in
  let reg := SETFIELD (NPU2_CQ_CTL_FENCE_CONTROL_REQUEST_FENCE K) 0 status in
  npu2_scom_write H gcid scom_base fence_control reg ;;;
  block' <- assert_some (index_to_block index) ;;
  let status_field :=
    if npu2_block_beq block' NPU2_BLOCK_OTL0
    then NPU2_CQ_CTL_STATUS_BRK0_AM_FENCED K
    else NPU2_CQ_CTL_STATUS_BRK1_AM_FENCED K in
  r <- fence_poll fuel gcid scom_base index status status_field timeout ;;
  match r with
  | FenceMatched => ret OPAL_SUCCESS
  | FenceExpired status_val =>
      prlog PR_ERR
        "OCAPI: Fence status for brick %d stuck: expected 0x%x, got 0x%x"
        [index; status; status_val] ;;;
      ret OPAL_HARDWARE
  end.

Definition set_npcq_config (fuel : nat) (gcid scom_base index : Z) : M unit :=
  prlog PR_DEBUG "OCAPI: %s: Set NPCQ Config" [] ;;;
  stack <- assert_some (index_to_stack index) ;;
  block <- assert_some (index_to_block index) ;;
  npu2_scom_write H gcid scom_base (NPU2_OTL_CONFIG0 stack block)
    (NPU2_OTL_CONFIG0_EN K) ;;;
  set_fence_control fuel gcid scom_base index 1 ;;;
  reg <- npu2_scom_read H gcid scom_base
           (NPU2_REG_OFFSET stack NPU2_BLOCK_CTL NPU2_CQ_CTL_MISC_CFG) ;;
  let reg := Z.lor reg (NPU2_CQ_CTL_MISC_CFG_CONFIG_OCAPI_MODE K) in
  let reg :=
    if npu2_block_beq block NPU2_BLOCK_OTL0
    then Z.lor reg (NPU2_CQ_CTL_MISC_CFG_CONFIG_OTL0_ENABLE K)
    else Z.lor reg (NPU2_CQ_CTL_MISC_CFG_CONFIG_OTL1_ENABLE K) in
  npu2_scom_write H gcid scom_base
    (NPU2_REG_OFFSET stack NPU2_BLOCK_CTL NPU2_CQ_CTL_MISC_CFG) reg ;;;
  set_fence_control fuel gcid scom_base index 3 ;;;
  set_fence_control fuel gcid scom_base index 2 ;;;
  reg <- npu2_scom_read H gcid scom_base
           (NPU2_REG_OFFSET stack NPU2_BLOCK_DAT NPU2_CQ_DAT_MISC_CFG) ;;
  let reg := Z.lor reg (NPU2_CQ_DAT_MISC_CFG_CONFIG_OCAPI_MODE K) in
  npu2_scom_write H gcid scom_base
    (NPU2_REG_OFFSET stack NPU2_BLOCK_DAT NPU2_CQ_DAT_MISC_CFG) reg ;;;
  for_each sm_blocks (fun block =>
    reg <- npu2_scom_read H gcid scom_base
             (NPU2_REG_OFFSET stack block NPU2_CQ_SM_MISC_CFG0) ;;
    let reg := Z.lor reg (NPU2_CQ_SM_MISC_CFG0_CONFIG_OCAPI_MODE K) in
    npu2_scom_write H gcid scom_base
      (NPU2_REG_OFFSET stack block NPU2_CQ_SM_MISC_CFG0) reg).

Definition enable_xsl_xts_interfaces (gcid scom_base index : Z) : M unit :=
  prlog PR_DEBUG "OCAPI: %s: Enable XSL-XTS Interfaces" [] ;;;
  reg <- npu2_scom_read H gcid scom_base NPU2_XTS_CFG ;;
  let reg := Z.lor reg (NPU2_XTS_CFG_OPENCAPI K) in
  npu2_scom_write H gcid scom_base NPU2_XTS_CFG reg ;;;
  reg <- npu2_scom_read H gcid scom_base NPU2_XTS_CFG2 ;;
  stack <- assert_some (index_to_stack index) ;;
  let reg :=
    match stack with
    | NPU2_STACK_STCK_1 => Z.lor reg (NPU2_XTS_CFG2_XSL1_ENA K)
    | NPU2_STACK_STCK_2 => Z.lor reg (NPU2_XTS_CFG2_XSL2_ENA K)
    | _ => reg
    end in
  npu2_scom_write H gcid scom_base NPU2_XTS_CFG2 reg.

Definition enable_sm_allocation (gcid scom_base index : Z) : M unit :=
  stack <- assert_some (index_to_stack index) ;;
  prlog PR_DEBUG "OCAPI: %s: Enable State Machine Allocation" [] ;;;
  for_each sm_blocks (fun block =>
    reg <- npu2_scom_read H gcid scom_base
             (NPU2_REG_OFFSET stack block NPU2_LOW_WATER_MARKS) ;;
    let reg := Z.lor reg (NPU2_LOW_WATER_MARKS_ENABLE_MACHINE_ALLOC K) in
    npu2_scom_write H gcid scom_base
      (NPU2_REG_OFFSET stack block NPU2_LOW_WATER_MARKS) reg).

Definition enable_pb_snooping (gcid scom_base index : Z) : M unit :=
  stack <- assert_some (index_to_stack index) ;;
  prlog PR_DEBUG "OCAPI: %s: Enable PowerBus snooping" [] ;;;
  for_each sm_blocks (fun block =>
    reg <- npu2_scom_read H gcid scom_base
             (NPU2_REG_OFFSET stack block NPU2_CQ_SM_MISC_CFG0) ;;
    let reg := Z.lor reg (NPU2_CQ_SM_MISC_CFG0_CONFIG_ENABLE_PBUS K) in
    npu2_scom_write H gcid scom_base
      (NPU2_REG_OFFSET stack block NPU2_CQ_SM_MISC_CFG0) reg).

Definition brick_config (fuel : nat) (gcid scom_base index : Z) : M unit :=
  disable_nvlink gcid index ;;;
  set_transport_mux_controls gcid scom_base index NPU2_DEV_TYPE_OPENCAPI ;;;
  enable_odl_phy_mux gcid index ;;;
  disable_alink_fp gcid ;;;
  enable_xsl_clocks gcid scom_base index ;;;
  set_npcq_config fuel gcid scom_base index ;;;
  enable_xsl_xts_interfaces gcid scom_base index ;;;
  enable_sm_allocation gcid scom_base index ;;;
  enable_pb_snooping gcid scom_base index.
End BrickConfig.

(** ** The NPU and its devices ([npu2.h]) *)

Record npu2 : Type := {
  (** [dt_node]: the two properties of the NPU's node that are read. *)
  npu_index : Z;
  npu_phandle : Z;
  chip_id : Z;
  xscom_base : Z;
  regs : Z;
  mm_base : Z;
  mm_size : Z;
  irq_base : Z;
  total_devices : Z;
  bdf2pe_cache : list Z
}.

(** [struct npu2_dev], with the fields the OpenCAPI code uses;
    [bar0_base], [bar0_size], [bar1_base], [bar1_size] are
    [bars[0].npu2_bar] and [bars[1].npu2_bar]. *)
Record npu2_dev : Type := {
  dev_type : npu2_dev_type;
  index : Z;
  bdfn : Z;
  pl_xscom_base : Z;
  lane_mask : Z;
  link_speed : Z;
  i2c_port_id_ocapi : Z;
  bar0_base : Z;
  bar0_size : Z;
  bar1_base : Z;
  bar1_size : Z;
  npu : npu2
}.

(** [dev->bdfn], for the functions that have an argument called [bdfn]. *)
Definition dev_bdfn (dev : npu2_dev) : Z := bdfn dev.

Definition set_dev_bar0 (dev : npu2_dev) (base size : Z) : npu2_dev :=
  {| dev_type := dev_type dev; index := index dev; bdfn := bdfn dev;
     pl_xscom_base := pl_xscom_base dev; lane_mask := lane_mask dev;
     link_speed := link_speed dev; i2c_port_id_ocapi := i2c_port_id_ocapi dev;
     bar0_base := base; bar0_size := size;
     bar1_base := bar1_base dev; bar1_size := bar1_size dev; npu := npu dev |}.

Definition set_dev_bar1 (dev : npu2_dev) (base size : Z) : npu2_dev :=
  {| dev_type := dev_type dev; index := index dev; bdfn := bdfn dev;
     pl_xscom_base := pl_xscom_base dev; lane_mask := lane_mask dev;
     link_speed := link_speed dev; i2c_port_id_ocapi := i2c_port_id_ocapi dev;
     bar0_base := bar0_base dev; bar0_size := bar0_size dev;
     bar1_base := base; bar1_size := size; npu := npu dev |}.

(** [array[i] = v] on an array held as a list; the sources index the
    per-brick cache by a brick index below its length. *)
Fixpoint array_set (l : list Z) (i : nat) (v : Z) : list Z :=
  match l, i with
  | [], _ => []
  | _ :: l', O => v :: l'
  | x :: l', S i' => x :: array_set l' i' v
  end.

Definition set_bdf2pe_cache (p : npu2) (i : Z) (v : Z) : npu2 :=
  {| npu_index := npu_index p; npu_phandle := npu_phandle p;
     chip_id := chip_id p; xscom_base := xscom_base p; regs := regs p;
     mm_base := mm_base p; mm_size := mm_size p; irq_base := irq_base p;
     total_devices := total_devices p;
     bdf2pe_cache := array_set (bdf2pe_cache p) (Z.to_nat i) v |}.

(** ** ODL training *)

Inductive odl_poll_end : Type :=
| OdlTrained
| OdlTimedOut (reg : Z).

Definition LINK_TRAINING_RETRIES : nat := 5.

Definition log_training_odl : string := "OCAPI: %s: Training ODL".
Definition log_trained : string := "OCAPI: Link %d on chip %u trained in %dms".

Section OdlTraining.
Variable K : constants.
Variable P : platform_ocapi.
Variable H : hardware.

Definition get_odl_status (gcid index : Z) : M Z :=
  status_xscom <- assert_some (odl_status_xscom index) ;;
  xscom_read H gcid status_xscom.

(** [i2c_request_send(port, 0x20, SMBUS_WRITE, offset, 1, &data, 1, 120)]:
    the request is an event, its return code is the hardware's. *)
Definition i2c_request_send (port offset data : Z) : M Z :=
  fun w => let rc := hw_i2c H (steps w) in
           bind (access H (EvI2c port offset data rc)) (fun _ => ret rc) w.

(** The [for (i = 0; i < 3; i++)] loop of [reset_ocapi_device], over
    the entries [(i, i2c_offset[i], data[i])] still to send. *)
Fixpoint reset_ocapi_loop (port : Z) (todo : list (Z * Z * Z)) : M unit :=
  match todo with
  | [] => ret tt
  | (i, offset, data) :: todo' =>
      rc <- i2c_request_send port offset data ;;
      if negb (rc =? 0)
      then prlog PR_ERR "OCAPI: Error writing I2C reset signal: %d" [rc]
      else
        (if negb (i =? 0) then time_wait_ms H 5 else ret tt) ;;;
        reset_ocapi_loop port todo'
  end.

Definition reset_ocapi_device (dev : npu2_dev) : M unit :=
  data <- assert_some
    (match index dev with
     | 2 | 4 => Some (i2c_odl0_data P)
     | 3 | 5 => Some (i2c_odl1_data P)
     | _ => None
     end) ;;
  let '(d0, d1, d2) := data in
  let '(o0, o1, o2) := i2c_offset P in
  reset_ocapi_loop (i2c_port_id_ocapi dev) [(0, o0, d0); (1, o1, d1); (2, o2, d2)].

(** [npu2_opencapi_bump_ui_lane] lives in [npu2-hw-procedures.c], which is
    not among the sources: the call is one event. *)
Definition npu2_opencapi_bump_ui_lane (dev : npu2_dev) : M unit :=
  access H (EvBumpLane (index dev)).

(** The [do ... while (timeout--)] loop of [odl_train]; [timeout] is the
    value of the variable when the body starts. *)
Fixpoint odl_poll (timeout : nat) (gcid index : Z) : M odl_poll_end :=
  reg <- get_odl_status gcid index ;;
  if GETFIELD (OB_ODL_STATUS_TRAINING_STATE_MACHINE K) reg =? 7 then
    prlog PR_NOTICE log_trained [index; gcid; 3000 - Z.of_nat timeout] ;;;
    ret OdlTrained
  else
    time_wait_ms H 1 ;;;
    match timeout with
    | O => ret (OdlTimedOut reg)
    | S timeout' => odl_poll timeout' gcid index
    end.

Definition odl_train (gcid index : Z) (dev : npu2_dev) : M opal_rc :=
  prlog PR_DEBUG log_training_odl [] ;;;
  config_xscom <- assert_some (odl_config_xscom index) ;;
  let reg := OB_ODL_CONFIG_RESET K in
  let reg := SETFIELD (OB_ODL_CONFIG_VERSION K) reg 1 in
  let reg := SETFIELD (OB_ODL_CONFIG_TRAIN_MODE K) reg 6 in
  let reg := SETFIELD (OB_ODL_CONFIG_SUPPORTED_MODES K) reg 2 in
  let reg := Z.lor reg (OB_ODL_CONFIG_X4_BACKOFF_ENABLE K) in
  let reg := SETFIELD (OB_ODL_CONFIG_PHY_CNTR_LIMIT K) reg 15 in
  let reg := Z.lor reg (OB_ODL_CONFIG_DEBUG_ENABLE K) in
  let reg := SETFIELD (OB_ODL_CONFIG_FWD_PROGRESS_TIMER K) reg 6 in
  xscom_write H gcid config_xscom reg ;;;
  let reg := Z.land reg (not64 (OB_ODL_CONFIG_RESET K)) in
  xscom_write H gcid config_xscom reg ;;;
  reset_ocapi_device dev ;;;
  let reg := SETFIELD (OB_ODL_CONFIG_TRAIN_MODE K) reg 1 in
  xscom_write H gcid config_xscom reg ;;;
  time_wait_ms H 5 ;;;
  npu2_opencapi_bump_ui_lane dev ;;;
  let reg := SETFIELD (OB_ODL_CONFIG_TRAIN_MODE K) reg 8 in
  xscom_write H gcid config_xscom reg ;;;
  r <- odl_poll 3000 gcid index ;;
  match r with
  | OdlTrained => ret OPAL_SUCCESS
  | OdlTimedOut reg =>
      prlog PR_INFO "OCAPI: Link %d on chip %u failed to train, retrying"
        [index; gcid] ;;;
      prlog PR_INFO "OCAPI: Link status: %016llx" [reg] ;;;
      ret OPAL_HARDWARE
  end.

Definition otl_enabletx (gcid scom_base index : Z) : M unit :=
  stack <- assert_some (index_to_stack index) ;;
  block <- assert_some (index_to_block index) ;;
  prlog PR_DEBUG "OCAPI: %s: Enabling TX" [] ;;;
  let reg := 0 in
  let reg := Z.lor reg (NPU2_OTL_CONFIG2_TX_SEND_EN K) in
  npu2_scom_write H gcid scom_base (NPU2_OTL_CONFIG2 stack block) reg ;;;
  reg <- npu2_scom_read H gcid scom_base (NPU2_OTL_VC_CREDITS stack block) ;;
  prlog PR_DEBUG "OCAPI: credit counter: %llx" [reg].
End OdlTraining.

(** ** The per-brick orchestrator *)

Inductive npu2_link_training_state : Type :=
| NPU2_TRAIN_DEFAULT
| NPU2_TRAIN_PRBS31
| NPU2_TRAIN_NONE.

(** The properties of an [ibm,npu-link-opencapi] node that are read. *)
Record dt_link : Type := {
  ibm_npu_link_index : Z;
  ibm_npu_phy : Z;
  ibm_npu_lane_mask : Z;
  ibm_link_speed : Z
}.

Definition hi32 (x : Z) : Z := Z.shiftr x 32.
Definition lo32 (x : Z) : Z := Z.land x 4294967295.

(** [ilog2] of [skiboot.h], on a positive argument. *)
Definition ilog2 (x : Z) : Z := Z.log2 x.

(** The outcome of the retry loop of [npu2_opencapi_setup_device]: the last
    [rc] and the value [retries] is left with. *)
Definition training_end : Type := (opal_rc * nat)%type.

Section SetupDevice.
Variable K : constants.
Variable P : platform_ocapi.
Variable H : hardware.

(** [write_bar(gcid, scom_base, NPU2_REG_OFFSET(stack, 0, reg), addr, size)]:
    [NPU2_REG(reg)] is [reg], and [NPU2_REG_OFFSET(0, block, ...)] puts
    [block] into the block field left 0 by the caller. *)
Definition write_bar (gcid scom_base : Z) (stack : npu2_stack) (reg : npu2_offset)
    (addr size : Z) : M unit :=
  let val :=
    match reg with
    | NPU2_PHY_BAR =>
        let val := SETFIELD (NPU2_PHY_BAR_ADDR K) 0 (Z.shiftr addr 21) in
        SETFIELD (NPU2_PHY_BAR_ENABLE K) val 1
    | NPU2_NTL0_BAR | NPU2_NTL1_BAR =>
        let val := SETFIELD (NPU2_NTL_BAR_ADDR K) 0 (Z.shiftr addr 16) in
        let val := SETFIELD (NPU2_NTL_BAR_SIZE K) val (ilog2 (Z.shiftr size 16)) in
        SETFIELD (NPU2_NTL_BAR_ENABLE K) val 1
    | NPU2_GENID_BAR =>
        let val := SETFIELD (NPU2_GENID_BAR_ADDR K) 0 (Z.shiftr addr 16) in
        SETFIELD (NPU2_GENID_BAR_ENABLE K) val 1
    | _ => 0
    end in
  for_each sm_blocks (fun block =>
    npu2_scom_write H gcid scom_base (NPU2_REG_OFFSET stack block reg) val ;;;
    prlog PR_DEBUG "OCAPI: Setting BAR %llx to %llx" [val]).

Definition setup_afu_mmio_bars (gcid scom_base : Z) (dev : npu2_dev) : M npu2_dev :=
  stack <- assert_some (index_to_stack (index dev)) ;;
  block <- assert_some (index_to_block (index dev)) ;;
  let offset := if npu2_block_beq block NPU2_BLOCK_OTL0
                then NPU2_NTL0_BAR else NPU2_NTL1_BAR in
  block' <- assert_some (index_to_block (index dev)) ;;
  let pa_offset := if npu2_block_beq block' NPU2_BLOCK_OTL0
                   then NPU2_CQ_CTL_MISC_MMIOPA0_CONFIG
                   else NPU2_CQ_CTL_MISC_MMIOPA1_CONFIG in
  prlog PR_DEBUG "OCAPI: %s: Setup AFU MMIO BARs" [] ;;;
  let '(addr, size) := hw_phys_map H gcid NPU_OCAPI_MMIO (index dev) in
  prlog PR_DEBUG "OCAPI: AFU MMIO set to %llx, size %llx" [addr; size] ;;;
  write_bar gcid scom_base stack offset addr size ;;;
  let dev := set_dev_bar0 dev addr size in
  let reg := SETFIELD (NPU2_CQ_CTL_MISC_MMIOPA_ADDR K) 0 (Z.shiftr addr 16) in
  let reg := SETFIELD (NPU2_CQ_CTL_MISC_MMIOPA_SIZE K) reg (ilog2 (Z.shiftr size 16)) in
  prlog PR_DEBUG "OCAPI: PA translation %llx" [reg] ;;;
  npu2_scom_write H gcid scom_base
    (NPU2_REG_OFFSET stack NPU2_BLOCK_CTL pa_offset) reg ;;;
  ret dev.

(** [stack - NPU2_STACK_STCK_0]: the number of the stack. *)
Definition stack_num (stack : npu2_stack) : Z :=
  match stack with
  | NPU2_STACK_STCK_1 => 1
  | NPU2_STACK_STCK_2 => 2
  | _ => 0
  end.

Definition setup_afu_config_bars (gcid scom_base : Z) (dev : npu2_dev) : M npu2_dev :=
  stack <- assert_some (index_to_stack (index dev)) ;;
  prlog PR_DEBUG "OCAPI: %s: Setup AFU Config BARs" [] ;;;
  let '(addr, size) := hw_phys_map H gcid NPU_GENID (stack_num stack) in
  prlog PR_DEBUG "OCAPI: Assigning GENID BAR: %016llx" [addr] ;;;
  write_bar gcid scom_base stack NPU2_GENID_BAR addr size ;;;
  ret (set_dev_bar1 dev addr size).

(** [npu2_opencapi_slot_create]: the slot comes from [pci_slot_alloc],
    which may find no memory. *)
Definition npu2_opencapi_slot_create : M bool :=
  emit EvSlotCreate ;;; ret (hw_slot_alloc H).

(** The [do { rc = odl_train(...); } while (rc != OPAL_SUCCESS && --retries)]
    loop; [left] is [retries - 1] when the body starts. *)
Fixpoint training_loop (left : nat) (gcid : Z) (dev : npu2_dev) : M training_end :=
  rc <- odl_train K P H gcid (index dev) dev ;;
  if opal_rc_eqb rc OPAL_SUCCESS then ret (rc, S left)
  else
    match left with
    | O => ret (rc, O)
    | S left' => training_loop left' gcid dev
    end.

Definition npu2_opencapi_setup_device
    (npu2_ocapi_training_state : npu2_link_training_state) (fuel : nat)
    (dn_link : dt_link) (n : npu2) (dev : npu2_dev) : M (npu2 * npu2_dev) :=
  let dev_index := ibm_npu_link_index dn_link in
  let '(mm_win0, mm_win1) := hw_phys_map H (chip_id n) NPU_OCAPI_MMIO dev_index in
  prlog PR_DEBUG "OCAPI: Setting MMIO window to %016llx + %016llx"
    [mm_win0; mm_win1] ;;;
  emit (EvDtNewPhb mm_win0) ;;;
  emit (EvDtStrings "compatible"
          ["ibm,power9-npu-opencapi-pciex"; "ibm,ioda2-npu2-opencapi-phb"]%string) ;;;
  emit (EvDtProp "#address-cells" [3]) ;;;
  emit (EvDtProp "#size-cells" [2]) ;;;
  emit (EvDtProp "#interrupt-cells" [1]) ;;;
  emit (EvDtProp "bus-range" [0; 255]) ;;;
  emit (EvDtProp "clock-frequency" [512; 0]) ;;;
  emit (EvDtProp "interrupt-parent" [hw_ics_phandle H]) ;;;
  emit (EvDtStrings "device_type" ["pciex"%string]) ;;;
  emit (EvDtProp "reg" [mm_win0; mm_win1]) ;;;
  emit (EvDtProp "ibm,npu-index" [npu_index n]) ;;;
  emit (EvDtProp "ibm,chip-id" [chip_id n]) ;;;
  emit (EvDtProp "ibm,xscom-base" [xscom_base n]) ;;;
  emit (EvDtProp "ibm,npcq" [npu_phandle n]) ;;;
  emit (EvDtProp "ibm,links" [1]) ;;;
  emit (EvDtProp "ibm,mmio-window" [mm_win0; mm_win1]) ;;;
  emit (EvDtProp "ibm,phb-diag-data-size" [0]) ;;;
  emit (EvDtProp "ibm,opal-num-pes" [NPU2_MAX_PE_NUM K]) ;;;
  let n := {| npu_index := npu_index n; npu_phandle := npu_phandle n;
              chip_id := chip_id n; xscom_base := xscom_base n; regs := regs n;
              mm_base := mm_win0; mm_size := mm_win1; irq_base := irq_base n;
              total_devices := total_devices n + 1;
              bdf2pe_cache := bdf2pe_cache n |} in
  emit (EvDtProp "ranges" [33554432;
                           hi32 (mm_base n); lo32 (mm_base n);
                           hi32 (mm_base n); lo32 (mm_base n);
                           hi32 (mm_size n); lo32 (mm_size n)]) ;;;
  let port_id :=
    match hw_i2c_port H (chip_id n) (i2c_engine P) (i2c_port P) with
    | Some id => id
    | None => i2c_port_id_ocapi dev
    end in
  let dev := {| dev_type := NPU2_DEV_TYPE_OPENCAPI;
                index := ibm_npu_link_index dn_link;
                bdfn := 0;
                pl_xscom_base := ibm_npu_phy dn_link;
                lane_mask := ibm_npu_lane_mask dn_link;
                link_speed := ibm_link_speed dn_link;
                i2c_port_id_ocapi := port_id;
                bar0_base := bar0_base dev; bar0_size := bar0_size dev;
                bar1_base := bar1_base dev; bar1_size := bar1_size dev;
                npu := n |} in
  prlog PR_DEBUG "OCAPI: Looking for I2C port %s" [] ;;;
  let failed (dev : npu2_dev) : M (npu2 * npu2_dev) :=
    emit (EvDtStrings "status" ["error"%string]) ;;; ret (n, dev) in
  if i2c_port_id_ocapi dev =? 0 then
    prlog PR_ERR "OCAPI: Couldn't find I2C port %s" [] ;;;
    failed dev
  else
    dev <- setup_afu_mmio_bars (chip_id n) (xscom_base n) dev ;;
    dev <- setup_afu_config_bars (chip_id n) (xscom_base n) dev ;;
    set_fence_control K H fuel (chip_id n) (xscom_base n) (index dev) 0 ;;;
    access H (EvPhySetup (index dev)) ;;;
    match npu2_ocapi_training_state with
    | NPU2_TRAIN_PRBS31 =>
        prlog PR_INFO "OCAPI: Link %d sending PRBS31 pattern per NVRAM setting"
          [index dev] ;;;
        access H (EvPhyPrbs31 (index dev)) ;;;
        emit EvRegisterPhb ;;; ret (n, dev)
    | NPU2_TRAIN_DEFAULT =>
        r <- training_loop (pred LINK_TRAINING_RETRIES) (chip_id n) dev ;;
        let '(rc, retries) := r in
        if negb (opal_rc_eqb rc OPAL_SUCCESS) && Nat.eqb retries 0 then
          prlog PR_ERR "OCAPI: Link %d on chip %u failed to train"
            [index dev; chip_id n] ;;;
          status <- get_odl_status H (chip_id n) (index dev) ;;
          prlog PR_ERR "OCAPI: Final link status: %016llx" [status] ;;;
          failed dev
        else
          otl_enabletx K H (chip_id n) (xscom_base n) (index dev) ;;;
          slot <- npu2_opencapi_slot_create ;;
          (if slot then ret tt
           else prlog PR_ERR "OCAPI: Cannot create PHB slot" []) ;;;
          emit EvRegisterPhb ;;; ret (n, dev)
    | NPU2_TRAIN_NONE =>
        prlog PR_INFO "OCAPI: Link %d not trained per NVRAM setting"
          [index dev] ;;;
        emit EvRegisterPhb ;;; ret (n, dev)
    end.
End SetupDevice.

(** ** PHBs ([pci.h], [npu2.h]) *)

Inductive phb_type_t : Type :=
| phb_type_pcie_v4
| phb_type_npu_v2
| phb_type_npu_v2_opencapi.

(** A PHB and the device [phb_to_npu2_dev_ocapi] finds for it ([None] is
    the [NULL] the callers test for). *)
Record phb : Type := {
  phb_type : phb_type_t;
  phb_to_npu2_dev_ocapi : option npu2_dev
}.

Definition is_opencapi_phb (p : option phb) : bool :=
  match p with
  | Some p => match phb_type p with phb_type_npu_v2_opencapi => true | _ => false end
  | None => false
  end.

Definition NPU_IRQ_LEVELS : Z := 35.
Definition NPU_IRQ_LEVELS_XSL : Z := 23.
Definition MAX_PE_HANDLE : Z := Z.shiftl 1 15 - 1.
Definition TL_MAX_TEMPLATE : Z := 63.
Definition TL_RATE_BUF_SIZE : Z := 32.

(** ** The OS-visible control surface *)

Section ControlSurface.
Variable K : constants.
Variable H : hardware.

(** [pci_get_phb]: the PHBs registered, by id. *)
Variable pci_get_phb : Z -> option phb.
(** [opal_addr_valid]. *)
Variable opal_addr_valid : Z -> bool.
(** Host memory, a byte per address. *)
Variable mem : Z -> Z.
(** Whether plain [char] is signed for the compiler. *)
Variable char_is_signed : bool.

Definition lock_npu (p : npu2) : M unit := emit (EvLock (chip_id p)).
Definition unlock_npu (p : npu2) : M unit := emit (EvUnlock (chip_id p)).

Definition opal_npu_spa_setup (phb_id bdfn addr PE_mask : Z) : M opal_rc :=
  let phb := pci_get_phb phb_id in
  if negb (is_opencapi_phb phb) then ret OPAL_PARAMETER
  else if negb (Z.land addr 4095 =? 0) then ret OPAL_PARAMETER
  else if PE_mask >? 15 then ret OPAL_PARAMETER
  else
    match option_map phb_to_npu2_dev_ocapi phb with
    | Some (Some dev) =>
        block <- assert_some (index_to_block (index dev)) ;;
        stack <- assert_some (index_to_stack (index dev)) ;;
        let offset := if npu2_block_beq block NPU2_BLOCK_OTL1
                      then NPU2_XSL_PSL_SPAP_A1 else NPU2_XSL_PSL_SPAP_A0 in
        lock_npu (npu dev) ;;;
        reg <- npu2_scom_read H (chip_id (npu dev)) (xscom_base (npu dev))
                 (NPU2_REG_OFFSET stack NPU2_BLOCK_XSL offset) ;;
        if (negb (addr =? 0) && negb (Z.land reg (NPU2_XSL_PSL_SPAP_EN K) =? 0))
           || ((addr =? 0) && (Z.land reg (NPU2_XSL_PSL_SPAP_EN K) =? 0))
        then
          unlock_npu (npu dev) ;;; ret OPAL_BUSY
        else
          let reg := addr in
          let reg := if negb (addr =? 0)
                     then Z.lor addr (NPU2_XSL_PSL_SPAP_EN K) else reg in
          npu2_scom_write H (chip_id (npu dev)) (xscom_base (npu dev))
            (NPU2_REG_OFFSET stack NPU2_BLOCK_XSL offset) reg ;;;
          reg <- npu2_scom_read H (chip_id (npu dev)) (xscom_base (npu dev))
                   (NPU2_OTL_CONFIG0 stack block) ;;
          let reg := Z.land reg (not64 (NPU2_OTL_CONFIG0_PE_MASK K)) in
          let reg := Z.lor reg (u64 (Z.shiftl PE_mask (63 - 7))) in
          npu2_scom_write H (chip_id (npu dev)) (xscom_base (npu dev))
            (NPU2_OTL_CONFIG0 stack block) reg ;;;
          unlock_npu (npu dev) ;;; ret OPAL_SUCCESS
    | _ => ret OPAL_PARAMETER
    end.

(** The [while (retries--)] loop of [opal_npu_spa_clear_cache]; [rc] is
    [OPAL_HARDWARE] when it starts. *)
Fixpoint clear_cache_poll (retries : nat) (gcid scom_base : Z) (cc_inv : npu2_reg)
    : M opal_rc :=
  match retries with
  | O => ret OPAL_HARDWARE
  | S retries' =>
      reg <- npu2_scom_read H gcid scom_base cc_inv ;;
      if Z.land reg (PPC_BIT 16) =? 0 then ret OPAL_SUCCESS
      else
        time_wait_us H 200 ;;;
        clear_cache_poll retries' gcid scom_base cc_inv
  end.

Definition opal_npu_spa_clear_cache (phb_id bdfn PE_handle : Z) : M opal_rc :=
  let retries := 5%nat in
  let phb := pci_get_phb phb_id in
  if negb (is_opencapi_phb phb) then ret OPAL_PARAMETER
  else if PE_handle >? MAX_PE_HANDLE then ret OPAL_PARAMETER
  else
    match option_map phb_to_npu2_dev_ocapi phb with
    | Some (Some dev) =>
        block <- assert_some (index_to_block (index dev)) ;;
        stack <- assert_some (index_to_stack (index dev)) ;;
        let cc_inv := NPU2_REG_OFFSET stack NPU2_BLOCK_XSL NPU2_XSL_PSL_LLCMD_A0 in
        lock_npu (npu dev) ;;;
        reg <- npu2_scom_read H (chip_id (npu dev)) (xscom_base (npu dev)) cc_inv ;;
        if negb (Z.land reg (PPC_BIT 16) =? 0) then
          unlock_npu (npu dev) ;;; ret OPAL_BUSY
        else
          let reg := Z.lor PE_handle (PPC_BIT 15) in
          let reg := if npu2_block_beq block NPU2_BLOCK_OTL1
                     then Z.lor reg (PPC_BIT 48) else reg in
          npu2_scom_write H (chip_id (npu dev)) (xscom_base (npu dev)) cc_inv reg ;;;
          rc <- clear_cache_poll retries (chip_id (npu dev)) (xscom_base (npu dev))
                  cc_inv ;;
          unlock_npu (npu dev) ;;; ret rc
    | _ => ret OPAL_PARAMETER
    end.

(** [rate_buf[idx]] as the [int] a [char] promotes to. *)
Definition char_at (rate_buf idx : Z) : Z :=
  let b := u8 (mem (rate_buf + idx)) in
  if char_is_signed && (128 <=? b) then b - 256 else b.

Definition get_template_rate (templ rate_buf : Z) : Z :=
  let idx := (TL_MAX_TEMPLATE - templ) / 2 in
  let shift := 4 * (1 - ((TL_MAX_TEMPLATE - templ) mod 2)) in
  let val := Z.shiftr (char_at rate_buf idx) shift in
  val.

Definition is_template_supported (templ capabilities : Z) : bool :=
  negb (Z.land (u64 capabilities) (Z.shiftl 1 templ) =? 0).

(** One turn of the [for (i = 0; i < 4; i++)] loop of [opal_npu_tl_set]. *)
Definition tl_set_template (capabilities rate : Z) (reg i : Z) : Z :=
  let reg := if negb (i =? 0) && is_template_supported i capabilities
             then Z.lor reg (PPC_BIT i) else reg in
  let templ_rate := u64 (get_template_rate i rate) in
  let rate_pos := 8 + i * 4 in
  SETFIELD (PPC_BITMASK rate_pos (rate_pos + 3)) reg templ_rate.

Definition opal_npu_tl_set (phb_id bdfn capabilities rate_phys rate_sz : Z)
    : M opal_rc :=
  let phb := pci_get_phb phb_id in
  let rate := rate_phys in
  if negb (is_opencapi_phb phb) then ret OPAL_PARAMETER
  else if negb (opal_addr_valid rate) || negb (rate_sz =? TL_RATE_BUF_SIZE)
  then ret OPAL_PARAMETER
  else
    match option_map phb_to_npu2_dev_ocapi phb with
    | Some (Some dev) =>
        block <- assert_some (index_to_block (index dev)) ;;
        stack <- assert_some (index_to_stack (index dev)) ;;
        if negb (is_template_supported 0 capabilities) then ret OPAL_PARAMETER
        else
          reg <- npu2_scom_read H (chip_id (npu dev)) (xscom_base (npu dev))
                   (NPU2_OTL_CONFIG1 stack block) ;;
          let reg := Z.land reg
                       (not64 (Z.lor (Z.lor (NPU2_OTL_CONFIG1_TX_TEMP1_EN K)
                                            (NPU2_OTL_CONFIG1_TX_TEMP3_EN K))
                                     (NPU2_OTL_CONFIG1_TX_TEMP1_EN K))) in
          let reg := fold_left (tl_set_template capabilities rate) [0; 1; 2; 3] reg in
          npu2_scom_write H (chip_id (npu dev)) (xscom_base (npu dev))
            (NPU2_OTL_CONFIG1 stack block) reg ;;;
          prlog PR_DEBUG "OCAPI: Link %llx:%x, TL conf1 register set to %llx"
            [phb_id; bdfn; reg] ;;;
          ret OPAL_SUCCESS
    | _ => ret OPAL_PARAMETER
    end.

(** [npu2_write]: a store to the NPU's memory-mapped registers. *)
Definition npu2_write (p : npu2) (reg : npu2_reg) (val : Z) : M unit :=
  write_loc H (NpuMmio (chip_id p) reg) val.

(** [npu2_opencapi_set_pe] returns its code and leaves the NPU, whose
    [bdf2pe_cache] it stores into, as the second component ([None]: the
    NPU was not reached). *)
Definition npu2_opencapi_set_pe (phb : phb)
    (pe_num bdfn bcompare dcompare fcompare action : Z) : M (opal_rc * option npu2) :=
  if negb (action =? OPAL_MAP_PE K) && negb (action =? OPAL_UNMAP_PE K)
  then ret (OPAL_PARAMETER, None)
  else if pe_num >=? NPU2_MAX_PE_NUM K then ret (OPAL_PARAMETER, None)
  else if negb (Z.shiftr bdfn 8 =? 0) then ret (OPAL_PARAMETER, None)
  else if negb (bcompare =? OpalPciBusAll K)
          || negb (dcompare =? OPAL_COMPARE_RID_DEVICE_NUMBER K)
          || negb (fcompare =? OPAL_COMPARE_RID_FUNCTION_NUMBER K)
  then ret (OPAL_UNSUPPORTED, None)
  else
    match phb_to_npu2_dev_ocapi phb with
    | None => ret (OPAL_PARAMETER, None)
    | Some dev =>
        let p := npu dev in
        let pe_bdfn := dev_bdfn dev in
        let val := NPU2_MISC_BRICK_BDF2PE_MAP_ENABLE K in
        let val := SETFIELD (NPU2_MISC_BRICK_BDF2PE_MAP_PE K) val pe_num in
        let val := SETFIELD (NPU2_MISC_BRICK_BDF2PE_MAP_BDF K) val pe_bdfn in
        let reg := NPU2_REG_OFFSET NPU2_STACK_MISC NPU2_BLOCK_MISC
                     (NPU2_MISC_BRICK_BDF2PE_MAP0 (index dev)) in
        let p := set_bdf2pe_cache p (index dev) val in
        npu2_write p reg val ;;;
        ret (OPAL_SUCCESS, Some p)
    end.

(** ** Config space *)

Definition npu2_opencapi_pcicfg_check (dev : option npu2_dev) (offset size : Z)
    : opal_rc :=
  match dev with
  | None => OPAL_PARAMETER
  | Some _ =>
      if (offset >? 4095) || negb (Z.land offset (u32 (size - 1)) =? 0)
      then OPAL_PARAMETER else OPAL_SUCCESS
  end.

Definition mmio_read (addr size : Z) : M Z :=
  v <- read_loc H (Mmio addr size) ;; ret (v mod 2 ^ (8 * size)).

(** [data] is the content of the caller's buffer; the result holds the
    return code and the content of the buffer after the call. *)
Definition npu2_opencapi_pcicfg_read (phb : phb) (bdfn offset size : Z) (data : Z)
    : M (opal_rc * Z) :=
  let dev := phb_to_npu2_dev_ocapi phb in
  let rc := npu2_opencapi_pcicfg_check dev offset size in
  if negb (opal_rc_eqb rc OPAL_SUCCESS) then ret (rc, data)
  else
    dev <- assert_some dev ;;
    block <- assert_some (index_to_block (index dev)) ;;
    let genid_base :=
      bar1_base dev + (if npu2_block_beq block NPU2_BLOCK_OTL1 then 256 else 0) in
    let cfg_addr := NPU2_CQ_CTL_CONFIG_ADDR_ENABLE K in
    let cfg_addr :=
      SETFIELD (Z.lor (Z.lor (NPU2_CQ_CTL_CONFIG_ADDR_BUS_NUMBER K)
                             (NPU2_CQ_CTL_CONFIG_ADDR_DEVICE_NUMBER K))
                      (NPU2_CQ_CTL_CONFIG_ADDR_FUNCTION_NUMBER K))
               cfg_addr bdfn in
    let cfg_addr :=
      SETFIELD (NPU2_CQ_CTL_CONFIG_ADDR_REGISTER_NUMBER K) cfg_addr
               (Z.land offset (u32 (Z.lnot 3))) in
    write_loc H (Mmio genid_base 8) cfg_addr ;;;
    emit EvSync ;;;
    match size with
    | 1 => v <- mmio_read (genid_base + 128 + Z.land offset 3) 1 ;; ret (OPAL_SUCCESS, v)
    | 2 => v <- mmio_read (genid_base + 128 + Z.land offset 2) 2 ;; ret (OPAL_SUCCESS, v)
    | 4 => v <- mmio_read (genid_base + 128) 4 ;; ret (OPAL_SUCCESS, v)
    | _ => ret (OPAL_PARAMETER, data)
    end.

(** [NPU2_OPENCAPI_PCI_CFG_READ(size, type)] at [u8], [u16] and [u32];
    the first step is [*data = (type)0xffffffff]. *)
Definition npu2_opencapi_pcicfg_read8 (phb : phb) (bdfn offset : Z) (data : Z)
    : M (opal_rc * Z) :=
  let data := 4294967295 mod 2 ^ 8 in
  npu2_opencapi_pcicfg_read phb bdfn offset 1 data.

Definition npu2_opencapi_pcicfg_read16 (phb : phb) (bdfn offset : Z) (data : Z)
    : M (opal_rc * Z) :=
  let data := 4294967295 mod 2 ^ 16 in
  npu2_opencapi_pcicfg_read phb bdfn offset 2 data.

Definition npu2_opencapi_pcicfg_read32 (phb : phb) (bdfn offset : Z) (data : Z)
    : M (opal_rc * Z) :=
  let data := 4294967295 mod 2 ^ 32 in
  npu2_opencapi_pcicfg_read phb bdfn offset 4 data.

(** ** Translation-fault interrupt and MMIO registers of a brick *)

(** The [irq] that [npu2_add_mmio_regs] computes, a [uint32_t]. *)
Definition xsl_irq (dev : npu2_dev) (stacku : npu2_stack) (block : npu2_block) : Z :=
  let irq := u32 (irq_base (npu dev) + NPU_IRQ_LEVELS_XSL) in
  let irq := if npu2_stack_beq stacku NPU2_STACK_STCK_2U then u32 (irq + 2) else irq in
  let irq := if npu2_block_beq block NPU2_BLOCK_OTL1 then u32 (irq + 1) else irq in
  irq.

Definition npu2_add_mmio_regs (phb : phb) : M Z :=
  dev <- assert_some (phb_to_npu2_dev_ocapi phb) ;;
  block <- assert_some (index_to_block (index dev)) ;;
  stacku <- assert_some (index_to_stacku (index dev)) ;;
  let irq := xsl_irq dev stacku block in
  let dsisr := u64 (regs (npu dev) + NPU2_OTL_OSL_DSISR K stacku block) in
  let dar := u64 (regs (npu dev) + NPU2_OTL_OSL_DAR K stacku block) in
  let tfc := u64 (regs (npu dev) + NPU2_OTL_OSL_TFC K stacku block) in
  let handle := u64 (regs (npu dev) + NPU2_OTL_OSL_PEHANDLE K stacku block) in
  emit (EvDtProp "ibm,opal-xsl-irq" [irq]) ;;;
  emit (EvDtProp "ibm,opal-xsl-mmio"
          [hi32 dsisr; lo32 dsisr; hi32 dar; lo32 dar;
           hi32 tfc; lo32 tfc; hi32 handle; lo32 handle]) ;;;
  ret 0.
End ControlSurface.

(** ** The spinlock core ([core/lock.c])

    One CPU runs the call; a lock is named by its address.  The state holds
    the global [bust_locks], the locks in memory, the descriptor of the
    calling CPU ([this_cpu()]) and what was printed. *)

Record lock : Type := {
  lock_val : Z;
  in_con_path : bool;
  owner : option string
}.

Record cpu_thread : Type := {
  pir : Z;
  con_suspend : Z;
  con_need_flush : bool;
  locks_held : list Z;
  requested_lock : option Z
}.

Inductive lock_event : Type :=
| LockErrorPrinted (reason : string) (l : Z) (state : Z)
| OpDisplayFatal (err : Z)
| ConsoleFlushed.

Record lock_world : Type := {
  bust_locks : bool;
  locks : Z -> lock;
  this_cpu : cpu_thread;
  printed : list lock_event
}.

(** A call returns, or ends in [abort()]. *)
Inductive lock_outcome (A : Type) : Type :=
| Returned (a : A) (s : lock_world)
| Aborted (s : lock_world).
Arguments Returned {A} a s.
Arguments Aborted {A} s.

Definition set_lock (s : lock_world) (l : Z) (v : lock) : lock_world :=
  {| bust_locks := bust_locks s;
     locks := fun a => if a =? l then v else locks s a;
     this_cpu := this_cpu s;
     printed := printed s |}.

Definition set_cpu (s : lock_world) (c : cpu_thread) : lock_world :=
  {| bust_locks := bust_locks s; locks := locks s; this_cpu := c;
     printed := printed s |}.

Definition print_event (s : lock_world) (e : lock_event) : lock_world :=
  {| bust_locks := bust_locks s; locks := locks s; this_cpu := this_cpu s;
     printed := e :: printed s |}.

Section Lock.
(** Whether the file is compiled with [DEBUG_LOCKS]. *)
Variable DEBUG_LOCKS : bool.

(** [lock_error]: [bust_locks = true], the message with the address of
    the lock and its state cell, [op_display], [abort()]. *)
Definition lock_error (l : Z) (reason : string) (err : Z) (s : lock_world)
    : lock_outcome unit :=
  let s := {| bust_locks := true; locks := locks s; this_cpu := this_cpu s;
              printed := printed s |} in
  let s := print_event s (LockErrorPrinted reason l (lock_val (locks s l))) in
  let s := print_event s (OpDisplayFatal err) in
  Aborted s.

Definition unlock_check (l : Z) (s : lock_world) : lock_outcome unit :=
  if negb DEBUG_LOCKS then Returned tt s
  else if Z.land (lock_val (locks s l)) 1 =? 0
  then lock_error l "Unlocking unlocked lock" 1 s
  else if negb (Z.shiftr (lock_val (locks s l)) 32 =? pir (this_cpu s))
  then lock_error l "Unlocked non-owned lock" 2 s
  else if in_con_path (locks s l) && (con_suspend (this_cpu s) =? 0)
  then lock_error l "Unlock con lock with console not suspended" 3 s
  else if match locks_held (this_cpu s) with [] => true | _ => false end
  then lock_error l "Releasing lock we don't hold depth" 4 s
  else Returned tt s.

Definition lock_held_by_me (l : Z) (s : lock_world) : bool :=
  let pir64 := pir (this_cpu s) in
  lock_val (locks s l) =? Z.lor (u64 (Z.shiftl pir64 32)) 1.

(** [list_del(&l->list)]: the lock leaves the list it is on. *)
Fixpoint list_del (l : Z) (held : list Z) : list Z :=
  match held with
  | [] => []
  | x :: held' => if x =? l then held' else x :: list_del l held'
  end.

Definition unlock (l : Z) (s : lock_world) : lock_outcome unit :=
  if bust_locks s then Returned tt s
  else
    match unlock_check l s with
    | Aborted s' => Aborted s'
    | Returned _ s =>
        let lk := locks s l in
        let cpu := this_cpu s in
        let cpu := {| pir := pir cpu; con_suspend := con_suspend cpu;
                      con_need_flush := con_need_flush cpu;
                      locks_held := list_del l (locks_held cpu);
                      requested_lock := requested_lock cpu |} in
        let s := set_cpu s cpu in
        let s := set_lock s l {| lock_val := 0; in_con_path := in_con_path lk;
                                 owner := None |} in
        if in_con_path lk then
          let cpu := this_cpu s in
          let cpu := {| pir := pir cpu; con_suspend := u32 (con_suspend cpu - 1);
                        con_need_flush := con_need_flush cpu;
                        locks_held := locks_held cpu;
                        requested_lock := requested_lock cpu |} in
          let s := set_cpu s cpu in
          if (con_suspend cpu =? 0) && con_need_flush cpu
          then Returned tt (print_event s ConsoleFlushed)
          else Returned tt s
        else Returned tt s
    end.

(** [__try_lock]: the compare-and-swap of the cell from 0. *)
Definition try_lock_cell (l : Z) (s : lock_world) : bool * lock_world :=
  let val := Z.lor (u64 (Z.shiftl (pir (this_cpu s)) 32)) 1 in
  if lock_val (locks s l) =? 0
  then (true, set_lock s l {| lock_val := val;
                              in_con_path := in_con_path (locks s l);
                              owner := owner (locks s l) |})
  else (false, s).

Definition try_lock_caller (l : Z) (who : string) (s : lock_world)
    : bool * lock_world :=
  if bust_locks s then (true, s)
  else
    let '(ok, s) := try_lock_cell l s in
    if ok then
      let lk := locks s l in
      let s := set_lock s l {| lock_val := lock_val lk;
                               in_con_path := in_con_path lk;
                               owner := Some who |} in
      let cpu := this_cpu s in
      let cpu := {| pir := pir cpu;
                    con_suspend := if in_con_path lk
                                   then u32 (con_suspend cpu + 1)
                                   else con_suspend cpu;
                    con_need_flush := con_need_flush cpu;
                    locks_held := l :: locks_held cpu;
                    requested_lock := requested_lock cpu |} in
      (true, set_cpu s cpu)
    else (false, s).

Definition init_locks (s : lock_world) : lock_world :=
  {| bust_locks := false; locks := locks s; this_cpu := this_cpu s;
     printed := printed s |}.
End Lock.

(** ** Sample values

    One choice of the header constants, in the POWER9 layout, a platform
    and some hardware behaviours: used to run the model on concrete
    inputs.  No general theorem depends on them. *)

Definition p9_constants : constants := {|
  OBUS_IOOL_PHY_CONFIG_NV0_NPU_ENABLED := PPC_BIT 61;
  OBUS_IOOL_PHY_CONFIG_NV1_NPU_ENABLED := PPC_BIT 62;
  OBUS_IOOL_PHY_CONFIG_NV2_NPU_ENABLED := PPC_BIT 63;
  OBUS_IOOL_PHY_CONFIG_ODL0_ENABLED := PPC_BIT 52;
  OBUS_IOOL_PHY_CONFIG_ODL1_ENABLED := PPC_BIT 53;
  OBUS_IOOL_PHY_CONFIG_ODL_PHY_SWAP := PPC_BIT 54;
  OBUS_IOOL_PHY_CONFIG_LINK0_OLL_ENABLED := PPC_BIT 58;
  OBUS_IOOL_PHY_CONFIG_LINK1_OLL_ENABLED := PPC_BIT 59;
  NPU2_MISC_OPTICAL_IO_CFG0_NDLMUX_BRK0TO2 := PPC_BITMASK 0 2;
  NPU2_MISC_OPTICAL_IO_CFG0_OCMUX_BRK0TO1 := PPC_BITMASK 3 4;
  NPU2_MISC_OPTICAL_IO_CFG0_OCMUX_BRK4TO5 := PPC_BITMASK 5 6;
  PU_IOE_PB_MISC_CFG_SEL_04_NPU_NOT_PB := PPC_BIT 14;
  PU_IOE_PB_MISC_CFG_SEL_05_NPU_NOT_PB := PPC_BIT 15;
  PU_IOE_PB_FP_CFG_FP0_FMR_DISABLE := PPC_BIT 20;
  PU_IOE_PB_FP_CFG_FP0_PRS_DISABLE := PPC_BIT 25;
  PU_IOE_PB_FP_CFG_FP1_FMR_DISABLE := PPC_BIT 52;
  PU_IOE_PB_FP_CFG_FP1_PRS_DISABLE := PPC_BIT 57;
  NPU2_XSL_WRAP_CFG_XSLO_CLOCK_ENABLE := PPC_BIT 0;
  NPU2_CQ_CTL_FENCE_CONTROL_REQUEST_FENCE := PPC_BITMASK 0 1;
  NPU2_CQ_CTL_STATUS_BRK0_AM_FENCED := PPC_BITMASK 48 49;
  NPU2_CQ_CTL_STATUS_BRK1_AM_FENCED := PPC_BITMASK 50 51;
  NPU2_OTL_CONFIG0_EN := PPC_BIT 0;
  NPU2_OTL_CONFIG0_PE_MASK := PPC_BITMASK 4 7;
  NPU2_CQ_CTL_MISC_CFG_CONFIG_OCAPI_MODE := PPC_BIT 52;
  NPU2_CQ_CTL_MISC_CFG_CONFIG_OTL0_ENABLE := PPC_BIT 55;
  NPU2_CQ_CTL_MISC_CFG_CONFIG_OTL1_ENABLE := PPC_BIT 56;
  NPU2_CQ_DAT_MISC_CFG_CONFIG_OCAPI_MODE := PPC_BIT 40;
  NPU2_CQ_SM_MISC_CFG0_CONFIG_OCAPI_MODE := PPC_BIT 57;
  NPU2_CQ_SM_MISC_CFG0_CONFIG_ENABLE_PBUS := PPC_BIT 26;
  NPU2_XTS_CFG_OPENCAPI := PPC_BIT 15;
  NPU2_XTS_CFG2_XSL1_ENA := PPC_BIT 55;
  NPU2_XTS_CFG2_XSL2_ENA := PPC_BIT 56;
  NPU2_LOW_WATER_MARKS_ENABLE_MACHINE_ALLOC := PPC_BIT 51;
  NPU2_OTL_CONFIG1_TX_TEMP1_EN := PPC_BIT 1;
  NPU2_OTL_CONFIG1_TX_TEMP2_EN := PPC_BIT 2;
  NPU2_OTL_CONFIG1_TX_TEMP3_EN := PPC_BIT 3;
  NPU2_OTL_CONFIG2_TX_SEND_EN := PPC_BIT 0;
  NPU2_XSL_PSL_SPAP_EN := PPC_BIT 63;
  NPU2_MISC_BRICK_BDF2PE_MAP_ENABLE := PPC_BIT 0;
  NPU2_MISC_BRICK_BDF2PE_MAP_PE := PPC_BITMASK 4 7;
  NPU2_MISC_BRICK_BDF2PE_MAP_BDF := PPC_BITMASK 8 23;
  NPU2_MAX_PE_NUM := 16;
  NPU2_CQ_CTL_CONFIG_ADDR_ENABLE := PPC_BIT 0;
  NPU2_CQ_CTL_CONFIG_ADDR_BUS_NUMBER := PPC_BITMASK 4 11;
  NPU2_CQ_CTL_CONFIG_ADDR_DEVICE_NUMBER := PPC_BITMASK 12 16;
  NPU2_CQ_CTL_CONFIG_ADDR_FUNCTION_NUMBER := PPC_BITMASK 17 19;
  NPU2_CQ_CTL_CONFIG_ADDR_REGISTER_NUMBER := PPC_BITMASK 20 31;
  NPU2_PHY_BAR_ADDR := PPC_BITMASK 3 20;
  NPU2_PHY_BAR_ENABLE := PPC_BIT 0;
  NPU2_NTL_BAR_ADDR := PPC_BITMASK 3 35;
  NPU2_NTL_BAR_SIZE := PPC_BITMASK 39 43;
  NPU2_NTL_BAR_ENABLE := PPC_BIT 0;
  NPU2_GENID_BAR_ADDR := PPC_BITMASK 3 35;
  NPU2_GENID_BAR_ENABLE := PPC_BIT 0;
  NPU2_CQ_CTL_MISC_MMIOPA_ADDR := PPC_BITMASK 1 35;
  NPU2_CQ_CTL_MISC_MMIOPA_SIZE := PPC_BITMASK 39 43;
  OB_ODL_CONFIG_RESET := PPC_BIT 0;
  OB_ODL_CONFIG_VERSION := PPC_BITMASK 2 7;
  OB_ODL_CONFIG_TRAIN_MODE := PPC_BITMASK 8 11;
  OB_ODL_CONFIG_SUPPORTED_MODES := PPC_BITMASK 12 15;
  OB_ODL_CONFIG_X4_BACKOFF_ENABLE := PPC_BIT 16;
  OB_ODL_CONFIG_PHY_CNTR_LIMIT := PPC_BITMASK 20 23;
  OB_ODL_CONFIG_DEBUG_ENABLE := PPC_BIT 33;
  OB_ODL_CONFIG_FWD_PROGRESS_TIMER := PPC_BITMASK 40 43;
  OB_ODL_STATUS_TRAINING_STATE_MACHINE := PPC_BITMASK 49 51;
  OPAL_MAP_PE := 1;
  OPAL_UNMAP_PE := 0;
  OpalPciBusAll := 7;
  OPAL_COMPARE_RID_DEVICE_NUMBER := 1;
  OPAL_COMPARE_RID_FUNCTION_NUMBER := 1;
  NPU2_OTL_OSL_DSISR := fun _ _ => 0;
  NPU2_OTL_OSL_DAR := fun _ _ => 8;
  NPU2_OTL_OSL_TFC := fun _ _ => 16;
  NPU2_OTL_OSL_PEHANDLE := fun _ _ => 24
|}.

Definition sample_platform : platform_ocapi := {|
  i2c_engine := 1;
  i2c_port := 4;
  i2c_offset := (3, 1, 1);
  i2c_odl0_data := (253, 253, 255);
  i2c_odl1_data := (191, 191, 255);
  odl_phy_swap := true
|}.

(** Hardware whose every register reads [v], whose accesses take no
    time, and whose device tree has the I2C port (or not). *)
Definition constant_hw (v : Z) (i2c_port_found : bool) : hardware := {|
  hw_read := fun _ _ => v;
  hw_i2c := fun _ => 0;
  hw_lat := fun _ => O;
  hw_phys_map := fun _ _ i => (6597069766656 + i * 4294967296, 4294967296);
  hw_i2c_port := fun _ _ _ => if i2c_port_found then Some 7 else None;
  hw_ics_phandle := 1;
  hw_slot_alloc := true
|}.

(** Hardware that reads back [vals] in turn, then 0. *)
Definition scripted_hw (vals : list Z) : hardware := {|
  hw_read := fun _ n => nth n vals 0;
  hw_i2c := fun _ => 0;
  hw_lat := fun _ => O;
  hw_phys_map := fun _ _ i => (6597069766656 + i * 4294967296, 4294967296);
  hw_i2c_port := fun _ _ _ => Some 7;
  hw_ics_phandle := 1;
  hw_slot_alloc := true
|}.

Definition world0 : world := {| steps := O; tb := 0; trace := [] |}.

Definition sample_npu : npu2 := {|
  npu_index := 0; npu_phandle := 64;
  chip_id := 0; xscom_base := 84017152; regs := 6597069766656;
  mm_base := 0; mm_size := 0; irq_base := 1024; total_devices := 0;
  bdf2pe_cache := [0; 0; 0; 0; 0; 0]
|}.

Definition sample_dev (i : Z) : npu2_dev := {|
  dev_type := NPU2_DEV_TYPE_OPENCAPI; index := i; bdfn := 0;
  pl_xscom_base := 0; lane_mask := 0; link_speed := 0;
  i2c_port_id_ocapi := 7;
  bar0_base := 0; bar0_size := 0; bar1_base := 1048576; bar1_size := 65536;
  npu := sample_npu
|}.

Definition sample_phb (i : Z) : phb := {|
  phb_type := phb_type_npu_v2_opencapi;
  phb_to_npu2_dev_ocapi := Some (sample_dev i)
|}.

(** ** Views of a trace *)

(** The stores of a trace, the latest first. *)
Fixpoint writes_of (t : list event) : list (location * Z) :=
  match t with
  | [] => []
  | EvWrite l v :: t' => (l, v) :: writes_of t'
  | _ :: t' => writes_of t'
  end.

(** What an observer [f] keeps of a trace, the latest first like the
    trace. *)
Fixpoint view_of {X} (f : event -> option X) (t : list event) : list X :=
  match t with
  | [] => []
  | e :: t' =>
      match f e with
      | Some o => o :: view_of f t'
      | None => view_of f t'
      end
  end.

(** What the fence cycle of a brick shows: the stores to its fence-control
    register and the loads of [CQ_CTL_STATUS] of its stack. *)
Inductive fence_obs : Type :=
| FenceWrite (v : Z)
| StatusRead (v : Z).

Definition fence_observe (stack : npu2_stack) (block : npu2_block) (e : event)
    : option fence_obs :=
  match e with
  | EvWrite (NpuScom _ _ r) v =>
      if npu2_reg_eqb r (fence_control_reg stack block)
      then Some (FenceWrite v) else None
  | EvRead (NpuScom _ _ r) v =>
      if npu2_reg_eqb r (NPU2_REG_OFFSET stack NPU2_BLOCK_CTL NPU2_CQ_CTL_STATUS)
      then Some (StatusRead v) else None
  | _ => None
  end.

(** The fence view of a trace, the latest first like the trace. *)
Abbreviation fence_view stack block := (view_of (fence_observe stack block)).

(** The row of the brick-index table: what the six switches on the index
    give. *)
Definition brick_row (i : Z)
    : option npu2_stack * option npu2_stack * option npu2_block *
      option xscom_reg * option xscom_reg * option xscom_reg :=
  (index_to_stack i, index_to_stacku i, index_to_block i,
   odl_status_xscom i, odl_config_xscom i, phy_config_scom i).

(** The brick indices of OpenCAPI. *)
Definition valid_index (i : Z) : Prop := i = 2 \/ i = 3 \/ i = 4 \/ i = 5.

(** The translation-fault interrupt number of a brick in the spec's words:
    [irq_base + 23], plus 2 on upper stack [STCK_2U], plus 1 on block
    [OTL1]. *)
Definition spec_xsl_irq (base : Z) (stacku : npu2_stack) (block : npu2_block) : Z :=
  base + 23
  + (if npu2_stack_beq stacku NPU2_STACK_STCK_2U then 2 else 0)
  + (if npu2_block_beq block NPU2_BLOCK_OTL1 then 1 else 0).

(** [ENABLE | PE=pe | BDF=bdf]: the value of a BDF-to-PE map register. *)
Definition bdf2pe_map_value (K : constants) (pe bdf : Z) : Z :=
  SETFIELD (NPU2_MISC_BRICK_BDF2PE_MAP_BDF K)
    (SETFIELD (NPU2_MISC_BRICK_BDF2PE_MAP_PE K)
       (NPU2_MISC_BRICK_BDF2PE_MAP_ENABLE K) pe) bdf.

(** [MISC.BRICK{i}_BDF2PE_MAP0] for the brick of a device. *)
Definition bdf2pe_map_reg (dev : npu2_dev) : location :=
  NpuMmio (chip_id (npu dev))
    (NPU2_REG_OFFSET NPU2_STACK_MISC NPU2_BLOCK_MISC
       (NPU2_MISC_BRICK_BDF2PE_MAP0 (index dev))).

(** The SPAP register of a brick: [XSL_PSL_SPAP_A1] for block OTL1,
    [XSL_PSL_SPAP_A0] otherwise. *)
Definition spap_reg (dev : npu2_dev) (stack : npu2_stack) (block : npu2_block)
    : location :=
  NpuScom (chip_id (npu dev)) (xscom_base (npu dev))
    (NPU2_REG_OFFSET stack NPU2_BLOCK_XSL
       (if npu2_block_beq block NPU2_BLOCK_OTL1
        then NPU2_XSL_PSL_SPAP_A1 else NPU2_XSL_PSL_SPAP_A0)).

(** [OTL_CONFIG0] of a brick. *)
Definition otl_config0_reg (dev : npu2_dev) (stack : npu2_stack) (block : npu2_block)
    : location :=
  NpuScom (chip_id (npu dev)) (xscom_base (npu dev)) (NPU2_OTL_CONFIG0 stack block).

(** The enable bit of the SPAP register disagrees with the direction asked
    for: installing ([addr] not 0) while it is set, or clearing ([addr] 0)
    while it is clear. *)
Definition spa_disagree (K : constants) (addr reg : Z) : Prop :=
  (addr <> 0 /\ Z.land reg (NPU2_XSL_PSL_SPAP_EN K) <> 0) \/
  (addr = 0 /\ Z.land reg (NPU2_XSL_PSL_SPAP_EN K) = 0).

(** [XSL_PSL_LLCMD_A0] of the stack of a brick. *)
Definition llcmd_reg (dev : npu2_dev) (stack : npu2_stack) : location :=
  NpuScom (chip_id (npu dev)) (xscom_base (npu dev))
    (NPU2_REG_OFFSET stack NPU2_BLOCK_XSL NPU2_XSL_PSL_LLCMD_A0).

(** Bit 16 of a value read from [XSL_PSL_LLCMD_A0]: a command is in flight. *)
Definition llcmd_busy (v : Z) : bool := negb (Z.land v (PPC_BIT 16) =? 0).

(** The command [opal_npu_spa_clear_cache] stores. *)
Definition llcmd_command (block : npu2_block) (PE_handle : Z) : Z :=
  if npu2_block_beq block NPU2_BLOCK_OTL1
  then Z.lor (Z.lor PE_handle (PPC_BIT 15)) (PPC_BIT 48)
  else Z.lor PE_handle (PPC_BIT 15).

(** The events of a run of polls, the earliest first: each poll is a load,
    and a load that still shows bit 16 is followed by a wait of 200
    microseconds. *)
Fixpoint poll_events (cc : location) (polls : list Z) : list event :=
  match polls with
  | [] => []
  | v :: polls' =>
      EvRead cc v
      :: (if llcmd_busy v
          then EvWait (usecs_to_tb 200) :: poll_events cc polls'
          else poll_events cc polls')
  end.

(** A CPU that holds [held], and a state with one interesting lock, at
    address 4096, whose cell is [val]. *)
Definition sample_cpu (p : Z) (held : list Z) : cpu_thread := {|
  pir := p; con_suspend := 0; con_need_flush := false;
  locks_held := held; requested_lock := None
|}.

Definition sample_lock_world (bust : bool) (val : Z) (cpu : cpu_thread) : lock_world := {|
  bust_locks := bust;
  locks := fun _ => {| lock_val := val; in_con_path := false; owner := None |};
  this_cpu := cpu;
  printed := []
|}.

(** The rate of a template in a rate buffer, in the spec's words: 4 bits
    per template, template 63 in the high nibble of byte 0, template 0 in
    the low nibble of byte 31. *)
Definition spec_template_rate (mem : Z -> Z) (rate_buf templ : Z) : Z :=
  let b := u8 (mem (rate_buf + (63 - templ) / 2)) in
  if Z.even (63 - templ) then b / 16 else b mod 16.

(** [OTL_CONFIG1] of a brick. *)
Definition otl_config1_reg (dev : npu2_dev) (stack : npu2_stack) (block : npu2_block)
    : location :=
  NpuScom (chip_id (npu dev)) (xscom_base (npu dev)) (NPU2_OTL_CONFIG1 stack block).

(** A rate buffer at address 4096 with rate F for template 0 and rate 1 for
    template 3: the low nibble of byte 31 and the high nibble of byte 30. *)
Definition sample_rate_mem (a : Z) : Z :=
  if a =? 4096 + 31 then 15 else if a =? 4096 + 30 then 16 else 0.

(** ** The fence cycle, observed *)

Definition fence_status_field (K : constants) (block : npu2_block) : Z :=
  if npu2_block_beq block NPU2_BLOCK_OTL0
  then NPU2_CQ_CTL_STATUS_BRK0_AM_FENCED K
  else NPU2_CQ_CTL_STATUS_BRK1_AM_FENCED K.

(** A value read from [CQ_CTL_STATUS] shows the fence status asked for. *)
Definition fence_echoes (K : constants) (block : npu2_block) (status v : Z) : bool :=
  u8 (GETFIELD (fence_status_field K block) v) =? status.

(** What one call of [set_fence_control] shows, the earliest first: the
    store of the status, then the values polled. *)
Definition episode_view (K : constants) (status : Z) (reads : list Z)
    : list fence_obs :=
  FenceWrite (SETFIELD (NPU2_CQ_CTL_FENCE_CONTROL_REQUEST_FENCE K) 0 status)
  :: map StatusRead reads.

(** There is at least one poll, and no poll but the last shows the status. *)
Definition polls_until_echo (K : constants) (block : npu2_block) (status : Z)
    (reads : list Z) : Prop :=
  exists pre v, reads = pre ++ [v] /\
                Forall (fun x => fence_echoes K block status x = false) pre.

(** A computation that returns and shows nothing to the observer [f]. *)
Definition quiet {X} (f : event -> option X) {A} (c : M A) : Prop :=
  forall w, exists a w',
    c w = Done a w' /\ view_of f (trace w') = view_of f (trace w).

(** A computation that returns [a] and shows [obs] to the observer [f],
    with [Q a obs]. *)
Definition shows {X} (f : event -> option X) {A} (c : M A)
    (Q : A -> list X -> Prop) : Prop :=
  forall w, exists a w' obs,
    c w = Done a w' /\
    view_of f (trace w') = rev obs ++ view_of f (trace w) /\
    Q a obs.

(** The three episodes of the fence cycle. *)
Definition fence_cycle (K : constants) (block : npu2_block) (obs : list fence_obs)
    : Prop :=
  exists r1 r3 r2,
    obs = episode_view K 1 r1 ++ episode_view K 3 r3 ++ episode_view K 2 r2 /\
    polls_until_echo K block 1 r1 /\
    polls_until_echo K block 3 r3 /\
    polls_until_echo K block 2 r2.

(** The values written to the fence-control register, in a fence view. *)
Definition fence_writes (obs : list fence_obs) : list Z :=
  flat_map (fun o => match o with FenceWrite v => [v] | StatusRead _ => [] end) obs.

(** Whether some status read of a fence view observes [status]. *)
Definition echo_seen (K : constants) (block : npu2_block) (status : Z)
    (obs : list fence_obs) : bool :=
  existsb (fun o => match o with
                    | StatusRead v => fence_echoes K block status v
                    | FenceWrite _ => false
                    end) obs.

(** ** Link training, observed *)

(** What the bring-up of a brick shows of its training: the start of an
    attempt (the first thing [odl_train] does is to log it), the link
    found trained, a store to [OTL_CONFIG2] of the brick, the [status]
    property set to [error], and the PHB registered. *)
Inductive train_obs : Type :=
| TrainStart
| Trained
| Config2Write (v : Z)
| StatusError
| PhbRegistered.

Definition train_observe (stack : npu2_stack) (block : npu2_block) (e : event)
    : option train_obs :=
  match e with
  | EvLog PR_DEBUG msg [] =>
      if String.eqb msg log_training_odl then Some TrainStart else None
  | EvLog PR_NOTICE msg _ =>
      if String.eqb msg log_trained then Some Trained else None
  | EvWrite (NpuScom _ _ r) v =>
      if npu2_reg_eqb r (NPU2_OTL_CONFIG2 stack block)
      then Some (Config2Write v) else None
  | EvDtStrings name [value] =>
      if String.eqb name "status" && String.eqb value "error"
      then Some StatusError else None
  | EvRegisterPhb => Some PhbRegistered
  | _ => None
  end.

Abbreviation train_view stack block := (view_of (train_observe stack block)).

(** The training state of the ODL of brick [index] never reads 7. *)
Definition never_trained (K : constants) (H : hardware) (gcid index : Z) : Prop :=
  forall reg n,
    odl_status_xscom index = Some reg ->
    GETFIELD (OB_ODL_STATUS_TRAINING_STATE_MACHINE K)
      (u64 (hw_read H (Xscom gcid reg) n)) <> 7.

(** What a bring-up shows when the link trains at the [k]-th attempt, and
    when it does not train at all. *)
Definition trained_at (K : constants) (k : nat) : list train_obs :=
  repeat TrainStart k ++
  [Trained; Config2Write (NPU2_OTL_CONFIG2_TX_SEND_EN K); PhbRegistered].

Definition training_failed : list train_obs :=
  repeat TrainStart LINK_TRAINING_RETRIES ++ [StatusError].

(** A device as [zalloc] leaves it. *)
Definition blank_dev (n : npu2) : npu2_dev := {|
  dev_type := NPU2_DEV_TYPE_OPENCAPI; index := 0; bdfn := 0;
  pl_xscom_base := 0; lane_mask := 0; link_speed := 0;
  i2c_port_id_ocapi := 0;
  bar0_base := 0; bar0_size := 0; bar1_base := 0; bar1_size := 0;
  npu := n
|}.

Definition sample_link (i : Z) : dt_link := {|
  ibm_npu_link_index := i; ibm_npu_phy := 0;
  ibm_npu_lane_mask := 0; ibm_link_speed := 0
|}.

(** ** The rest of the spinlock core

    [lock_caller] and the deadlock check of [DEBUG_LOCKS].  One CPU runs
    the call and the others stand still: where the code waits for another
    CPU to release a lock, the call is left spinning. *)

(** A call returns, ends in [abort()], or is left spinning on a lock. *)
Inductive lock_run (A : Type) : Type :=
| Ran (a : A) (s : lock_world)
| Died (s : lock_world)
| Spins (l : Z) (s : lock_world).
Arguments Ran {A} a s.
Arguments Died {A} s.
Arguments Spins {A} l s.

Definition set_requested_lock (s : lock_world) (r : option Z) : lock_world :=
  let cpu := this_cpu s in
  set_cpu s {| pir := pir cpu; con_suspend := con_suspend cpu;
               con_need_flush := con_need_flush cpu;
               locks_held := locks_held cpu;
               requested_lock := r |}.

Definition set_locks_held (s : lock_world) (held : list Z) : lock_world :=
  let cpu := this_cpu s in
  set_cpu s {| pir := pir cpu; con_suspend := con_suspend cpu;
               con_need_flush := con_need_flush cpu;
               locks_held := held;
               requested_lock := requested_lock cpu |}.

(** What [drop_my_locks] reports besides the lock errors. *)
Inductive lock_log : Type :=
| FastRebootDisabled (reason : string)
| OwnerLogged (owner : option string).

Section LockRequests.
Variable DEBUG_LOCKS : bool.
(** [find_cpu_by_pir]: the other CPUs, each with the lock it waits for. *)
Variable find_cpu_by_pir : Z -> option cpu_thread.
Variable cpu_max_pir : Z.
(** The address of the static [dl_lock]. *)
Variable dl_lock : Z.
(** Whether the state of the calling CPU is [cpu_state_active] or
    [cpu_state_os]. *)
Variable cpu_active_or_os : bool.
(** [LOCK_CALLER], the place in [lock.c] that [try_lock(l)] names as the
    owner, by line. *)
Variable LOCK_CALLER : Z -> string.

Definition lock_check (l : Z) (s : lock_world) : lock_outcome unit :=
  if negb DEBUG_LOCKS then Returned tt s
  else if negb (Z.land (lock_val (locks s l)) 1 =? 0)
          && (Z.shiftr (lock_val (locks s l)) 32 =? pir (this_cpu s))
  then lock_error l "Invalid recursive lock" 0 s
  else Returned tt s.

(** The [while (i < cpu_max_pir)] loop of [check_deadlock]; [n] turns are
    left. *)
Fixpoint check_deadlock_loop (n : nat) (next : option Z) (start : Z)
    (s : lock_world) : bool :=
  match n with
  | O => false
  | S n' =>
      match next with
      | None => false
      | Some l =>
          if (Z.land (lock_val (locks s l)) 1 =? 0) || in_con_path (locks s l)
          then false
          else
            let lock_owner := u32 (Z.shiftr (lock_val (locks s l)) 32) in
            if lock_owner =? start then true
            else
              match find_cpu_by_pir lock_owner with
              | None => false
              | Some next_cpu =>
                  check_deadlock_loop n' (requested_lock next_cpu) start s
              end
      end
  end.

Definition check_deadlock (s : lock_world) : bool :=
  check_deadlock_loop (Z.to_nat cpu_max_pir) (requested_lock (this_cpu s))
    (pir (this_cpu s)) s.

Definition add_lock_request (l : Z) (s : lock_world) : lock_run unit :=
  if negb DEBUG_LOCKS then Ran tt s
  else if negb cpu_active_or_os then Ran tt s
  else
    let '(ok, s1) := try_lock_caller dl_lock (LOCK_CALLER 115) s in
    if negb ok then Spins dl_lock s1
    else
      let s2 := set_requested_lock s1 (Some l) in
      if check_deadlock s2 then
        match lock_error l "Deadlock detected" 0 s2 with
        | Aborted s' => Died s'
        | Returned _ s' => Ran tt s'
        end
      else
        match unlock DEBUG_LOCKS dl_lock s2 with
        | Aborted s' => Died s'
        | Returned _ s' => Ran tt s'
        end.

Definition remove_lock_request (s : lock_world) : lock_world :=
  if DEBUG_LOCKS then set_requested_lock s None else s.

Definition lock_caller (l : Z) (who : string) (s : lock_world) : lock_run unit :=
  if bust_locks s then Ran tt s
  else
    match lock_check l s with
    | Aborted s' => Died s'
    | Returned _ s =>
        let '(ok, s) := try_lock_caller l (LOCK_CALLER 216) s in
        if ok then Ran tt s
        else
          match add_lock_request l s with
          | Died s' => Died s'
          | Spins l' s' => Spins l' s'
          | Ran _ s =>
              let '(ok, s) := try_lock_caller l who s in
              if ok then Ran tt (remove_lock_request s)
              else Spins l s
          end
    end.

Definition lock_recursive_caller (l : Z) (caller : string) (s : lock_world)
    : lock_run bool :=
  if bust_locks s then Ran false s
  else if lock_held_by_me l s then Ran false s
  else
    match lock_caller l caller s with
    | Ran _ s' => Ran true s'
    | Died s' => Died s'
    | Spins l' s' => Spins l' s'
    end.

(** The [while ((l = list_pop(...)) != NULL)] loop of [drop_my_locks];
    [None] when the turns run out. *)
Fixpoint drop_locks_loop (turns : nat) (warn : bool) (s : lock_world)
    (log : list lock_log) : option (lock_outcome unit) * list lock_log :=
  match locks_held (this_cpu s) with
  | [] => (Some (Returned tt s), log)
  | l :: rest =>
      match turns with
      | O => (None, log)
      | S turns' =>
          let s := set_locks_held s rest in
          let log := if warn then OwnerLogged (owner (locks s l)) :: log else log in
          match unlock DEBUG_LOCKS l s with
          | Aborted s' => (Some (Aborted s'), log)
          | Returned _ s' => drop_locks_loop turns' warn s' log
          end
      end
  end.

(** The log is the latest line first. *)
Definition drop_my_locks (warn : bool) (s : lock_world)
    : option (lock_outcome unit) * list lock_log :=
  drop_locks_loop (List.length (locks_held (this_cpu s))) warn s
    [FastRebootDisabled "Lock corruption"].
End LockRequests.

(** A chain of waits from a requested lock back to CPU [start]: each lock
    is held and not a console lock, its owner waits for the next, and the
    owner of the last is [start].  The locks of the chain, in order. *)
Inductive wait_chain (find_cpu_by_pir : Z -> option cpu_thread) (s : lock_world)
    (start : Z) : option Z -> list Z -> Prop :=
| chain_end (l : Z) :
    Z.land (lock_val (locks s l)) 1 <> 0 ->
    in_con_path (locks s l) = false ->
    u32 (Z.shiftr (lock_val (locks s l)) 32) = start ->
    wait_chain find_cpu_by_pir s start (Some l) [l]
| chain_step (l : Z) (c : cpu_thread) (ls : list Z) :
    Z.land (lock_val (locks s l)) 1 <> 0 ->
    in_con_path (locks s l) = false ->
    u32 (Z.shiftr (lock_val (locks s l)) 32) <> start ->
    find_cpu_by_pir (u32 (Z.shiftr (lock_val (locks s l)) 32)) = Some c ->
    wait_chain find_cpu_by_pir s start (requested_lock c) ls ->
    wait_chain find_cpu_by_pir s start (Some l) (l :: ls).

(** The cell of a lock held by the CPU of PIR [p]. *)
Definition held_by (p : Z) : Z := Z.lor (u64 (Z.shiftl p 32)) 1.

(** CPU 3 holds lock 200 and CPU 7 holds lock 100 while it waits for lock
    200. *)
Definition abba_world : lock_world := {|
  bust_locks := false;
  locks := fun a =>
    if a =? 100 then {| lock_val := held_by 7; in_con_path := false; owner := None |}
    else if a =? 200 then {| lock_val := held_by 3; in_con_path := false; owner := None |}
    else {| lock_val := 0; in_con_path := false; owner := None |};
  this_cpu := sample_cpu 3 [200];
  printed := []
|}.

Definition abba_cpus (p : Z) : option cpu_thread :=
  if p =? 7
  then Some {| pir := 7; con_suspend := 0; con_need_flush := false;
               locks_held := [100]; requested_lock := Some 200 |}
  else None.

(** ** Where the stores of a brick's bring-up may go *)

Definition is_otl_block (b : npu2_block) : bool :=
  match b with
  | NPU2_BLOCK_OTL0 | NPU2_BLOCK_OTL1 | NPU2_BLOCK_NTL0 | NPU2_BLOCK_NTL1 => true
  | _ => false
  end.

Definition is_fence_control (o : npu2_offset) : bool :=
  match o with
  | NPU2_CQ_CTL_FENCE_CONTROL_0 | NPU2_CQ_CTL_FENCE_CONTROL_1 => true
  | _ => false
  end.

Definition names (o : option xscom_reg) (r : xscom_reg) : bool :=
  match o with
  | Some r' => xscom_reg_beq r' r
  | None => false
  end.

(** The xscom registers that brick [i] has a part in: the PowerBus
    registers of the chip, which all bricks share; the PHY configuration
    of the brick's OBUS, which it shares with the other brick of the OBUS;
    and the status and configuration of the brick's own ODL.  The ODL of
    the other brick and the registers of the other OBUS are not among
    them. *)
Definition home_xscom (i : Z) (r : xscom_reg) : bool :=
  match r with
  | PU_IOE_PB_MISC_CFG | PU_IOE_PB_FP01_CFG | PU_IOE_PB_FP23_CFG
  | PU_IOE_PB_FP45_CFG | PU_IOE_PB_FP67_CFG => true
  | _ => names (phy_config_scom i) r || names (odl_config_xscom i) r
         || names (odl_status_xscom i) r
  end.

(** The NPU registers that the brick of [stack] and [block] has a part
    in: the registers without a stack ([MISC_OPTICAL_IO_CFG0], [XTS_CFG],
    [XTS_CFG2]), which all bricks of the NPU share, and the registers of
    its stack, but for the OTL and NTL block and the fence control of the
    other brick of the stack. *)
Definition home_npu_reg (stack : npu2_stack) (block : npu2_block) (reg : npu2_reg)
    : bool :=
  match reg with
  | NPU2_REG_OFFSET s b o =>
      npu2_stack_beq s stack
      && negb (is_otl_block b && negb (npu2_block_beq b block))
      && negb (is_fence_control o
               && negb (npu2_reg_eqb reg (fence_control_reg stack block)))
  | _ => true
  end.

(** A location of chip [gcid] and of the NPU at [scom_base] that brick
    [i], of [stack] and [block], has a part in. *)
Definition home_store (gcid scom_base i : Z) (stack : npu2_stack) (block : npu2_block)
    (l : location) : bool :=
  match l with
  | NpuScom g b reg => home_npu_reg stack block reg && (g =? gcid) && (b =? scom_base)
  | NpuMmio g reg => home_npu_reg stack block reg && (g =? gcid)
  | Xscom g r => home_xscom i r && (g =? gcid)
  | Mmio _ _ => false
  end.

(** The stores that go elsewhere: to another chip or NPU, to another
    stack, to the OTL or NTL block or the fence control of the other
    brick of the stack, to the ODL of another brick, to the other OBUS,
    or to memory-mapped I/O outside the NPU registers. *)
Definition stray_store (gcid scom_base i : Z) (stack : npu2_stack) (block : npu2_block)
    (e : event) : option location :=
  match e with
  | EvWrite l _ => if home_store gcid scom_base i stack block l then None else Some l
  | _ => None
  end.

(** The load of [XSL_GP] and the stores to the errata registers [XSL_GP]
    and [XSL_DEF]. *)
Inductive errata_obs : Type :=
| GpLoad (v : Z)
| GpStore (v : Z)
| DefStore (v : Z).

Definition errata_observe (e : event) : option errata_obs :=
  match e with
  | EvRead (NpuScom _ _ (NPU2_REG_OFFSET _ NPU2_BLOCK_XSL NPU2_XSL_GP)) v =>
      Some (GpLoad v)
  | EvWrite (NpuScom _ _ (NPU2_REG_OFFSET _ NPU2_BLOCK_XSL NPU2_XSL_GP)) v =>
      Some (GpStore v)
  | EvWrite (NpuScom _ _ (NPU2_REG_OFFSET _ NPU2_BLOCK_XSL NPU2_XSL_DEF)) v =>
      Some (DefStore v)
  | _ => None
  end.

(** The stores to the registers that a brick shares with others: the
    PowerBus registers and the PHY configuration of an OBUS, and the NPU
    registers without a stack. *)
Definition is_shared_xscom (r : xscom_reg) : bool :=
  match r with
  | PU_IOE_PB_MISC_CFG | PU_IOE_PB_FP01_CFG | PU_IOE_PB_FP23_CFG
  | PU_IOE_PB_FP45_CFG | PU_IOE_PB_FP67_CFG
  | OBUS_LL0_IOOL_PHY_CONFIG | OBUS_LL3_IOOL_PHY_CONFIG => true
  | _ => false
  end.

Definition shared_store (e : event) : option location :=
  match e with
  | EvWrite (Xscom g r) _ => if is_shared_xscom r then Some (Xscom g r) else None
  | EvWrite (NpuScom _ _ (NPU2_REG_OFFSET _ _ _)) _ => None
  | EvWrite (NpuScom g b reg) _ => Some (NpuScom g b reg)
  | _ => None
  end.

(** The shared registers that [brick_config] stores to, in its order;
    [phy] is the PHY configuration of the brick's OBUS. *)
Definition brick_config_shared (gcid scom_base : Z) (phy : xscom_reg) : list location :=
  [Xscom gcid phy;
   NpuScom gcid scom_base NPU2_MISC_OPTICAL_IO_CFG0;
   Xscom gcid PU_IOE_PB_MISC_CFG;
   Xscom gcid phy;
   Xscom gcid PU_IOE_PB_FP01_CFG; Xscom gcid PU_IOE_PB_FP23_CFG;
   Xscom gcid PU_IOE_PB_FP45_CFG; Xscom gcid PU_IOE_PB_FP67_CFG;
   NpuScom gcid scom_base NPU2_XTS_CFG;
   NpuScom gcid scom_base NPU2_XTS_CFG2].

(** ** Polls of the ODL status, and time *)

(** The loads of the xscom register [reg] of chip [gcid]. *)
Definition xscom_load_observe (gcid : Z) (reg : xscom_reg) (e : event) : option Z :=
  match e with
  | EvRead (Xscom g r) v =>
      if (g =? gcid) && xscom_reg_beq r reg then Some v else None
  | _ => None
  end.

(** A computation that returns after at least [d] ticks of the time
    base. *)
Definition lasts {A} (c : M A) (d : Z) : Prop :=
  forall w, exists a w', c w = Done a w' /\ tb w + d <= tb w'.

(** The I2C bytes of [reset_ocapi_device] for a brick: [i2c_odl0_data]
    for bricks 2 and 4, [i2c_odl1_data] for bricks 3 and 5. *)
Definition reset_data (P : platform_ocapi) (block : npu2_block) : Z * Z * Z :=
  if npu2_block_beq block NPU2_BLOCK_OTL0 then i2c_odl0_data P else i2c_odl1_data P.

Definition log_i2c_error : string := "OCAPI: Error writing I2C reset signal: %d".

(** ** Computations that leave the hardware alone *)

(** A computation that returns [a] with [Q a] without any access or wait:
    the step counter and the time base are as before. *)
Definition idle {A} (c : M A) (Q : A -> Prop) : Prop :=
  forall w, exists a w',
    c w = Done a w' /\ steps w' = steps w /\ tb w' = tb w /\ Q a.

(** ** Config-space writes *)

Section ConfigWrite.
Variable K : constants.
Variable H : hardware.

(** [out_8], [out_le16], [out_le32]: a store of [size] bytes. *)
Definition mmio_write (addr size v : Z) : M unit :=
  write_loc H (Mmio addr size) (v mod 2 ^ (8 * size)).

Definition npu2_opencapi_pcicfg_write (phb : phb) (bdfn offset size data : Z)
    : M opal_rc :=
  let dev := phb_to_npu2_dev_ocapi phb in
  let rc := npu2_opencapi_pcicfg_check dev offset size in
  if negb (opal_rc_eqb rc OPAL_SUCCESS) then ret rc
  else
    dev <- assert_some dev ;;
    block <- assert_some (index_to_block (index dev)) ;;
    let genid_base :=
      bar1_base dev + (if npu2_block_beq block NPU2_BLOCK_OTL1 then 256 else 0) in
    let cfg_addr := NPU2_CQ_CTL_CONFIG_ADDR_ENABLE K in
    let cfg_addr :=
      SETFIELD (Z.lor (Z.lor (NPU2_CQ_CTL_CONFIG_ADDR_BUS_NUMBER K)
                             (NPU2_CQ_CTL_CONFIG_ADDR_DEVICE_NUMBER K))
                      (NPU2_CQ_CTL_CONFIG_ADDR_FUNCTION_NUMBER K))
               cfg_addr bdfn in
    let cfg_addr :=
      SETFIELD (NPU2_CQ_CTL_CONFIG_ADDR_REGISTER_NUMBER K) cfg_addr
               (Z.land offset (u32 (Z.lnot 3))) in
    write_loc H (Mmio genid_base 8) cfg_addr ;;;
    emit EvSync ;;;
    match size with
    | 1 => mmio_write (genid_base + 128 + Z.land offset 3) 1 data ;;; ret OPAL_SUCCESS
    | 2 => mmio_write (genid_base + 128 + Z.land offset 2) 2 data ;;; ret OPAL_SUCCESS
    | 4 => mmio_write (genid_base + 128) 4 data ;;; ret OPAL_SUCCESS
    | _ => ret OPAL_PARAMETER
    end.

(** [NPU2_OPENCAPI_PCI_CFG_WRITE(size, type)] at [u8], [u16] and [u32]:
    [data] arrives as a value of the type. *)
Definition npu2_opencapi_pcicfg_write8 (phb : phb) (bdfn offset data : Z) : M opal_rc :=
  npu2_opencapi_pcicfg_write phb bdfn offset 1 (data mod 2 ^ 8).

Definition npu2_opencapi_pcicfg_write16 (phb : phb) (bdfn offset data : Z) : M opal_rc :=
  npu2_opencapi_pcicfg_write phb bdfn offset 2 (data mod 2 ^ 16).

Definition npu2_opencapi_pcicfg_write32 (phb : phb) (bdfn offset data : Z) : M opal_rc :=
  npu2_opencapi_pcicfg_write phb bdfn offset 4 (data mod 2 ^ 32).
End ConfigWrite.

(** The base of the config window of a device in block [block]. *)
Definition genid_window (dev : npu2_dev) (block : npu2_block) : Z :=
  bar1_base dev + (if npu2_block_beq block NPU2_BLOCK_OTL1 then 256 else 0).

(** ** Calls of [lock] and [unlock] on an NPU, and the accesses between them *)

Inductive lock_obs : Type :=
| LockCall (gcid : Z)
| UnlockCall (gcid : Z)
| Touch.

(** The calls [lock(&npu->lock)] and [unlock(&npu->lock)] as the OPAL
    calls make them, and every access to the hardware (a load, a store, a
    wait).  What a call of [lock] does to the lock is [lock_caller]'s
    matter; here the calls are seen, not their effect. *)
Definition lock_observe (e : event) : option lock_obs :=
  match e with
  | EvLock c => Some (LockCall c)
  | EvUnlock c => Some (UnlockCall c)
  | EvRead _ _ | EvWrite _ _ | EvWait _ | EvI2c _ _ _ _ => Some Touch
  | _ => None
  end.

(** [lock] is called on NPU [c], [n] accesses are made, [unlock] is
    called. *)
Definition locked_run (c : Z) (n : nat) : list lock_obs :=
  LockCall c :: repeat Touch n ++ [UnlockCall c].

(** ** Transaction layer and address translation of a brick *)

(** The field masks of [npu2-regs.h] that [tl_config] and
    [address_translation_config] use, as parameters like [constants]. *)
Record tl_constants : Type := {
  NPU2_OTL_CONFIG0_BLOCK_PE_HANDLE : Z;
  NPU2_OTL_CONFIG0_BRICKID : Z;
  NPU2_OTL_CONFIG0_ERAT_HASH_0 : Z;
  NPU2_OTL_CONFIG0_ERAT_HASH_1 : Z;
  NPU2_OTL_CONFIG0_ERAT_HASH_2 : Z;
  NPU2_OTL_CONFIG0_ERAT_HASH_3 : Z;
  NPU2_OTL_CONFIG1_TX_TEMP0_RATE : Z;
  NPU2_OTL_CONFIG1_TX_DRDY_WAIT : Z;
  NPU2_OTL_CONFIG1_TX_CRET_FREQ : Z;
  NPU2_OTL_CONFIG1_TX_AGE_FREQ : Z;
  NPU2_OTL_CONFIG1_TX_RS2_HPWAIT : Z;
  NPU2_OTL_CONFIG1_TX_RQ4_HPWAIT : Z;
  NPU2_OTL_CONFIG1_TX_RQ6_HPWAIT : Z;
  NPU2_OTL_TLX_CREDITS_VC0_CREDITS : Z;
  NPU2_OTL_TLX_CREDITS_VC3_CREDITS : Z;
  NPU2_OTL_TLX_CREDITS_DCP0_CREDITS : Z;
  NPU2_OTL_TLX_CREDITS_DCP1_CREDITS : Z;
  NPU2_XSL_PSL_SCNTL_A0_MULTI_AFU_DIAL : Z;
  NPU2_XSL_GP_BLOOM_FILTER_ENABLE : Z
}.

(** [struct proc_chip] as far as [get_nimbus_level] reads it ([chip.h] is
    not among the sources). *)
Inductive proc_chip_type : Type := PROC_CHIP_P9_NIMBUS | PROC_CHIP_OTHER.

Record proc_chip : Type := {
  chip_type : proc_chip_type;
  ec_level : Z
}.

(** [next_chip(NULL)] is the argument. *)
Definition get_nimbus_level (chip : option proc_chip) : Z :=
  match chip with
  | Some c =>
      match chip_type c with
      | PROC_CHIP_P9_NIMBUS => Z.land (ec_level c) 255
      | PROC_CHIP_OTHER => -1
      end
  | None => -1
  end.

Section TlConfig.
Variable K : constants.
Variable T : tl_constants.
Variable H : hardware.

(** The values the source writes in binary are in hexadecimal here. *)
Definition tl_config (gcid scom_base index : Z) : M unit :=
  stack <- assert_some (index_to_stack index) ;;
  block <- assert_some (index_to_block index) ;;
  prlog PR_DEBUG "OCAPI: %s: TL Configuration" [] ;;;
  let reg := 0 in
  let reg := Z.lor reg (NPU2_OTL_CONFIG0_EN K) in
  let reg := Z.lor reg (NPU2_OTL_CONFIG0_BLOCK_PE_HANDLE T) in
  let reg := SETFIELD (NPU2_OTL_CONFIG0_BRICKID T) reg (index - 2) in
  let reg := SETFIELD (NPU2_OTL_CONFIG0_ERAT_HASH_0 T) reg 0x19 in
  let reg := SETFIELD (NPU2_OTL_CONFIG0_ERAT_HASH_1 T) reg 0x7 in
  let reg := SETFIELD (NPU2_OTL_CONFIG0_ERAT_HASH_2 T) reg 0x2c in
  let reg := SETFIELD (NPU2_OTL_CONFIG0_ERAT_HASH_3 T) reg 0x26 in
  npu2_scom_write H gcid scom_base (NPU2_OTL_CONFIG0 stack block) reg ;;;
  let reg := 0 in
  let reg := SETFIELD (NPU2_OTL_CONFIG1_TX_TEMP0_RATE T) reg 0xf in
  let reg := SETFIELD (NPU2_OTL_CONFIG1_TX_DRDY_WAIT T) reg 0x1 in
  let reg := SETFIELD (NPU2_OTL_CONFIG1_TX_CRET_FREQ T) reg 0x1 in
  let reg := SETFIELD (NPU2_OTL_CONFIG1_TX_AGE_FREQ T) reg 0x18 in
  let reg := SETFIELD (NPU2_OTL_CONFIG1_TX_RS2_HPWAIT T) reg 0x1b in
  let reg := SETFIELD (NPU2_OTL_CONFIG1_TX_RQ4_HPWAIT T) reg 0x1b in
  let reg := SETFIELD (NPU2_OTL_CONFIG1_TX_RQ6_HPWAIT T) reg 0x1b in
  npu2_scom_write H gcid scom_base (NPU2_OTL_CONFIG1 stack block) reg ;;;
  let reg := 0 in
  let reg := SETFIELD (NPU2_OTL_TLX_CREDITS_VC0_CREDITS T) reg 0x40 in
  let reg := SETFIELD (NPU2_OTL_TLX_CREDITS_VC3_CREDITS T) reg 0x40 in
  let reg := SETFIELD (NPU2_OTL_TLX_CREDITS_DCP0_CREDITS T) reg 0x80 in
  let reg := SETFIELD (NPU2_OTL_TLX_CREDITS_DCP1_CREDITS T) reg 0x80 in
  npu2_scom_write H gcid scom_base (NPU2_OTL_TLX_CREDITS stack block) reg.

Definition address_translation_config (chip : option proc_chip)
    (gcid scom_base index : Z) : M unit :=
  stack <- assert_some (index_to_stack index) ;;
  prlog PR_DEBUG "OCAPI: %s: Address Translation Configuration" [] ;;;
  reg <- npu2_scom_read H gcid scom_base
           (NPU2_REG_OFFSET stack NPU2_BLOCK_XSL NPU2_XSL_PSL_SCNTL_A0) ;;
  let reg := Z.lor reg (NPU2_XSL_PSL_SCNTL_A0_MULTI_AFU_DIAL T) in
  npu2_scom_write H gcid scom_base
    (NPU2_REG_OFFSET stack NPU2_BLOCK_XSL NPU2_XSL_PSL_SCNTL_A0) reg ;;;
  let chip_level := get_nimbus_level chip in
  (if chip_level =? 0x20 then
     reg <- npu2_scom_read H gcid scom_base
              (NPU2_REG_OFFSET stack NPU2_BLOCK_XSL NPU2_XSL_GP) ;;
     npu2_scom_write H gcid scom_base
       (NPU2_REG_OFFSET stack NPU2_BLOCK_XSL NPU2_XSL_GP) 0x0523790323000000 ;;;
     let reg := Z.land reg (not64 (NPU2_XSL_GP_BLOOM_FILTER_ENABLE T)) in
     npu2_scom_write H gcid scom_base
       (NPU2_REG_OFFSET stack NPU2_BLOCK_XSL NPU2_XSL_GP) reg
   else ret tt) ;;;
  if (chip_level =? 0x20) || (chip_level =? 0x21) then
    let reg := 0x32F8000000000001 in
    npu2_scom_write H gcid scom_base
      (NPU2_REG_OFFSET stack NPU2_BLOCK_XSL NPU2_XSL_DEF) reg
  else ret tt.
End TlConfig.

(** The fields of [OTL_CONFIG0] and of [OTL_CONFIG1] that [tl_config]
    sets with [SETFIELD]. *)
Definition config0_fields (T : tl_constants) : list Z :=
  [NPU2_OTL_CONFIG0_BRICKID T; NPU2_OTL_CONFIG0_ERAT_HASH_0 T;
   NPU2_OTL_CONFIG0_ERAT_HASH_1 T; NPU2_OTL_CONFIG0_ERAT_HASH_2 T;
   NPU2_OTL_CONFIG0_ERAT_HASH_3 T].

Definition config1_fields (T : tl_constants) : list Z :=
  [NPU2_OTL_CONFIG1_TX_TEMP0_RATE T; NPU2_OTL_CONFIG1_TX_DRDY_WAIT T;
   NPU2_OTL_CONFIG1_TX_CRET_FREQ T; NPU2_OTL_CONFIG1_TX_AGE_FREQ T;
   NPU2_OTL_CONFIG1_TX_RS2_HPWAIT T; NPU2_OTL_CONFIG1_TX_RQ4_HPWAIT T;
   NPU2_OTL_CONFIG1_TX_RQ6_HPWAIT T].

(** Sample masks with disjoint fields. *)
Definition p9_tl_constants : tl_constants := {|
  NPU2_OTL_CONFIG0_BLOCK_PE_HANDLE := PPC_BIT 1;
  NPU2_OTL_CONFIG0_BRICKID := PPC_BITMASK 2 3;
  NPU2_OTL_CONFIG0_ERAT_HASH_0 := PPC_BITMASK 8 13;
  NPU2_OTL_CONFIG0_ERAT_HASH_1 := PPC_BITMASK 14 19;
  NPU2_OTL_CONFIG0_ERAT_HASH_2 := PPC_BITMASK 20 25;
  NPU2_OTL_CONFIG0_ERAT_HASH_3 := PPC_BITMASK 26 31;
  NPU2_OTL_CONFIG1_TX_TEMP0_RATE := PPC_BITMASK 8 11;
  NPU2_OTL_CONFIG1_TX_DRDY_WAIT := PPC_BITMASK 5 7;
  NPU2_OTL_CONFIG1_TX_CRET_FREQ := PPC_BITMASK 32 34;
  NPU2_OTL_CONFIG1_TX_AGE_FREQ := PPC_BITMASK 35 39;
  NPU2_OTL_CONFIG1_TX_RS2_HPWAIT := PPC_BITMASK 40 45;
  NPU2_OTL_CONFIG1_TX_RQ4_HPWAIT := PPC_BITMASK 46 51;
  NPU2_OTL_CONFIG1_TX_RQ6_HPWAIT := PPC_BITMASK 52 57;
  NPU2_OTL_TLX_CREDITS_VC0_CREDITS := PPC_BITMASK 0 7;
  NPU2_OTL_TLX_CREDITS_VC3_CREDITS := PPC_BITMASK 24 31;
  NPU2_OTL_TLX_CREDITS_DCP0_CREDITS := PPC_BITMASK 32 39;
  NPU2_OTL_TLX_CREDITS_DCP1_CREDITS := PPC_BITMASK 56 63;
  NPU2_XSL_PSL_SCNTL_A0_MULTI_AFU_DIAL := PPC_BIT 0;
  NPU2_XSL_GP_BLOOM_FILTER_ENABLE := PPC_BIT 16
|}.

(** ** The config window of a brick *)

(** The bytes that a load or a store of memory-mapped I/O touches: the
    first address and the one after the last. *)
Definition mmio_observe (e : event) : option (Z * Z) :=
  match e with
  | EvRead (Mmio a s) _ | EvWrite (Mmio a s) _ => Some (a, a + s)
  | _ => None
  end.

Definition within (lo hi : Z) (r : Z * Z) : Prop := lo <= fst r /\ snd r <= hi.

(** Where the config window of brick [index] starts: the GENID range of
    its stack, and 256 bytes further for the second brick of the stack. *)
Definition brick_window (H : hardware) (gcid index : Z) : Z :=
  fst (hw_phys_map H gcid NPU_GENID (if index <? 4 then 1 else 2))
  + (if Z.odd index then 256 else 0).

(** The address word that a config access stores first. *)
Definition config_addr_word (K : constants) (bdfn offset : Z) : Z :=
  SETFIELD (NPU2_CQ_CTL_CONFIG_ADDR_REGISTER_NUMBER K)
    (SETFIELD (Z.lor (Z.lor (NPU2_CQ_CTL_CONFIG_ADDR_BUS_NUMBER K)
                            (NPU2_CQ_CTL_CONFIG_ADDR_DEVICE_NUMBER K))
                     (NPU2_CQ_CTL_CONFIG_ADDR_FUNCTION_NUMBER K))
       (NPU2_CQ_CTL_CONFIG_ADDR_ENABLE K) bdfn)
    (Z.land offset (u32 (Z.lnot 3))).

(** ** Time along a run *)

(** What an event costs.  The events made by [access] (a load, a store,
    an I2C request, a PHY procedure) move the step counter and the time
    base by the latency of the hardware, a wait by its length besides;
    the other events take no time.  [now] is the step counter and the
    time base. *)
Definition tick (H : hardware) (e : event) (now : nat * Z) : nat * Z :=
  match e with
  | EvRead _ _ | EvWrite _ _ | EvI2c _ _ _ _
  | EvBumpLane _ | EvPhySetup _ | EvPhyPrbs31 _ =>
      (S (fst now), snd now + Z.of_nat (hw_lat H (fst now)))
  | EvWait k => (S (fst now), snd now + k + Z.of_nat (hw_lat H (fst now)))
  | _ => now
  end.

(** The step counter and the time base after the events [evs], the
    earliest first. *)
Definition clock (H : hardware) (evs : list event) (now : nat * Z) : nat * Z :=
  fold_left (fun now e => tick H e now) evs now.

(** What the observer [f] sees of the events [evs], the earliest first,
    each sight with the time base at which its event began. *)
Fixpoint stamped {X} (H : hardware) (f : event -> option X) (evs : list event)
    (now : nat * Z) : list (Z * X) :=
  match evs with
  | [] => []
  | e :: evs' =>
      match f e with
      | Some x => (snd now, x) :: stamped H f evs' (tick H e now)
      | None => stamped H f evs' (tick H e now)
      end
  end.

(** A computation that returns [a] after the events [evs], which account
    for the step counter and the time base it leaves, and of which [f]
    sees [obs], with [Q a obs]. *)
Definition timed {X} (H : hardware) (f : event -> option X) {A} (c : M A)
    (Q : A -> list (Z * X) -> Prop) : Prop :=
  forall w, exists a w' evs,
    c w = Done a w' /\
    trace w' = rev evs ++ trace w /\
    (steps w', tb w') = clock H evs (steps w, tb w) /\
    Q a (stamped H f evs (steps w, tb w)).

Definition tquiet {X} (H : hardware) (f : event -> option X) {A} (c : M A) : Prop :=
  timed H f c (fun _ obs => obs = []).

(** ** The fence cycle, with its deadlines *)

(** What is seen of the fence of brick [i]: what [fence_observe] sees,
    and the error that [set_fence_control] logs for the brick. *)
Inductive fence_sight : Type :=
| Seen (o : fence_obs)
| Stuck (expected got : Z).

Definition log_fence_stuck : string :=
  "OCAPI: Fence status for brick %d stuck: expected 0x%x, got 0x%x".

Definition fence_watch (i : Z) (stack : npu2_stack) (block : npu2_block) (e : event)
    : option fence_sight :=
  match fence_observe stack block e with
  | Some o => Some (Seen o)
  | None =>
      match e with
      | EvLog PR_ERR msg [b; expected; got] =>
          if String.eqb msg log_fence_stuck && (b =? i)
          then Some (Stuck expected got) else None
      | _ => None
      end
  end.

(** One call of [set_fence_control] as [fence_watch] sees it, each sight
    with its time: the store of [status] at [t0]; at least one load of
    the status register; of the loads, none before the last shows
    [status]; and either the last load shows it and nothing follows, or
    it does not, and the error follows with the state asked for and the
    state last read, not before [t0] plus the 10 ms of the deadline. *)
Definition timed_episode (K : constants) (block : npu2_block) (status : Z)
    (ep : list (Z * fence_sight)) : Prop :=
  exists t0 pre tv v tail,
    ep = (t0, Seen (FenceWrite
                      (SETFIELD (NPU2_CQ_CTL_FENCE_CONTROL_REQUEST_FENCE K) 0 status)))
         :: map (fun p => (fst p, Seen (StatusRead (snd p)))) (pre ++ [(tv, v)])
         ++ tail /\
    Forall (fun p => fence_echoes K block status (snd p) = false) pre /\
    (fence_echoes K block status v = true /\ tail = [] \/
     fence_echoes K block status v = false /\
     exists t1,
       tail = [(t1, Stuck status (u8 (GETFIELD (fence_status_field K block) v)))] /\
       t0 + msecs_to_tb CQ_CTL_STATUS_TIMEOUT <= t1).

(** The three episodes of the fence cycle, with their deadlines. *)
Definition timed_fence_cycle (K : constants) (block : npu2_block)
    (obs : list (Z * fence_sight)) : Prop :=
  exists e1 e3 e2,
    obs = e1 ++ e3 ++ e2 /\
    timed_episode K block 1 e1 /\
    timed_episode K block 3 e3 /\
    timed_episode K block 2 e2.

(* ================================================================== *)
(** * Part II: theorems                                               *)
(* ================================================================== *)

(** ** Bit fields *)

Arguments SETFIELD : simpl never.
Arguments GETFIELD : simpl never.
Arguments u64 : simpl never.
Arguments u32 : simpl never.
Arguments u8 : simpl never.
Arguments not64 : simpl never.
Arguments PPC_BIT : simpl never.
Arguments PPC_BITMASK : simpl never.
Arguments msecs_to_tb : simpl never.
Arguments usecs_to_tb : simpl never.

Lemma PPC_BIT_pow2 (b : Z) : 0 <= b <= 63 -> PPC_BIT b = 2 ^ (63 - b).
Proof.
  intros Hb. unfold PPC_BIT.
  rewrite Z.shiftr_div_pow2 by lia.
  rewrite <- Z.pow_sub_r by lia. reflexivity.
Qed.

Lemma testbit_PPC_BIT (b i : Z) :
  0 <= b <= 63 -> Z.testbit (PPC_BIT b) i = (63 - b =? i).
Proof.
  intros Hb. rewrite PPC_BIT_pow2 by lia.
  apply Z.pow2_bits_eqb. lia.
Qed.

Lemma testbit_field_mask (lo w i : Z) :
  0 <= lo -> 0 <= w ->
  Z.testbit (field_mask lo w) i = (lo <=? i) && (i <? lo + w).
Proof.
  intros Hlo Hw. unfold field_mask.
  destruct (Z.leb_spec lo i); destruct (Z.ltb_spec i (lo + w)); simpl.
  - rewrite Z.shiftl_spec by lia. apply Z.ones_spec_low. lia.
  - rewrite Z.shiftl_spec by lia. apply Z.ones_spec_high. lia.
  - destruct (Z.ltb_spec i 0).
    + apply Z.testbit_neg_r. lia.
    + apply Z.shiftl_spec_low. lia.
  - destruct (Z.ltb_spec i 0).
    + apply Z.testbit_neg_r. lia.
    + apply Z.shiftl_spec_low. lia.
Qed.

Lemma PPC_BITMASK_field (bs be : Z) :
  0 <= bs <= be -> be <= 63 ->
  PPC_BITMASK bs be = field_mask (63 - be) (be - bs + 1).
Proof.
  intros H1 H2. unfold PPC_BITMASK.
  rewrite !PPC_BIT_pow2 by lia.
  assert (E : 2 ^ (63 - bs) - 2 ^ (63 - be) = field_mask (63 - be) (be - bs)).
  { unfold field_mask. rewrite Z.shiftl_mul_pow2 by lia.
    rewrite Z.ones_equiv, <- Z.sub_1_r.
    replace (63 - bs) with ((be - bs) + (63 - be)) by lia.
    rewrite Z.pow_add_r by lia. ring. }
  rewrite E.
  apply Z.bits_inj'. intros i Hi.
  rewrite Z.lor_spec, !testbit_field_mask by lia.
  rewrite Z.pow2_bits_eqb by lia.
  destruct (Z.leb_spec (63 - be) i); destruct (Z.ltb_spec i (63 - be + (be - bs)));
    destruct (Z.eqb_spec (63 - bs) i); destruct (Z.ltb_spec i (63 - be + (be - bs + 1)));
    simpl; try reflexivity; lia.
Qed.

Lemma pos_ctz_nonneg p : 0 <= pos_ctz p.
Proof. induction p; cbn [pos_ctz]; lia. Qed.

Lemma MASK_TO_LSH_double (z : Z) : 0 < z -> MASK_TO_LSH (2 * z) = 1 + MASK_TO_LSH z.
Proof. destruct z; try lia. intros _. reflexivity. Qed.

Lemma MASK_TO_LSH_odd (z : Z) : 0 <= z -> MASK_TO_LSH (2 * z + 1) = 0.
Proof. destruct z; try lia; intros _; reflexivity. Qed.

Lemma MASK_TO_LSH_shiftl (z : Z) (n : nat) :
  0 < z -> MASK_TO_LSH (Z.shiftl z (Z.of_nat n)) = Z.of_nat n + MASK_TO_LSH z.
Proof.
  intros Hz. induction n as [|n IH].
  - change (Z.of_nat 0) with 0. rewrite Z.shiftl_0_r. lia.
  - rewrite Nat2Z.inj_succ, <- Z.add_1_r.
    rewrite <- Z.shiftl_shiftl by lia.
    rewrite (Z.shiftl_mul_pow2 _ 1) by lia. change (2 ^ 1) with 2.
    rewrite Z.mul_comm, MASK_TO_LSH_double.
    + rewrite IH. lia.
    + rewrite Z.shiftl_mul_pow2 by lia. apply Z.mul_pos_pos; [lia|].
      apply Z.pow_pos_nonneg; lia.
Qed.

Lemma MASK_TO_LSH_field (lo w : Z) :
  0 <= lo -> 0 < w -> MASK_TO_LSH (field_mask lo w) = lo.
Proof.
  intros Hlo Hw. unfold field_mask.
  assert (Hones : Z.ones w = 2 * Z.ones (w - 1) + 1).
  { rewrite !Z.ones_equiv, <- !Z.sub_1_r.
    replace w with (1 + (w - 1)) at 1 by lia.
    rewrite Z.pow_add_r by lia. change (2 ^ 1) with 2. lia. }
  assert (Hpos : 0 <= Z.ones (w - 1)).
  { rewrite Z.ones_equiv. pose proof (Z.pow_pos_nonneg 2 (w - 1)). lia. }
  rewrite <- (Z2Nat.id lo) at 1 by lia.
  rewrite MASK_TO_LSH_shiftl.
  - rewrite Hones, MASK_TO_LSH_odd by lia. lia.
  - lia.
Qed.

Lemma testbit_not64 (m i : Z) :
  0 <= i -> Z.testbit (not64 m) i = xorb (Z.testbit m i) (i <? 64).
Proof.
  intros Hi. unfold not64. rewrite Z.lxor_spec. f_equal.
  destruct (Z.ltb_spec i 64).
  - apply Z.ones_spec_low. lia.
  - apply Z.ones_spec_high. lia.
Qed.

Lemma testbit_u64 (z i : Z) : Z.testbit (u64 z) i = (i <? 64) && Z.testbit z i.
Proof. unfold u64. apply Z.testbit_mod_pow2. lia. Qed.

Lemma testbit_SETFIELD (lo w v x i : Z) :
  0 <= lo -> 0 < w -> lo + w <= 64 -> 0 <= i ->
  Z.testbit (SETFIELD (field_mask lo w) v x) i =
  if (lo <=? i) && (i <? lo + w) then Z.testbit x (i - lo)
  else (i <? 64) && Z.testbit v i.
Proof.
  intros Hlo Hw Hhi Hi. unfold SETFIELD.
  rewrite MASK_TO_LSH_field by lia.
  rewrite Z.lor_spec, !Z.land_spec, testbit_not64, !testbit_u64 by lia.
  rewrite Z.shiftl_spec, testbit_u64, testbit_field_mask by lia.
  destruct (Z.leb_spec lo i); destruct (Z.ltb_spec i (lo + w));
    destruct (Z.ltb_spec i 64); destruct (Z.ltb_spec (i - lo) 64); simpl;
    try lia; rewrite ?andb_false_r, ?andb_true_r, ?orb_false_r; simpl;
    try reflexivity; try (destruct (Z.testbit v i); reflexivity).
  all: try (rewrite Z.testbit_neg_r by lia; reflexivity).
Qed.

Lemma testbit_GETFIELD (lo w v i : Z) :
  0 <= lo -> 0 < w -> 0 <= i ->
  Z.testbit (GETFIELD (field_mask lo w) v) i = (i <? w) && Z.testbit v (i + lo).
Proof.
  intros Hlo Hw Hi. unfold GETFIELD.
  rewrite MASK_TO_LSH_field by lia.
  rewrite Z.shiftr_spec, Z.land_spec, testbit_field_mask by lia.
  destruct (Z.leb_spec lo (i + lo)); destruct (Z.ltb_spec (i + lo) (lo + w));
    destruct (Z.ltb_spec i w); simpl; try lia;
    rewrite ?andb_false_r, ?andb_true_r; reflexivity.
Qed.

(** ** The brick-index algebra *)

Ltac index_cases H :=
  destruct H as [H | [H | [H | H]]]; subst.

Lemma invalid_index_cases (i : Z) (P : Z -> Prop) :
  ~ valid_index i ->
  (forall j, match j with 2 | 3 | 4 | 5 => False | _ => True end -> P j) -> P i.
Proof.
  intros Hi HP. apply HP. unfold valid_index in Hi.
  destruct i as [|p|p]; try exact I.
  destruct p as [p|p|]; try exact I;
  destruct p as [p|p|]; try exact I; try lia;
  destruct p as [p|p|]; try exact I; try lia.
Qed.

Lemma brick_row_invalid (i : Z) :
  ~ valid_index i -> brick_row i = (None, None, None, None, None, None).
Proof.
  intros Hi. unfold valid_index in Hi.
  destruct i as [|p|p]; try reflexivity.
  destruct p as [p|p|]; try reflexivity;
  destruct p as [p|p|]; try reflexivity; try lia;
  destruct p as [p|p|]; try reflexivity; try lia.
Qed.

(** C6. The brick-index switches are defined exactly on 2, 3, 4 and 5, where
    they give the rows of the table (on stack 2 the ODL numbering is
    swapped: index 4 uses ODL1, index 5 uses ODL0); on every other index
    each of them is the [assert(false)] arm, and the functions that hold
    the switches die there. *)
Theorem brick_index_algebra :
  brick_row 2 = (Some NPU2_STACK_STCK_1, Some NPU2_STACK_STCK_1U, Some NPU2_BLOCK_OTL0,
                 Some OB0_ODL0_STATUS, Some OB0_ODL0_CONFIG, Some OBUS_LL0_IOOL_PHY_CONFIG) /\
  brick_row 3 = (Some NPU2_STACK_STCK_1, Some NPU2_STACK_STCK_1U, Some NPU2_BLOCK_OTL1,
                 Some OB0_ODL1_STATUS, Some OB0_ODL1_CONFIG, Some OBUS_LL0_IOOL_PHY_CONFIG) /\
  brick_row 4 = (Some NPU2_STACK_STCK_2, Some NPU2_STACK_STCK_2U, Some NPU2_BLOCK_OTL0,
                 Some OB3_ODL1_STATUS, Some OB3_ODL1_CONFIG, Some OBUS_LL3_IOOL_PHY_CONFIG) /\
  brick_row 5 = (Some NPU2_STACK_STCK_2, Some NPU2_STACK_STCK_2U, Some NPU2_BLOCK_OTL1,
                 Some OB3_ODL0_STATUS, Some OB3_ODL0_CONFIG, Some OBUS_LL3_IOOL_PHY_CONFIG) /\
  (forall i, ~ valid_index i ->
     brick_row i = (None, None, None, None, None, None) /\
     forall K P H gcid dev w,
       get_odl_status H gcid i w = Fatal w /\
       disable_nvlink K H gcid i w = Fatal w /\
       (exists w', enable_odl_phy_mux K P H gcid i w = Fatal w') /\
       (exists w', odl_train K P H gcid i dev w = Fatal w')).
Proof.
  repeat split; try reflexivity.
  - apply brick_row_invalid; assumption.
  - pose proof (brick_row_invalid i H) as E. unfold brick_row in E.
    injection E as _ _ _ E _ _. unfold get_odl_status, bind, assert_some. rewrite E. reflexivity.
  - pose proof (brick_row_invalid i H) as E. unfold brick_row in E.
    injection E as _ _ _ _ _ E. unfold disable_nvlink, bind, assert_some. rewrite E. reflexivity.
  - pose proof (brick_row_invalid i H) as E. unfold brick_row in E.
    injection E as _ _ _ _ _ E. unfold enable_odl_phy_mux, bind, assert_some, prlog, emit. rewrite E.
    eexists. reflexivity.
  - pose proof (brick_row_invalid i H) as E. unfold brick_row in E.
    injection E as _ _ _ _ E _. unfold odl_train, bind, assert_some, prlog, emit. rewrite E.
    eexists. reflexivity.
Qed.

(** ** The translation-fault interrupt of a brick *)

Lemma u32_small (z : Z) : 0 <= z < 4294967296 -> u32 z = z.
Proof. intros. unfold u32. apply Z.mod_small. assumption. Qed.

Lemma xsl_irq_spec (dev : npu2_dev) (stacku : npu2_stack) (block : npu2_block) :
  0 <= irq_base (npu dev) ->
  irq_base (npu dev) + NPU_IRQ_LEVELS <= 2 ^ 32 ->
  xsl_irq dev stacku block = spec_xsl_irq (irq_base (npu dev)) stacku block.
Proof.
  intros Hlo Hhi. unfold NPU_IRQ_LEVELS in Hhi.
  change (2 ^ 32) with 4294967296 in Hhi.
  unfold xsl_irq, spec_xsl_irq, NPU_IRQ_LEVELS_XSL.
  rewrite (u32_small (irq_base (npu dev) + 23)) by lia.
  destruct (npu2_stack_beq stacku NPU2_STACK_STCK_2U);
    destruct (npu2_block_beq block NPU2_BLOCK_OTL1);
    rewrite ?(u32_small (irq_base (npu dev) + 23 + 2)) by lia;
    rewrite ?u32_small by lia; lia.
Qed.

(** C9. Once [irq_base] is assigned (the 35 interrupt levels allocated from
    it are 32-bit numbers), the interrupt number [npu2_add_mmio_regs]
    publishes as [ibm,opal-xsl-irq] for a brick is [irq_base + 23], plus 2
    on upper stack [STCK_2U], plus 1 on block [OTL1]: bricks 2, 3, 4 and 5
    get [irq_base] + 23, 24, 25 and 26. *)
Theorem xsl_irq_number (K : constants) (p : phb) (dev : npu2_dev) (w : world) :
  phb_to_npu2_dev_ocapi p = Some dev ->
  valid_index (index dev) ->
  0 <= irq_base (npu dev) ->
  irq_base (npu dev) + NPU_IRQ_LEVELS <= 2 ^ 32 ->
  exists stacku block mmio w',
    index_to_stacku (index dev) = Some stacku /\
    index_to_block (index dev) = Some block /\
    npu2_add_mmio_regs K p w = Done 0 w' /\
    trace w' = EvDtProp "ibm,opal-xsl-mmio" mmio
               :: EvDtProp "ibm,opal-xsl-irq"
                    [spec_xsl_irq (irq_base (npu dev)) stacku block]
               :: trace w /\
    spec_xsl_irq (irq_base (npu dev)) stacku block
      = irq_base (npu dev) + 21 + index dev.
Proof.
  intros Hdev Hi Hlo Hhi.
  unfold npu2_add_mmio_regs, bind, assert_some. rewrite Hdev.
  index_cases Hi; rewrite Hi; cbn [index_to_block index_to_stacku];
    do 2 eexists; eexists; eexists;
    (split; [reflexivity|]); (split; [reflexivity|]);
    unfold emit, ret;
    (split; [reflexivity|]);
    cbn [trace];
    rewrite (xsl_irq_spec dev) by assumption;
    (split; [reflexivity|]);
    unfold spec_xsl_irq; cbn [npu2_stack_beq npu2_block_beq]; lia.
Qed.

Lemma xsl_irq_number_witness :
  exists stacku block mmio w',
    index_to_stacku 5 = Some stacku /\ index_to_block 5 = Some block /\
    npu2_add_mmio_regs p9_constants (sample_phb 5) world0 = Done 0 w' /\
    trace w' = [EvDtProp "ibm,opal-xsl-mmio" mmio;
                EvDtProp "ibm,opal-xsl-irq" [spec_xsl_irq 1024 stacku block]] /\
    spec_xsl_irq 1024 stacku block = 1024 + 21 + 5.
Proof.
  apply (xsl_irq_number p9_constants (sample_phb 5) (sample_dev 5) world0).
  - reflexivity.
  - unfold valid_index; simpl; lia.
  - simpl; lia.
  - vm_compute; congruence.
Defined.

(** ** Config-space reads *)

Lemma pcicfg_check_codes (dev : option npu2_dev) (offset size : Z) :
  npu2_opencapi_pcicfg_check dev offset size = OPAL_SUCCESS \/
  npu2_opencapi_pcicfg_check dev offset size = OPAL_PARAMETER.
Proof.
  unfold npu2_opencapi_pcicfg_check. destruct dev; [|auto].
  destruct (_ || _); auto.
Qed.

Lemma pcicfg_read_failure (K : constants) (H : hardware) (p : phb)
    (bdfn offset size data : Z) (w : world) (rc : opal_rc) (d : Z) (w' : world) :
  size = 1 \/ size = 2 \/ size = 4 ->
  npu2_opencapi_pcicfg_read K H p bdfn offset size data w = Done (rc, d) w' ->
  rc <> OPAL_SUCCESS ->
  d = data /\ w' = w /\
  npu2_opencapi_pcicfg_check (phb_to_npu2_dev_ocapi p) offset size = OPAL_PARAMETER.
Proof.
  intros Hsize Hrun Hrc. unfold npu2_opencapi_pcicfg_read in Hrun.
  destruct (pcicfg_check_codes (phb_to_npu2_dev_ocapi p) offset size) as [Hck | Hck];
    rewrite Hck in Hrun; cbn [opal_rc_eqb negb] in Hrun.
  - exfalso. unfold bind at 1 in Hrun.
    unfold npu2_opencapi_pcicfg_check in Hck.
    destruct (phb_to_npu2_dev_ocapi p) as [dev|]; [|discriminate].
    cbn [assert_some] in Hrun. unfold bind at 1 in Hrun.
    destruct (index_to_block (index dev)) as [b|]; cbn [assert_some] in Hrun;
      [|discriminate].
    destruct Hsize as [-> | [-> | ->]];
      cbn in Hrun; injection Hrun as <- _ _; congruence.
  - unfold ret in Hrun. injection Hrun as <- <- <-. auto.
Qed.

Lemma pcicfg_check_fails (dev : option npu2_dev) (offset size : Z) :
  dev = None \/ offset > 4095 \/ Z.land offset (u32 (size - 1)) <> 0 ->
  npu2_opencapi_pcicfg_check dev offset size = OPAL_PARAMETER.
Proof.
  intros Hc. unfold npu2_opencapi_pcicfg_check.
  destruct dev as [dev|]; [|reflexivity].
  destruct Hc as [Hc | [Hc | Hc]]; [discriminate | |].
  - destruct (Z.gtb_spec offset 4095); [reflexivity | lia].
  - destruct (Z.eqb_spec (Z.land offset (u32 (size - 1))) 0); [contradiction|].
    rewrite orb_true_r. reflexivity.
Qed.

(** C10. Each of [cfg_read8], [cfg_read16] and [cfg_read32] stores the
    all-ones value of its width into the caller's buffer before anything
    is checked: whenever the read returns a code other than [OPAL_SUCCESS]
    the buffer holds all-ones and no access was made, and an offset above
    0xFFF, a misaligned offset or a missing device makes it return
    [OPAL_PARAMETER] that way. *)
Theorem cfg_read_all_ones (K : constants) (H : hardware) (p : phb)
    (bdfn offset data : Z) (w : world) :
  (forall rc d w',
     npu2_opencapi_pcicfg_read8 K H p bdfn offset data w = Done (rc, d) w' ->
     rc <> OPAL_SUCCESS -> d = 255 /\ w' = w) /\
  (forall rc d w',
     npu2_opencapi_pcicfg_read16 K H p bdfn offset data w = Done (rc, d) w' ->
     rc <> OPAL_SUCCESS -> d = 65535 /\ w' = w) /\
  (forall rc d w',
     npu2_opencapi_pcicfg_read32 K H p bdfn offset data w = Done (rc, d) w' ->
     rc <> OPAL_SUCCESS -> d = 4294967295 /\ w' = w) /\
  (phb_to_npu2_dev_ocapi p = None \/ offset > 4095 ->
     npu2_opencapi_pcicfg_read8 K H p bdfn offset data w = Done (OPAL_PARAMETER, 255) w /\
     npu2_opencapi_pcicfg_read16 K H p bdfn offset data w = Done (OPAL_PARAMETER, 65535) w /\
     npu2_opencapi_pcicfg_read32 K H p bdfn offset data w
       = Done (OPAL_PARAMETER, 4294967295) w) /\
  (Z.land offset 1 <> 0 ->
     npu2_opencapi_pcicfg_read16 K H p bdfn offset data w = Done (OPAL_PARAMETER, 65535) w) /\
  (Z.land offset 3 <> 0 ->
     npu2_opencapi_pcicfg_read32 K H p bdfn offset data w
       = Done (OPAL_PARAMETER, 4294967295) w).
Proof.
  unfold npu2_opencapi_pcicfg_read8, npu2_opencapi_pcicfg_read16,
    npu2_opencapi_pcicfg_read32.
  change (4294967295 mod 2 ^ 8) with 255.
  change (4294967295 mod 2 ^ 16) with 65535.
  change (4294967295 mod 2 ^ 32) with 4294967295.
  assert (Hfail : forall size d0 rc d w',
             size = 1 \/ size = 2 \/ size = 4 ->
             npu2_opencapi_pcicfg_read K H p bdfn offset size d0 w = Done (rc, d) w' ->
             rc <> OPAL_SUCCESS -> d = d0 /\ w' = w).
  { intros size d0 rc d w' Hsize Hr Hrc.
    destruct (pcicfg_read_failure K H p bdfn offset size d0 w rc d w' Hsize Hr Hrc)
      as (Hd & Hw & _). auto. }
  assert (Hck : forall size d0,
             npu2_opencapi_pcicfg_check (phb_to_npu2_dev_ocapi p) offset size
               = OPAL_PARAMETER ->
             npu2_opencapi_pcicfg_read K H p bdfn offset size d0 w
               = Done (OPAL_PARAMETER, d0) w).
  { intros size d0 E. unfold npu2_opencapi_pcicfg_read. rewrite E. reflexivity. }
  split; [|split; [|split; [|split; [|split]]]].
  - intros rc d w'. apply Hfail. lia.
  - intros rc d w'. apply Hfail. lia.
  - intros rc d w'. apply Hfail. lia.
  - intros Hc. repeat split; apply Hck; apply pcicfg_check_fails; tauto.
  - intros Hc. apply Hck. apply pcicfg_check_fails. right; right. exact Hc.
  - intros Hc. apply Hck. apply pcicfg_check_fails. right; right. exact Hc.
Qed.

Lemma cfg_read_all_ones_witness :
  npu2_opencapi_pcicfg_read16 p9_constants (constant_hw 0 true) (sample_phb 2)
    0 5 0 world0 = Done (OPAL_PARAMETER, 65535) world0.
Proof.
  apply (cfg_read_all_ones p9_constants (constant_hw 0 true) (sample_phb 2)
           0 5 0 world0).
  vm_compute. congruence.
Defined.

(** ** PE mapping *)

Lemma array_set_nth (l : list Z) (i : nat) (v : Z) :
  (i < List.length l)%nat -> nth i (array_set l i v) 0 = v.
Proof.
  revert i. induction l as [|x l IH]; intros [|i] Hi; simpl in *; try lia.
  apply IH. lia.
Qed.

Lemma shiftr8_zero (b : Z) : 0 <= b -> (Z.shiftr b 8 =? 0) = (b <? 256).
Proof.
  intros Hb. rewrite Z.shiftr_div_pow2 by lia. change (2 ^ 8) with 256.
  destruct (Z.ltb_spec b 256).
  - rewrite Z.div_small by lia. reflexivity.
  - apply Z.eqb_neq. pose proof (Z.div_le_lower_bound b 256 1). lia.
Qed.

Lemma geb_false (a b : Z) : a < b -> (a >=? b) = false.
Proof. intros Hlt. destruct (Z.geb_spec a b); [lia | reflexivity]. Qed.

(** C2, amended.  A [SET_PE] call with action Map or Unmap, [pe_num] below
    [NPU2_MAX_PE_NUM], [bdfn] below 256 and the comparison keys BusAll,
    DeviceNumber and FunctionNumber returns [OPAL_SUCCESS] and stores
    [ENABLE | PE=pe_num | BDF=dev->bdfn] into [MISC.BRICK{i}_BDF2PE_MAP0] of
    the device's brick and into the per-brick cache: the BDF field is the
    device's own BDFN, not the [bdfn] argument.  Another action or an
    out-of-range [pe_num] or [bdfn] returns [OPAL_PARAMETER], and wrong
    comparison keys (the rest being in range) return [OPAL_UNSUPPORTED],
    both without a store. *)
Theorem set_pe_maps_device_bdfn (K : constants) (H : hardware) (p : phb)
    (pe_num bdfn bcompare dcompare fcompare action : Z) (w : world) :
  (forall dev,
     phb_to_npu2_dev_ocapi p = Some dev ->
     action = OPAL_MAP_PE K \/ action = OPAL_UNMAP_PE K ->
     0 <= pe_num < NPU2_MAX_PE_NUM K ->
     0 <= bdfn < 256 ->
     bcompare = OpalPciBusAll K ->
     dcompare = OPAL_COMPARE_RID_DEVICE_NUMBER K ->
     fcompare = OPAL_COMPARE_RID_FUNCTION_NUMBER K ->
     0 <= index dev < Z.of_nat (List.length (bdf2pe_cache (npu dev))) ->
     exists n' w',
       npu2_opencapi_set_pe K H p pe_num bdfn bcompare dcompare fcompare action w
         = Done (OPAL_SUCCESS, Some n') w' /\
       trace w' = EvWrite (bdf2pe_map_reg dev)
                    (bdf2pe_map_value K pe_num (dev_bdfn dev)) :: trace w /\
       nth (Z.to_nat (index dev)) (bdf2pe_cache n') 0
         = bdf2pe_map_value K pe_num (dev_bdfn dev)) /\
  (0 <= bdfn ->
   (action <> OPAL_MAP_PE K /\ action <> OPAL_UNMAP_PE K)
     \/ NPU2_MAX_PE_NUM K <= pe_num \/ 256 <= bdfn ->
   npu2_opencapi_set_pe K H p pe_num bdfn bcompare dcompare fcompare action w
     = Done (OPAL_PARAMETER, None) w) /\
  (action = OPAL_MAP_PE K \/ action = OPAL_UNMAP_PE K ->
   pe_num < NPU2_MAX_PE_NUM K ->
   0 <= bdfn < 256 ->
   bcompare <> OpalPciBusAll K
     \/ dcompare <> OPAL_COMPARE_RID_DEVICE_NUMBER K
     \/ fcompare <> OPAL_COMPARE_RID_FUNCTION_NUMBER K ->
   npu2_opencapi_set_pe K H p pe_num bdfn bcompare dcompare fcompare action w
     = Done (OPAL_UNSUPPORTED, None) w).
Proof.
  assert (Hact : action = OPAL_MAP_PE K \/ action = OPAL_UNMAP_PE K ->
                 negb (action =? OPAL_MAP_PE K) && negb (action =? OPAL_UNMAP_PE K)
                 = false).
  { intros [-> | ->]; rewrite Z.eqb_refl; simpl; auto using andb_false_r. }
  split; [|split].
  - intros dev Hdev Ha Hpe Hb -> -> -> Hidx.
    unfold npu2_opencapi_set_pe.
    rewrite (Hact Ha).
    rewrite geb_false by lia.
    rewrite shiftr8_zero by lia.
    replace (bdfn <? 256) with true by (symmetry; apply Z.ltb_lt; lia).
    rewrite !Z.eqb_refl. cbn [negb orb]. rewrite Hdev.
    do 2 eexists. split; [reflexivity|].
    split; [reflexivity|].
    cbn [bdf2pe_cache set_bdf2pe_cache]. apply array_set_nth. lia.
  - intros Hb0 Hbad. unfold npu2_opencapi_set_pe.
    destruct (negb (action =? OPAL_MAP_PE K) && negb (action =? OPAL_UNMAP_PE K))
      eqn:Ea; [reflexivity|].
    destruct (Z.geb_spec pe_num (NPU2_MAX_PE_NUM K)); [reflexivity|].
    rewrite shiftr8_zero by lia.
    destruct (Z.ltb_spec bdfn 256); [|reflexivity].
    exfalso. destruct Hbad as [[Hm Hu] | [Hbad | Hbad]]; try lia.
  - intros Ha Hpe Hb Hkeys. unfold npu2_opencapi_set_pe.
    rewrite (Hact Ha).
    rewrite geb_false by lia.
    rewrite shiftr8_zero by lia.
    replace (bdfn <? 256) with true by (symmetry; apply Z.ltb_lt; lia).
    cbn [negb].
    destruct Hkeys as [Hk | [Hk | Hk]]; apply Z.eqb_neq in Hk; rewrite Hk;
      cbn [negb orb]; rewrite ?orb_true_r; reflexivity.
Qed.

Lemma set_pe_maps_device_bdfn_witness :
  exists n' w',
    npu2_opencapi_set_pe p9_constants (constant_hw 0 true) (sample_phb 2)
      3 1 7 1 1 1 world0 = Done (OPAL_SUCCESS, Some n') w' /\
    trace w' = [EvWrite (bdf2pe_map_reg (sample_dev 2))
                  (bdf2pe_map_value p9_constants 3 0)] /\
    nth 2 (bdf2pe_cache n') 0 = bdf2pe_map_value p9_constants 3 0.
Proof.
  apply (proj1 (set_pe_maps_device_bdfn p9_constants (constant_hw 0 true)
                  (sample_phb 2) 3 1 7 1 1 1 world0) (sample_dev 2));
    try reflexivity; try (left; reflexivity); simpl; lia.
Defined.

(** C2 as stated fails: called with [bdfn = 1] on a device whose own BDFN
    is 0, [SET_PE] stores a value whose BDF field is 0, not
    [ENABLE | PE=pe_num | BDF=1]. *)
Lemma set_pe_ignores_bdfn_argument :
  match npu2_opencapi_set_pe p9_constants (constant_hw 0 true) (sample_phb 2)
          3 1 7 1 1 1 world0 with
  | Done (rc, _) w' =>
      rc = OPAL_SUCCESS /\
      writes_of (trace w')
        = [(bdf2pe_map_reg (sample_dev 2), bdf2pe_map_value p9_constants 3 0)] /\
      bdf2pe_map_value p9_constants 3 0 <> bdf2pe_map_value p9_constants 3 1 /\
      GETFIELD (NPU2_MISC_BRICK_BDF2PE_MAP_BDF p9_constants)
        (bdf2pe_map_value p9_constants 3 0) = 0 /\
      GETFIELD (NPU2_MISC_BRICK_BDF2PE_MAP_BDF p9_constants)
        (bdf2pe_map_value p9_constants 3 1) = 1
  | _ => False
  end.
Proof.
  vm_compute. repeat split; congruence.
Qed.

(** ** SPA setup *)

Lemma testbit_high (n p i : Z) :
  0 <= n < 2 ^ p -> 0 <= p <= i -> Z.testbit n i = false.
Proof.
  intros Hn Hp. rewrite <- (Z.mod_small n (2 ^ p)) by assumption.
  apply Z.mod_pow2_bits_high. lia.
Qed.

Lemma pe_mask_update (v pe : Z) :
  0 <= pe <= 15 ->
  let v' := Z.lor (Z.land v (not64 (PPC_BITMASK 4 7))) (u64 (Z.shiftl pe (63 - 7))) in
  GETFIELD (PPC_BITMASK 4 7) v' = pe /\
  Z.land v' (not64 (PPC_BITMASK 4 7)) = Z.land v (not64 (PPC_BITMASK 4 7)).
Proof.
  intros Hpe v'. subst v'.
  rewrite PPC_BITMASK_field by lia.
  change (63 - 7) with 56. change (7 - 4 + 1) with 4.
  assert (Hhigh : forall i, 4 <= i -> Z.testbit pe i = false).
  { intros i Hi. apply (testbit_high pe 4); [|lia].
    change (2 ^ 4) with 16. lia. }
  split.
  - apply Z.bits_inj'. intros i Hi.
    rewrite testbit_GETFIELD by lia.
    rewrite Z.lor_spec, Z.land_spec, testbit_not64, testbit_u64 by lia.
    rewrite testbit_field_mask by lia.
    rewrite Z.shiftl_spec by lia.
    replace (i + 56 - 56) with i by lia.
    destruct (Z.ltb_spec i 4).
    + replace (56 <=? i + 56) with true by (symmetry; apply Z.leb_le; lia).
      replace (i + 56 <? 56 + 4) with true by (symmetry; apply Z.ltb_lt; lia).
      replace (i + 56 <? 64) with true by (symmetry; apply Z.ltb_lt; lia).
      simpl. rewrite andb_false_r. reflexivity.
    + simpl. symmetry. apply Hhigh. lia.
  - apply Z.bits_inj'. intros i Hi.
    rewrite !Z.land_spec, Z.lor_spec, Z.land_spec, testbit_not64, testbit_u64 by lia.
    rewrite testbit_field_mask by lia.
    rewrite Z.shiftl_spec by lia.
    destruct (Z.leb_spec 56 i); destruct (Z.ltb_spec i (56 + 4));
      destruct (Z.ltb_spec i 64); simpl; try lia;
      rewrite ?andb_false_r, ?andb_true_r, ?orb_false_r; try reflexivity.
    + rewrite Hhigh by lia. rewrite orb_false_r. reflexivity.
    + rewrite (Z.testbit_neg_r pe) by lia. rewrite orb_false_r. reflexivity.
Qed.

Lemma is_opencapi_phb_true (p : phb) :
  phb_type p = phb_type_npu_v2_opencapi -> is_opencapi_phb (Some p) = true.
Proof. intros E. unfold is_opencapi_phb. rewrite E. reflexivity. Qed.

Lemma gtb_false (a b : Z) : a <= b -> (a >? b) = false.
Proof. intros Hle. destruct (Z.gtb_spec a b); [lia | reflexivity]. Qed.

(** C3. On a valid OpenCAPI PHB, with a 4 KiB-aligned address and a PE mask
    of at most 15, [SPA_SETUP] returns [OPAL_BUSY] exactly when the enable
    bit of the SPAP register disagrees with the direction asked for, and
    then stores into no register; otherwise it stores [addr | EN] (0 to
    clear) into the SPAP register of the device's block, sets
    [OTL_CONFIG0.PE_MASK] to the mask leaving the other bits as read, and
    returns [OPAL_SUCCESS].  An unaligned address or a PE mask above 15
    returns [OPAL_PARAMETER] with no access at all.  [PE_MASK] is the field
    of bits 4 to 7, where the code shifts the mask to. *)
Theorem spa_setup_contract (K : constants) (H : hardware)
    (pci_get_phb : Z -> option phb) (phb_id bdfn addr PE_mask : Z)
    (p : phb) (dev : npu2_dev) (stack : npu2_stack) (block : npu2_block)
    (w : world) :
  pci_get_phb phb_id = Some p ->
  phb_type p = phb_type_npu_v2_opencapi ->
  phb_to_npu2_dev_ocapi p = Some dev ->
  index_to_stack (index dev) = Some stack ->
  index_to_block (index dev) = Some block ->
  NPU2_OTL_CONFIG0_PE_MASK K = PPC_BITMASK 4 7 ->
  0 <= PE_mask ->
  let spap := spap_reg dev stack block in
  let cfg0 := otl_config0_reg dev stack block in
  let c := chip_id (npu dev) in
  let v0 := u64 (hw_read H spap (steps w)) in
  (Z.land addr 4095 = 0 -> PE_mask <= 15 ->
   exists rc w',
     opal_npu_spa_setup K H pci_get_phb phb_id bdfn addr PE_mask w = Done rc w' /\
     (rc = OPAL_BUSY <-> spa_disagree K addr v0) /\
     (rc = OPAL_BUSY ->
      trace w' = EvUnlock c :: EvRead spap v0 :: EvLock c :: trace w) /\
     (rc <> OPAL_BUSY ->
      rc = OPAL_SUCCESS /\
      exists v1 v1',
        trace w' = EvUnlock c :: EvWrite cfg0 v1' :: EvRead cfg0 v1
                   :: EvWrite spap (if addr =? 0 then 0
                                    else Z.lor addr (NPU2_XSL_PSL_SPAP_EN K))
                   :: EvRead spap v0 :: EvLock c :: trace w /\
        GETFIELD (NPU2_OTL_CONFIG0_PE_MASK K) v1' = PE_mask /\
        Z.land v1' (not64 (NPU2_OTL_CONFIG0_PE_MASK K))
          = Z.land v1 (not64 (NPU2_OTL_CONFIG0_PE_MASK K)))) /\
  (Z.land addr 4095 <> 0 \/ 15 < PE_mask ->
   opal_npu_spa_setup K H pci_get_phb phb_id bdfn addr PE_mask w
     = Done OPAL_PARAMETER w).
Proof.
  intros Hphb Hty Hdev Hst Hbl Hmask Hpe0 spap cfg0 c v0.
  unfold opal_npu_spa_setup. rewrite Hphb, (is_opencapi_phb_true p Hty).
  cbn [negb option_map]. rewrite Hdev.
  split.
  - intros Hal Hpe. rewrite Hal, gtb_false by lia. cbn [Z.eqb negb].
    unfold bind at 1. rewrite Hbl. cbn [assert_some].
    unfold bind at 1. rewrite Hst. cbn [assert_some].
    unfold bind at 1. unfold lock_npu at 1, emit at 1.
    unfold bind at 1. unfold npu2_scom_read at 1, read_loc at 1.
    unfold bind at 1. unfold access at 1. unfold ret at 1.
    cbn [steps tb trace].
    subst spap cfg0 c v0. unfold spap_reg, otl_config0_reg.
    match goal with
    | |- context [if ?b then unlock_npu _ ;;; _ else _] => destruct b eqn:Hbusy
    end.
    + exists OPAL_BUSY. eexists. split; [reflexivity|].
      split; [|split].
      * split; [intros _|reflexivity].
        unfold spa_disagree.
        destruct (Z.eqb_spec addr 0);
          match type of Hbusy with
          | context [Z.land ?x ?y =? 0] => destruct (Z.eqb_spec (Z.land x y) 0)
          end;
          simpl in Hbusy; try discriminate; tauto.
      * intros _. reflexivity.
      * congruence.
    + exists OPAL_SUCCESS. eexists. split; [reflexivity|].
      split; [|split].
      * split; [discriminate|]. unfold spa_disagree. intros Hd. exfalso.
        destruct (Z.eqb_spec addr 0);
          match type of Hbusy with
          | context [Z.land ?x ?y =? 0] => destruct (Z.eqb_spec (Z.land x y) 0)
          end;
          simpl in Hbusy; try discriminate; tauto.
      * discriminate.
      * intros _. split; [reflexivity|].
        do 2 eexists. split; [|rewrite Hmask; apply pe_mask_update; lia].
        cbn [trace bind ret unlock_npu emit npu2_scom_write npu2_scom_read write_loc
               read_loc access steps tb].
        rewrite Hmask.
        destruct (Z.eqb_spec addr 0) as [E|E]; [rewrite E|]; reflexivity.
  - intros Hbad.
    destruct (Z.eqb_spec (Z.land addr 4095) 0) as [Hal|Hal]; cbn [negb];
      [|reflexivity].
    destruct (Z.gtb_spec PE_mask 15); [reflexivity|].
    exfalso. destruct Hbad; [contradiction | lia].
Qed.

Lemma spa_setup_contract_witness :
  let K := p9_constants in
  let H := constant_hw 0 true in
  let dev := sample_dev 3 in
  let spap := spap_reg dev NPU2_STACK_STCK_1 NPU2_BLOCK_OTL1 in
  let cfg0 := otl_config0_reg dev NPU2_STACK_STCK_1 NPU2_BLOCK_OTL1 in
  exists rc w',
    opal_npu_spa_setup K H (fun _ => Some (sample_phb 3)) 0 0 65536 5 world0
      = Done rc w' /\
    (rc = OPAL_BUSY <-> spa_disagree K 65536 0) /\
    (rc = OPAL_BUSY ->
     trace w' = [EvUnlock 0; EvRead spap 0; EvLock 0]) /\
    (rc <> OPAL_BUSY ->
     rc = OPAL_SUCCESS /\
     exists v1 v1',
       trace w' = [EvUnlock 0; EvWrite cfg0 v1'; EvRead cfg0 v1;
                   EvWrite spap (Z.lor 65536 (NPU2_XSL_PSL_SPAP_EN K));
                   EvRead spap 0; EvLock 0] /\
       GETFIELD (NPU2_OTL_CONFIG0_PE_MASK K) v1' = 5 /\
       Z.land v1' (not64 (NPU2_OTL_CONFIG0_PE_MASK K))
         = Z.land v1 (not64 (NPU2_OTL_CONFIG0_PE_MASK K))).
Proof.
  apply (proj1 (spa_setup_contract p9_constants (constant_hw 0 true)
                  (fun _ => Some (sample_phb 3)) 0 0 65536 5
                  (sample_phb 3) (sample_dev 3) NPU2_STACK_STCK_1 NPU2_BLOCK_OTL1
                  world0 eq_refl eq_refl eq_refl eq_refl eq_refl eq_refl
                  ltac:(lia)));
    [reflexivity | lia].
Defined.

(** ** SPA cache invalidation *)

Lemma clear_cache_poll_spec (H : hardware) (gcid scom_base : Z) (cc : npu2_reg)
    (retries : nat) (w : world) :
  exists rc w' polls,
    clear_cache_poll H retries gcid scom_base cc w = Done rc w' /\
    trace w' = rev (poll_events (NpuScom gcid scom_base cc) polls) ++ trace w /\
    ((rc = OPAL_SUCCESS /\
      (List.length polls <= retries)%nat /\
      exists pre v, polls = pre ++ [v] /\
                    Forall (fun x => llcmd_busy x = true) pre /\
                    llcmd_busy v = false) \/
     (rc = OPAL_HARDWARE /\
      List.length polls = retries /\
      Forall (fun x => llcmd_busy x = true) polls)).
Proof.
  revert w. induction retries as [|n IH]; intros w.
  - exists OPAL_HARDWARE, w, []. split; [reflexivity|]. split; [reflexivity|].
    right. auto.
  - cbn [clear_cache_poll]. unfold bind at 1.
    unfold npu2_scom_read, read_loc, bind, access, ret.
    set (v := u64 (hw_read H (NpuScom gcid scom_base cc) (steps w))).
    destruct (Z.land v (PPC_BIT 16) =? 0) eqn:Hbit.
    + exists OPAL_SUCCESS. eexists. exists [v].
      split; [reflexivity|]. split.
      * cbn [poll_events]. unfold llcmd_busy. rewrite Hbit. reflexivity.
      * left. split; [reflexivity|]. split; [simpl; lia|].
        exists [], v. split; [reflexivity|]. split; [constructor|].
        unfold llcmd_busy. rewrite Hbit. reflexivity.
    + unfold time_wait_us, time_wait.
      match goal with
      | |- context [clear_cache_poll H n gcid scom_base cc ?w1] =>
          destruct (IH w1) as (rc & w' & polls & Hrun & Htr & Hres)
      end.
      exists rc, w', (v :: polls).
      split; [exact Hrun|]. split.
      * rewrite Htr. cbn [trace poll_events]. unfold llcmd_busy at 1.
        rewrite Hbit. cbn [negb rev]. rewrite <- !app_assoc. reflexivity.
      * assert (Hv : llcmd_busy v = true) by (unfold llcmd_busy; rewrite Hbit; reflexivity).
        destruct Hres as [(Hrc & Hlen & pre & x & Hp & Hpre & Hx) | (Hrc & Hlen & Hall)].
        -- left. split; [exact Hrc|]. split; [simpl; lia|].
           exists (v :: pre), x. subst polls. split; [reflexivity|].
           split; [constructor; assumption | exact Hx].
        -- right. split; [exact Hrc|]. split; [simpl; lia|].
           constructor; assumption.
Qed.

(** C4. On a valid OpenCAPI PHB, [SPA_CLEAR_CACHE] returns [OPAL_PARAMETER]
    for a PE handle above 2^15 - 1; returns [OPAL_BUSY] without a store when
    bit 16 of [XSL_PSL_LLCMD_A0] is set at the first load; and otherwise
    stores [PE_handle | bit15] (with [bit48] for block OTL1), then polls the
    register at most 5 times, 200 microseconds apart: [OPAL_SUCCESS] at the
    first poll that shows bit 16 clear, [OPAL_HARDWARE] when all 5 polls
    show it set. *)
Theorem spa_clear_cache_contract (H : hardware) (pci_get_phb : Z -> option phb)
    (phb_id bdfn PE_handle : Z) (p : phb) (dev : npu2_dev)
    (stack : npu2_stack) (block : npu2_block) (w : world) :
  pci_get_phb phb_id = Some p ->
  phb_type p = phb_type_npu_v2_opencapi ->
  phb_to_npu2_dev_ocapi p = Some dev ->
  index_to_stack (index dev) = Some stack ->
  index_to_block (index dev) = Some block ->
  let cc := llcmd_reg dev stack in
  let c := chip_id (npu dev) in
  let v0 := u64 (hw_read H cc (steps w)) in
  (MAX_PE_HANDLE < PE_handle ->
   opal_npu_spa_clear_cache H pci_get_phb phb_id bdfn PE_handle w
     = Done OPAL_PARAMETER w) /\
  (PE_handle <= MAX_PE_HANDLE ->
   exists rc w',
     opal_npu_spa_clear_cache H pci_get_phb phb_id bdfn PE_handle w = Done rc w' /\
     (llcmd_busy v0 = true ->
      rc = OPAL_BUSY /\
      trace w' = EvUnlock c :: EvRead cc v0 :: EvLock c :: trace w) /\
     (llcmd_busy v0 = false ->
      exists polls,
        trace w' = EvUnlock c :: rev (poll_events cc polls)
                   ++ EvWrite cc (llcmd_command block PE_handle)
                   :: EvRead cc v0 :: EvLock c :: trace w /\
        ((rc = OPAL_SUCCESS /\
          (List.length polls <= 5)%nat /\
          exists pre v, polls = pre ++ [v] /\
                        Forall (fun x => llcmd_busy x = true) pre /\
                        llcmd_busy v = false) \/
         (rc = OPAL_HARDWARE /\
          List.length polls = 5%nat /\
          Forall (fun x => llcmd_busy x = true) polls)))).
Proof.
  intros Hphb Hty Hdev Hst Hbl cc c v0.
  unfold opal_npu_spa_clear_cache. rewrite Hphb, (is_opencapi_phb_true p Hty).
  cbn [negb option_map]. rewrite Hdev.
  split.
  - intros Hbig. destruct (Z.gtb_spec PE_handle MAX_PE_HANDLE); [reflexivity | lia].
  - intros Hsmall. rewrite gtb_false by lia.
    unfold bind at 1. rewrite Hbl. cbn [assert_some].
    unfold bind at 1. rewrite Hst. cbn [assert_some].
    unfold bind at 1. unfold lock_npu at 1, emit at 1.
    unfold bind at 1. unfold npu2_scom_read at 1, read_loc at 1.
    unfold bind at 1. unfold access at 1. unfold ret at 1.
    cbn [steps tb trace].
    subst cc c v0. unfold llcmd_reg, llcmd_busy.
    match goal with
    | |- context [if negb ?b then unlock_npu _ ;;; _ else _] => destruct b eqn:Hbit
    end; cbn [negb].
    + (* no command in flight *)
      unfold bind at 1. unfold npu2_scom_write at 1, write_loc at 1, access at 1.
      cbn [steps tb trace].
      unfold bind at 1.
      match goal with
      | |- context [clear_cache_poll H 5 ?g ?sb ?r ?w1] =>
          destruct (clear_cache_poll_spec H g sb r 5 w1)
            as (rc & w' & polls & Hrun & Htr & Hres)
      end.
      rewrite Hrun. unfold bind, unlock_npu, emit, ret.
      exists rc. eexists. split; [reflexivity|].
      split; [discriminate|]. intros _.
      exists polls. cbn [trace]. rewrite Htr. cbn [trace].
      split; [|exact Hres].
      unfold llcmd_command. destruct (npu2_block_beq block NPU2_BLOCK_OTL1); reflexivity.
    + exists OPAL_BUSY. eexists. split; [reflexivity|].
      split; [|discriminate]. intros _. split; reflexivity.
Qed.

Lemma spa_clear_cache_contract_witness :
  let H := scripted_hw [0; 0; PPC_BIT 16; 0; 0] in
  let dev := sample_dev 5 in
  let cc := llcmd_reg dev NPU2_STACK_STCK_2 in
  exists rc w',
    opal_npu_spa_clear_cache H (fun _ => Some (sample_phb 5)) 0 0 42 world0
      = Done rc w' /\
    (llcmd_busy 0 = true ->
     rc = OPAL_BUSY /\ trace w' = [EvUnlock 0; EvRead cc 0; EvLock 0]) /\
    (llcmd_busy 0 = false ->
     exists polls,
       trace w' = EvUnlock 0 :: rev (poll_events cc polls)
                  ++ [EvWrite cc (llcmd_command NPU2_BLOCK_OTL1 42);
                      EvRead cc 0; EvLock 0] /\
       ((rc = OPAL_SUCCESS /\
         (List.length polls <= 5)%nat /\
         exists pre v, polls = pre ++ [v] /\
                       Forall (fun x => llcmd_busy x = true) pre /\
                       llcmd_busy v = false) \/
        (rc = OPAL_HARDWARE /\
         List.length polls = 5%nat /\
         Forall (fun x => llcmd_busy x = true) polls))).
Proof.
  apply (proj2 (spa_clear_cache_contract (scripted_hw [0; 0; PPC_BIT 16; 0; 0])
                  (fun _ => Some (sample_phb 5)) 0 0 42
                  (sample_phb 5) (sample_dev 5) NPU2_STACK_STCK_2 NPU2_BLOCK_OTL1
                  world0 eq_refl eq_refl eq_refl eq_refl eq_refl)).
  vm_compute. congruence.
Defined.

(** The run of the witness: busy once, then clear. *)
Example spa_clear_cache_run :
  let H := scripted_hw [0; 0; PPC_BIT 16; 0; 0] in
  let cc := llcmd_reg (sample_dev 5) NPU2_STACK_STCK_2 in
  match opal_npu_spa_clear_cache H (fun _ => Some (sample_phb 5)) 0 0 42 world0 with
  | Done rc w' =>
      rc = OPAL_SUCCESS /\
      rev (trace w') = [EvLock 0; EvRead cc 0;
                        EvWrite cc (llcmd_command NPU2_BLOCK_OTL1 42);
                        EvRead cc (PPC_BIT 16); EvWait (usecs_to_tb 200);
                        EvRead cc 0; EvUnlock 0]
  | _ => False
  end.
Proof. vm_compute. split; reflexivity. Qed.

(** ** The spinlock core *)

(** C8, amended.  With lock debugging compiled in ([DEBUG_LOCKS]) and
    [bust_locks] false (after [init_locks]), [unlock(l)] by a CPU when [l]
    is not held, or when the owner field of its cell is not the CPU's PIR,
    is fatal: the error path sets [bust_locks], prints the reason with the
    address of the lock and its state cell, and aborts; the lock cell is
    not cleared. *)
Theorem unlock_error_is_fatal (l : Z) (s : lock_world) :
  bust_locks s = false ->
  Z.land (lock_val (locks s l)) 1 = 0 \/
  Z.shiftr (lock_val (locks s l)) 32 <> pir (this_cpu s) ->
  exists s',
    unlock true l s = Aborted s' /\
    bust_locks s' = true /\
    printed s'
      = (if Z.land (lock_val (locks s l)) 1 =? 0
         then [OpDisplayFatal 1;
               LockErrorPrinted "Unlocking unlocked lock" l (lock_val (locks s l))]
         else [OpDisplayFatal 2;
               LockErrorPrinted "Unlocked non-owned lock" l (lock_val (locks s l))])
        ++ printed s /\
    locks s' = locks s /\
    this_cpu s' = this_cpu s.
Proof.
  intros Hbust Hbad. unfold unlock. rewrite Hbust.
  unfold unlock_check. cbn [negb].
  destruct (Z.eqb_spec (Z.land (lock_val (locks s l)) 1) 0) as [Hfree | Hheld].
  - eexists. split; [reflexivity|]. cbn. auto.
  - destruct Hbad as [Hbad | Hbad]; [contradiction|].
    apply Z.eqb_neq in Hbad. rewrite Hbad. cbn [negb].
    eexists. split; [reflexivity|]. cbn. auto.
Qed.

Lemma unlock_error_is_fatal_witness :
  exists s',
    unlock true 4096 (sample_lock_world false (Z.lor (Z.shiftl 7 32) 1) (sample_cpu 3 []))
      = Aborted s' /\
    bust_locks s' = true /\
    printed s'
      = (if Z.land (Z.lor (Z.shiftl 7 32) 1) 1 =? 0
         then [OpDisplayFatal 1;
               LockErrorPrinted "Unlocking unlocked lock" 4096 (Z.lor (Z.shiftl 7 32) 1)]
         else [OpDisplayFatal 2;
               LockErrorPrinted "Unlocked non-owned lock" 4096 (Z.lor (Z.shiftl 7 32) 1)])
        ++ [] /\
    locks s' = locks (sample_lock_world false (Z.lor (Z.shiftl 7 32) 1) (sample_cpu 3 [])) /\
    this_cpu s' = sample_cpu 3 [].
Proof.
  apply (unlock_error_is_fatal 4096
           (sample_lock_world false (Z.lor (Z.shiftl 7 32) 1) (sample_cpu 3 []))).
  - reflexivity.
  - right. vm_compute. congruence.
Defined.

(** C8 as stated fails.  Before [init_locks] ([bust_locks] still true)
    [unlock] of a lock that is not held returns and reports nothing, with
    lock debugging compiled in or not; and without [DEBUG_LOCKS], CPU 3
    unlocking a lock that CPU 7 holds returns too, and clears the cell. *)
Lemma unlock_unowned_not_always_fatal :
  unlock true 4096 (sample_lock_world true 0 (sample_cpu 3 []))
    = Returned tt (sample_lock_world true 0 (sample_cpu 3 [])) /\
  unlock false 4096 (sample_lock_world true 0 (sample_cpu 3 []))
    = Returned tt (sample_lock_world true 0 (sample_cpu 3 [])) /\
  (exists s',
     unlock false 4096
       (sample_lock_world false (Z.lor (Z.shiftl 7 32) 1) (sample_cpu 3 []))
       = Returned tt s' /\
     lock_val (locks s' 4096) = 0 /\ printed s' = [] /\ bust_locks s' = false).
Proof.
  split; [reflexivity|]. split; [reflexivity|].
  eexists. split; [reflexivity|]. cbn. auto.
Qed.

(** ** TL template and rate negotiation *)

(** Decide the comparisons of the goal that linear arithmetic settles. *)
Ltac settle_cmp :=
  repeat match goal with
  | |- context [?a <=? ?b] =>
      first [ replace (a <=? b) with true by (symmetry; apply Z.leb_le; lia)
            | replace (a <=? b) with false by (symmetry; apply Z.leb_gt; lia) ]
  | |- context [?a <? ?b] =>
      first [ replace (a <? b) with true by (symmetry; apply Z.ltb_lt; lia)
            | replace (a <? b) with false by (symmetry; apply Z.ltb_ge; lia) ]
  | |- context [?a =? ?b] =>
      first [ replace (a =? b) with true by (symmetry; apply Z.eqb_eq; lia)
            | replace (a =? b) with false by (symmetry; apply Z.eqb_neq; lia) ]
  end.

Lemma rate_mask_field (i : Z) :
  0 <= i <= 3 ->
  PPC_BITMASK (8 + i * 4) (8 + i * 4 + 3) = field_mask (52 - 4 * i) 4.
Proof.
  intros Hi. rewrite PPC_BITMASK_field by lia. f_equal; lia.
Qed.

(** Bit [j] of the word [opal_npu_tl_set] builds from [reg], the register
    with the enables of its clear-mask cleared. *)
Lemma tl_set_bits (mem : Z -> Z) (cs : bool) (cap rate reg j : Z) :
  0 <= j ->
  Z.testbit (fold_left (tl_set_template mem cs cap rate) [0; 1; 2; 3] reg) j =
  if (52 <=? j) && (j <? 56) then Z.testbit (get_template_rate mem cs 0 rate) (j - 52)
  else if (48 <=? j) && (j <? 52) then Z.testbit (get_template_rate mem cs 1 rate) (j - 48)
  else if (44 <=? j) && (j <? 48) then Z.testbit (get_template_rate mem cs 2 rate) (j - 44)
  else if (40 <=? j) && (j <? 44) then Z.testbit (get_template_rate mem cs 3 rate) (j - 40)
  else if j =? 62 then is_template_supported 1 cap || Z.testbit reg j
  else if j =? 61 then is_template_supported 2 cap || Z.testbit reg j
  else if j =? 60 then is_template_supported 3 cap || Z.testbit reg j
  else (j <? 64) && Z.testbit reg j.
Proof.
  intros Hj. cbn [fold_left]. unfold tl_set_template.
  change (negb (0 =? 0)) with false. change (negb (1 =? 0)) with true.
  change (negb (2 =? 0)) with true. change (negb (3 =? 0)) with true.
  cbn [andb].
  rewrite (rate_mask_field 0), (rate_mask_field 1), (rate_mask_field 2),
    (rate_mask_field 3) by lia.
  change (52 - 4 * 0) with 52. change (52 - 4 * 1) with 48.
  change (52 - 4 * 2) with 44. change (52 - 4 * 3) with 40.
  rewrite !testbit_SETFIELD by lia.
  assert (R : forall x k, 0 <= k < 4 -> Z.testbit (u64 x) k = Z.testbit x k).
  { intros x k Hk. rewrite testbit_u64.
    replace (k <? 64) with true by (symmetry; apply Z.ltb_lt; lia). reflexivity. }
  assert (C : forall (b : bool) x i, 0 <= i <= 3 ->
              Z.testbit (if b then Z.lor x (PPC_BIT i) else x) j
              = (b && (63 - i =? j)) || Z.testbit x j).
  { intros b x i Hi. destruct b; cbn [andb orb]; [|reflexivity].
    rewrite Z.lor_spec, testbit_PPC_BIT by lia. apply orb_comm. }
  destruct (Z.ltb_spec j 40); [|destruct (Z.ltb_spec j 44);
    [|destruct (Z.ltb_spec j 48); [|destruct (Z.ltb_spec j 52);
    [|destruct (Z.ltb_spec j 56); [|destruct (Z.eqb_spec j 60);
    [|destruct (Z.eqb_spec j 61); [|destruct (Z.eqb_spec j 62);
    [|destruct (Z.ltb_spec j 64)]]]]]]]];
    settle_cmp; cbn [andb orb]; rewrite ?C by lia; rewrite ?testbit_SETFIELD by lia;
    settle_cmp; cbn [andb orb]; rewrite ?C by lia; rewrite ?testbit_SETFIELD by lia;
    settle_cmp; cbn [andb orb]; rewrite ?C by lia; rewrite ?testbit_SETFIELD by lia;
    settle_cmp; cbn [andb orb]; rewrite ?C by lia; rewrite ?testbit_SETFIELD by lia;
    settle_cmp; cbn [andb orb]; rewrite ?R by lia;
    rewrite ?andb_false_r, ?andb_true_r, ?orb_false_l, ?orb_false_r;
    try reflexivity.
  all: try (destruct (is_template_supported 1 cap); destruct (is_template_supported 2 cap);
            destruct (is_template_supported 3 cap); reflexivity).
Qed.

Lemma testbit_char_at (mem : Z -> Z) (cs : bool) (rate idx i : Z) :
  0 <= i < 8 ->
  Z.testbit (char_at mem cs rate idx) i = Z.testbit (u8 (mem (rate + idx))) i.
Proof.
  intros Hi. unfold char_at.
  destruct (cs && (128 <=? u8 (mem (rate + idx)))); [|reflexivity].
  rewrite <- (Z.mod_pow2_bits_low (u8 (mem (rate + idx)) - 256) 8 i) by lia.
  rewrite <- (Z.mod_pow2_bits_low (u8 (mem (rate + idx))) 8 i) by lia.
  f_equal. change (2 ^ 8) with 256.
  rewrite <- (Z.mod_add _ 1 256) by lia. f_equal. lia.
Qed.

Lemma spec_template_rate_range (mem : Z -> Z) (rate templ : Z) :
  0 <= spec_template_rate mem rate templ < 16.
Proof.
  unfold spec_template_rate.
  assert (Hb : 0 <= u8 (mem (rate + (63 - templ) / 2)) < 256).
  { unfold u8. change (2 ^ 8) with 256. apply Z.mod_pos_bound. lia. }
  destruct (Z.even (63 - templ)).
  - split; [apply Z.div_pos; lia | apply Z.div_lt_upper_bound; lia].
  - apply Z.mod_pos_bound. lia.
Qed.

Lemma get_template_rate_nibble (mem : Z -> Z) (cs : bool) (templ rate k : Z) :
  0 <= k < 4 ->
  Z.testbit (get_template_rate mem cs templ rate) k
  = Z.testbit (spec_template_rate mem rate templ) k.
Proof.
  intros Hk. unfold get_template_rate, spec_template_rate, TL_MAX_TEMPLATE.
  rewrite Zeven_mod.
  pose proof (Z.mod_pos_bound (63 - templ) 2 ltac:(lia)) as Hm.
  destruct (Z.eqb_spec ((63 - templ) mod 2) 0) as [E | E].
  - rewrite E. change (4 * (1 - 0)) with 4.
    rewrite Z.shiftr_spec by lia.
    rewrite testbit_char_at by lia.
    change 16 with (2 ^ 4). rewrite Z.div_pow2_bits by lia. reflexivity.
  - replace ((63 - templ) mod 2) with 1 by lia. change (4 * (1 - 1)) with 0.
    rewrite Z.shiftr_0_r.
    rewrite testbit_char_at by lia.
    change 16 with (2 ^ 4). rewrite Z.mod_pow2_bits_low by lia. reflexivity.
Qed.

Lemma testbit_below_16 (a b : Z) :
  0 <= a < 16 -> 0 <= b < 16 ->
  (forall k, 0 <= k < 4 -> Z.testbit a k = Z.testbit b k) -> a = b.
Proof.
  intros Ha Hb Hbits. apply Z.bits_inj'. intros k Hk.
  destruct (Z.ltb_spec k 4).
  - apply Hbits. lia.
  - rewrite (testbit_high a 4 k), (testbit_high b 4 k) by (change (2 ^ 4) with 16; lia).
    reflexivity.
Qed.

Lemma GETFIELD_range (lo w v : Z) :
  0 <= lo -> 0 < w -> 0 <= v -> 0 <= GETFIELD (field_mask lo w) v < 2 ^ w.
Proof.
  intros Hlo Hw Hv. unfold GETFIELD. rewrite MASK_TO_LSH_field by lia.
  assert (Hm : 0 <= field_mask lo w).
  { unfold field_mask. apply Z.shiftl_nonneg. rewrite Z.ones_equiv.
    pose proof (Z.pow_pos_nonneg 2 w). lia. }
  assert (Hl : 0 <= Z.land v (field_mask lo w)) by (apply Z.land_nonneg; auto).
  split; [apply Z.shiftr_nonneg; exact Hl|].
  rewrite Z.shiftr_div_pow2 by lia.
  apply Z.div_lt_upper_bound; [apply Z.pow_pos_nonneg; lia|].
  rewrite <- Z.pow_add_r by lia.
  destruct (Z.eq_dec (Z.land v (field_mask lo w)) 0) as [E|E].
  - rewrite E. apply Z.pow_pos_nonneg; lia.
  - apply Z.log2_lt_pow2; [lia|].
    destruct (Z.lt_ge_cases (Z.log2 (Z.land v (field_mask lo w))) (lo + w)) as [Hlt|Hge];
      [exact Hlt|].
    exfalso.
    pose proof (Z.bit_log2 (Z.land v (field_mask lo w)) ltac:(lia)) as Hb.
    rewrite Z.land_spec, testbit_field_mask in Hb by lia.
    replace (Z.log2 (Z.land v (field_mask lo w)) <? lo + w) with false in Hb
      by (symmetry; apply Z.ltb_ge; lia).
    rewrite !andb_false_r in Hb. discriminate.
Qed.

Lemma testbit_cleared_enables (v j : Z) :
  0 <= j ->
  Z.testbit (Z.land v (not64 (Z.lor (Z.lor (PPC_BIT 1) (PPC_BIT 3)) (PPC_BIT 1)))) j
  = Z.testbit v j && (j <? 64) && negb (j =? 62) && negb (j =? 60).
Proof.
  intros Hj. rewrite Z.land_spec, testbit_not64, !Z.lor_spec, !testbit_PPC_BIT by lia.
  change (63 - 1) with 62. change (63 - 3) with 60.
  rewrite (Z.eqb_sym 62 j), (Z.eqb_sym 60 j).
  destruct (Z.testbit v j); destruct (j <? 64) eqn:E64; destruct (j =? 62) eqn:E62;
    destruct (j =? 60) eqn:E60; try reflexivity; exfalso;
    rewrite ?Z.eqb_eq, ?Z.ltb_ge in *; lia.
Qed.

(** What [TL_SET] programs, for every capability bitmap, rate buffer and
    prior content [v0] of [OTL_CONFIG1]: without template 0 it returns
    [OPAL_PARAMETER] and accesses nothing; with it, the one store leaves
    [TX_TEMP1_EN] and [TX_TEMP3_EN] equal to bits 1 and 3 of the bitmap,
    the rate field at bit position [8 + 4 i] equal to the rate of template
    [i] in the buffer for [i] from 0 to 3, whether [char] is signed or not,
    and [TX_TEMP2_EN] equal to bit 2 of the bitmap or-ed with its prior
    value: the clear-mask of the code names [TX_TEMP1_EN] twice and never
    [TX_TEMP2_EN]. *)
Theorem tl_set_programs_config1 (K : constants) (H : hardware)
    (pci_get_phb : Z -> option phb) (opal_addr_valid : Z -> bool) (mem : Z -> Z)
    (char_is_signed : bool) (phb_id bdfn capabilities rate_phys rate_sz : Z)
    (p : phb) (dev : npu2_dev) (stack : npu2_stack) (block : npu2_block)
    (w : world) :
  pci_get_phb phb_id = Some p ->
  phb_type p = phb_type_npu_v2_opencapi ->
  phb_to_npu2_dev_ocapi p = Some dev ->
  index_to_stack (index dev) = Some stack ->
  index_to_block (index dev) = Some block ->
  opal_addr_valid rate_phys = true ->
  rate_sz = TL_RATE_BUF_SIZE ->
  NPU2_OTL_CONFIG1_TX_TEMP1_EN K = PPC_BIT 1 ->
  NPU2_OTL_CONFIG1_TX_TEMP3_EN K = PPC_BIT 3 ->
  let cfg1 := otl_config1_reg dev stack block in
  let v0 := u64 (hw_read H cfg1 (steps w)) in
  (is_template_supported 0 capabilities = false ->
   opal_npu_tl_set K H pci_get_phb opal_addr_valid mem char_is_signed
     phb_id bdfn capabilities rate_phys rate_sz w = Done OPAL_PARAMETER w) /\
  (is_template_supported 0 capabilities = true ->
   exists v w',
     opal_npu_tl_set K H pci_get_phb opal_addr_valid mem char_is_signed
       phb_id bdfn capabilities rate_phys rate_sz w = Done OPAL_SUCCESS w' /\
     writes_of (trace w') = (cfg1, v) :: writes_of (trace w) /\
     GETFIELD (PPC_BIT 1) v = Z.b2z (is_template_supported 1 capabilities) /\
     GETFIELD (PPC_BIT 3) v = Z.b2z (is_template_supported 3 capabilities) /\
     GETFIELD (PPC_BIT 2) v
       = Z.b2z (is_template_supported 2 capabilities || Z.testbit v0 61) /\
     (forall i, 0 <= i <= 3 ->
        GETFIELD (PPC_BITMASK (8 + 4 * i) (8 + 4 * i + 3)) v
        = spec_template_rate mem rate_phys i)).
Proof.
  intros Hphb Hty Hdev Hst Hbl Hvalid Hsz HT1 HT3 cfg1 v0.
  unfold opal_npu_tl_set. rewrite Hphb, (is_opencapi_phb_true p Hty).
  cbn [negb option_map]. rewrite Hdev, Hvalid, Hsz, Z.eqb_refl. cbn [negb orb].
  unfold bind, assert_some. rewrite Hbl, Hst.
  split; intros Ht0; rewrite Ht0; cbn [negb]; [reflexivity|].
  unfold npu2_scom_read, npu2_scom_write, read_loc, write_loc, access, ret,
    prlog, emit, bind.
  cbn [steps tb trace]. rewrite HT1, HT3.
  subst cfg1. unfold otl_config1_reg in *. fold v0.
  set (v := fold_left _ _ _).
  exists v. eexists. split; [reflexivity|].
  cbn [trace writes_of]. split; [reflexivity|].
  assert (Hbits : forall j, 0 <= j ->
            Z.testbit v j =
            if (52 <=? j) && (j <? 56)
            then Z.testbit (get_template_rate mem char_is_signed 0 rate_phys) (j - 52)
            else if (48 <=? j) && (j <? 52)
            then Z.testbit (get_template_rate mem char_is_signed 1 rate_phys) (j - 48)
            else if (44 <=? j) && (j <? 48)
            then Z.testbit (get_template_rate mem char_is_signed 2 rate_phys) (j - 44)
            else if (40 <=? j) && (j <? 44)
            then Z.testbit (get_template_rate mem char_is_signed 3 rate_phys) (j - 40)
            else if j =? 62 then is_template_supported 1 capabilities
            else if j =? 61 then is_template_supported 2 capabilities || Z.testbit v0 61
            else if j =? 60 then is_template_supported 3 capabilities
            else (j <? 64) && Z.testbit v0 j).
  { intros j Hj. subst v. rewrite tl_set_bits by lia.
    rewrite testbit_cleared_enables by lia.
    destruct ((52 <=? j) && (j <? 56)); [reflexivity|].
    destruct ((48 <=? j) && (j <? 52)); [reflexivity|].
    destruct ((44 <=? j) && (j <? 48)); [reflexivity|].
    destruct ((40 <=? j) && (j <? 44)); [reflexivity|].
    destruct (Z.eqb_spec j 62) as [->|]; [cbn; rewrite !andb_false_r, orb_false_r; reflexivity|].
    destruct (Z.eqb_spec j 61) as [->|]; [cbn; rewrite !andb_true_r; reflexivity|].
    destruct (Z.eqb_spec j 60) as [->|]; [cbn; rewrite !andb_false_r, orb_false_r; reflexivity|].
    cbn [negb]. rewrite !andb_true_r.
    destruct (j <? 64); destruct (Z.testbit v0 j); reflexivity. }
  assert (Hone : forall i b, 0 <= i <= 3 ->
            Z.testbit v (63 - i) = b -> GETFIELD (PPC_BIT i) v = Z.b2z b).
  { intros i b Hi Hb. apply Z.bits_inj'. intros k Hk.
    replace (PPC_BIT i) with (field_mask (63 - i) 1).
    2:{ rewrite PPC_BIT_pow2 by lia. unfold field_mask.
        rewrite Z.shiftl_mul_pow2 by lia. change (Z.ones 1) with 1. lia. }
    rewrite testbit_GETFIELD by lia.
    destruct (Z.eqb_spec k 0) as [-> | Hk0].
    - change (0 <? 1) with true. cbn [andb]. rewrite Z.add_0_l, Hb.
      destruct b; reflexivity.
    - replace (k <? 1) with false by (symmetry; apply Z.ltb_ge; lia).
      cbn [andb]. symmetry. destruct b; cbn [Z.b2z].
      + apply (testbit_high 1 1 k); lia.
      + apply Z.testbit_0_l. }
  split; [apply Hone; [lia|]; rewrite Hbits by lia; reflexivity|].
  split; [apply Hone; [lia|]; rewrite Hbits by lia; reflexivity|].
  split; [apply Hone; [lia|]; rewrite Hbits by lia; reflexivity|].
  intros i Hi.
  replace (8 + 4 * i) with (8 + i * 4) by lia.
  rewrite rate_mask_field by lia.
  assert (Hv : 0 <= v).
  { apply Z.bits_iff_nonneg_ex. exists 64. intros m Hm. rewrite Hbits by lia.
    settle_cmp. reflexivity. }
  apply testbit_below_16.
  - change 16 with (2 ^ 4). apply GETFIELD_range; lia.
  - apply spec_template_rate_range.
  - intros k Hk. rewrite testbit_GETFIELD by lia.
    replace (k <? 4) with true by (symmetry; apply Z.ltb_lt; lia). cbn [andb].
    rewrite Hbits by lia.
    rewrite <- get_template_rate_nibble with (cs := char_is_signed) by lia.
    assert (Hcases : i = 0 \/ i = 1 \/ i = 2 \/ i = 3) by lia.
    destruct Hcases as [-> | [-> | [-> | ->]]]; settle_cmp; cbn [andb];
      f_equal; lia.
Qed.

(** C1 fails on the code at template 2.  A first [TL_SET] with capabilities
    [0b0101] enables template 2; a second one with capabilities [0b1001],
    which reads back what the first stored, returns [OPAL_SUCCESS] and
    leaves [TX_TEMP2_EN] at 1 although bit 2 of the bitmap is clear.  The
    other enables and the rate fields are as C1 says. *)
Theorem tl_set_leaves_template2_enabled :
  let K := p9_constants in
  let pci := fun _ : Z => Some (sample_phb 2) in
  let cfg1 := otl_config1_reg (sample_dev 2) NPU2_STACK_STCK_1 NPU2_BLOCK_OTL0 in
  let v1 := PPC_BIT 2 + 15 * 2 ^ 52 + 2 ^ 40 in
  let v2 := PPC_BIT 2 + PPC_BIT 3 + 15 * 2 ^ 52 + 2 ^ 40 in
  let H := scripted_hw [0; 0; v1] in
  match opal_npu_tl_set K H pci (fun _ => true) sample_rate_mem false
          0 0 5 4096 32 world0 with
  | Done rc1 w1 =>
      rc1 = OPAL_SUCCESS /\
      match opal_npu_tl_set K H pci (fun _ => true) sample_rate_mem false
              0 0 9 4096 32 w1 with
      | Done rc2 w2 =>
          rc2 = OPAL_SUCCESS /\
          rev (filter (fun e => match e with EvLog _ _ _ => false | _ => true end)
                 (trace w2))
            = [EvRead cfg1 0; EvWrite cfg1 v1; EvRead cfg1 v1; EvWrite cfg1 v2] /\
          is_template_supported 2 9 = false /\
          GETFIELD (NPU2_OTL_CONFIG1_TX_TEMP2_EN K) v2 = 1 /\
          GETFIELD (NPU2_OTL_CONFIG1_TX_TEMP1_EN K) v2 = 0 /\
          GETFIELD (NPU2_OTL_CONFIG1_TX_TEMP3_EN K) v2 = 1 /\
          GETFIELD (PPC_BITMASK 8 11) v2 = 15 /\
          GETFIELD (PPC_BITMASK 20 23) v2 = 1
      | _ => False
      end
  | _ => False
  end.
Proof.
  vm_compute. repeat split; reflexivity.
Qed.

Lemma tl_set_programs_config1_witness :
  let K := p9_constants in
  let cfg1 := otl_config1_reg (sample_dev 2) NPU2_STACK_STCK_1 NPU2_BLOCK_OTL0 in
  exists v w',
    opal_npu_tl_set K (constant_hw 0 true) (fun _ => Some (sample_phb 2))
      (fun _ => true) sample_rate_mem false 0 0 9 4096 32 world0
      = Done OPAL_SUCCESS w' /\
    writes_of (trace w') = [(cfg1, v)] /\
    GETFIELD (PPC_BIT 1) v = 0 /\
    GETFIELD (PPC_BIT 3) v = 1 /\
    GETFIELD (PPC_BIT 2) v = 0 /\
    (forall i, 0 <= i <= 3 ->
       GETFIELD (PPC_BITMASK (8 + 4 * i) (8 + 4 * i + 3)) v
       = spec_template_rate sample_rate_mem 4096 i).
Proof.
  apply (proj2 (tl_set_programs_config1 p9_constants (constant_hw 0 true)
                  (fun _ => Some (sample_phb 2)) (fun _ => true) sample_rate_mem
                  false 0 0 9 4096 32 (sample_phb 2) (sample_dev 2)
                  NPU2_STACK_STCK_1 NPU2_BLOCK_OTL0 world0
                  eq_refl eq_refl eq_refl eq_refl eq_refl eq_refl eq_refl
                  eq_refl eq_refl)).
  reflexivity.
Defined.

(** ** C7: the fence cycle of [brick_config] *)

Section Quiet.
Context {X : Type}.
Variable f : event -> option X.

Lemma quiet_ret {A} (a : A) : quiet f (ret a).
Proof. intros w. exists a, w. split; reflexivity. Qed.

Lemma quiet_bind {A B} (c : M A) (k : A -> M B) :
  quiet f c -> (forall a, quiet f (k a)) -> quiet f (bind c k).
Proof.
  intros Hc Hk w. destruct (Hc w) as (a & w1 & E1 & V1).
  destruct (Hk a w1) as (b & w2 & E2 & V2).
  exists b, w2. unfold bind. rewrite E1. split; [exact E2 | congruence].
Qed.

Lemma quiet_assert_some {A} (a : A) : quiet f (assert_some (Some a)).
Proof. intros w. exists a, w. split; reflexivity. Qed.

Lemma quiet_bind_assert {A B} (a : A) (k : A -> M B) :
  quiet f (k a) -> quiet f (bind (assert_some (Some a)) k).
Proof.
  intros Hk w. destruct (Hk w) as (b & w' & E & V). exists b, w'.
  split; [exact E | exact V].
Qed.

Lemma quiet_mftb : quiet f mftb.
Proof. intros w. exists (tb w), w. split; reflexivity. Qed.

Lemma quiet_emit (e : event) : f e = None -> quiet f (emit e).
Proof.
  intros He w. eexists. eexists. split; [reflexivity|].
  cbn [trace view_of]. rewrite He. reflexivity.
Qed.

Lemma quiet_access (H : hardware) (e : event) : f e = None -> quiet f (access H e).
Proof.
  intros He w. eexists. eexists. split; [reflexivity|].
  cbn [trace view_of]. rewrite He. reflexivity.
Qed.

Lemma quiet_prlog (lvl : log_level) (msg : string) (args : list Z) :
  f (EvLog lvl msg args) = None -> quiet f (prlog lvl msg args).
Proof. apply quiet_emit. Qed.

Lemma quiet_read_loc (H : hardware) (l : location) :
  (forall v, f (EvRead l v) = None) -> quiet f (read_loc H l).
Proof.
  intros Hl w. eexists. eexists. split; [reflexivity|].
  cbn [trace view_of]. rewrite Hl. reflexivity.
Qed.

Lemma quiet_time_wait (H : hardware) (ticks : Z) :
  f (EvWait ticks) = None -> quiet f (time_wait H ticks).
Proof.
  intros He w. eexists. eexists. split; [reflexivity|].
  cbn [trace view_of]. rewrite He. reflexivity.
Qed.

Lemma quiet_for_each {A} (l : list A) (g : A -> M unit) :
  (forall a, In a l -> quiet f (g a)) -> quiet f (for_each l g).
Proof.
  induction l as [|a l IH]; intros Hg; cbn [for_each].
  - apply quiet_ret.
  - apply quiet_bind; [apply Hg; left; reflexivity|].
    intros _. apply IH. intros b Hb. apply Hg. right. exact Hb.
Qed.
End Quiet.

Ltac quiet_step :=
  lazymatch goal with
  | |- quiet _ (bind (assert_some (Some _)) _) => apply quiet_bind_assert
  | |- quiet _ (bind _ _) => apply quiet_bind; [|intros ?]
  | |- quiet _ (ret _) => apply quiet_ret
  | |- quiet _ mftb => apply quiet_mftb
  | |- quiet _ (emit _) => apply quiet_emit; reflexivity
  | |- quiet _ (access _ _) => apply quiet_access; reflexivity
  | |- quiet _ (prlog _ _ _) => apply quiet_prlog; reflexivity
  | |- quiet _ (assert_some (Some _)) => apply quiet_assert_some
  | |- quiet _ (xscom_read _ _ _) => apply quiet_read_loc; intros ?; reflexivity
  | |- quiet _ (xscom_write _ _ _ _) => apply quiet_access; reflexivity
  | |- quiet _ (npu2_scom_read _ _ _ _) =>
      apply quiet_read_loc; intros ?; reflexivity
  | |- quiet _ (npu2_scom_write _ _ _ _ _) => apply quiet_access; reflexivity
  | |- quiet _ (time_wait_ms _ _) => apply quiet_time_wait; reflexivity
  | |- quiet _ (for_each sm_blocks _) =>
      apply quiet_for_each;
      let b := fresh "b" in
      let Hb := fresh "Hb" in
      intros b Hb; cbn [sm_blocks In] in Hb;
      repeat (destruct Hb as [Hb | Hb]; [subst b|]); [..|contradiction]
  end.

Ltac quiet_auto := repeat quiet_step.

(** The stack and block of a brick index, for the four indices at once. *)
Lemma valid_index_stack_block (i : Z) :
  valid_index i ->
  exists st bl, index_to_stack i = Some st /\ index_to_block i = Some bl /\
    (i = 2 /\ st = NPU2_STACK_STCK_1 /\ bl = NPU2_BLOCK_OTL0 \/
     i = 3 /\ st = NPU2_STACK_STCK_1 /\ bl = NPU2_BLOCK_OTL1 \/
     i = 4 /\ st = NPU2_STACK_STCK_2 /\ bl = NPU2_BLOCK_OTL0 \/
     i = 5 /\ st = NPU2_STACK_STCK_2 /\ bl = NPU2_BLOCK_OTL1).
Proof.
  intros Hi. index_cases Hi; do 2 eexists; (split; [reflexivity|]);
    (split; [reflexivity|]); tauto.
Qed.

Ltac brick_cases Hrow :=
  destruct Hrow as [(-> & -> & ->) | [(-> & -> & ->) | [(-> & -> & ->) | (-> & -> & ->)]]].

Section QuietBrick.
Variable K : constants.
Variable P : platform_ocapi.
Variable H : hardware.
Variables gcid sb i : Z.
Variable st : npu2_stack.
Variable bl : npu2_block.
Hypothesis Hrow :
  i = 2 /\ st = NPU2_STACK_STCK_1 /\ bl = NPU2_BLOCK_OTL0 \/
  i = 3 /\ st = NPU2_STACK_STCK_1 /\ bl = NPU2_BLOCK_OTL1 \/
  i = 4 /\ st = NPU2_STACK_STCK_2 /\ bl = NPU2_BLOCK_OTL0 \/
  i = 5 /\ st = NPU2_STACK_STCK_2 /\ bl = NPU2_BLOCK_OTL1.

Lemma quiet_disable_nvlink : quiet (fence_observe st bl) (disable_nvlink K H gcid i).
Proof.
  brick_cases Hrow; unfold disable_nvlink; cbn [phy_config_scom]; quiet_auto.
Qed.

Lemma quiet_set_transport_mux_controls :
  quiet (fence_observe st bl) (set_transport_mux_controls K H gcid sb i NPU2_DEV_TYPE_OPENCAPI).
Proof.
  brick_cases Hrow; unfold set_transport_mux_controls; quiet_auto.
Qed.

Lemma quiet_enable_odl_phy_mux : quiet (fence_observe st bl) (enable_odl_phy_mux K P H gcid i).
Proof.
  brick_cases Hrow; unfold enable_odl_phy_mux; cbn [phy_config_scom]; quiet_auto.
Qed.

Lemma quiet_disable_alink_fp : quiet (fence_observe st bl) (disable_alink_fp K H gcid).
Proof. unfold disable_alink_fp. quiet_auto. Qed.

Lemma quiet_enable_xsl_clocks : quiet (fence_observe st bl) (enable_xsl_clocks K H gcid sb i).
Proof.
  brick_cases Hrow; unfold enable_xsl_clocks; cbn [index_to_stack]; quiet_auto.
Qed.

Lemma quiet_enable_xsl_xts_interfaces :
  quiet (fence_observe st bl) (enable_xsl_xts_interfaces K H gcid sb i).
Proof.
  brick_cases Hrow; unfold enable_xsl_xts_interfaces; cbn [index_to_stack]; quiet_auto.
Qed.

Lemma quiet_enable_sm_allocation : quiet (fence_observe st bl) (enable_sm_allocation K H gcid sb i).
Proof.
  brick_cases Hrow; unfold enable_sm_allocation; cbn [index_to_stack]; quiet_auto.
Qed.

Lemma quiet_enable_pb_snooping : quiet (fence_observe st bl) (enable_pb_snooping K H gcid sb i).
Proof.
  brick_cases Hrow; unfold enable_pb_snooping; cbn [index_to_stack]; quiet_auto.
Qed.
End QuietBrick.

(** ** The fence cycle *)

Lemma msecs_to_tb_1 : msecs_to_tb 1 = 512000.
Proof. reflexivity. Qed.

Lemma msecs_to_tb_10 : msecs_to_tb CQ_CTL_STATUS_TIMEOUT = 5120000.
Proof. reflexivity. Qed.

Lemma tb_before (a b : Z) :
  tb_cmpval_eqb (tb_compare a b) TB_ABEFOREB = (a <? b).
Proof.
  unfold tb_compare. destruct (Z.eqb_spec a b); destruct (Z.ltb_spec a b);
    try reflexivity; lia.
Qed.

Section FencePoll.
Variable K : constants.
Variable H : hardware.
Variables gcid sb i : Z.
Variable st : npu2_stack.
Variable bl : npu2_block.
Hypothesis Hst : index_to_stack i = Some st.

Lemma fence_poll_spec (status timeout : Z) (fuel : nat) (w : world) :
  (1 <= fuel)%nat ->
  timeout - tb w <= Z.of_nat fuel * msecs_to_tb 1 ->
  exists r w' pre v,
    fence_poll H fuel gcid sb i status (fence_status_field K bl) timeout w
      = Done r w' /\
    fence_view st bl (trace w')
      = rev (map StatusRead (pre ++ [v])) ++ fence_view st bl (trace w) /\
    Forall (fun x => fence_echoes K bl status x = false) pre /\
    tb w <= tb w' /\
    writes_of (trace w') = writes_of (trace w) /\
    (r = FenceMatched /\ fence_echoes K bl status v = true \/
     r = FenceExpired (u8 (GETFIELD (fence_status_field K bl) v)) /\
     fence_echoes K bl status v = false /\ timeout <= tb w').
Proof.
  rewrite msecs_to_tb_1.
  revert w. induction fuel as [|f IH]; intros w Hfuel Htime; [lia|].
  cbn [fence_poll]. unfold bind at 1. rewrite Hst. cbn [assert_some].
  unfold bind at 1. unfold npu2_scom_read, read_loc, bind at 1, access, ret.
  cbn [steps tb trace].
  set (v := u64 (hw_read H (NpuScom gcid sb
                  (NPU2_REG_OFFSET st NPU2_BLOCK_CTL NPU2_CQ_CTL_STATUS)) (steps w))).
  set (w1 := {| steps := S (steps w); tb := tb w + Z.of_nat (hw_lat H (steps w));
                trace := EvRead _ v :: trace w |}).
  assert (Hview1 : fence_view st bl (trace w1)
                   = StatusRead v :: fence_view st bl (trace w)).
  { subst w1. cbn [trace view_of fence_observe].
    replace (npu2_reg_eqb (NPU2_REG_OFFSET st NPU2_BLOCK_CTL NPU2_CQ_CTL_STATUS)
               (NPU2_REG_OFFSET st NPU2_BLOCK_CTL NPU2_CQ_CTL_STATUS)) with true
      by (destruct st; reflexivity).
    reflexivity. }
  fold (fence_echoes K bl status v).
  destruct (fence_echoes K bl status v) eqn:Hecho.
  - exists FenceMatched, w1, [], v.
    split; [reflexivity|]. split; [exact Hview1|]. split; [constructor|].
    split; [subst w1; cbn [tb]; lia|].
    split; [reflexivity | left; auto].
  - unfold bind at 1. unfold time_wait_ms, time_wait. cbn [steps tb trace].
    unfold bind at 1. unfold mftb. cbn [tb].
    rewrite tb_before.
    set (w2 := {| steps := _; tb := _; trace := EvWait _ :: trace w1 |}).
    assert (Htb2 : tb w + 512000 <= tb w2)
      by (subst w2 w1; cbn [tb]; rewrite msecs_to_tb_1; lia).
    assert (Hview2 : fence_view st bl (trace w2) = fence_view st bl (trace w1))
      by reflexivity.
    assert (Hin2 : writes_of (trace w2) = writes_of (trace w)) by reflexivity.
    change (tb w1 + msecs_to_tb 1 + Z.of_nat (hw_lat H (steps w1))) with (tb w2).
    destruct (Z.ltb_spec (tb w2) timeout) as [Hlt | Hge].
    + assert (Hf : (1 <= f)%nat).
      { destruct f; [|lia]. simpl Z.of_nat in Htime. lia. }
      destruct (IH w2 Hf) as (r & w' & pre & x & Hrun & Hview & Hpre & Htb & Hin & Hres).
      { rewrite Nat2Z.inj_succ in Htime. lia. }
      exists r, w', (v :: pre), x.
      split; [exact Hrun|]. split.
      { rewrite Hview, Hview2, Hview1. cbn [map app rev].
        rewrite <- app_assoc. reflexivity. }
      split; [constructor; assumption|].
      split; [lia|].
      split; [congruence|].
      destruct Hres as [Hres | (Hr & He & Ht)]; [left; exact Hres | right; auto].
    + exists (FenceExpired (u8 (GETFIELD (fence_status_field K bl) v))), w2, [], v.
      split; [reflexivity|]. split; [rewrite Hview2; exact Hview1|].
      split; [constructor|]. split; [lia|]. split; [exact Hin2|].
      right. auto.
Qed.
End FencePoll.

Section FenceControl.
Variable K : constants.
Variable P : platform_ocapi.
Variable H : hardware.
Variables gcid sb i : Z.
Variable st : npu2_stack.
Variable bl : npu2_block.
Hypothesis Hrow :
  i = 2 /\ st = NPU2_STACK_STCK_1 /\ bl = NPU2_BLOCK_OTL0 \/
  i = 3 /\ st = NPU2_STACK_STCK_1 /\ bl = NPU2_BLOCK_OTL1 \/
  i = 4 /\ st = NPU2_STACK_STCK_2 /\ bl = NPU2_BLOCK_OTL0 \/
  i = 5 /\ st = NPU2_STACK_STCK_2 /\ bl = NPU2_BLOCK_OTL1.

Lemma row_stack : index_to_stack i = Some st.
Proof. brick_cases Hrow; reflexivity. Qed.

Lemma row_block : index_to_block i = Some bl.
Proof. brick_cases Hrow; reflexivity. Qed.

Lemma fence_reg_observed (v : Z) :
  fence_observe st bl (EvWrite (NpuScom gcid sb (fence_control_reg st bl)) v)
  = Some (FenceWrite v).
Proof. brick_cases Hrow; reflexivity. Qed.

Lemma set_fence_control_spec (status : Z) (fuel : nat) (w : world) :
  (10 <= fuel)%nat ->
  exists rc w' pre v,
    set_fence_control K H fuel gcid sb i status w = Done rc w' /\
    fence_view st bl (trace w')
      = rev (episode_view K status (pre ++ [v])) ++ fence_view st bl (trace w) /\
    Forall (fun x => fence_echoes K bl status x = false) pre /\
    writes_of (trace w')
      = (NpuScom gcid sb (fence_control_reg st bl),
         SETFIELD (NPU2_CQ_CTL_FENCE_CONTROL_REQUEST_FENCE K) 0 status)
        :: writes_of (trace w) /\
    (rc = OPAL_SUCCESS /\ fence_echoes K bl status v = true \/
     rc = OPAL_HARDWARE /\ fence_echoes K bl status v = false /\
     tb w + msecs_to_tb CQ_CTL_STATUS_TIMEOUT <= tb w' /\
     exists t', trace w'
       = EvLog PR_ERR "OCAPI: Fence status for brick %d stuck: expected 0x%x, got 0x%x"
           [i; status; u8 (GETFIELD (fence_status_field K bl) v)] :: t').
Proof.
  intros Hfuel. unfold set_fence_control.
  unfold bind at 1. unfold mftb at 1.
  unfold bind at 1. rewrite row_stack. cbn [assert_some].
  unfold bind at 1. rewrite row_block. cbn [assert_some].
  unfold bind at 1. unfold npu2_scom_write, write_loc, access.
  unfold bind at 1. cbn [assert_some].
  set (w1 := {| steps := _; tb := _; trace := _ |}).
  fold (fence_status_field K bl).
  destruct (fence_poll_spec K H gcid sb i st bl row_stack status
              (tb w + msecs_to_tb CQ_CTL_STATUS_TIMEOUT) fuel w1)
    as (r & w' & pre & v & Hrun & Hview & Hpre & Htb & Hin & Hres).
  { lia. }
  { subst w1. cbn [tb]. rewrite msecs_to_tb_10, msecs_to_tb_1. lia. }
  unfold bind at 1. rewrite Hrun.
  assert (Hview1 : fence_view st bl (trace w1)
            = FenceWrite (SETFIELD (NPU2_CQ_CTL_FENCE_CONTROL_REQUEST_FENCE K) 0 status)
              :: fence_view st bl (trace w)).
  { subst w1. cbn [trace view_of]. rewrite fence_reg_observed. reflexivity. }
  destruct Hres as [(-> & Hecho) | (-> & Hecho & Htime)].
  - exists OPAL_SUCCESS, w', pre, v.
    split; [reflexivity|]. split.
    { rewrite Hview, Hview1. unfold episode_view. cbn [rev].
      rewrite <- app_assoc. reflexivity. }
    split; [exact Hpre|]. split; [rewrite Hin; reflexivity|].
    left. auto.
  - unfold bind, prlog, emit, ret. cbn [steps tb trace].
    eexists OPAL_HARDWARE, _, pre, v.
    split; [reflexivity|]. cbn [trace tb view_of fence_observe writes_of]. split.
    { rewrite Hview, Hview1. unfold episode_view. cbn [rev].
      rewrite <- app_assoc. reflexivity. }
    split; [exact Hpre|]. split; [rewrite Hin; reflexivity|].
    right. split; [reflexivity|]. split; [exact Hecho|]. split; [exact Htime|].
    eexists. reflexivity.
Qed.
End FenceControl.

Section Shows.
Context {X : Type}.
Variable f : event -> option X.

Lemma shows_bind {A B} (c : M A) (k : A -> M B)
    (Q1 : A -> list X -> Prop) (Q2 : A -> B -> list X -> Prop) :
  shows f c Q1 -> (forall a, shows f (k a) (Q2 a)) ->
  shows f (bind c k)
    (fun b obs => exists a o1 o2, obs = o1 ++ o2 /\ Q1 a o1 /\ Q2 a b o2).
Proof.
  intros Hc Hk w. destruct (Hc w) as (a & w1 & o1 & E1 & V1 & HQ1).
  destruct (Hk a w1) as (b & w2 & o2 & E2 & V2 & HQ2).
  exists b, w2, (o1 ++ o2). unfold bind. rewrite E1. split; [exact E2|].
  split; [rewrite V2, V1, rev_app_distr, <- app_assoc; reflexivity|].
  exists a, o1, o2. auto.
Qed.

Lemma shows_weaken {A} (c : M A) (Q1 Q2 : A -> list X -> Prop) :
  shows f c Q1 -> (forall a obs, Q1 a obs -> Q2 a obs) -> shows f c Q2.
Proof.
  intros Hc HQ w. destruct (Hc w) as (a & w1 & o1 & E1 & V1 & HQ1).
  exists a, w1, o1. auto.
Qed.

Lemma quiet_shows {A} (c : M A) :
  quiet f c -> shows f c (fun _ obs => obs = []).
Proof.
  intros Hc w. destruct (Hc w) as (a & w1 & E1 & V1).
  exists a, w1, []. auto.
Qed.

Lemma shows_ret {A} (a : A) : shows f (ret a) (fun r obs => r = a /\ obs = []).
Proof. intros w. exists a, w, []. auto. Qed.

Lemma shows_emit (e : event) (o : X) :
  f e = Some o -> shows f (emit e) (fun _ obs => obs = [o]).
Proof.
  intros He w. eexists tt, _, [o]. split; [reflexivity|].
  cbn [trace view_of]. rewrite He. auto.
Qed.

Lemma shows_access (H : hardware) (e : event) (o : X) :
  f e = Some o -> shows f (access H e) (fun _ obs => obs = [o]).
Proof.
  intros He w. eexists tt, _, [o]. split; [reflexivity|].
  cbn [trace view_of]. rewrite He. auto.
Qed.

Lemma shows_after_quiet {A B} (c : M A) (k : A -> M B) (Q : B -> list X -> Prop) :
  quiet f c -> (forall a, shows f (k a) Q) -> shows f (bind c k) Q.
Proof.
  intros Hc Hk. eapply shows_weaken.
  - apply shows_bind; [apply quiet_shows; exact Hc | exact Hk].
  - intros b obs (a & o1 & o2 & -> & -> & HQ). exact HQ.
Qed.

Lemma shows_after_assert {A B} (a : A) (k : A -> M B) (Q : B -> list X -> Prop) :
  shows f (k a) Q -> shows f (bind (assert_some (Some a)) k) Q.
Proof. intros Hk w. exact (Hk w). Qed.
End Shows.

Section FenceCycle.
Variable K : constants.
Variable P : platform_ocapi.
Variable H : hardware.
Variables gcid sb i : Z.
Variable st : npu2_stack.
Variable bl : npu2_block.
Hypothesis Hrow :
  i = 2 /\ st = NPU2_STACK_STCK_1 /\ bl = NPU2_BLOCK_OTL0 \/
  i = 3 /\ st = NPU2_STACK_STCK_1 /\ bl = NPU2_BLOCK_OTL1 \/
  i = 4 /\ st = NPU2_STACK_STCK_2 /\ bl = NPU2_BLOCK_OTL0 \/
  i = 5 /\ st = NPU2_STACK_STCK_2 /\ bl = NPU2_BLOCK_OTL1.
Variable fuel : nat.
Hypothesis Hfuel : (10 <= fuel)%nat.

Lemma shows_set_fence_control (status : Z) :
  shows (fence_observe st bl) (set_fence_control K H fuel gcid sb i status)
    (fun _ obs => exists r, obs = episode_view K status r /\
                            polls_until_echo K bl status r).
Proof.
  intros w.
  destruct (set_fence_control_spec K H gcid sb i st bl Hrow status fuel w Hfuel)
    as (rc & w' & pre & v & Hrun & Hview & Hpre & _ & _).
  exists rc, w', (episode_view K status (pre ++ [v])).
  split; [exact Hrun|]. split; [exact Hview|].
  exists (pre ++ [v]). split; [reflexivity|]. exists pre, v. auto.
Qed.

Lemma shows_set_npcq_config :
  shows (fence_observe st bl) (set_npcq_config K H fuel gcid sb i)
    (fun _ => fence_cycle K bl).
Proof.
  unfold set_npcq_config.
  apply shows_after_quiet; [quiet_auto | intros _].
  rewrite (row_stack i st bl Hrow). apply shows_after_assert.
  rewrite (row_block i st bl Hrow). apply shows_after_assert.
  apply shows_after_quiet; [brick_cases Hrow; quiet_auto | intros _].
  eapply shows_weaken.
  - apply shows_bind; [apply shows_set_fence_control | intros ?].
    apply shows_after_quiet; [brick_cases Hrow; quiet_auto | intros reg].
    apply shows_after_quiet; [brick_cases Hrow; quiet_auto | intros _].
    apply shows_bind; [apply shows_set_fence_control | intros ?].
    apply shows_bind; [apply shows_set_fence_control | intros ?].
    apply quiet_shows. brick_cases Hrow; quiet_auto.
  - cbv beta.
    intros _ obs (_ & o1 & o2 & -> & (r1 & -> & H1) & _ & o3 & o4 & -> &
                  (r3 & -> & H3) & _ & o5 & o6 & -> & (r2 & -> & H2) & ->).
    exists r1, r3, r2. rewrite app_nil_r. auto.
Qed.

Lemma shows_brick_config :
  shows (fence_observe st bl) (brick_config K P H fuel gcid sb i)
    (fun _ => fence_cycle K bl).
Proof.
  unfold brick_config.
  apply shows_after_quiet; [apply quiet_disable_nvlink; exact Hrow | intros _].
  apply shows_after_quiet;
    [apply quiet_set_transport_mux_controls; exact Hrow | intros _].
  apply shows_after_quiet; [apply quiet_enable_odl_phy_mux; exact Hrow | intros _].
  apply shows_after_quiet; [apply quiet_disable_alink_fp | intros _].
  apply shows_after_quiet; [apply quiet_enable_xsl_clocks; exact Hrow | intros _].
  eapply shows_weaken.
  - apply shows_bind; [apply shows_set_npcq_config | intros ?].
    apply quiet_shows.
    apply quiet_bind; [apply quiet_enable_xsl_xts_interfaces; exact Hrow | intros _].
    apply quiet_bind; [apply quiet_enable_sm_allocation; exact Hrow | intros _].
    apply quiet_enable_pb_snooping; exact Hrow.
  - cbv beta. intros _ obs (_ & o1 & o2 & -> & Hc & ->).
    rewrite app_nil_r. exact Hc.
Qed.
End FenceCycle.

(** ** Time along a run *)

Section Timed.
Context {X : Type}.
Variable H : hardware.
Variable f : event -> option X.

Lemma clock_app (l1 l2 : list event) (now : nat * Z) :
  clock H (l1 ++ l2) now = clock H l2 (clock H l1 now).
Proof. unfold clock. apply fold_left_app. Qed.

Lemma stamped_app (l1 l2 : list event) (now : nat * Z) :
  stamped H f (l1 ++ l2) now = stamped H f l1 now ++ stamped H f l2 (clock H l1 now).
Proof.
  revert now. induction l1 as [|e l1 IH]; intros now; [reflexivity|].
  cbn [app stamped]. change (clock H (e :: l1) now) with (clock H l1 (tick H e now)).
  destruct (f e); rewrite IH; reflexivity.
Qed.

Lemma timed_bind {A B} (c : M A) (k : A -> M B)
    (Q1 : A -> list (Z * X) -> Prop) (Q2 : A -> B -> list (Z * X) -> Prop) :
  timed H f c Q1 -> (forall a, timed H f (k a) (Q2 a)) ->
  timed H f (bind c k)
    (fun b obs => exists a o1 o2, obs = o1 ++ o2 /\ Q1 a o1 /\ Q2 a b o2).
Proof.
  intros Hc Hk w. destruct (Hc w) as (a & w1 & l1 & E1 & T1 & C1 & HQ1).
  destruct (Hk a w1) as (b & w2 & l2 & E2 & T2 & C2 & HQ2).
  exists b, w2, (l1 ++ l2). unfold bind. rewrite E1. split; [exact E2|].
  split; [rewrite T2, T1, rev_app_distr, <- app_assoc; reflexivity|].
  split; [rewrite clock_app, <- C1; exact C2|].
  exists a. eexists. eexists. split; [apply stamped_app|].
  split; [exact HQ1|]. rewrite <- C1. exact HQ2.
Qed.

Lemma timed_weaken {A} (c : M A) (Q1 Q2 : A -> list (Z * X) -> Prop) :
  timed H f c Q1 -> (forall a obs, Q1 a obs -> Q2 a obs) -> timed H f c Q2.
Proof.
  intros Hc HQ w. destruct (Hc w) as (a & w1 & l1 & E1 & T1 & C1 & HQ1).
  exists a, w1, l1. auto.
Qed.

Lemma timed_after_quiet {A B} (c : M A) (k : A -> M B)
    (Q : B -> list (Z * X) -> Prop) :
  tquiet H f c -> (forall a, timed H f (k a) Q) -> timed H f (bind c k) Q.
Proof.
  intros Hc Hk. eapply timed_weaken.
  - apply (timed_bind c k (fun _ obs => obs = []) (fun _ => Q)); [exact Hc | exact Hk].
  - cbv beta. intros b obs (a & o1 & o2 & -> & -> & HQ). exact HQ.
Qed.

Lemma timed_after_assert {A B} (a : A) (k : A -> M B) (Q : B -> list (Z * X) -> Prop) :
  timed H f (k a) Q -> timed H f (bind (assert_some (Some a)) k) Q.
Proof. intros Hk w. exact (Hk w). Qed.

Lemma timed_seq {A B} (c : M A) (k : A -> M B) (Q1 Q2 : list (Z * X) -> Prop) :
  timed H f c (fun _ => Q1) -> (forall a, timed H f (k a) (fun _ => Q2)) ->
  timed H f (bind c k)
    (fun _ obs => exists o1 o2, obs = o1 ++ o2 /\ Q1 o1 /\ Q2 o2).
Proof.
  intros Hc Hk. eapply timed_weaken.
  - apply (timed_bind c k (fun _ => Q1) (fun _ _ => Q2)); [exact Hc | exact Hk].
  - cbv beta. intros b obs (a & o1 & o2 & E & H1 & H2). exists o1, o2. auto.
Qed.

Lemma timed_then_quiet {A B} (c : M A) (k : A -> M B) (Q : list (Z * X) -> Prop) :
  timed H f c (fun _ => Q) -> (forall a, tquiet H f (k a)) ->
  timed H f (bind c k) (fun _ => Q).
Proof.
  intros Hc Hk. eapply timed_weaken.
  - apply (timed_bind c k (fun _ => Q) (fun _ _ obs => obs = [])); [exact Hc | exact Hk].
  - cbv beta. intros b obs (a & o1 & o2 & -> & H1 & ->).
    rewrite app_nil_r. exact H1.
Qed.

Lemma tq_ret {A} (a : A) : tquiet H f (ret a).
Proof. intros w. exists a, w, []. auto. Qed.

Lemma tq_bind {A B} (c : M A) (k : A -> M B) :
  tquiet H f c -> (forall a, tquiet H f (k a)) -> tquiet H f (bind c k).
Proof. intros Hc Hk. apply timed_after_quiet; assumption. Qed.

Lemma tq_assert_some {A} (a : A) : tquiet H f (assert_some (Some a)).
Proof. intros w. exists a, w, []. auto. Qed.

Lemma tq_bind_assert {A B} (a : A) (k : A -> M B) :
  tquiet H f (k a) -> tquiet H f (bind (assert_some (Some a)) k).
Proof. apply timed_after_assert. Qed.

Lemma tq_emit (e : event) :
  f e = None -> (forall now, tick H e now = now) -> tquiet H f (emit e).
Proof.
  intros He Ht w. eexists tt, _, [e]. split; [reflexivity|].
  split; [reflexivity|]. cbn [clock fold_left stamped steps tb].
  rewrite Ht, He. auto.
Qed.

Lemma tq_prlog (lvl : log_level) (msg : string) (args : list Z) :
  f (EvLog lvl msg args) = None -> tquiet H f (prlog lvl msg args).
Proof. intros He. apply tq_emit; [exact He | reflexivity]. Qed.

Lemma tq_write_loc (l : location) (v : Z) :
  f (EvWrite l v) = None -> tquiet H f (write_loc H l v).
Proof.
  intros He w. eexists tt, _, [EvWrite l v]. split; [reflexivity|].
  split; [reflexivity|]. cbn [clock fold_left stamped steps tb tick fst snd].
  rewrite He. auto.
Qed.

Lemma tq_read_loc (l : location) :
  (forall v, f (EvRead l v) = None) -> tquiet H f (read_loc H l).
Proof.
  intros He w. eexists _, _, [EvRead l _]. split; [reflexivity|].
  split; [reflexivity|]. cbn [clock fold_left stamped steps tb tick fst snd].
  rewrite He. auto.
Qed.

Lemma tq_for_each {A} (l : list A) (g : A -> M unit) :
  (forall a, In a l -> tquiet H f (g a)) -> tquiet H f (for_each l g).
Proof.
  induction l as [|a l IH]; intros Hg; cbn [for_each]; [apply tq_ret|].
  apply tq_bind; [apply Hg; left; reflexivity | intros _].
  apply IH. intros b Hb. apply Hg. right. exact Hb.
Qed.
End Timed.

Ltac tq_step :=
  lazymatch goal with
  | |- tquiet _ _ (bind (assert_some (Some _)) _) => apply tq_bind_assert
  | |- tquiet _ _ (bind _ _) => apply tq_bind; [|intros ?]
  | |- tquiet _ _ (ret _) => apply tq_ret
  | |- tquiet _ _ (prlog _ _ _) => apply tq_prlog; reflexivity
  | |- tquiet _ _ (assert_some (Some _)) => apply tq_assert_some
  | |- tquiet _ _ (xscom_read _ _ _) => apply tq_read_loc; intros ?; reflexivity
  | |- tquiet _ _ (xscom_write _ _ _ _) => apply tq_write_loc; reflexivity
  | |- tquiet _ _ (npu2_scom_read _ _ _ _) => apply tq_read_loc; intros ?; reflexivity
  | |- tquiet _ _ (npu2_scom_write _ _ _ _ _) => apply tq_write_loc; reflexivity
  | |- tquiet _ _ (for_each sm_blocks _) =>
      apply tq_for_each;
      let b := fresh "b" in
      let Hb := fresh "Hb" in
      intros b Hb; cbn [sm_blocks In] in Hb;
      repeat (destruct Hb as [Hb | Hb]; [subst b|]); [..|contradiction]
  end.

Ltac tq_auto := repeat tq_step.

Section TimedBrick.
Variable K : constants.
Variable P : platform_ocapi.
Variable H : hardware.
Variables gcid sb i : Z.
Variable st : npu2_stack.
Variable bl : npu2_block.
Hypothesis Hrow :
  i = 2 /\ st = NPU2_STACK_STCK_1 /\ bl = NPU2_BLOCK_OTL0 \/
  i = 3 /\ st = NPU2_STACK_STCK_1 /\ bl = NPU2_BLOCK_OTL1 \/
  i = 4 /\ st = NPU2_STACK_STCK_2 /\ bl = NPU2_BLOCK_OTL0 \/
  i = 5 /\ st = NPU2_STACK_STCK_2 /\ bl = NPU2_BLOCK_OTL1.

Lemma tq_disable_nvlink : tquiet H (fence_watch i st bl) (disable_nvlink K H gcid i).
Proof.
  brick_cases Hrow; unfold disable_nvlink; cbn [phy_config_scom]; tq_auto.
Qed.

Lemma tq_set_transport_mux_controls :
  tquiet H (fence_watch i st bl)
    (set_transport_mux_controls K H gcid sb i NPU2_DEV_TYPE_OPENCAPI).
Proof.
  brick_cases Hrow; unfold set_transport_mux_controls; tq_auto.
Qed.

Lemma tq_enable_odl_phy_mux :
  tquiet H (fence_watch i st bl) (enable_odl_phy_mux K P H gcid i).
Proof.
  brick_cases Hrow; unfold enable_odl_phy_mux; cbn [phy_config_scom]; tq_auto.
Qed.

Lemma tq_disable_alink_fp : tquiet H (fence_watch i st bl) (disable_alink_fp K H gcid).
Proof. unfold disable_alink_fp. tq_auto. Qed.

Lemma tq_enable_xsl_clocks :
  tquiet H (fence_watch i st bl) (enable_xsl_clocks K H gcid sb i).
Proof.
  brick_cases Hrow; unfold enable_xsl_clocks; cbn [index_to_stack]; tq_auto.
Qed.

Lemma tq_enable_xsl_xts_interfaces :
  tquiet H (fence_watch i st bl) (enable_xsl_xts_interfaces K H gcid sb i).
Proof.
  brick_cases Hrow; unfold enable_xsl_xts_interfaces; cbn [index_to_stack]; tq_auto.
Qed.

Lemma tq_enable_sm_allocation :
  tquiet H (fence_watch i st bl) (enable_sm_allocation K H gcid sb i).
Proof.
  brick_cases Hrow; unfold enable_sm_allocation; cbn [index_to_stack]; tq_auto.
Qed.

Lemma tq_enable_pb_snooping :
  tquiet H (fence_watch i st bl) (enable_pb_snooping K H gcid sb i).
Proof.
  brick_cases Hrow; unfold enable_pb_snooping; cbn [index_to_stack]; tq_auto.
Qed.
End TimedBrick.

(** ** The fence cycle, with its deadlines *)

Section TimedFence.
Variable K : constants.
Variable P : platform_ocapi.
Variable H : hardware.
Variables gcid sb i : Z.
Variable st : npu2_stack.
Variable bl : npu2_block.
Hypothesis Hrow :
  i = 2 /\ st = NPU2_STACK_STCK_1 /\ bl = NPU2_BLOCK_OTL0 \/
  i = 3 /\ st = NPU2_STACK_STCK_1 /\ bl = NPU2_BLOCK_OTL1 \/
  i = 4 /\ st = NPU2_STACK_STCK_2 /\ bl = NPU2_BLOCK_OTL0 \/
  i = 5 /\ st = NPU2_STACK_STCK_2 /\ bl = NPU2_BLOCK_OTL1.
Variable fuel : nat.
Hypothesis Hfuel : (10 <= fuel)%nat.

Lemma status_load_watched (v : Z) :
  fence_watch i st bl
    (EvRead (NpuScom gcid sb (NPU2_REG_OFFSET st NPU2_BLOCK_CTL NPU2_CQ_CTL_STATUS)) v)
  = Some (Seen (StatusRead v)).
Proof. brick_cases Hrow; reflexivity. Qed.

Lemma fence_store_watched (v : Z) :
  fence_watch i st bl (EvWrite (NpuScom gcid sb (fence_control_reg st bl)) v)
  = Some (Seen (FenceWrite v)).
Proof. brick_cases Hrow; reflexivity. Qed.

Lemma stuck_log_watched (expected got : Z) :
  fence_watch i st bl (EvLog PR_ERR log_fence_stuck [i; expected; got])
  = Some (Stuck expected got).
Proof.
  unfold fence_watch. cbn [fence_observe]. rewrite Z.eqb_refl. reflexivity.
Qed.

Lemma fence_poll_timed (status timeout : Z) (n : nat) (w : world) :
  (1 <= n)%nat ->
  timeout - tb w <= Z.of_nat n * msecs_to_tb 1 ->
  exists r w' evs pre tv v,
    fence_poll H n gcid sb i status (fence_status_field K bl) timeout w = Done r w' /\
    trace w' = rev evs ++ trace w /\
    (steps w', tb w') = clock H evs (steps w, tb w) /\
    stamped H (fence_watch i st bl) evs (steps w, tb w)
      = map (fun p => (fst p, Seen (StatusRead (snd p)))) (pre ++ [(tv, v)]) /\
    Forall (fun p => fence_echoes K bl status (snd p) = false) pre /\
    (r = FenceMatched /\ fence_echoes K bl status v = true \/
     r = FenceExpired (u8 (GETFIELD (fence_status_field K bl) v)) /\
     fence_echoes K bl status v = false /\ timeout <= tb w').
Proof.
  rewrite msecs_to_tb_1. pose proof (row_stack i st bl Hrow) as Hst.
  revert w. induction n as [|n IH]; intros w Hn Htime; [lia|].
  cbn [fence_poll]. unfold bind at 1. rewrite Hst. cbn [assert_some].
  unfold bind at 1. unfold npu2_scom_read, read_loc, bind at 1, access, ret.
  cbn [steps tb trace].
  set (loc := NpuScom gcid sb (NPU2_REG_OFFSET st NPU2_BLOCK_CTL NPU2_CQ_CTL_STATUS)).
  set (v := u64 (hw_read H loc (steps w))).
  set (w1 := {| steps := S (steps w); tb := tb w + Z.of_nat (hw_lat H (steps w));
                trace := EvRead loc v :: trace w |}).
  fold (fence_echoes K bl status v).
  destruct (fence_echoes K bl status v) eqn:Hecho.
  - exists FenceMatched, w1, [EvRead loc v], [], (tb w), v.
    split; [reflexivity|]. split; [reflexivity|]. split; [reflexivity|].
    split.
    { cbn [stamped]. subst loc. rewrite status_load_watched. reflexivity. }
    split; [constructor | left; auto].
  - unfold bind at 1. unfold time_wait_ms, time_wait. cbn [steps tb trace].
    unfold bind at 1. unfold mftb. cbn [tb].
    rewrite tb_before.
    set (w2 := {| steps := _; tb := _; trace := EvWait _ :: trace w1 |}).
    assert (Htb2 : tb w + 512000 <= tb w2)
      by (subst w2 w1; cbn [tb]; rewrite msecs_to_tb_1; lia).
    change (tb w1 + msecs_to_tb 1 + Z.of_nat (hw_lat H (steps w1))) with (tb w2).
    assert (Hclock : clock H [EvRead loc v; EvWait (msecs_to_tb 1)] (steps w, tb w)
                     = (steps w2, tb w2)) by reflexivity.
    assert (Hseen : stamped H (fence_watch i st bl)
                      [EvRead loc v; EvWait (msecs_to_tb 1)] (steps w, tb w)
                    = [(tb w, Seen (StatusRead v))]).
    { cbn [stamped]. subst loc. rewrite status_load_watched. reflexivity. }
    destruct (Z.ltb_spec (tb w2) timeout) as [Hlt | Hge].
    + assert (Hn' : (1 <= n)%nat).
      { destruct n; [|lia]. simpl Z.of_nat in Htime. lia. }
      destruct (IH w2 Hn') as (r & w' & evs & pre & tv & x & Hrun & Htr & Hck & Hst' &
                               Hpre & Hres).
      { rewrite Nat2Z.inj_succ in Htime. lia. }
      exists r, w', ([EvRead loc v; EvWait (msecs_to_tb 1)] ++ evs),
        ((tb w, v) :: pre), tv, x.
      split; [exact Hrun|]. split.
      { rewrite Htr, rev_app_distr, <- app_assoc. reflexivity. }
      split; [rewrite clock_app, Hclock; exact Hck|].
      split.
      { rewrite stamped_app, Hclock, Hseen, Hst'. reflexivity. }
      split; [constructor; [exact Hecho | exact Hpre]|].
      exact Hres.
    + exists (FenceExpired (u8 (GETFIELD (fence_status_field K bl) v))), w2,
        [EvRead loc v; EvWait (msecs_to_tb 1)], [], (tb w), v.
      split; [reflexivity|]. split; [reflexivity|]. split; [symmetry; exact Hclock|].
      split; [exact Hseen|]. split; [constructor|].
      right. split; [reflexivity|]. split; [exact Hecho | exact Hge].
Qed.

Lemma set_fence_control_timed (status : Z) :
  timed H (fence_watch i st bl) (set_fence_control K H fuel gcid sb i status)
    (fun _ => timed_episode K bl status).
Proof.
  intros w. unfold set_fence_control.
  unfold bind at 1. unfold mftb at 1.
  unfold bind at 1. rewrite (row_stack i st bl Hrow). cbn [assert_some].
  unfold bind at 1. rewrite (row_block i st bl Hrow). cbn [assert_some].
  unfold bind at 1. unfold npu2_scom_write, write_loc, access.
  unfold bind at 1. cbn [assert_some].
  set (val := SETFIELD (NPU2_CQ_CTL_FENCE_CONTROL_REQUEST_FENCE K) 0 status).
  set (store := EvWrite (NpuScom gcid sb (fence_control_reg st bl)) val).
  set (w1 := {| steps := _; tb := _; trace := _ |}).
  fold (fence_status_field K bl).
  destruct (fence_poll_timed status (tb w + msecs_to_tb CQ_CTL_STATUS_TIMEOUT) fuel w1)
    as (r & w' & evs & pre & tv & v & Hrun & Htr & Hck & Hst' & Hpre & Hres).
  { lia. }
  { subst w1. cbn [tb]. rewrite msecs_to_tb_10, msecs_to_tb_1. lia. }
  unfold bind at 1. rewrite Hrun.
  assert (Hclock1 : clock H [store] (steps w, tb w) = (steps w1, tb w1)) by reflexivity.
  assert (Hseen1 : stamped H (fence_watch i st bl) [store] (steps w, tb w)
                   = [(tb w, Seen (FenceWrite val))]).
  { cbn [stamped]. subst store. rewrite fence_store_watched. reflexivity. }
  destruct Hres as [(-> & Hecho) | (-> & Hecho & Htime)].
  - exists OPAL_SUCCESS, w', ([store] ++ evs).
    split; [reflexivity|]. split.
    { rewrite Htr, rev_app_distr, <- app_assoc. reflexivity. }
    split; [rewrite clock_app, Hclock1; exact Hck|].
    rewrite stamped_app, Hclock1, Hseen1, Hst'.
    exists (tb w), pre, tv, v, []. split; [rewrite app_nil_r; reflexivity|].
    split; [exact Hpre | left; auto].
  - unfold bind, prlog, emit, ret. cbn [steps tb trace].
    set (got := u8 (GETFIELD (fence_status_field K bl) v)).
    eexists OPAL_HARDWARE, _, (([store] ++ evs) ++ [EvLog PR_ERR log_fence_stuck
                                                     [i; status; got]]).
    split; [reflexivity|]. cbn [steps tb trace]. split.
    { rewrite Htr, !rev_app_distr, <- !app_assoc. reflexivity. }
    assert (Hck2 : clock H ([store] ++ evs) (steps w, tb w) = (steps w', tb w'))
      by (rewrite clock_app, Hclock1; symmetry; exact Hck).
    split.
    { rewrite clock_app, Hck2. reflexivity. }
    rewrite stamped_app, Hck2, stamped_app, Hclock1, Hseen1, Hst'.
    cbn [stamped]. rewrite stuck_log_watched. cbn [snd].
    exists (tb w), pre, tv, v, [(tb w', Stuck status got)].
    split; [rewrite <- app_assoc; reflexivity|].
    split; [exact Hpre|]. right. split; [exact Hecho|].
    exists (tb w'). split; [reflexivity | exact Htime].
Qed.

Lemma timed_episode_ends (status : Z) (ep : list (Z * fence_sight)) :
  timed_episode K bl status ep ->
  exists t0 body last,
    ep = (t0, Seen (FenceWrite
                      (SETFIELD (NPU2_CQ_CTL_FENCE_CONTROL_REQUEST_FENCE K) 0 status)))
         :: body ++ [last] /\
    ((exists t v, last = (t, Seen (StatusRead v)) /\
                  fence_echoes K bl status v = true) \/
     (exists t got, last = (t, Stuck status got) /\
                    t0 + msecs_to_tb CQ_CTL_STATUS_TIMEOUT <= t)).
Proof.
  intros (t0 & pre & tv & v & tail & -> & _ & [(Hecho & ->) | (Hecho & t1 & -> & Ht)]).
  - exists t0, (map (fun p => (fst p, Seen (StatusRead (snd p)))) pre),
      (tv, Seen (StatusRead v)).
    split; [rewrite app_nil_r, map_app; reflexivity|].
    left. exists tv, v. auto.
  - exists t0, (map (fun p => (fst p, Seen (StatusRead (snd p)))) (pre ++ [(tv, v)])),
      (t1, Stuck status (u8 (GETFIELD (fence_status_field K bl) v))).
    split; [reflexivity|]. right. eauto.
Qed.

Lemma set_npcq_config_timed :
  timed H (fence_watch i st bl) (set_npcq_config K H fuel gcid sb i)
    (fun _ => timed_fence_cycle K bl).
Proof.
  unfold set_npcq_config.
  apply timed_after_quiet; [tq_auto | intros _].
  rewrite (row_stack i st bl Hrow). apply timed_after_assert.
  rewrite (row_block i st bl Hrow). apply timed_after_assert.
  apply timed_after_quiet; [brick_cases Hrow; tq_auto | intros _].
  eapply timed_weaken.
  - apply (timed_seq H _ _ _ (timed_episode K bl 1)
             (fun obs => exists o3 o2, obs = o3 ++ o2 /\ timed_episode K bl 3 o3 /\
                                       timed_episode K bl 2 o2));
      [apply set_fence_control_timed | intros ?].
    apply timed_after_quiet; [brick_cases Hrow; tq_auto | intros reg].
    apply timed_after_quiet; [brick_cases Hrow; tq_auto | intros _].
    apply (timed_seq H _ _ _ (timed_episode K bl 3) (timed_episode K bl 2));
      [apply set_fence_control_timed | intros ?].
    apply timed_then_quiet; [apply set_fence_control_timed | intros ?].
    brick_cases Hrow; tq_auto.
  - cbv beta. intros _ obs (o1 & o32 & -> & H1 & o3 & o2 & -> & H3 & H2).
    exists o1, o3, o2. auto.
Qed.

Lemma brick_config_timed :
  timed H (fence_watch i st bl) (brick_config K P H fuel gcid sb i)
    (fun _ => timed_fence_cycle K bl).
Proof.
  unfold brick_config.
  apply timed_after_quiet; [apply tq_disable_nvlink; exact Hrow | intros _].
  apply timed_after_quiet; [apply tq_set_transport_mux_controls; exact Hrow | intros _].
  apply timed_after_quiet; [apply tq_enable_odl_phy_mux; exact Hrow | intros _].
  apply timed_after_quiet; [apply tq_disable_alink_fp | intros _].
  apply timed_after_quiet; [apply tq_enable_xsl_clocks; exact Hrow | intros _].
  apply timed_then_quiet; [apply set_npcq_config_timed | intros ?].
  apply tq_bind; [apply tq_enable_xsl_xts_interfaces; exact Hrow | intros _].
  apply tq_bind; [apply tq_enable_sm_allocation; exact Hrow | intros _].
  apply tq_enable_pb_snooping; exact Hrow.
Qed.
End TimedFence.

(** C7 (amended): [set_fence_control] writes the requested status, alone
    in the register, into the fence-control register of the brick's
    block, then reads [CQ_CTL_STATUS] at least once, stopping at the first
    read whose [BRK{0|1}_AM_FENCED] field equals the status; it returns
    success then, and otherwise a hardware error, not before 10 ms have
    elapsed, after logging the brick index with the expected and observed
    states.  [brick_config] returns, and shows to the brick's fence
    registers exactly the three episodes of statuses 01, 11 and 10, each a
    write followed by at least one status read.  Each episode ends, before
    the next write, in one of two ways: with a read that observes the
    status just written, no earlier read of the episode having observed
    it; or, no read of the episode having observed it, with the error
    logged for the brick, and then not before 10 ms after the time base
    at which the episode's write began.  The second way is taken on a
    timeout only, but it is taken: the result of [set_fence_control] is
    not looked at, and the next write follows an unobserved one. *)
Theorem fence_control_cycle (K : constants) (P : platform_ocapi) (H : hardware)
    (gcid sb i : Z) (fuel : nat) :
  valid_index i -> (10 <= fuel)%nat ->
  exists st bl,
    index_to_stack i = Some st /\ index_to_block i = Some bl /\
    (forall status w, exists rc w' pre v,
       set_fence_control K H fuel gcid sb i status w = Done rc w' /\
       fence_view st bl (trace w') =
         rev (episode_view K status (pre ++ [v])) ++ fence_view st bl (trace w) /\
       Forall (fun x => fence_echoes K bl status x = false) pre /\
       writes_of (trace w') =
         (NpuScom gcid sb (fence_control_reg st bl),
          SETFIELD (NPU2_CQ_CTL_FENCE_CONTROL_REQUEST_FENCE K) 0 status)
         :: writes_of (trace w) /\
       (rc = OPAL_SUCCESS /\ fence_echoes K bl status v = true \/
        rc = OPAL_HARDWARE /\ fence_echoes K bl status v = false /\
        tb w + msecs_to_tb CQ_CTL_STATUS_TIMEOUT <= tb w' /\
        exists t', trace w' =
          EvLog PR_ERR
            "OCAPI: Fence status for brick %d stuck: expected 0x%x, got 0x%x"
            [i; status; u8 (GETFIELD (fence_status_field K bl) v)] :: t')) /\
    (forall w, exists w' obs evs,
       brick_config K P H fuel gcid sb i w = Done tt w' /\
       fence_view st bl (trace w') = rev obs ++ fence_view st bl (trace w) /\
       fence_cycle K bl obs /\
       trace w' = rev evs ++ trace w /\
       (steps w', tb w') = clock H evs (steps w, tb w) /\
       timed_fence_cycle K bl
         (stamped H (fence_watch i st bl) evs (steps w, tb w))).
Proof.
  intros Hi Hfuel.
  destruct (valid_index_stack_block i Hi) as (st & bl & Hst & Hbl & Hrow).
  exists st, bl. split; [exact Hst|]. split; [exact Hbl|]. split.
  - intros status w.
    exact (set_fence_control_spec K H gcid sb i st bl Hrow status fuel w Hfuel).
  - intros w.
    destruct (shows_brick_config K P H gcid sb i st bl Hrow fuel Hfuel w)
      as ([] & w' & obs & Hrun & Hview & Hcycle).
    destruct (brick_config_timed K P H gcid sb i st bl Hrow fuel Hfuel w)
      as ([] & w2 & evs & Hrun2 & Htr & Hck & Htimed).
    rewrite Hrun in Hrun2. injection Hrun2 as <-.
    exists w', obs, evs. auto 10.
Qed.

Lemma fence_control_cycle_witness :
  valid_index 2 /\ (10 <= 10)%nat /\
  exists st bl,
    index_to_stack 2 = Some st /\ index_to_block 2 = Some bl /\
    (forall status w, exists rc w' pre v,
       set_fence_control p9_constants (constant_hw 0 true) 10 0 0 2 status w
         = Done rc w' /\
       fence_view st bl (trace w') =
         rev (episode_view p9_constants status (pre ++ [v]))
         ++ fence_view st bl (trace w) /\
       Forall (fun x => fence_echoes p9_constants bl status x = false) pre /\
       writes_of (trace w') =
         (NpuScom 0 0 (fence_control_reg st bl),
          SETFIELD (NPU2_CQ_CTL_FENCE_CONTROL_REQUEST_FENCE p9_constants) 0 status)
         :: writes_of (trace w) /\
       (rc = OPAL_SUCCESS /\ fence_echoes p9_constants bl status v = true \/
        rc = OPAL_HARDWARE /\ fence_echoes p9_constants bl status v = false /\
        tb w + msecs_to_tb CQ_CTL_STATUS_TIMEOUT <= tb w' /\
        exists t', trace w' =
          EvLog PR_ERR
            "OCAPI: Fence status for brick %d stuck: expected 0x%x, got 0x%x"
            [2; status; u8 (GETFIELD (fence_status_field p9_constants bl) v)]
          :: t')) /\
    (forall w, exists w' obs evs,
       brick_config p9_constants sample_platform (constant_hw 0 true) 10 0 0 2 w
         = Done tt w' /\
       fence_view st bl (trace w') = rev obs ++ fence_view st bl (trace w) /\
       fence_cycle p9_constants bl obs /\
       trace w' = rev evs ++ trace w /\
       (steps w', tb w') = clock (constant_hw 0 true) evs (steps w, tb w) /\
       timed_fence_cycle p9_constants bl
         (stamped (constant_hw 0 true) (fence_watch 2 st bl) evs (steps w, tb w))).
Proof.
  assert (Hi : valid_index 2) by (unfold valid_index; lia).
  assert (Hf : (10 <= 10)%nat) by lia.
  split; [exact Hi|]. split; [exact Hf|].
  exact (fence_control_cycle p9_constants sample_platform (constant_hw 0 true)
           0 0 2 10 Hi Hf).
Defined.


(** On hardware whose status register reads 0, [brick_config] of brick 2
    writes the fence states 01, 11 and 10 in turn, and no read of
    [CQ_CTL_STATUS] of the whole run observes any of them. *)
Lemma brick_config_fence_unobserved :
  match brick_config p9_constants sample_platform (constant_hw 0 true)
          10 0 0 2 world0 with
  | Done _ w' =>
      let obs := rev (fence_view NPU2_STACK_STCK_1 NPU2_BLOCK_OTL0 (trace w')) in
      map (GETFIELD (NPU2_CQ_CTL_FENCE_CONTROL_REQUEST_FENCE p9_constants))
          (fence_writes obs) = [1; 3; 2] /\
      echo_seen p9_constants NPU2_BLOCK_OTL0 1 obs = false /\
      echo_seen p9_constants NPU2_BLOCK_OTL0 3 obs = false /\
      echo_seen p9_constants NPU2_BLOCK_OTL0 2 obs = false /\
      (0 < List.length (filter (fun o => match o with StatusRead _ => true
                                        | FenceWrite _ => false end) obs))%nat
  | _ => False
  end.
Proof. vm_compute. repeat split; try reflexivity. lia. Qed.

(** On hardware whose status register never shows a fence status asked
    for (it reads 0), every episode of [brick_config] of brick 2 ends the
    second way: ten reads, none observing the status, then the error, 10
    ms after the write. *)
Lemma brick_config_fence_timeouts :
  match brick_config p9_constants sample_platform (constant_hw 0 true)
          10 0 0 2 world0 with
  | Done _ w' =>
      map snd (stamped (constant_hw 0 true)
                 (fence_watch 2 NPU2_STACK_STCK_1 NPU2_BLOCK_OTL0)
                 (rev (trace w')) (O, 0))
      = (Seen (FenceWrite (SETFIELD (NPU2_CQ_CTL_FENCE_CONTROL_REQUEST_FENCE
                                       p9_constants) 0 1))
         :: repeat (Seen (StatusRead 0)) 10 ++ [Stuck 1 0])
        ++ (Seen (FenceWrite (SETFIELD (NPU2_CQ_CTL_FENCE_CONTROL_REQUEST_FENCE
                                          p9_constants) 0 3))
            :: repeat (Seen (StatusRead 0)) 10 ++ [Stuck 3 0])
        ++ (Seen (FenceWrite (SETFIELD (NPU2_CQ_CTL_FENCE_CONTROL_REQUEST_FENCE
                                          p9_constants) 0 2))
            :: repeat (Seen (StatusRead 0)) 10 ++ [Stuck 2 0])
  | _ => False
  end.
Proof. vm_compute. reflexivity. Qed.

(** ** C5: the retry budget of link training *)

Section ShowsThen.
Context {X : Type}.
Variable f : event -> option X.

Lemma shows_after_silent {A B} (c : M A) (k : A -> M B) (R : A -> Prop)
    (Q : B -> list X -> Prop) :
  shows f c (fun a obs => R a /\ obs = []) ->
  (forall a, R a -> shows f (k a) Q) ->
  shows f (bind c k) Q.
Proof.
  intros Hc Hk w. destruct (Hc w) as (a & w1 & o1 & E1 & V1 & HR & ->).
  destruct (Hk a HR w1) as (b & w2 & o2 & E2 & V2 & HQ).
  exists b, w2, o2. unfold bind. rewrite E1. split; [exact E2|].
  split; [rewrite V2, V1; reflexivity | exact HQ].
Qed.

Lemma shows_then {A B} (c : M A) (k : A -> M B) (l1 l2 : list X) :
  shows f c (fun _ obs => obs = l1) ->
  (forall a, shows f (k a) (fun _ obs => obs = l2)) ->
  shows f (bind c k) (fun _ obs => obs = l1 ++ l2).
Proof.
  intros Hc Hk. eapply shows_weaken.
  - apply shows_bind; [exact Hc | exact Hk].
  - cbv beta. intros b obs (a & o1 & o2 & -> & -> & ->). reflexivity.
Qed.
End ShowsThen.

Ltac skip_quiet :=
  apply shows_after_quiet; [solve [quiet_auto] | intros ?].

Section Training.
Variable K : constants.
Variable P : platform_ocapi.
Variable H : hardware.
Variables gcid i : Z.
Variable st : npu2_stack.
Variable bl : npu2_block.
Hypothesis Hrow :
  i = 2 /\ st = NPU2_STACK_STCK_1 /\ bl = NPU2_BLOCK_OTL0 \/
  i = 3 /\ st = NPU2_STACK_STCK_1 /\ bl = NPU2_BLOCK_OTL1 \/
  i = 4 /\ st = NPU2_STACK_STCK_2 /\ bl = NPU2_BLOCK_OTL0 \/
  i = 5 /\ st = NPU2_STACK_STCK_2 /\ bl = NPU2_BLOCK_OTL1.

Lemma row_status : exists reg, odl_status_xscom i = Some reg.
Proof. brick_cases Hrow; eexists; reflexivity. Qed.

Lemma odl_poll_shows (timeout : nat) :
  shows (train_observe st bl) (odl_poll K H timeout gcid i)
    (fun r obs =>
       r = OdlTrained /\ obs = [Trained] /\ ~ never_trained K H gcid i \/
       (exists reg, r = OdlTimedOut reg) /\ obs = []).
Proof.
  destruct row_status as (sr & Hsr).
  induction timeout as [|t IH]; intros w; cbn [odl_poll];
    unfold get_odl_status; rewrite Hsr;
    unfold bind at 1; unfold bind at 1; cbn [assert_some];
    unfold xscom_read, read_loc, bind at 1, access, ret;
    set (v := u64 (hw_read H (Xscom gcid sr) (steps w)));
    set (w1 := {| steps := _; tb := _; trace := _ |});
    destruct (Z.eqb_spec (GETFIELD (OB_ODL_STATUS_TRAINING_STATE_MACHINE K) v) 7)
      as [H7 | H7].
  - eexists OdlTrained, _, [Trained]. split; [reflexivity|].
    split; [reflexivity|]. left. split; [reflexivity|]. split; [reflexivity|].
    intros Hn. exact (Hn sr (steps w) Hsr H7).
  - eexists (OdlTimedOut v), _, []. split; [reflexivity|].
    split; [reflexivity|]. right. split; [eexists; reflexivity | reflexivity].
  - eexists OdlTrained, _, [Trained]. split; [reflexivity|].
    split; [reflexivity|]. left. split; [reflexivity|]. split; [reflexivity|].
    intros Hn. exact (Hn sr (steps w) Hsr H7).
  - unfold bind at 1. unfold time_wait_ms, time_wait.
    set (w2 := {| steps := _; tb := _; trace := EvWait _ :: _ |}).
    destruct (IH w2) as (r & w' & obs & Hrun & Hview & HQ).
    exists r, w', obs. split; [exact Hrun|]. split; [exact Hview | exact HQ].
Qed.

Lemma quiet_i2c_request_send (port offset data : Z) :
  quiet (train_observe st bl) (i2c_request_send H port offset data).
Proof. intros w. eexists. eexists. split; reflexivity. Qed.

Lemma quiet_reset_ocapi_loop (port : Z) (todo : list (Z * Z * Z)) :
  quiet (train_observe st bl) (reset_ocapi_loop H port todo).
Proof.
  induction todo as [|[[n offset] data] todo IH]; cbn [reset_ocapi_loop].
  - apply quiet_ret.
  - apply quiet_bind; [apply quiet_i2c_request_send | intros rc].
    destruct (negb (rc =? 0)); [quiet_auto|].
    apply quiet_bind; [|intros _; exact IH].
    destruct (negb (n =? 0)); quiet_auto.
Qed.

Lemma quiet_reset_ocapi_device (dev : npu2_dev) :
  index dev = i -> quiet (train_observe st bl) (reset_ocapi_device P H dev).
Proof.
  intros Hi. unfold reset_ocapi_device. rewrite Hi.
  destruct (i2c_offset P) as [[o0 o1] o2].
  destruct (i2c_odl0_data P) as [[d0 d1] d2].
  destruct (i2c_odl1_data P) as [[e0 e1] e2].
  assert (Hv : i = 2 \/ i = 3 \/ i = 4 \/ i = 5) by tauto.
  destruct Hv as [Hv | [Hv | [Hv | Hv]]]; rewrite Hv;
    apply quiet_bind_assert; apply quiet_reset_ocapi_loop.
Qed.

Lemma row_config : exists reg, odl_config_xscom i = Some reg.
Proof. brick_cases Hrow; eexists; reflexivity. Qed.

Lemma odl_train_shows (dev : npu2_dev) :
  index dev = i ->
  shows (train_observe st bl) (odl_train K P H gcid i dev)
    (fun rc obs =>
       rc = OPAL_SUCCESS /\ obs = [TrainStart; Trained] /\
         ~ never_trained K H gcid i \/
       rc = OPAL_HARDWARE /\ obs = [TrainStart]).
Proof.
  intros Hi. destruct row_config as (cr & Hcr).
  unfold odl_train. rewrite Hcr.
  eapply shows_weaken.
  - apply shows_bind; [apply shows_emit; reflexivity | intros ?].
    apply shows_after_assert.
    apply shows_after_quiet; [quiet_auto | intros ?].
    apply shows_after_quiet; [quiet_auto | intros ?].
    apply shows_after_quiet; [apply quiet_reset_ocapi_device; exact Hi | intros ?].
    apply shows_after_quiet; [quiet_auto | intros ?].
    apply shows_after_quiet; [quiet_auto | intros ?].
    apply shows_after_quiet;
      [unfold npu2_opencapi_bump_ui_lane; quiet_auto | intros ?].
    apply shows_after_quiet; [quiet_auto | intros ?].
    eapply (shows_bind _ _ _ _
             (fun r rc obs =>
                match r with
                | OdlTrained => rc = OPAL_SUCCESS
                | OdlTimedOut _ => rc = OPAL_HARDWARE
                end /\ obs = []));
      [apply odl_poll_shows | intros r].
    destruct r as [|reg].
    + eapply shows_weaken; [apply shows_ret|]. cbv beta. intros ? ? [-> ->]. auto.
    + eapply shows_weaken.
      * apply shows_after_quiet; [quiet_auto | intros ?].
        apply shows_after_quiet; [quiet_auto | intros ?].
        apply shows_ret.
      * cbv beta. intros ? ? [-> ->]. auto.
  - cbv beta.
    intros rc obs (_ & o1 & o2 & -> & -> & r & o3 & o4 & -> & Hpoll & Hrc & ->).
    destruct Hpoll as [(-> & -> & Hn) | ((reg & ->) & ->)]; [left | right]; auto.
Qed.

Lemma training_loop_shows (left : nat) (dev : npu2_dev) :
  index dev = i ->
  shows (train_observe st bl) (training_loop K P H left gcid dev)
    (fun r obs =>
       fst r = OPAL_SUCCESS /\ snd r <> O /\ ~ never_trained K H gcid i /\
         (exists k, (1 <= k <= S left)%nat /\ obs = repeat TrainStart k ++ [Trained]) \/
       fst r = OPAL_HARDWARE /\ snd r = O /\ obs = repeat TrainStart (S left)).
Proof.
  intros Hi. induction left as [|left IH]; intros w; cbn [training_loop];
    rewrite Hi; unfold bind at 1;
    destruct (odl_train_shows dev Hi w) as (rc & w1 & o1 & E1 & V1 & HQ1);
    rewrite E1;
    destruct HQ1 as [(-> & -> & Hn) | (-> & ->)]; cbn [opal_rc_eqb].
  - eexists _, w1, _. split; [reflexivity|]. split; [exact V1|].
    left. cbn [fst snd]. split; [reflexivity|]. split; [discriminate|].
    split; [exact Hn|]. exists 1%nat. split; [lia | reflexivity].
  - eexists _, w1, _. split; [reflexivity|]. split; [exact V1|].
    right. cbn [fst snd]. auto.
  - eexists _, w1, _. split; [reflexivity|]. split; [exact V1|].
    left. cbn [fst snd]. split; [reflexivity|]. split; [discriminate|].
    split; [exact Hn|]. exists 1%nat. split; [lia | reflexivity].
  - destruct (IH w1) as (r & w2 & o2 & E2 & V2 & HQ2).
    exists r, w2, ([TrainStart] ++ o2). split; [exact E2|].
    split; [rewrite V2, V1, rev_app_distr, <- app_assoc; reflexivity|].
    destruct HQ2 as [(Hrc & Hret & Hn & k & Hk & ->) | (Hrc & Hret & ->)].
    + left. split; [exact Hrc|]. split; [exact Hret|]. split; [exact Hn|].
      exists (S k). split; [lia | reflexivity].
    + right. auto.
Qed.

Lemma fence_poll_quiet (sb status status_field timeout : Z) (fuel : nat) (w : world) :
  (1 <= fuel)%nat ->
  timeout - tb w <= Z.of_nat fuel * msecs_to_tb 1 ->
  exists r w',
    fence_poll H fuel gcid sb i status status_field timeout w = Done r w' /\
    train_view st bl (trace w') = train_view st bl (trace w).
Proof.
  rewrite msecs_to_tb_1. pose proof (row_stack i st bl Hrow) as Hst.
  revert w. induction fuel as [|f IH]; intros w Hfuel Htime; [lia|].
  cbn [fence_poll]. unfold bind at 1. rewrite Hst. cbn [assert_some].
  unfold bind at 1. unfold npu2_scom_read, read_loc, bind at 1, access, ret.
  cbn [steps tb trace].
  set (v := u64 (hw_read H _ (steps w))).
  set (w1 := {| steps := S (steps w); tb := tb w + Z.of_nat (hw_lat H (steps w));
                trace := EvRead _ v :: trace w |}).
  destruct (u8 (GETFIELD status_field v) =? status).
  - exists FenceMatched, w1. split; reflexivity.
  - unfold bind at 1. unfold time_wait_ms, time_wait. cbn [steps tb trace].
    unfold bind at 1. unfold mftb. cbn [tb].
    rewrite tb_before.
    set (w2 := {| steps := _; tb := _; trace := EvWait _ :: trace w1 |}).
    assert (Htb2 : tb w + 512000 <= tb w2)
      by (subst w2 w1; cbn [tb]; rewrite msecs_to_tb_1; lia).
    change (tb w1 + msecs_to_tb 1 + Z.of_nat (hw_lat H (steps w1))) with (tb w2).
    destruct (Z.ltb_spec (tb w2) timeout) as [Hlt | Hge].
    + assert (Hf : (1 <= f)%nat).
      { destruct f; [|lia]. simpl Z.of_nat in Htime. lia. }
      destruct (IH w2 Hf) as (r & w' & Hrun & Hview).
      { rewrite Nat2Z.inj_succ in Htime. lia. }
      exists r, w'. split; [exact Hrun | exact Hview].
    + eexists _, w2. split; reflexivity.
Qed.

Lemma quiet_set_fence_control (sb status : Z) (fuel : nat) :
  (10 <= fuel)%nat ->
  quiet (train_observe st bl) (set_fence_control K H fuel gcid sb i status).
Proof.
  intros Hfuel w. unfold set_fence_control.
  unfold bind at 1. unfold mftb at 1.
  unfold bind at 1. rewrite (row_stack i st bl Hrow). cbn [assert_some].
  unfold bind at 1. rewrite (row_block i st bl Hrow). cbn [assert_some].
  unfold bind at 1. unfold npu2_scom_write, write_loc, access.
  unfold bind at 1. cbn [assert_some].
  set (w1 := {| steps := _; tb := _; trace := _ |}).
  assert (Hview1 : train_view st bl (trace w1) = train_view st bl (trace w)).
  { subst w1. cbn [trace view_of train_observe].
    replace (npu2_reg_eqb (fence_control_reg st bl) (NPU2_OTL_CONFIG2 st bl))
      with false by (destruct st, bl; reflexivity).
    reflexivity. }
  match goal with
  | |- context [fence_poll H fuel gcid sb i status ?sf ?to] =>
      destruct (fence_poll_quiet sb status sf to fuel w1) as (r & w' & Hrun & Hview)
  end.
  { lia. }
  { subst w1. cbn [tb]. rewrite msecs_to_tb_10, msecs_to_tb_1. lia. }
  unfold bind at 1. rewrite Hrun. destruct r as [|sv].
  - exists OPAL_SUCCESS, w'. split; [reflexivity | congruence].
  - eexists OPAL_HARDWARE, _. split; [reflexivity|].
    cbn [trace view_of train_observe]. congruence.
Qed.

Lemma quiet_write_bar (sb : Z) (reg : npu2_offset) (addr size : Z) :
  quiet (train_observe st bl) (write_bar K H gcid sb st reg addr size).
Proof.
  unfold write_bar. cbv zeta.
  match goal with |- quiet _ (for_each _ (fun b => bind (_ _ _ _ _ ?val) _)) =>
    generalize val end.
  intros val. brick_cases Hrow; quiet_auto.
Qed.

Lemma setup_afu_mmio_bars_shows (sb : Z) (dev : npu2_dev) :
  index dev = i ->
  shows (train_observe st bl) (setup_afu_mmio_bars K H gcid sb dev)
    (fun d obs => index d = i /\ obs = []).
Proof.
  intros Hi. unfold setup_afu_mmio_bars. rewrite Hi.
  rewrite (row_stack i st bl Hrow), (row_block i st bl Hrow).
  do 3 apply shows_after_assert.
  skip_quiet.
  destruct (hw_phys_map H gcid NPU_OCAPI_MMIO i) as [addr size].
  skip_quiet.
  apply shows_after_quiet; [apply quiet_write_bar | intros ?].
  skip_quiet.
  apply shows_after_quiet;
    [destruct st, bl; apply quiet_access; reflexivity | intros ?].
  eapply shows_weaken; [apply shows_ret|].
  cbv beta. intros d obs [-> ->]. split; [exact Hi | reflexivity].
Qed.

Lemma setup_afu_config_bars_shows (sb : Z) (dev : npu2_dev) :
  index dev = i ->
  shows (train_observe st bl) (setup_afu_config_bars K H gcid sb dev)
    (fun d obs => index d = i /\ obs = []).
Proof.
  intros Hi. unfold setup_afu_config_bars. rewrite Hi.
  rewrite (row_stack i st bl Hrow). apply shows_after_assert.
  skip_quiet.
  destruct (hw_phys_map H gcid NPU_GENID (stack_num st)) as [addr size].
  skip_quiet.
  apply shows_after_quiet; [apply quiet_write_bar | intros ?].
  eapply shows_weaken; [apply shows_ret|].
  cbv beta. intros d obs [-> ->]. split; [exact Hi | reflexivity].
Qed.

Lemma config2_observed (sb v : Z) :
  train_observe st bl (EvWrite (NpuScom gcid sb (NPU2_OTL_CONFIG2 st bl)) v)
  = Some (Config2Write v).
Proof. destruct st, bl; reflexivity. Qed.

Lemma otl_enabletx_shows (sb : Z) :
  shows (train_observe st bl) (otl_enabletx K H gcid sb i)
    (fun _ obs => obs = [Config2Write (NPU2_OTL_CONFIG2_TX_SEND_EN K)]).
Proof.
  unfold otl_enabletx.
  rewrite (row_stack i st bl Hrow), (row_block i st bl Hrow).
  do 2 apply shows_after_assert.
  skip_quiet.
  apply (shows_then _ _ _ [Config2Write (NPU2_OTL_CONFIG2_TX_SEND_EN K)] []).
  - apply shows_access. apply config2_observed.
  - intros _. apply quiet_shows.
    apply quiet_bind; [|intros ?; quiet_auto].
    apply quiet_read_loc. intros v. reflexivity.
Qed.

Lemma quiet_get_odl_status : quiet (train_observe st bl) (get_odl_status H gcid i).
Proof.
  destruct row_status as (sr & Hsr). unfold get_odl_status. rewrite Hsr.
  quiet_auto.
Qed.
End Training.

Section SetupDeviceShows.
Variable K : constants.
Variable P : platform_ocapi.
Variable H : hardware.
Variable fuel : nat.
Variable dn_link : dt_link.
Variable n : npu2.
Variable dev : npu2_dev.
Variable st : npu2_stack.
Variable bl : npu2_block.
Variable id : Z.
Hypothesis Hrow :
  (ibm_npu_link_index dn_link) = 2 /\ st = NPU2_STACK_STCK_1 /\ bl = NPU2_BLOCK_OTL0 \/
  (ibm_npu_link_index dn_link) = 3 /\ st = NPU2_STACK_STCK_1 /\ bl = NPU2_BLOCK_OTL1 \/
  (ibm_npu_link_index dn_link) = 4 /\ st = NPU2_STACK_STCK_2 /\ bl = NPU2_BLOCK_OTL0 \/
  (ibm_npu_link_index dn_link) = 5 /\ st = NPU2_STACK_STCK_2 /\ bl = NPU2_BLOCK_OTL1.
Hypothesis Hfuel : (10 <= fuel)%nat.
Hypothesis Hport : hw_i2c_port H (chip_id n) (i2c_engine P) (i2c_port P) = Some id.
Hypothesis Hid : id <> 0.

Lemma setup_device_shows :
  shows (train_observe st bl)
    (npu2_opencapi_setup_device K P H NPU2_TRAIN_DEFAULT fuel dn_link n dev)
    (fun _ obs =>
       (exists k, (1 <= k <= LINK_TRAINING_RETRIES)%nat /\ obs = trained_at K k /\
                  ~ never_trained K H (chip_id n) (ibm_npu_link_index dn_link)) \/
       obs = training_failed).
Proof.
  unfold npu2_opencapi_setup_device.
  destruct (hw_phys_map H (chip_id n) NPU_OCAPI_MMIO (ibm_npu_link_index dn_link))
    as [mm0 mm1].
  cbv zeta. cbn [chip_id xscom_base i2c_port_id_ocapi npu_index npu_phandle
                   mm_base mm_size].
  rewrite Hport. rewrite (proj2 (Z.eqb_neq id 0) Hid).
  repeat skip_quiet.
  eapply shows_after_silent;
    [apply (setup_afu_mmio_bars_shows K H (chip_id n) _ st bl Hrow); reflexivity
    | intros dev1 Hdev1].
  eapply shows_after_silent;
    [apply (setup_afu_config_bars_shows K H (chip_id n) _ st bl Hrow); exact Hdev1
    | intros dev2 Hdev2].
  rewrite Hdev2.
  apply shows_after_quiet;
    [apply (quiet_set_fence_control K H (chip_id n) _ st bl Hrow); exact Hfuel
    | intros ?].
  skip_quiet.
  eapply shows_weaken.
  - eapply (shows_bind _ _ _ _
              (fun r _ obs =>
                 if negb (opal_rc_eqb (fst r) OPAL_SUCCESS) && Nat.eqb (snd r) 0
                 then obs = [StatusError]
                 else obs = [Config2Write (NPU2_OTL_CONFIG2_TX_SEND_EN K);
                             PhbRegistered])).
    + apply (training_loop_shows K P H (chip_id n) _ st bl Hrow). exact Hdev2.
    + intros [rc retries]. cbn [fst snd].
      destruct (negb (opal_rc_eqb rc OPAL_SUCCESS) && Nat.eqb retries 0).
      * skip_quiet.
        apply shows_after_quiet;
          [apply (quiet_get_odl_status H (chip_id n) _ st bl Hrow) | intros ?].
        skip_quiet.
        apply (shows_then _ _ _ [StatusError] []);
          [apply shows_emit; reflexivity | intros ?].
        apply quiet_shows. quiet_auto.
      * apply (shows_then _ _ _ [Config2Write (NPU2_OTL_CONFIG2_TX_SEND_EN K)]
                 [PhbRegistered]);
          [apply (otl_enabletx_shows K H (chip_id n) _ st bl Hrow) | intros ?].
        apply shows_after_quiet;
          [unfold npu2_opencapi_slot_create; quiet_auto | intros slot].
        apply shows_after_quiet; [destruct slot; quiet_auto | intros ?].
        apply (shows_then _ _ _ [PhbRegistered] []);
          [apply shows_emit; reflexivity | intros ?].
        apply quiet_shows. quiet_auto.
  - cbv beta. intros _ obs ([rc retries] & o1 & o2 & -> & HQ1 & HQ2).
    cbn [fst snd] in *.
    destruct HQ1 as [(-> & Hret & Hn & k & Hk & ->) | (-> & -> & ->)].
    + cbn [opal_rc_eqb negb andb] in HQ2. subst o2. left.
      exists k. split; [exact Hk|]. split; [|exact Hn].
      unfold trained_at. rewrite <- app_assoc. reflexivity.
    + cbn [opal_rc_eqb negb andb Nat.eqb] in HQ2. subst o2. right. reflexivity.
Qed.
End SetupDeviceShows.

(** C5 (amended): for a brick whose I2C reset port is found in the device
    tree, [npu2_opencapi_setup_device] in the default training mode
    returns, and what it shows of the training is one of two runs: [k]
    starts of [odl_train], for some [k] from 1 to 5, the last of which
    finds the link trained, followed by no further start, the store of
    [TX_SEND_EN] to [OTL_CONFIG2] and the registration of the PHB; or
    exactly 5 starts of [odl_train], none of which finds the link trained,
    followed by [status = "error"] on the PHB node and no registration.
    When the training state of the brick's ODL never reads 7, the run is
    the second. *)
Theorem training_retry_budget (K : constants) (P : platform_ocapi) (H : hardware)
    (fuel : nat) (dn_link : dt_link) (n : npu2) (dev : npu2_dev) (id : Z) :
  valid_index (ibm_npu_link_index dn_link) ->
  (10 <= fuel)%nat ->
  hw_i2c_port H (chip_id n) (i2c_engine P) (i2c_port P) = Some id ->
  id <> 0 ->
  exists st bl,
    index_to_stack (ibm_npu_link_index dn_link) = Some st /\
    index_to_block (ibm_npu_link_index dn_link) = Some bl /\
    forall w, exists r w' obs,
      npu2_opencapi_setup_device K P H NPU2_TRAIN_DEFAULT fuel dn_link n dev w
        = Done r w' /\
      train_view st bl (trace w') = rev obs ++ train_view st bl (trace w) /\
      ((exists k, (1 <= k <= LINK_TRAINING_RETRIES)%nat /\ obs = trained_at K k) \/
       obs = training_failed) /\
      (never_trained K H (chip_id n) (ibm_npu_link_index dn_link) ->
       obs = training_failed).
Proof.
  intros Hi Hfuel Hport Hid.
  destruct (valid_index_stack_block _ Hi) as (st & bl & Hst & Hbl & Hrow).
  exists st, bl. split; [exact Hst|]. split; [exact Hbl|]. intros w.
  destruct (setup_device_shows K P H fuel dn_link n dev st bl id Hrow Hfuel
              Hport Hid w) as (r & w' & obs & Hrun & Hview & Hobs).
  exists r, w', obs. split; [exact Hrun|]. split; [exact Hview|]. split.
  - destruct Hobs as [(k & Hk & Hobs & _) | Hobs]; [left; eauto | right; exact Hobs].
  - intros Hnever. destruct Hobs as [(k & _ & _ & Hn) | Hobs];
      [contradiction | exact Hobs].
Qed.

Lemma training_retry_budget_witness :
  valid_index 2 /\ (10 <= 10)%nat /\
  hw_i2c_port (constant_hw 0 true) 0 (i2c_engine sample_platform)
    (i2c_port sample_platform) = Some 7 /\
  7 <> 0 /\
  exists st bl,
    index_to_stack 2 = Some st /\ index_to_block 2 = Some bl /\
    forall w, exists r w' obs,
      npu2_opencapi_setup_device p9_constants sample_platform (constant_hw 0 true)
        NPU2_TRAIN_DEFAULT 10 (sample_link 2) sample_npu (blank_dev sample_npu) w
        = Done r w' /\
      train_view st bl (trace w') = rev obs ++ train_view st bl (trace w) /\
      ((exists k, (1 <= k <= LINK_TRAINING_RETRIES)%nat /\
                  obs = trained_at p9_constants k) \/
       obs = training_failed) /\
      (never_trained p9_constants (constant_hw 0 true) 0 2 ->
       obs = training_failed).
Proof.
  assert (Hi : valid_index 2) by (unfold valid_index; lia).
  assert (Hf : (10 <= 10)%nat) by lia.
  assert (Hid : 7 <> 0) by lia.
  split; [exact Hi|]. split; [exact Hf|]. split; [reflexivity|].
  split; [exact Hid|].
  exact (training_retry_budget p9_constants sample_platform (constant_hw 0 true)
           10 (sample_link 2) sample_npu (blank_dev sample_npu) 7
           Hi Hf eq_refl Hid).
Defined.

(** Without an I2C port in the device tree, the orchestrator sets
    [status = "error"] at once: the training state of brick 2 never reads
    7, and [odl_train] is not started even once. *)
Lemma setup_without_i2c_port_never_trains :
  never_trained p9_constants (constant_hw 0 false) 0 2 /\
  match npu2_opencapi_setup_device p9_constants sample_platform
          (constant_hw 0 false) NPU2_TRAIN_DEFAULT 10 (sample_link 2)
          sample_npu (blank_dev sample_npu) world0 with
  | Done _ w' =>
      train_view NPU2_STACK_STCK_1 NPU2_BLOCK_OTL0 (trace w') = [StatusError]
  | _ => False
  end.
Proof.
  split.
  - intros reg n _. vm_compute. discriminate.
  - vm_compute. reflexivity.
Qed.

(** On hardware whose registers read all ones, the first attempt finds the
    link trained. *)
Lemma setup_trains_at_once :
  match npu2_opencapi_setup_device p9_constants sample_platform
          (constant_hw 18446744073709551615 true) NPU2_TRAIN_DEFAULT 10
          (sample_link 2) sample_npu (blank_dev sample_npu) world0 with
  | Done _ w' =>
      rev (train_view NPU2_STACK_STCK_1 NPU2_BLOCK_OTL0 (trace w'))
      = trained_at p9_constants 1
  | _ => False
  end.
Proof. vm_compute. reflexivity. Qed.


(** ** The spinlock core: taking and releasing *)

Lemma u64_shiftl_pir (p : Z) : 0 <= p < 2 ^ 32 -> u64 (Z.shiftl p 32) = Z.shiftl p 32.
Proof.
  intros Hp. unfold u64. rewrite Z.shiftl_mul_pow2 by lia.
  apply Z.mod_small. change (2 ^ 64) with (2 ^ 32 * 2 ^ 32). nia.
Qed.

Lemma held_by_bit0 (p : Z) : 0 <= p < 2 ^ 32 -> Z.land (held_by p) 1 = 1.
Proof.
  intros Hp. unfold held_by. rewrite u64_shiftl_pir by assumption.
  rewrite Z.land_lor_distr_l. change (Z.land 1 1) with 1.
  replace (Z.land (Z.shiftl p 32) 1) with 0; [reflexivity|].
  symmetry. change 1 with (Z.ones 1). rewrite Z.land_ones by lia.
  rewrite Z.shiftl_mul_pow2 by lia. change (2 ^ 32) with (2 ^ 31 * 2 ^ 1).
  rewrite Z.mul_assoc. apply Z.mod_mul. lia.
Qed.

Lemma held_by_owner (p : Z) : 0 <= p < 2 ^ 32 -> Z.shiftr (held_by p) 32 = p.
Proof.
  intros Hp. unfold held_by. rewrite u64_shiftl_pir by assumption.
  rewrite Z.shiftr_lor. change (Z.shiftr 1 32) with 0. rewrite Z.lor_0_r.
  rewrite Z.shiftr_shiftl_l by lia. apply Z.shiftl_0_r.
Qed.

Lemma held_by_nonzero (p : Z) : 0 <= p < 2 ^ 32 -> held_by p <> 0.
Proof.
  intros Hp E. pose proof (held_by_bit0 p Hp) as Hb. rewrite E in Hb. discriminate.
Qed.

Lemma list_del_head (l : Z) (held : list Z) : list_del l (l :: held) = held.
Proof. cbn [list_del]. rewrite Z.eqb_refl. reflexivity. Qed.

Lemma u32_succ_pred (c : Z) : 0 <= c -> c + 1 < 2 ^ 32 -> u32 (u32 (c + 1) - 1) = c.
Proof.
  intros Hc Hlt. unfold u32. rewrite (Z.mod_small (c + 1)) by lia.
  replace (c + 1 - 1) with c by lia. apply Z.mod_small. lia.
Qed.

Lemma locks_set_lock_same (s : lock_world) (l : Z) (v : lock) :
  locks (set_lock s l v) l = v.
Proof. cbn [set_lock locks]. rewrite Z.eqb_refl. reflexivity. Qed.

Lemma locks_set_lock_other (s : lock_world) (l l' : Z) (v : lock) :
  l' <> l -> locks (set_lock s l v) l' = locks s l'.
Proof.
  intros Hl. cbn [set_lock locks]. apply Z.eqb_neq in Hl. rewrite Hl. reflexivity.
Qed.

(** [try_lock] of a free lock. *)
Lemma try_lock_free (l : Z) (who : string) (s : lock_world) :
  bust_locks s = false ->
  lock_val (locks s l) = 0 ->
  exists s1,
    try_lock_caller l who s = (true, s1) /\
    bust_locks s1 = false /\
    printed s1 = printed s /\
    locks s1 l = {| lock_val := held_by (pir (this_cpu s));
                    in_con_path := in_con_path (locks s l);
                    owner := Some who |} /\
    (forall l', l' <> l -> locks s1 l' = locks s l') /\
    this_cpu s1 = {| pir := pir (this_cpu s);
                     con_suspend := if in_con_path (locks s l)
                                    then u32 (con_suspend (this_cpu s) + 1)
                                    else con_suspend (this_cpu s);
                     con_need_flush := con_need_flush (this_cpu s);
                     locks_held := l :: locks_held (this_cpu s);
                     requested_lock := requested_lock (this_cpu s) |}.
Proof.
  intros Hbust Hfree. unfold try_lock_caller, try_lock_cell.
  rewrite Hbust, Hfree. cbn [Z.eqb].
  eexists. split; [reflexivity|].
  split; [exact Hbust|]. split; [reflexivity|].
  split.
  { cbn [set_cpu locks]. rewrite !locks_set_lock_same. reflexivity. }
  split.
  { intros l' Hl'. cbn [set_cpu locks]. rewrite !locks_set_lock_other by assumption.
    reflexivity. }
  cbn [set_cpu this_cpu]. rewrite ?locks_set_lock_same. reflexivity.
Qed.

(** [try_lock] of a lock that is taken. *)
Lemma try_lock_taken (l : Z) (who : string) (s : lock_world) :
  bust_locks s = false ->
  lock_val (locks s l) <> 0 ->
  try_lock_caller l who s = (false, s).
Proof.
  intros Hbust Hval. unfold try_lock_caller, try_lock_cell.
  rewrite Hbust. apply Z.eqb_neq in Hval. rewrite Hval. reflexivity.
Qed.

(** [unlock] of a lock that the caller holds and that passes the checks
    of [unlock_check]. *)
Lemma unlock_held (DEBUG_LOCKS : bool) (l : Z) (s : lock_world) :
  bust_locks s = false ->
  lock_val (locks s l) = held_by (pir (this_cpu s)) ->
  0 <= pir (this_cpu s) < 2 ^ 32 ->
  (in_con_path (locks s l) = true -> con_suspend (this_cpu s) <> 0) ->
  locks_held (this_cpu s) <> [] ->
  exists s2,
    unlock DEBUG_LOCKS l s = Returned tt s2 /\
    bust_locks s2 = false /\
    locks s2 l = {| lock_val := 0; in_con_path := in_con_path (locks s l);
                    owner := None |} /\
    (forall l', l' <> l -> locks s2 l' = locks s l') /\
    this_cpu s2 = {| pir := pir (this_cpu s);
                     con_suspend := if in_con_path (locks s l)
                                    then u32 (con_suspend (this_cpu s) - 1)
                                    else con_suspend (this_cpu s);
                     con_need_flush := con_need_flush (this_cpu s);
                     locks_held := list_del l (locks_held (this_cpu s));
                     requested_lock := requested_lock (this_cpu s) |} /\
    printed s2 =
      (if in_con_path (locks s l)
          && (u32 (con_suspend (this_cpu s) - 1) =? 0)
          && con_need_flush (this_cpu s)
       then [ConsoleFlushed] else []) ++ printed s.
Proof.
  intros Hbust Hval Hpir Hcon Hheld. unfold unlock. rewrite Hbust.
  assert (Hcheck : unlock_check DEBUG_LOCKS l s = Returned tt s).
  { unfold unlock_check. destruct DEBUG_LOCKS; [|reflexivity]. cbn [negb].
    rewrite Hval, held_by_bit0, held_by_owner by assumption.
    change (1 =? 0) with false. rewrite Z.eqb_refl. cbn [negb].
    destruct (in_con_path (locks s l)) eqn:Hc.
    - apply Z.eqb_neq in Hcon; [|reflexivity]. rewrite Hcon. cbn [andb].
      destruct (locks_held (this_cpu s)); [contradiction | reflexivity].
    - cbn [andb]. destruct (locks_held (this_cpu s)); [contradiction | reflexivity]. }
  rewrite Hcheck. cbv zeta.
  cbn [set_cpu set_lock locks this_cpu bust_locks printed pir con_suspend
       con_need_flush locks_held requested_lock].
  destruct (in_con_path (locks s l)) eqn:Hc.
  - destruct ((u32 (con_suspend (this_cpu s) - 1) =? 0)
              && con_need_flush (this_cpu s)) eqn:Hflush;
      (eexists; split; [reflexivity|]);
      cbn [print_event set_cpu set_lock locks this_cpu bust_locks printed andb];
      rewrite ?Z.eqb_refl, ?Hflush;
      (split; [exact Hbust|]); (split; [reflexivity|]);
      (split; [intros l' Hl'; apply Z.eqb_neq in Hl'; rewrite Hl'; reflexivity|]);
      split; reflexivity.
  - eexists. split; [reflexivity|].
    cbn [set_cpu set_lock locks this_cpu bust_locks printed andb].
    rewrite ?Z.eqb_refl.
    split; [exact Hbust|]. split; [reflexivity|].
    split; [intros l' Hl'; apply Z.eqb_neq in Hl'; rewrite Hl'; reflexivity|].
    split; reflexivity.
Qed.

(** X2. With the locks initialised, [try_lock] of a free lock succeeds and
    leaves it held by the caller; [unlock] then returns, with or without
    lock debugging, and puts back the cell, the list of locks held and the
    console-suspend count of the CPU; no other lock is touched, and the
    one thing that may be reported is the console flush that was
    pending. *)
Theorem try_lock_unlock_round_trip (DEBUG_LOCKS : bool) (l : Z) (who : string)
    (s : lock_world) :
  bust_locks s = false ->
  lock_val (locks s l) = 0 ->
  0 <= pir (this_cpu s) < 2 ^ 32 ->
  0 <= con_suspend (this_cpu s) ->
  con_suspend (this_cpu s) + 1 < 2 ^ 32 ->
  exists s1 s2,
    try_lock_caller l who s = (true, s1) /\
    lock_held_by_me l s1 = true /\
    owner (locks s1 l) = Some who /\
    locks_held (this_cpu s1) = l :: locks_held (this_cpu s) /\
    unlock DEBUG_LOCKS l s1 = Returned tt s2 /\
    lock_val (locks s2 l) = 0 /\
    owner (locks s2 l) = None /\
    in_con_path (locks s2 l) = in_con_path (locks s l) /\
    this_cpu s2 = this_cpu s /\
    (forall l', l' <> l -> locks s2 l' = locks s l') /\
    bust_locks s2 = false /\
    printed s2 =
      (if in_con_path (locks s l) && (con_suspend (this_cpu s) =? 0)
          && con_need_flush (this_cpu s)
       then [ConsoleFlushed] else []) ++ printed s.
Proof.
  intros Hbust Hfree Hpir Hc0 Hc1.
  destruct (try_lock_free l who s Hbust Hfree)
    as (s1 & Htry & Hb1 & Hp1 & Hl1 & Hf1 & Hcpu1).
  assert (Hpir1 : pir (this_cpu s1) = pir (this_cpu s)) by (rewrite Hcpu1; reflexivity).
  destruct (unlock_held DEBUG_LOCKS l s1) as (s2 & Hun & Hb2 & Hl2 & Hf2 & Hcpu2 & Hp2).
  { exact Hb1. }
  { rewrite Hl1, Hpir1. reflexivity. }
  { rewrite Hpir1. exact Hpir. }
  { intros Hc. rewrite Hl1 in Hc. cbn [in_con_path] in Hc.
    rewrite Hcpu1. cbn [con_suspend]. rewrite Hc.
    unfold u32. rewrite Z.mod_small by lia. lia. }
  { rewrite Hcpu1. discriminate. }
  exists s1, s2. split; [exact Htry|].
  split.
  { unfold lock_held_by_me. rewrite Hl1, Hpir1. cbn [lock_val].
    apply Z.eqb_refl. }
  split; [rewrite Hl1; reflexivity|].
  split; [rewrite Hcpu1; reflexivity|].
  split; [exact Hun|].
  rewrite Hl2, Hl1. cbn [lock_val owner in_con_path].
  split; [reflexivity|]. split; [reflexivity|]. split; [reflexivity|].
  split.
  { rewrite Hcpu2, Hl1, Hcpu1.
    cbn [in_con_path pir con_suspend con_need_flush locks_held requested_lock].
    rewrite list_del_head.
    destruct (this_cpu s) as [p cs nf held req]. cbn [pir con_suspend] in *.
    destruct (in_con_path (locks s l)); [|reflexivity].
    rewrite u32_succ_pred by assumption. reflexivity. }
  split; [intros l' Hl'; rewrite Hf2, Hf1 by assumption; reflexivity|].
  split; [exact Hb2|].
  rewrite Hp2, Hp1, Hl1, Hcpu1. cbn [in_con_path con_suspend con_need_flush].
  destruct (in_con_path (locks s l)); [|reflexivity].
  rewrite u32_succ_pred by assumption. reflexivity.
Qed.

Lemma try_lock_unlock_round_trip_witness :
  exists s1 s2,
    try_lock_caller 4096 "core/test.c:1" (sample_lock_world false 0 (sample_cpu 3 []))
      = (true, s1) /\
    lock_held_by_me 4096 s1 = true /\
    owner (locks s1 4096) = Some "core/test.c:1"%string /\
    locks_held (this_cpu s1) = [4096] /\
    unlock true 4096 s1 = Returned tt s2 /\
    lock_val (locks s2 4096) = 0 /\
    owner (locks s2 4096) = None /\
    in_con_path (locks s2 4096) = false /\
    this_cpu s2 = sample_cpu 3 [] /\
    (forall l', l' <> 4096 ->
       locks s2 l' = locks (sample_lock_world false 0 (sample_cpu 3 [])) l') /\
    bust_locks s2 = false /\
    printed s2 = [].
Proof.
  apply (try_lock_unlock_round_trip true 4096 "core/test.c:1"
           (sample_lock_world false 0 (sample_cpu 3 []))).
  - reflexivity.
  - reflexivity.
  - vm_compute. split; [discriminate | reflexivity].
  - vm_compute. discriminate.
  - vm_compute. reflexivity.
Defined.

(** X3. With lock debugging, [unlock] of a lock that the caller holds is
    fatal all the same when the lock is on the console path and the
    console is not suspended (error 3), or else when the CPU's list of
    held locks is empty (error 4); the cell stays as it is. *)
Theorem unlock_console_and_depth_checks (l : Z) (s : lock_world) :
  bust_locks s = false ->
  0 <= pir (this_cpu s) < 2 ^ 32 ->
  lock_val (locks s l) = held_by (pir (this_cpu s)) ->
  (in_con_path (locks s l) = true /\ con_suspend (this_cpu s) = 0) \/
  locks_held (this_cpu s) = [] ->
  exists s',
    unlock true l s = Aborted s' /\
    bust_locks s' = true /\
    locks s' = locks s /\
    this_cpu s' = this_cpu s /\
    printed s' =
      (if in_con_path (locks s l) && (con_suspend (this_cpu s) =? 0)
       then [OpDisplayFatal 3;
             LockErrorPrinted "Unlock con lock with console not suspended" l
               (lock_val (locks s l))]
       else [OpDisplayFatal 4;
             LockErrorPrinted "Releasing lock we don't hold depth" l
               (lock_val (locks s l))])
      ++ printed s.
Proof.
  intros Hbust Hpir Hval Hbad. unfold unlock. rewrite Hbust.
  unfold unlock_check. cbn [negb].
  rewrite Hval, held_by_bit0, held_by_owner by assumption.
  change (1 =? 0) with false. rewrite Z.eqb_refl. cbn [negb].
  destruct (in_con_path (locks s l) && (con_suspend (this_cpu s) =? 0)) eqn:Hcon.
  - eexists. split; [reflexivity|]. cbn. rewrite Hval. auto.
  - destruct Hbad as [[Hc Hs] | Hempty].
    + rewrite Hc, Hs in Hcon. discriminate.
    + rewrite Hempty. eexists. split; [reflexivity|]. cbn. rewrite Hval. auto.
Qed.

Lemma unlock_console_and_depth_checks_witness :
  exists s',
    unlock true 4096 (sample_lock_world false (held_by 3) (sample_cpu 3 []))
      = Aborted s' /\
    bust_locks s' = true /\
    locks s' = locks (sample_lock_world false (held_by 3) (sample_cpu 3 [])) /\
    this_cpu s' = sample_cpu 3 [] /\
    printed s' =
      [OpDisplayFatal 4;
       LockErrorPrinted "Releasing lock we don't hold depth" 4096 (held_by 3)].
Proof.
  apply (unlock_console_and_depth_checks 4096
           (sample_lock_world false (held_by 3) (sample_cpu 3 []))).
  - reflexivity.
  - vm_compute. split; [discriminate | reflexivity].
  - reflexivity.
  - right. reflexivity.
Defined.

(** ** The spinlock core: [lock], the deadlock check, [drop_my_locks] *)

Section LockCaller.
Variable DEBUG_LOCKS : bool.
Variable find_cpu_by_pir : Z -> option cpu_thread.
Variable cpu_max_pir : Z.
Variable dl_lock : Z.
Variable cpu_active_or_os : bool.
Variable LOCK_CALLER : Z -> string.

Lemma lock_check_passes (l : Z) (s : lock_world) :
  Z.land (lock_val (locks s l)) 1 = 0 \/
  Z.shiftr (lock_val (locks s l)) 32 <> pir (this_cpu s) ->
  lock_check DEBUG_LOCKS l s = Returned tt s.
Proof.
  intros Hok. unfold lock_check. destruct DEBUG_LOCKS; [|reflexivity]. cbn [negb].
  destruct Hok as [Hfree | Hother].
  - rewrite Hfree. reflexivity.
  - apply Z.eqb_neq in Hother. rewrite Hother. rewrite andb_false_r. reflexivity.
Qed.

Lemma lock_caller_free (l : Z) (who : string) (s : lock_world) :
  bust_locks s = false ->
  lock_val (locks s l) = 0 ->
  exists s1,
    lock_caller DEBUG_LOCKS find_cpu_by_pir cpu_max_pir dl_lock cpu_active_or_os
      LOCK_CALLER l who s = Ran tt s1 /\
    lock_held_by_me l s1 = true /\
    locks_held (this_cpu s1) = l :: locks_held (this_cpu s) /\
    (forall l', l' <> l -> locks s1 l' = locks s l') /\
    printed s1 = printed s.
Proof.
  intros Hbust Hfree. unfold lock_caller. rewrite Hbust.
  rewrite lock_check_passes by (left; rewrite Hfree; reflexivity).
  destruct (try_lock_free l (LOCK_CALLER 216) s Hbust Hfree)
    as (s1 & Htry & Hb1 & Hp1 & Hl1 & Hf1 & Hcpu1).
  rewrite Htry. exists s1. split; [reflexivity|].
  split.
  { unfold lock_held_by_me. rewrite Hl1, Hcpu1. cbn [lock_val pir].
    apply Z.eqb_refl. }
  split; [rewrite Hcpu1; reflexivity|].
  split; [exact Hf1 | exact Hp1].
Qed.

(** X4. What [lock] does where it does not wait for another CPU.  While
    [bust_locks] is set, as it is from reset until [init_locks], [lock]
    returns at once and touches nothing, the lock included.  Once the
    locks are initialised, a free lock is taken at once; a lock that the
    caller holds already is, with lock debugging, the fatal error "Invalid
    recursive lock", the cell untouched; without lock debugging the call
    is left spinning on the lock, nothing changed. *)
Theorem lock_caller_alone (l : Z) (who : string) (s : lock_world) :
  0 <= pir (this_cpu s) < 2 ^ 32 ->
  (bust_locks s = true ->
   lock_caller DEBUG_LOCKS find_cpu_by_pir cpu_max_pir dl_lock cpu_active_or_os
     LOCK_CALLER l who s = Ran tt s) /\
  (bust_locks s = false ->
   (lock_val (locks s l) = 0 ->
    exists s1,
      lock_caller DEBUG_LOCKS find_cpu_by_pir cpu_max_pir dl_lock cpu_active_or_os
        LOCK_CALLER l who s = Ran tt s1 /\
      lock_held_by_me l s1 = true /\
      locks_held (this_cpu s1) = l :: locks_held (this_cpu s) /\
      (forall l', l' <> l -> locks s1 l' = locks s l') /\
      printed s1 = printed s) /\
   (lock_val (locks s l) = held_by (pir (this_cpu s)) ->
    if DEBUG_LOCKS then
      exists s',
        lock_caller DEBUG_LOCKS find_cpu_by_pir cpu_max_pir dl_lock cpu_active_or_os
          LOCK_CALLER l who s = Died s' /\
        bust_locks s' = true /\
        locks s' = locks s /\
        printed s' =
          OpDisplayFatal 0
          :: LockErrorPrinted "Invalid recursive lock" l (held_by (pir (this_cpu s)))
          :: printed s
    else
      lock_caller DEBUG_LOCKS find_cpu_by_pir cpu_max_pir dl_lock cpu_active_or_os
        LOCK_CALLER l who s = Spins l s)).
Proof.
  intros Hpir. split.
  { intros Hbust. unfold lock_caller. rewrite Hbust. reflexivity. }
  intros Hbust. split.
  - intros Hfree. exact (lock_caller_free l who s Hbust Hfree).
  - intros Hheld. unfold lock_caller. rewrite Hbust.
    destruct DEBUG_LOCKS eqn:HD.
    + unfold lock_check. cbn [negb].
      rewrite Hheld, held_by_bit0, held_by_owner by assumption.
      change (1 =? 0) with false. rewrite Z.eqb_refl. cbn [negb andb].
      eexists. split; [reflexivity|]. cbn. rewrite Hheld. auto.
    + unfold lock_check. cbn [negb].
      rewrite try_lock_taken
        by (try assumption; rewrite Hheld; apply held_by_nonzero; assumption).
      unfold add_lock_request. cbn [negb].
      rewrite try_lock_taken
        by (try assumption; rewrite Hheld; apply held_by_nonzero; assumption).
      reflexivity.
Qed.

(** X5. While [bust_locks] is set, as it is from reset until
    [init_locks], [lock_recursive] returns false and touches nothing,
    whatever the state of the lock.  Once the locks are initialised,
    [lock_recursive] of a lock that the caller holds returns false and
    changes nothing; of a free lock it takes the lock and returns true:
    the caller that unlocks exactly when it was told true leaves the lock
    as it found it. *)
Theorem lock_recursive_caller_cases (l : Z) (caller : string) (s : lock_world) :
  0 <= pir (this_cpu s) < 2 ^ 32 ->
  (bust_locks s = true ->
   lock_recursive_caller DEBUG_LOCKS find_cpu_by_pir cpu_max_pir dl_lock
     cpu_active_or_os LOCK_CALLER l caller s = Ran false s) /\
  (bust_locks s = false ->
   (lock_val (locks s l) = held_by (pir (this_cpu s)) ->
    lock_recursive_caller DEBUG_LOCKS find_cpu_by_pir cpu_max_pir dl_lock
      cpu_active_or_os LOCK_CALLER l caller s = Ran false s) /\
   (lock_val (locks s l) = 0 ->
    exists s1,
      lock_recursive_caller DEBUG_LOCKS find_cpu_by_pir cpu_max_pir dl_lock
        cpu_active_or_os LOCK_CALLER l caller s = Ran true s1 /\
      lock_held_by_me l s1 = true /\
      locks_held (this_cpu s1) = l :: locks_held (this_cpu s))).
Proof.
  intros Hpir. split.
  { intros Hbust. unfold lock_recursive_caller. rewrite Hbust. reflexivity. }
  intros Hbust. split.
  - intros Hheld. unfold lock_recursive_caller. rewrite Hbust.
    unfold lock_held_by_me. rewrite Hheld. fold (held_by (pir (this_cpu s))).
    rewrite Z.eqb_refl. reflexivity.
  - intros Hfree. unfold lock_recursive_caller. rewrite Hbust.
    unfold lock_held_by_me. rewrite Hfree. fold (held_by (pir (this_cpu s))).
    replace (0 =? held_by (pir (this_cpu s))) with false
      by (symmetry; apply Z.eqb_neq; intros E; symmetry in E;
          revert E; apply held_by_nonzero; assumption).
    destruct (lock_caller_free l caller s Hbust Hfree)
      as (s1 & Hrun & Hme & Hheld & _).
    rewrite Hrun. exists s1. auto.
Qed.
End LockCaller.

Lemma lock_caller_alone_witness :
  lock_caller true (fun _ => None) 8 64 true (fun _ => "core/lock.c"%string)
    4096 "core/test.c:1" (sample_lock_world true 0 (sample_cpu 3 []))
    = Ran tt (sample_lock_world true 0 (sample_cpu 3 [])) /\
  exists s',
    lock_caller true (fun _ => None) 8 64 true (fun _ => "core/lock.c"%string)
      4096 "core/test.c:1" (sample_lock_world false (held_by 3) (sample_cpu 3 [4096]))
      = Died s' /\
    bust_locks s' = true /\
    locks s' = locks (sample_lock_world false (held_by 3) (sample_cpu 3 [4096])) /\
    printed s' =
      [OpDisplayFatal 0;
       LockErrorPrinted "Invalid recursive lock" 4096 (held_by 3)].
Proof.
  assert (Hp : 0 <= 3 < 2 ^ 32) by (split; [discriminate | reflexivity]).
  split.
  - exact (proj1 (lock_caller_alone true (fun _ => None) 8 64 true
                    (fun _ => "core/lock.c"%string) 4096 "core/test.c:1"
                    (sample_lock_world true 0 (sample_cpu 3 [])) Hp) eq_refl).
  - exact (proj2 (proj2 (lock_caller_alone true (fun _ => None) 8 64 true
                           (fun _ => "core/lock.c"%string) 4096 "core/test.c:1"
                           (sample_lock_world false (held_by 3) (sample_cpu 3 [4096]))
                           Hp) eq_refl) eq_refl).
Defined.

Lemma lock_recursive_caller_cases_witness :
  lock_recursive_caller true (fun _ => None) 8 64 true
    (fun _ => "core/lock.c"%string) 4096 "core/test.c:1"
    (sample_lock_world true 0 (sample_cpu 3 []))
    = Ran false (sample_lock_world true 0 (sample_cpu 3 [])) /\
  exists s1,
    lock_recursive_caller true (fun _ => None) 8 64 true
      (fun _ => "core/lock.c"%string) 4096 "core/test.c:1"
      (sample_lock_world false 0 (sample_cpu 3 [])) = Ran true s1 /\
    lock_held_by_me 4096 s1 = true /\
    locks_held (this_cpu s1) = [4096].
Proof.
  assert (Hp : 0 <= 3 < 2 ^ 32) by (split; [discriminate | reflexivity]).
  split.
  - exact (proj1 (lock_recursive_caller_cases true (fun _ => None) 8 64 true
                    (fun _ => "core/lock.c"%string) 4096 "core/test.c:1"
                    (sample_lock_world true 0 (sample_cpu 3 [])) Hp) eq_refl).
  - exact (proj2 (proj2 (lock_recursive_caller_cases true (fun _ => None) 8 64 true
                           (fun _ => "core/lock.c"%string) 4096 "core/test.c:1"
                           (sample_lock_world false 0 (sample_cpu 3 []))
                           Hp) eq_refl) eq_refl).
Defined.

Section Deadlock.
Variable find_cpu_by_pir : Z -> option cpu_thread.

Lemma check_deadlock_loop_chain (n : nat) (next : option Z) (start : Z)
    (s : lock_world) :
  check_deadlock_loop find_cpu_by_pir n next start s = true <->
  exists ls, wait_chain find_cpu_by_pir s start next ls /\ (List.length ls <= n)%nat.
Proof.
  revert next. induction n as [|n IH]; intros next; cbn [check_deadlock_loop].
  - split; [discriminate|]. intros (ls & Hc & Hlen).
    destruct Hc; cbn [List.length] in Hlen; lia.
  - destruct next as [l|].
    2:{ split; [discriminate|]. intros (ls & Hc & _). inversion Hc. }
    destruct (Z.eqb_spec (Z.land (lock_val (locks s l)) 1) 0) as [Hfree | Hheld].
    { cbn [orb]. split; [discriminate|]. intros (ls & Hc & _).
      inversion Hc; contradiction. }
    cbn [orb]. destruct (in_con_path (locks s l)) eqn:Hcon.
    { split; [discriminate|]. intros (ls & Hc & _). inversion Hc; congruence. }
    destruct (Z.eqb_spec (u32 (Z.shiftr (lock_val (locks s l)) 32)) start)
      as [Hown | Hother].
    { split; [|reflexivity]. intros _. exists [l].
      split; [apply chain_end; assumption | cbn; lia]. }
    destruct (find_cpu_by_pir (u32 (Z.shiftr (lock_val (locks s l)) 32)))
      as [c|] eqn:Hfind.
    + rewrite IH. split.
      * intros (ls & Hc & Hlen). exists (l :: ls).
        split; [eapply chain_step; eassumption | cbn; lia].
      * intros (ls & Hc & Hlen). inversion Hc; subst; [contradiction|].
        match goal with
        | Hf : find_cpu_by_pir _ = Some ?c' |- _ =>
            rewrite Hfind in Hf; injection Hf as <-
        end.
        eexists. split; [eassumption | cbn in Hlen; lia].
    + split; [discriminate|]. intros (ls & Hc & _).
      inversion Hc; subst; [contradiction | congruence].
Qed.

(** X6. [check_deadlock] answers true exactly when there is a chain of
    at most [cpu_max_pir] waits from the lock that the caller requests
    back to the caller: each lock of the chain is held and off the
    console path, the owner of each waits for the next, and the owner of
    the last is the caller. *)
Theorem check_deadlock_finds_wait_chains (cpu_max_pir : Z) (s : lock_world) :
  check_deadlock find_cpu_by_pir cpu_max_pir s = true <->
  exists ls,
    wait_chain find_cpu_by_pir s (pir (this_cpu s))
      (requested_lock (this_cpu s)) ls /\
    Z.of_nat (List.length ls) <= cpu_max_pir.
Proof.
  unfold check_deadlock. rewrite check_deadlock_loop_chain.
  split; intros (ls & Hc & Hlen); exists ls; (split; [exact Hc|]);
    assert (Hpos : (1 <= List.length ls)%nat) by (destruct Hc; cbn; lia); lia.
Qed.

Lemma check_deadlock_finds_chain (cpu_max_pir : Z) (s : lock_world) :
  (exists ls,
     wait_chain find_cpu_by_pir s (pir (this_cpu s))
       (requested_lock (this_cpu s)) ls /\
     Z.of_nat (List.length ls) <= cpu_max_pir) ->
  check_deadlock find_cpu_by_pir cpu_max_pir s = true.
Proof.
  intros (ls & Hc & Hlen). unfold check_deadlock. apply check_deadlock_loop_chain.
  exists ls. split; [exact Hc | lia].
Qed.

(** A chain looks at the cells of its locks only. *)
Lemma wait_chain_frame (s s' : lock_world) (start : Z) (next : option Z)
    (ls : list Z) :
  (forall l, In l ls -> locks s' l = locks s l) ->
  wait_chain find_cpu_by_pir s start next ls ->
  wait_chain find_cpu_by_pir s' start next ls.
Proof.
  intros Hsame Hc. induction Hc as [l H1 H2 H3 | l c ls H1 H2 H3 H4 Hc IH].
  - apply chain_end; rewrite Hsame by (left; reflexivity); assumption.
  - eapply chain_step; rewrite ?Hsame by (left; reflexivity); try eassumption.
    apply IH. intros x Hx. apply Hsame. right. exact Hx.
Qed.
End Deadlock.

Lemma wait_chain_head (find_cpu_by_pir : Z -> option cpu_thread) (s : lock_world)
    (start l : Z) (ls : list Z) :
  wait_chain find_cpu_by_pir s start (Some l) ls ->
  In l ls /\ lock_val (locks s l) <> 0.
Proof.
  intros Hc. inversion Hc; subst; (split; [left; reflexivity|]);
    intros E; match goal with H : Z.land _ 1 <> 0 |- _ => apply H end;
    rewrite E; reflexivity.
Qed.

(** X7. With lock debugging, on a CPU that is active, [lock] of a lock at
    the head of a chain of waits that leads back to the caller does not
    spin: it takes [dl_lock], finds the chain and ends in the fatal error
    "Deadlock detected", the requested lock untouched. *)
Theorem lock_caller_reports_deadlock (find_cpu_by_pir : Z -> option cpu_thread)
    (cpu_max_pir dl_lock : Z) (LOCK_CALLER : Z -> string) (l : Z) (who : string)
    (s : lock_world) (ls : list Z) :
  bust_locks s = false ->
  lock_val (locks s dl_lock) = 0 ->
  ~ In dl_lock ls ->
  Z.shiftr (lock_val (locks s l)) 32 <> pir (this_cpu s) ->
  wait_chain find_cpu_by_pir s (pir (this_cpu s)) (Some l) ls ->
  Z.of_nat (List.length ls) <= cpu_max_pir ->
  exists s',
    lock_caller true find_cpu_by_pir cpu_max_pir dl_lock true LOCK_CALLER l who s
      = Died s' /\
    bust_locks s' = true /\
    locks s' l = locks s l /\
    printed s' =
      OpDisplayFatal 0
      :: LockErrorPrinted "Deadlock detected" l (lock_val (locks s l))
      :: printed s.
Proof.
  intros Hbust Hdl Hnotin Hother Hchain Hlen.
  destruct (wait_chain_head _ _ _ _ _ Hchain) as [Hin Hval].
  assert (Hl : l <> dl_lock) by (intros ->; contradiction).
  unfold lock_caller. rewrite Hbust.
  rewrite lock_check_passes by (right; exact Hother).
  rewrite (try_lock_taken l (LOCK_CALLER 216) s Hbust Hval).
  unfold add_lock_request. cbn [negb].
  destruct (try_lock_free dl_lock (LOCK_CALLER 115) s Hbust Hdl)
    as (s1 & Htry & Hb1 & Hp1 & Hl1 & Hf1 & Hcpu1).
  rewrite Htry. cbn [negb].
  set (s2 := set_requested_lock s1 (Some l)).
  assert (Hlocks2 : forall x, x <> dl_lock -> locks s2 x = locks s x).
  { intros x Hx. subst s2. cbn [set_requested_lock set_cpu locks]. apply Hf1. exact Hx. }
  assert (Hdead : check_deadlock find_cpu_by_pir cpu_max_pir s2 = true).
  { apply check_deadlock_finds_chain. exists ls. split; [|exact Hlen].
    subst s2. cbn [set_requested_lock set_cpu this_cpu pir requested_lock].
    rewrite Hcpu1. cbn [pir].
    apply (wait_chain_frame find_cpu_by_pir s); [|exact Hchain].
    intros x Hx. cbn [locks]. apply Hf1. intros ->. contradiction. }
  rewrite Hdead. unfold lock_error. cbn [print_event locks printed bust_locks].
  eexists. split; [reflexivity|]. cbn [bust_locks locks printed print_event].
  split; [reflexivity|].
  rewrite (Hlocks2 l Hl).
  split; [reflexivity|].
  subst s2. cbn [set_requested_lock set_cpu printed]. rewrite Hp1. reflexivity.
Qed.

Lemma lock_caller_reports_deadlock_witness :
  exists s',
    lock_caller true abba_cpus 8 64 true (fun _ => "core/lock.c"%string)
      100 "core/test.c:1" abba_world = Died s' /\
    bust_locks s' = true /\
    locks s' 100 = locks abba_world 100 /\
    printed s' =
      [OpDisplayFatal 0; LockErrorPrinted "Deadlock detected" 100 (held_by 7)].
Proof.
  assert (Hchain : wait_chain abba_cpus abba_world 3 (Some 100) [100; 200]).
  { eapply chain_step; [vm_compute; discriminate | reflexivity
                       | vm_compute; discriminate | reflexivity |].
    apply chain_end; [vm_compute; discriminate | reflexivity | reflexivity]. }
  assert (Hnotin : ~ In 64 [100; 200]).
  { cbn [In]. intros [E | [E | []]]; discriminate. }
  apply (lock_caller_reports_deadlock abba_cpus 8 64
           (fun _ => "core/lock.c"%string) 100 "core/test.c:1" abba_world
           [100; 200]).
  - reflexivity.
  - reflexivity.
  - exact Hnotin.
  - vm_compute. discriminate.
  - exact Hchain.
  - vm_compute. discriminate.
Defined.

(** ** [drop_my_locks] *)

Lemma list_del_length (l : Z) (held : list Z) :
  (List.length (list_del l held) <= List.length held)%nat.
Proof.
  induction held as [|x held IH]; cbn [list_del List.length]; [lia|].
  destruct (x =? l); cbn [List.length]; lia.
Qed.

Lemma list_del_incl (l x : Z) (held : list Z) :
  In x (list_del l held) -> In x held.
Proof.
  induction held as [|y held IH]; cbn [list_del]; [tauto|].
  destruct (y =? l); cbn [In]; tauto.
Qed.

Lemma list_del_keeps (l x : Z) (held : list Z) :
  x <> l -> In x held -> In x (list_del l held).
Proof.
  intros Hx. induction held as [|y held IH]; cbn [list_del In]; [tauto|].
  destruct (Z.eqb_spec y l) as [-> | Hy]; cbn [In]; intuition congruence.
Qed.

Lemma list_del_absent (l : Z) (held : list Z) :
  ~ In l held -> list_del l held = held.
Proof.
  induction held as [|y held IH]; cbn [list_del In]; [reflexivity|].
  intros Hn. destruct (Z.eqb_spec y l) as [-> | Hy]; [tauto|].
  f_equal. apply IH. tauto.
Qed.

(** [unlock] where [unlock_check] has nothing to say. *)
Lemma unlock_after_check (DEBUG_LOCKS : bool) (l : Z) (s : lock_world) :
  bust_locks s = false ->
  unlock_check DEBUG_LOCKS l s = Returned tt s ->
  exists s2,
    unlock DEBUG_LOCKS l s = Returned tt s2 /\
    bust_locks s2 = false /\
    lock_val (locks s2 l) = 0 /\
    owner (locks s2 l) = None /\
    (forall l', l' <> l -> locks s2 l' = locks s l') /\
    locks_held (this_cpu s2) = list_del l (locks_held (this_cpu s)) /\
    pir (this_cpu s2) = pir (this_cpu s).
Proof.
  intros Hbust Hcheck. unfold unlock. rewrite Hbust, Hcheck. cbv zeta.
  assert (Hframe : forall v l', l' <> l -> (if l' =? l then v else locks s l') = locks s l').
  { intros v l' Hl'. apply Z.eqb_neq in Hl'. rewrite Hl'. reflexivity. }
  destruct (in_con_path (locks s l)).
  - match goal with
    | |- context [if ?b then Returned tt (print_event _ _) else _] => destruct b
    end;
      (eexists; split; [reflexivity|]);
      cbn [print_event set_cpu set_lock locks this_cpu bust_locks printed
           locks_held pir];
      rewrite ?Z.eqb_refl; cbn [lock_val owner];
      (split; [exact Hbust|]); (split; [reflexivity|]); (split; [reflexivity|]);
      (split; [intros l' Hl'; apply Hframe; exact Hl'|]); split; reflexivity.
  - eexists. split; [reflexivity|].
    cbn [set_cpu set_lock locks this_cpu bust_locks printed locks_held pir].
    rewrite ?Z.eqb_refl. cbn [lock_val owner].
    split; [exact Hbust|]. split; [reflexivity|]. split; [reflexivity|].
    split; [intros l' Hl'; apply Hframe; exact Hl'|]. split; reflexivity.
Qed.

(** What [unlock_check] says ends the call, with [bust_locks] set. *)
Lemma unlock_check_cases (l : Z) (s : lock_world) :
  unlock_check true l s = Returned tt s \/
  exists s', unlock_check true l s = Aborted s' /\ bust_locks s' = true.
Proof.
  unfold unlock_check. cbn [negb].
  repeat match goal with
         | |- context [if ?b then lock_error _ _ _ _ else _] =>
             destruct b; [right; eexists; split; reflexivity|]
         end.
  left. reflexivity.
Qed.

Lemma unlock_check_empty (l : Z) (s : lock_world) :
  locks_held (this_cpu s) = [] ->
  exists s', unlock_check true l s = Aborted s' /\ bust_locks s' = true.
Proof.
  intros Hempty. unfold unlock_check. cbn [negb]. rewrite Hempty.
  repeat match goal with
         | |- context [if ?b then lock_error _ _ _ _ else _] =>
             destruct b; [eexists; split; reflexivity|]
         end.
  eexists; split; reflexivity.
Qed.

Lemma drop_loop_releases (turns : nat) (warn : bool) (s : lock_world)
    (log : list lock_log) :
  bust_locks s = false ->
  (List.length (locks_held (this_cpu s)) <= turns)%nat ->
  exists s' log',
    drop_locks_loop false turns warn s log = (Some (Returned tt s'), log') /\
    bust_locks s' = false /\
    locks_held (this_cpu s') = [] /\
    (forall l, In l (locks_held (this_cpu s)) ->
       lock_val (locks s' l) = 0 /\ owner (locks s' l) = None) /\
    (forall l, ~ In l (locks_held (this_cpu s)) -> locks s' l = locks s l).
Proof.
  revert s log. induction turns as [|turns IH]; intros s log Hbust Hlen.
  - destruct (locks_held (this_cpu s)) as [|l rest] eqn:Hheld;
      [|cbn [List.length] in Hlen; lia].
    exists s, log. cbn [drop_locks_loop]. rewrite Hheld.
    split; [reflexivity|]. split; [exact Hbust|].
    split; [first [exact Hheld | reflexivity]|].
    split; [try rewrite Hheld; intros l []|reflexivity].
  - cbn [drop_locks_loop].
    destruct (locks_held (this_cpu s)) as [|l rest] eqn:Hheld.
    { exists s, log. split; [reflexivity|]. split; [exact Hbust|].
      split; [first [exact Hheld | reflexivity]|].
      split; [try rewrite Hheld; intros l []|reflexivity]. }
    set (s0 := set_locks_held s rest).
    destruct (unlock_after_check false l s0 Hbust eq_refl)
      as (s2 & Hun & Hb2 & Hv2 & Ho2 & Hf2 & Hh2 & _).
    rewrite Hun.
    assert (Hheld2 : locks_held (this_cpu s2) = list_del l rest) by exact Hh2.
    destruct (IH s2 (if warn then OwnerLogged (owner (locks s0 l)) :: log else log) Hb2)
      as (s' & log' & Hrun & Hb' & Hh' & Hrel & Hfr).
    { rewrite Hheld2. pose proof (list_del_length l rest). cbn [List.length] in Hlen. lia. }
    exists s', log'. split; [exact Hrun|]. split; [exact Hb'|]. split; [exact Hh'|].
    rewrite Hheld2 in Hrel, Hfr. split.
    + intros x Hx.
      destruct (in_dec Z.eq_dec x (list_del l rest)) as [Hin | Hout];
        [apply Hrel; exact Hin|].
      destruct (Z.eq_dec x l) as [-> | Hne].
      * rewrite (Hfr l Hout). auto.
      * exfalso. apply Hout. apply list_del_keeps; [exact Hne|].
        destruct Hx as [<- | Hx]; [congruence | exact Hx].
    + intros x Hx. rewrite Hfr.
      * apply Hf2. intros ->. apply Hx. left. reflexivity.
      * intros Hin. apply Hx. right. eapply list_del_incl. exact Hin.
Qed.

(** X8. Without lock debugging and with the locks initialised,
    [drop_my_locks] returns with every lock of the CPU's list released
    (cell 0, no owner) and the list empty; the locks that were not on the
    list are as they were, and fast reboot was disabled first. *)
Theorem drop_my_locks_releases_all (warn : bool) (s : lock_world) :
  bust_locks s = false ->
  exists s' log,
    drop_my_locks false warn s = (Some (Returned tt s'), log) /\
    last log (FastRebootDisabled "") = FastRebootDisabled "Lock corruption" /\
    locks_held (this_cpu s') = [] /\
    (forall l, In l (locks_held (this_cpu s)) ->
       lock_val (locks s' l) = 0 /\ owner (locks s' l) = None) /\
    (forall l, ~ In l (locks_held (this_cpu s)) -> locks s' l = locks s l).
Proof.
  intros Hbust. unfold drop_my_locks.
  assert (Hlog : forall turns warn s log r log',
             drop_locks_loop false turns warn s log = (r, log') ->
             last log' (FastRebootDisabled "") = last log (FastRebootDisabled "") \/
             log = []).
  { clear. induction turns as [|turns IH]; intros warn s log r log' Hrun;
      cbn [drop_locks_loop] in Hrun;
      destruct (locks_held (this_cpu s)) as [|l rest];
      try (injection Hrun as _ <-; left; reflexivity).
    destruct (unlock false l (set_locks_held s rest)) as [[] s2|s2];
      [|injection Hrun as _ <-; destruct warn; [|left; reflexivity];
        destruct log; [right; reflexivity | left; reflexivity]].
    apply IH in Hrun. destruct warn; [|exact Hrun].
    destruct Hrun as [Hrun | Hrun]; [|discriminate].
    destruct log; [right; reflexivity | left; exact Hrun]. }
  destruct (drop_loop_releases (List.length (locks_held (this_cpu s))) warn s
              [FastRebootDisabled "Lock corruption"] Hbust (le_n _))
    as (s' & log' & Hrun & _ & Hh & Hrel & Hfr).
  exists s', log'. split; [exact Hrun|].
  split; [|auto].
  destruct (Hlog _ _ _ _ _ _ Hrun) as [E | E]; [exact E | discriminate].
Qed.

Lemma drop_loop_aborts (turns : nat) (warn : bool) (s : lock_world)
    (log : list lock_log) :
  bust_locks s = false ->
  NoDup (locks_held (this_cpu s)) ->
  locks_held (this_cpu s) <> [] ->
  (List.length (locks_held (this_cpu s)) <= turns)%nat ->
  exists s' log',
    drop_locks_loop true turns warn s log = (Some (Aborted s'), log') /\
    bust_locks s' = true.
Proof.
  revert s log. induction turns as [|turns IH]; intros s log Hbust Hnd Hne Hlen.
  - destruct (locks_held (this_cpu s)); [contradiction | cbn [List.length] in Hlen; lia].
  - cbn [drop_locks_loop].
    destruct (locks_held (this_cpu s)) as [|l rest] eqn:Hheld; [contradiction|].
    set (s0 := set_locks_held s rest).
    assert (Hb0 : bust_locks s0 = false) by exact Hbust.
    assert (Hh0 : locks_held (this_cpu s0) = rest) by reflexivity.
    unfold unlock at 1. rewrite Hb0.
    destruct rest as [|l2 rest'].
    + destruct (unlock_check_empty l s0 Hh0) as (s' & Hck & Hb').
      rewrite Hck. eexists. eexists. split; [reflexivity | exact Hb'].
    + destruct (unlock_check_cases l s0) as [Hck | (s' & Hck & Hb')].
      2:{ rewrite Hck. eexists. eexists. split; [reflexivity | exact Hb']. }
      destruct (unlock_after_check true l s0 Hb0 Hck)
        as (s2 & Hun & Hb2 & _ & _ & _ & Hh2 & _).
      unfold unlock in Hun. rewrite Hb0 in Hun. rewrite Hun.
      inversion Hnd as [|? ? Hnotin Hnd']; subst.
      rewrite Hh0, (list_del_absent l (l2 :: rest') Hnotin) in Hh2.
      apply IH; rewrite ?Hh2;
        [exact Hb2 | exact Hnd' | discriminate | cbn [List.length] in *; lia].
Qed.

(** X9. With lock debugging and the locks initialised, [drop_my_locks] on
    a CPU that holds a lock never returns: it takes each lock off the
    list before it unlocks it, so that at the last one, if not before,
    [unlock_check] finds the list empty and the call ends in
    [lock_error].  A single lock that the CPU holds in good order is the
    error "Releasing lock we don't hold depth", and stays held. *)
Theorem drop_my_locks_debug_aborts (warn : bool) (s : lock_world) :
  bust_locks s = false ->
  NoDup (locks_held (this_cpu s)) ->
  locks_held (this_cpu s) <> [] ->
  (exists s' log,
     drop_my_locks true warn s = (Some (Aborted s'), log) /\
     bust_locks s' = true) /\
  (forall l,
     locks_held (this_cpu s) = [l] ->
     0 <= pir (this_cpu s) < 2 ^ 32 ->
     lock_val (locks s l) = held_by (pir (this_cpu s)) ->
     in_con_path (locks s l) = false ->
     exists s' log,
       drop_my_locks true warn s = (Some (Aborted s'), log) /\
       lock_val (locks s' l) = held_by (pir (this_cpu s)) /\
       printed s' =
         OpDisplayFatal 4
         :: LockErrorPrinted "Releasing lock we don't hold depth" l
              (held_by (pir (this_cpu s)))
         :: printed s).
Proof.
  intros Hbust Hnd Hne. split.
  - unfold drop_my_locks. apply drop_loop_aborts; auto.
  - intros l Hheld Hpir Hval Hcon. unfold drop_my_locks. rewrite Hheld.
    cbn [List.length drop_locks_loop]. rewrite Hheld.
    unfold unlock. cbn [set_locks_held set_cpu bust_locks]. rewrite Hbust.
    unfold unlock_check.
    cbn [negb set_locks_held set_cpu locks this_cpu pir con_suspend locks_held].
    rewrite Hval, held_by_bit0, held_by_owner by assumption.
    change (1 =? 0) with false. rewrite Z.eqb_refl, Hcon. cbn [negb andb].
    eexists. eexists. split; [reflexivity|].
    cbn. rewrite Hval. auto.
Qed.

Lemma drop_my_locks_debug_aborts_witness :
  exists s' log,
    drop_my_locks true true (sample_lock_world false (held_by 3) (sample_cpu 3 [4096]))
      = (Some (Aborted s'), log) /\
    lock_val (locks s' 4096) = held_by 3 /\
    printed s' =
      [OpDisplayFatal 4;
       LockErrorPrinted "Releasing lock we don't hold depth" 4096 (held_by 3)].
Proof.
  assert (Hnd : NoDup [4096]) by (constructor; [intros [] | constructor]).
  assert (Hne : [4096] <> @nil Z) by discriminate.
  assert (Hp : 0 <= 3 < 2 ^ 32) by (split; [discriminate | reflexivity]).
  exact (proj2 (drop_my_locks_debug_aborts true
                  (sample_lock_world false (held_by 3) (sample_cpu 3 [4096]))
                  eq_refl Hnd Hne)
           4096 eq_refl Hp eq_refl eq_refl).
Defined.

Lemma drop_my_locks_releases_all_witness :
  exists s' log,
    drop_my_locks false true
      (sample_lock_world false (held_by 3) (sample_cpu 3 [4096; 8192]))
      = (Some (Returned tt s'), log) /\
    last log (FastRebootDisabled "") = FastRebootDisabled "Lock corruption" /\
    locks_held (this_cpu s') = [] /\
    (forall l, In l [4096; 8192] ->
       lock_val (locks s' l) = 0 /\ owner (locks s' l) = None) /\
    (forall l, ~ In l [4096; 8192] ->
       locks s' l
       = locks (sample_lock_world false (held_by 3) (sample_cpu 3 [4096; 8192])) l).
Proof.
  exact (drop_my_locks_releases_all true
           (sample_lock_world false (held_by 3) (sample_cpu 3 [4096; 8192]))
           eq_refl).
Defined.


(** ** How often the fence status is polled *)

Section FencePolls.
Variable K : constants.
Variable H : hardware.
Variables gcid sb i : Z.
Variable st : npu2_stack.
Variable bl : npu2_block.
Hypothesis Hrow :
  i = 2 /\ st = NPU2_STACK_STCK_1 /\ bl = NPU2_BLOCK_OTL0 \/
  i = 3 /\ st = NPU2_STACK_STCK_1 /\ bl = NPU2_BLOCK_OTL1 \/
  i = 4 /\ st = NPU2_STACK_STCK_2 /\ bl = NPU2_BLOCK_OTL0 \/
  i = 5 /\ st = NPU2_STACK_STCK_2 /\ bl = NPU2_BLOCK_OTL1.

Lemma status_read_observed (v : Z) :
  fence_observe st bl
    (EvRead (NpuScom gcid sb (NPU2_REG_OFFSET st NPU2_BLOCK_CTL NPU2_CQ_CTL_STATUS)) v)
  = Some (StatusRead v).
Proof. brick_cases Hrow; reflexivity. Qed.

Lemma fence_poll_bound (status status_field timeout : Z) (fuel : nat) :
  forall (n : nat) (w : world),
    (1 <= n <= fuel)%nat ->
    timeout - tb w <= Z.of_nat n * msecs_to_tb 1 ->
    exists r w' reads,
      fence_poll H fuel gcid sb i status status_field timeout w = Done r w' /\
      fence_view st bl (trace w')
        = rev (map StatusRead reads) ++ fence_view st bl (trace w) /\
      (1 <= List.length reads <= n)%nat.
Proof.
  rewrite msecs_to_tb_1. pose proof (row_stack i st bl Hrow) as Hst.
  induction fuel as [|f IH]; intros n w Hn Htime; [lia|].
  cbn [fence_poll]. unfold bind at 1. rewrite Hst. cbn [assert_some].
  unfold bind at 1. unfold npu2_scom_read, read_loc, bind at 1, access, ret.
  cbn [steps tb trace].
  set (v := u64 (hw_read H _ (steps w))).
  set (w1 := {| steps := S (steps w); tb := tb w + Z.of_nat (hw_lat H (steps w));
                trace := EvRead _ v :: trace w |}).
  assert (Hview1 : fence_view st bl (trace w1)
                   = StatusRead v :: fence_view st bl (trace w)).
  { subst w1. cbn [trace view_of]. rewrite status_read_observed. reflexivity. }
  destruct (u8 (GETFIELD status_field v) =? status).
  - exists FenceMatched, w1, [v]. split; [reflexivity|].
    split; [exact Hview1 | cbn [List.length]; lia].
  - unfold bind at 1. unfold time_wait_ms, time_wait. cbn [steps tb trace].
    unfold bind at 1. unfold mftb. cbn [tb].
    rewrite tb_before.
    set (w2 := {| steps := _; tb := _; trace := EvWait _ :: trace w1 |}).
    assert (Htb2 : tb w + 512000 <= tb w2)
      by (subst w2 w1; cbn [tb]; rewrite msecs_to_tb_1; lia).
    assert (Hview2 : fence_view st bl (trace w2) = fence_view st bl (trace w1))
      by reflexivity.
    change (tb w1 + msecs_to_tb 1 + Z.of_nat (hw_lat H (steps w1))) with (tb w2).
    destruct (Z.ltb_spec (tb w2) timeout) as [Hlt | Hge].
    + destruct (IH (pred n) w2) as (r & w' & reads & Hrun & Hview & Hlen).
      { lia. }
      { lia. }
      exists r, w', (v :: reads). split; [exact Hrun|]. split.
      { rewrite Hview, Hview2, Hview1. cbn [map rev].
        rewrite <- app_assoc. reflexivity. }
      cbn [List.length]. lia.
    + eexists _, w2, [v]. split; [reflexivity|].
      split; [rewrite Hview2; exact Hview1 | cbn [List.length]; lia].
Qed.

Lemma set_fence_control_bound (status : Z) (fuel : nat) (w : world) :
  (10 <= fuel)%nat ->
  exists rc w' reads,
    set_fence_control K H fuel gcid sb i status w = Done rc w' /\
    fence_view st bl (trace w')
      = rev (episode_view K status reads) ++ fence_view st bl (trace w) /\
    (1 <= List.length reads <= 10)%nat.
Proof.
  intros Hfuel. unfold set_fence_control.
  unfold bind at 1. unfold mftb at 1.
  unfold bind at 1. rewrite (row_stack i st bl Hrow). cbn [assert_some].
  unfold bind at 1. rewrite (row_block i st bl Hrow). cbn [assert_some].
  unfold bind at 1. unfold npu2_scom_write, write_loc, access.
  unfold bind at 1. cbn [assert_some].
  set (w1 := {| steps := _; tb := _; trace := _ |}).
  assert (Hview1 : fence_view st bl (trace w1)
            = FenceWrite (SETFIELD (NPU2_CQ_CTL_FENCE_CONTROL_REQUEST_FENCE K) 0 status)
              :: fence_view st bl (trace w)).
  { subst w1. cbn [trace view_of].
    rewrite (fence_reg_observed gcid sb i st bl Hrow). reflexivity. }
  match goal with
  | |- context [fence_poll H fuel gcid sb i status ?sf ?to] =>
      destruct (fence_poll_bound status sf to fuel 10%nat w1)
        as (r & w' & reads & Hrun & Hview & Hlen)
  end.
  { lia. }
  { subst w1. cbn [tb]. rewrite msecs_to_tb_10, msecs_to_tb_1. lia. }
  unfold bind at 1. rewrite Hrun.
  assert (Hep : fence_view st bl (trace w')
                = rev (episode_view K status reads) ++ fence_view st bl (trace w)).
  { rewrite Hview, Hview1. unfold episode_view. cbn [rev].
    rewrite <- app_assoc. reflexivity. }
  destruct r as [|sv].
  - exists OPAL_SUCCESS, w', reads. split; [reflexivity|]. split; [exact Hep | exact Hlen].
  - eexists OPAL_HARDWARE, _, reads. split; [reflexivity|].
    cbn [trace view_of fence_observe]. split; [exact Hep | exact Hlen].
Qed.
End FencePolls.

(** X10. [set_fence_control] reads [CQ_CTL_STATUS] at least once and at
    most 10 times after its store: each poll that does not show the
    status is followed by a wait of 1 ms, which uses up the 10 ms of the
    deadline. *)
Theorem set_fence_control_polls (K : constants) (H : hardware) (gcid sb i : Z)
    (fuel : nat) :
  valid_index i -> (10 <= fuel)%nat ->
  exists st bl,
    index_to_stack i = Some st /\ index_to_block i = Some bl /\
    forall status w, exists rc w' reads,
      set_fence_control K H fuel gcid sb i status w = Done rc w' /\
      fence_view st bl (trace w')
        = rev (episode_view K status reads) ++ fence_view st bl (trace w) /\
      (1 <= List.length reads <= 10)%nat.
Proof.
  intros Hi Hfuel.
  destruct (valid_index_stack_block i Hi) as (st & bl & Hst & Hbl & Hrow).
  exists st, bl. split; [exact Hst|]. split; [exact Hbl|].
  intros status w. exact (set_fence_control_bound K H gcid sb i st bl Hrow status fuel w Hfuel).
Qed.

Lemma set_fence_control_polls_witness :
  exists st bl,
    index_to_stack 3 = Some st /\ index_to_block 3 = Some bl /\
    forall status w, exists rc w' reads,
      set_fence_control p9_constants (constant_hw 0 true) 10 0 0 3 status w
        = Done rc w' /\
      fence_view st bl (trace w')
        = rev (episode_view p9_constants status reads) ++ fence_view st bl (trace w) /\
      (1 <= List.length reads <= 10)%nat.
Proof.
  assert (Hi : valid_index 3) by (unfold valid_index; lia).
  assert (Hf : (10 <= 10)%nat) by lia.
  exact (set_fence_control_polls p9_constants (constant_hw 0 true) 0 0 3 10 Hi Hf).
Defined.

(** ** What [brick_config] never stores into *)

Section FenceControlQuiet.
Context {X : Type}.
Variable f : event -> option X.
Variable K : constants.
Variable H : hardware.
Variables gcid sb i : Z.
Variable st : npu2_stack.
Variable bl : npu2_block.
Hypothesis Hrow :
  i = 2 /\ st = NPU2_STACK_STCK_1 /\ bl = NPU2_BLOCK_OTL0 \/
  i = 3 /\ st = NPU2_STACK_STCK_1 /\ bl = NPU2_BLOCK_OTL1 \/
  i = 4 /\ st = NPU2_STACK_STCK_2 /\ bl = NPU2_BLOCK_OTL0 \/
  i = 5 /\ st = NPU2_STACK_STCK_2 /\ bl = NPU2_BLOCK_OTL1.
Hypothesis Hread : forall l v, f (EvRead l v) = None.
Hypothesis Hwait : forall t, f (EvWait t) = None.
Hypothesis Hlog : forall msg args, f (EvLog PR_ERR msg args) = None.
Hypothesis Hfence :
  forall v, f (EvWrite (NpuScom gcid sb (fence_control_reg st bl)) v) = None.

Lemma fence_poll_unseen (status status_field timeout : Z) (fuel : nat) (w : world) :
  (1 <= fuel)%nat ->
  timeout - tb w <= Z.of_nat fuel * msecs_to_tb 1 ->
  exists r w',
    fence_poll H fuel gcid sb i status status_field timeout w = Done r w' /\
    view_of f (trace w') = view_of f (trace w).
Proof.
  rewrite msecs_to_tb_1. pose proof (row_stack i st bl Hrow) as Hst.
  revert w. induction fuel as [|n IH]; intros w Hfuel Htime; [lia|].
  cbn [fence_poll]. unfold bind at 1. rewrite Hst. cbn [assert_some].
  unfold bind at 1. unfold npu2_scom_read, read_loc, bind at 1, access, ret.
  cbn [steps tb trace].
  set (v := u64 (hw_read H _ (steps w))).
  set (w1 := {| steps := S (steps w); tb := tb w + Z.of_nat (hw_lat H (steps w));
                trace := EvRead _ v :: trace w |}).
  assert (Hview1 : view_of f (trace w1) = view_of f (trace w)).
  { subst w1. cbn [trace view_of]. rewrite Hread. reflexivity. }
  destruct (u8 (GETFIELD status_field v) =? status).
  - exists FenceMatched, w1. split; [reflexivity | exact Hview1].
  - unfold bind at 1. unfold time_wait_ms, time_wait. cbn [steps tb trace].
    unfold bind at 1. unfold mftb. cbn [tb].
    rewrite tb_before.
    set (w2 := {| steps := _; tb := _; trace := EvWait _ :: trace w1 |}).
    assert (Htb2 : tb w + 512000 <= tb w2)
      by (subst w2 w1; cbn [tb]; rewrite msecs_to_tb_1; lia).
    assert (Hview2 : view_of f (trace w2) = view_of f (trace w)).
    { subst w2. cbn [trace view_of]. rewrite Hwait. exact Hview1. }
    change (tb w1 + msecs_to_tb 1 + Z.of_nat (hw_lat H (steps w1))) with (tb w2).
    destruct (Z.ltb_spec (tb w2) timeout) as [Hlt | Hge].
    + assert (Hn : (1 <= n)%nat).
      { destruct n; [|lia]. simpl Z.of_nat in Htime. lia. }
      destruct (IH w2 Hn) as (r & w' & Hrun & Hview).
      { rewrite Nat2Z.inj_succ in Htime. lia. }
      exists r, w'. split; [exact Hrun | congruence].
    + eexists _, w2. split; [reflexivity | exact Hview2].
Qed.

Lemma set_fence_control_unseen (status : Z) (fuel : nat) :
  (10 <= fuel)%nat ->
  quiet f (set_fence_control K H fuel gcid sb i status).
Proof.
  intros Hfuel w. unfold set_fence_control.
  unfold bind at 1. unfold mftb at 1.
  unfold bind at 1. rewrite (row_stack i st bl Hrow). cbn [assert_some].
  unfold bind at 1. rewrite (row_block i st bl Hrow). cbn [assert_some].
  unfold bind at 1. unfold npu2_scom_write, write_loc, access.
  unfold bind at 1. cbn [assert_some].
  set (w1 := {| steps := _; tb := _; trace := _ |}).
  assert (Hview1 : view_of f (trace w1) = view_of f (trace w)).
  { subst w1. cbn [trace view_of]. rewrite Hfence. reflexivity. }
  match goal with
  | |- context [fence_poll H fuel gcid sb i status ?sf ?to] =>
      destruct (fence_poll_unseen status sf to fuel w1) as (r & w' & Hrun & Hview)
  end.
  { lia. }
  { subst w1. cbn [tb]. rewrite msecs_to_tb_10, msecs_to_tb_1. lia. }
  unfold bind at 1. rewrite Hrun. destruct r as [|sv].
  - exists OPAL_SUCCESS, w'. split; [reflexivity | congruence].
  - eexists OPAL_HARDWARE, _. split; [reflexivity|].
    cbn [trace view_of]. rewrite Hlog. congruence.
Qed.
End FenceControlQuiet.

(** ** The stores of [brick_config] *)

Ltac home_side :=
  unfold stray_store, home_store; rewrite ?Z.eqb_refl; reflexivity.

Ltac home_step :=
  lazymatch goal with
  | |- quiet _ (access _ _) => apply quiet_access; home_side
  | |- quiet _ (xscom_write _ _ _ _) => apply quiet_access; home_side
  | |- quiet _ (npu2_scom_write _ _ _ _ _) => apply quiet_access; home_side
  | |- _ => quiet_step
  end.

Ltac home_auto := repeat home_step.

Section BrickStores.
Variable K : constants.
Variable P : platform_ocapi.
Variable H : hardware.
Variables gcid sb i : Z.
Variable st : npu2_stack.
Variable bl : npu2_block.
Hypothesis Hrow :
  i = 2 /\ st = NPU2_STACK_STCK_1 /\ bl = NPU2_BLOCK_OTL0 \/
  i = 3 /\ st = NPU2_STACK_STCK_1 /\ bl = NPU2_BLOCK_OTL1 \/
  i = 4 /\ st = NPU2_STACK_STCK_2 /\ bl = NPU2_BLOCK_OTL0 \/
  i = 5 /\ st = NPU2_STACK_STCK_2 /\ bl = NPU2_BLOCK_OTL1.
Variable fuel : nat.
Hypothesis Hfuel : (10 <= fuel)%nat.

Lemma fence_store_is_own (v : Z) :
  stray_store gcid sb i st bl (EvWrite (NpuScom gcid sb (fence_control_reg st bl)) v)
  = None.
Proof. brick_cases Hrow; home_side. Qed.

Lemma set_fence_control_own (status : Z) :
  quiet (stray_store gcid sb i st bl) (set_fence_control K H fuel gcid sb i status).
Proof.
  apply (set_fence_control_unseen (stray_store gcid sb i st bl) K H gcid sb i st bl Hrow);
    try reflexivity; [apply fence_store_is_own | exact Hfuel].
Qed.

Lemma set_npcq_config_own :
  quiet (stray_store gcid sb i st bl) (set_npcq_config K H fuel gcid sb i).
Proof.
  unfold set_npcq_config.
  apply quiet_bind; [home_auto | intros _].
  rewrite (row_stack i st bl Hrow). apply quiet_bind_assert.
  rewrite (row_block i st bl Hrow). apply quiet_bind_assert.
  apply quiet_bind; [brick_cases Hrow; home_auto | intros _].
  apply quiet_bind; [apply set_fence_control_own | intros _].
  apply quiet_bind; [brick_cases Hrow; home_auto | intros reg].
  apply quiet_bind; [brick_cases Hrow; home_auto | intros _].
  apply quiet_bind; [apply set_fence_control_own | intros _].
  apply quiet_bind; [apply set_fence_control_own | intros _].
  brick_cases Hrow; home_auto.
Qed.

Lemma brick_config_own :
  quiet (stray_store gcid sb i st bl) (brick_config K P H fuel gcid sb i).
Proof.
  unfold brick_config.
  apply quiet_bind;
    [brick_cases Hrow; unfold disable_nvlink; cbn [phy_config_scom]; home_auto
    | intros _].
  apply quiet_bind;
    [brick_cases Hrow; unfold set_transport_mux_controls; home_auto | intros _].
  apply quiet_bind;
    [brick_cases Hrow; unfold enable_odl_phy_mux; cbn [phy_config_scom]; home_auto
    | intros _].
  apply quiet_bind; [unfold disable_alink_fp; home_auto | intros _].
  apply quiet_bind;
    [brick_cases Hrow; unfold enable_xsl_clocks; cbn [index_to_stack]; home_auto
    | intros _].
  apply quiet_bind; [apply set_npcq_config_own | intros _].
  apply quiet_bind;
    [brick_cases Hrow; unfold enable_xsl_xts_interfaces; cbn [index_to_stack];
     home_auto
    | intros _].
  apply quiet_bind;
    [brick_cases Hrow; unfold enable_sm_allocation; cbn [index_to_stack]; home_auto
    | intros _].
  brick_cases Hrow; unfold enable_pb_snooping; cbn [index_to_stack]; home_auto.
Qed.
End BrickStores.

(** [stray_store] at work for brick 2: six stores that it reports (the
    ODL of another OBUS, the ODL of the other brick, another chip,
    another NPU, the OTL block of the other brick, another stack) and two
    to shared registers that it lets pass. *)
Lemma stray_store_sees :
  stray_store 0 7 2 NPU2_STACK_STCK_1 NPU2_BLOCK_OTL0
    (EvWrite (Xscom 0 OB3_ODL0_CONFIG) 1) = Some (Xscom 0 OB3_ODL0_CONFIG) /\
  stray_store 0 7 2 NPU2_STACK_STCK_1 NPU2_BLOCK_OTL0
    (EvWrite (Xscom 0 OB0_ODL1_CONFIG) 1) = Some (Xscom 0 OB0_ODL1_CONFIG) /\
  stray_store 0 7 2 NPU2_STACK_STCK_1 NPU2_BLOCK_OTL0
    (EvWrite (Xscom 1 PU_IOE_PB_FP67_CFG) 1) = Some (Xscom 1 PU_IOE_PB_FP67_CFG) /\
  stray_store 0 7 2 NPU2_STACK_STCK_1 NPU2_BLOCK_OTL0
    (EvWrite (NpuScom 0 8 NPU2_XTS_CFG2) 1) = Some (NpuScom 0 8 NPU2_XTS_CFG2) /\
  stray_store 0 7 2 NPU2_STACK_STCK_1 NPU2_BLOCK_OTL0
    (EvWrite (NpuScom 0 7 (NPU2_OTL_CONFIG0 NPU2_STACK_STCK_1 NPU2_BLOCK_OTL1)) 1)
  = Some (NpuScom 0 7 (NPU2_OTL_CONFIG0 NPU2_STACK_STCK_1 NPU2_BLOCK_OTL1)) /\
  stray_store 0 7 2 NPU2_STACK_STCK_1 NPU2_BLOCK_OTL0
    (EvWrite (NpuScom 0 7 (NPU2_REG_OFFSET NPU2_STACK_STCK_2 NPU2_BLOCK_CTL
                             NPU2_CQ_CTL_MISC_CFG)) 1)
  = Some (NpuScom 0 7 (NPU2_REG_OFFSET NPU2_STACK_STCK_2 NPU2_BLOCK_CTL
                         NPU2_CQ_CTL_MISC_CFG)) /\
  stray_store 0 7 2 NPU2_STACK_STCK_1 NPU2_BLOCK_OTL0
    (EvWrite (Xscom 0 PU_IOE_PB_FP67_CFG) 1) = None /\
  stray_store 0 7 2 NPU2_STACK_STCK_1 NPU2_BLOCK_OTL0
    (EvWrite (NpuScom 0 7 NPU2_XTS_CFG2) 1) = None.
Proof. repeat split; reflexivity. Qed.

Section Tells.
Context {X : Type}.
Variable f : event -> option X.

Lemma shows_cons_then {A B} (c : M A) (k : A -> M B) (o : X) (l : list X) :
  shows f c (fun _ obs => obs = [o]) ->
  (forall a, shows f (k a) (fun _ obs => obs = l)) ->
  shows f (bind c k) (fun _ obs => obs = o :: l).
Proof. intros Hc Hk. exact (shows_then f c k [o] l Hc Hk). Qed.
End Tells.

Ltac tell_step :=
  lazymatch goal with
  | |- shows _ (bind (assert_some (Some _)) _) _ => apply shows_after_assert
  | |- shows _ (bind _ _) (fun _ obs => obs = _ :: _) =>
      first [ apply shows_after_quiet; [solve [quiet_auto] | intros ?]
            | apply shows_cons_then; [apply shows_access; reflexivity | intros ?] ]
  | |- shows _ (bind _ _) (fun _ obs => obs = []) =>
      apply shows_after_quiet; [solve [quiet_auto] | intros ?]
  | |- shows _ _ (fun _ obs => obs = [_]) => apply shows_access; reflexivity
  | |- shows _ _ (fun _ obs => obs = []) => apply quiet_shows; solve [quiet_auto]
  end.

Ltac tell_auto := repeat tell_step.

Section BrickShared.
Variable K : constants.
Variable P : platform_ocapi.
Variable H : hardware.
Variables gcid sb i : Z.
Variable st : npu2_stack.
Variable bl : npu2_block.
Variable phy : xscom_reg.
Hypothesis Hrow :
  i = 2 /\ st = NPU2_STACK_STCK_1 /\ bl = NPU2_BLOCK_OTL0 \/
  i = 3 /\ st = NPU2_STACK_STCK_1 /\ bl = NPU2_BLOCK_OTL1 \/
  i = 4 /\ st = NPU2_STACK_STCK_2 /\ bl = NPU2_BLOCK_OTL0 \/
  i = 5 /\ st = NPU2_STACK_STCK_2 /\ bl = NPU2_BLOCK_OTL1.
Hypothesis Hphy : phy_config_scom i = Some phy.
Variable fuel : nat.
Hypothesis Hfuel : (10 <= fuel)%nat.

Lemma phy_is_shared : is_shared_xscom phy = true.
Proof.
  brick_cases Hrow; cbn [phy_config_scom] in Hphy; injection Hphy as <-; reflexivity.
Qed.

Lemma phy_store_told (v : Z) :
  shared_store (EvWrite (Xscom gcid phy) v) = Some (Xscom gcid phy).
Proof. cbn [shared_store]. rewrite phy_is_shared. reflexivity. Qed.

Lemma disable_nvlink_tells :
  shows shared_store (disable_nvlink K H gcid i) (fun _ obs => obs = [Xscom gcid phy]).
Proof.
  unfold disable_nvlink. rewrite Hphy. apply shows_after_assert.
  apply shows_after_quiet; [quiet_auto | intros reg].
  apply shows_access. apply phy_store_told.
Qed.

Lemma set_transport_mux_controls_tells :
  shows shared_store
    (set_transport_mux_controls K H gcid sb i NPU2_DEV_TYPE_OPENCAPI)
    (fun _ obs => obs = [NpuScom gcid sb NPU2_MISC_OPTICAL_IO_CFG0;
                         Xscom gcid PU_IOE_PB_MISC_CFG]).
Proof.
  unfold set_transport_mux_controls. brick_cases Hrow; tell_auto.
Qed.

Lemma enable_odl_phy_mux_tells :
  shows shared_store (enable_odl_phy_mux K P H gcid i)
    (fun _ obs => obs = [Xscom gcid phy]).
Proof.
  unfold enable_odl_phy_mux.
  apply shows_after_quiet; [quiet_auto | intros ?].
  rewrite Hphy. apply shows_after_assert.
  apply shows_after_quiet; [quiet_auto | intros reg].
  apply shows_access. apply phy_store_told.
Qed.

Lemma disable_alink_fp_tells :
  shows shared_store (disable_alink_fp K H gcid)
    (fun _ obs => obs = [Xscom gcid PU_IOE_PB_FP01_CFG; Xscom gcid PU_IOE_PB_FP23_CFG;
                         Xscom gcid PU_IOE_PB_FP45_CFG; Xscom gcid PU_IOE_PB_FP67_CFG]).
Proof. unfold disable_alink_fp. cbv zeta. tell_auto. Qed.

Lemma enable_xsl_xts_interfaces_tells :
  shows shared_store (enable_xsl_xts_interfaces K H gcid sb i)
    (fun _ obs => obs = [NpuScom gcid sb NPU2_XTS_CFG; NpuScom gcid sb NPU2_XTS_CFG2]).
Proof.
  unfold enable_xsl_xts_interfaces. brick_cases Hrow; cbn [index_to_stack]; tell_auto.
Qed.

Lemma set_npcq_config_untold :
  quiet shared_store (set_npcq_config K H fuel gcid sb i).
Proof.
  assert (Hf : forall status,
             quiet shared_store (set_fence_control K H fuel gcid sb i status)).
  { intros status.
    apply (set_fence_control_unseen shared_store K H gcid sb i st bl Hrow);
      try reflexivity; exact Hfuel. }
  unfold set_npcq_config.
  apply quiet_bind; [quiet_auto | intros _].
  rewrite (row_stack i st bl Hrow). apply quiet_bind_assert.
  rewrite (row_block i st bl Hrow). apply quiet_bind_assert.
  apply quiet_bind; [quiet_auto | intros _].
  apply quiet_bind; [apply Hf | intros _].
  apply quiet_bind; [quiet_auto | intros reg].
  apply quiet_bind; [quiet_auto | intros _].
  apply quiet_bind; [apply Hf | intros _].
  apply quiet_bind; [apply Hf | intros _].
  quiet_auto.
Qed.

Lemma brick_config_tells :
  shows shared_store (brick_config K P H fuel gcid sb i)
    (fun _ obs => obs = brick_config_shared gcid sb phy).
Proof.
  unfold brick_config, brick_config_shared.
  apply (shows_then _ _ _ [Xscom gcid phy]); [apply disable_nvlink_tells | intros _].
  apply (shows_then _ _ _ [NpuScom gcid sb NPU2_MISC_OPTICAL_IO_CFG0;
                           Xscom gcid PU_IOE_PB_MISC_CFG]);
    [apply set_transport_mux_controls_tells | intros _].
  apply (shows_then _ _ _ [Xscom gcid phy]); [apply enable_odl_phy_mux_tells | intros _].
  apply (shows_then _ _ _ [Xscom gcid PU_IOE_PB_FP01_CFG; Xscom gcid PU_IOE_PB_FP23_CFG;
                           Xscom gcid PU_IOE_PB_FP45_CFG; Xscom gcid PU_IOE_PB_FP67_CFG]);
    [apply disable_alink_fp_tells | intros _].
  apply shows_after_quiet;
    [brick_cases Hrow; unfold enable_xsl_clocks; cbn [index_to_stack]; quiet_auto
    | intros _].
  apply shows_after_quiet; [apply set_npcq_config_untold | intros _].
  apply (shows_then _ _ _ [NpuScom gcid sb NPU2_XTS_CFG; NpuScom gcid sb NPU2_XTS_CFG2] []);
    [apply enable_xsl_xts_interfaces_tells | intros _].
  apply shows_after_quiet;
    [brick_cases Hrow; unfold enable_sm_allocation; cbn [index_to_stack]; quiet_auto
    | intros _].
  apply quiet_shows.
  brick_cases Hrow; unfold enable_pb_snooping; cbn [index_to_stack]; quiet_auto.
Qed.
End BrickShared.




(** ** The I2C reset of the device *)

(** X12. [reset_ocapi_device] sends the three bytes of the brick's ODL
    (ODL0 data for bricks 2 and 4, ODL1 data for bricks 3 and 5) to the
    three platform offsets in turn and waits 5 ms after the second and
    after the third; the first request that fails is logged and ends the
    reset, no further byte being sent. *)
Theorem reset_ocapi_device_i2c (P : platform_ocapi) (H : hardware)
    (dev : npu2_dev) (w : world) :
  valid_index (index dev) ->
  exists block w',
    index_to_block (index dev) = Some block /\
    reset_ocapi_device P H dev w = Done tt w' /\
    let p := i2c_port_id_ocapi dev in
    let '(o0, o1, o2) := i2c_offset P in
    let '(d0, d1, d2) := reset_data P block in
    let r0 := hw_i2c H (steps w) in
    let r1 := hw_i2c H (S (steps w)) in
    let r2 := hw_i2c H (S (S (S (steps w)))) in
    trace w' =
      rev (if negb (r0 =? 0) then
             [EvI2c p o0 d0 r0; EvLog PR_ERR log_i2c_error [r0]]
           else if negb (r1 =? 0) then
             [EvI2c p o0 d0 r0; EvI2c p o1 d1 r1; EvLog PR_ERR log_i2c_error [r1]]
           else if negb (r2 =? 0) then
             [EvI2c p o0 d0 r0; EvI2c p o1 d1 r1; EvWait (msecs_to_tb 5);
              EvI2c p o2 d2 r2; EvLog PR_ERR log_i2c_error [r2]]
           else
             [EvI2c p o0 d0 r0; EvI2c p o1 d1 r1; EvWait (msecs_to_tb 5);
              EvI2c p o2 d2 r2; EvWait (msecs_to_tb 5)])
      ++ trace w.
Proof.
  intros Hi. unfold reset_ocapi_device, reset_data.
  destruct (i2c_offset P) as [[o0 o1] o2].
  destruct (i2c_odl0_data P) as [[a0 a1] a2].
  destruct (i2c_odl1_data P) as [[b0 b1] b2].
  destruct (hw_i2c H (steps w) =? 0) eqn:E0;
    destruct (hw_i2c H (S (steps w)) =? 0) eqn:E1;
    destruct (hw_i2c H (S (S (S (steps w)))) =? 0) eqn:E2;
    index_cases Hi; rewrite Hi; cbn [index_to_block npu2_block_beq];
    eexists; eexists; (split; [reflexivity|]);
    cbv zeta; cbn [npu2_block_beq reset_ocapi_loop]; cbv iota beta;
    unfold i2c_request_send, time_wait_ms, time_wait, prlog, emit, access;
    unfold bind, assert_some, ret;
    cbn [steps tb trace];
    change (negb (0 =? 0)) with false; change (negb (1 =? 0)) with true;
    change (negb (2 =? 0)) with true; cbv beta iota;
    rewrite ?E0; cbn [negb steps]; cbv beta iota;
    rewrite ?E1; cbn [negb steps]; cbv beta iota;
    rewrite ?E2; cbn [negb steps]; cbv beta iota;
    split; reflexivity.
Qed.

Lemma reset_ocapi_device_i2c_witness :
  exists block w',
    index_to_block 3 = Some block /\
    reset_ocapi_device sample_platform (constant_hw 0 true) (sample_dev 3) world0
      = Done tt w' /\
    let '(d0, d1, d2) := reset_data sample_platform block in
    trace w' =
      rev [EvI2c 7 3 d0 0; EvI2c 7 1 d1 0; EvWait (msecs_to_tb 5);
           EvI2c 7 1 d2 0; EvWait (msecs_to_tb 5)].
Proof.
  assert (Hi : valid_index (index (sample_dev 3))) by (unfold valid_index; cbn; lia).
  destruct (reset_ocapi_device_i2c sample_platform (constant_hw 0 true)
              (sample_dev 3) world0 Hi) as (block & w' & Hb & Hrun & Htrace).
  exists block, w'. split; [exact Hb|]. split; [exact Hrun|].
  injection Hb as <-. exact Htrace.
Defined.

(** ** How long a failed training attempt lasts *)

Section Lasts.
Lemma lasts_ret {A} (a : A) : lasts (ret a) 0.
Proof. intros w. exists a, w. split; [reflexivity | lia]. Qed.

Lemma lasts_bind {A B} (c : M A) (k : A -> M B) (d1 d2 : Z) :
  lasts c d1 -> (forall a, lasts (k a) d2) -> lasts (bind c k) (d1 + d2).
Proof.
  intros Hc Hk w. destruct (Hc w) as (a & w1 & E1 & T1).
  destruct (Hk a w1) as (b & w2 & E2 & T2).
  exists b, w2. unfold bind. rewrite E1. split; [exact E2 | lia].
Qed.

Lemma lasts_weaken {A} (c : M A) (d d' : Z) : lasts c d -> d' <= d -> lasts c d'.
Proof.
  intros Hc Hd w. destruct (Hc w) as (a & w1 & E1 & T1).
  exists a, w1. split; [exact E1 | lia].
Qed.

Lemma lasts_step {A B} (c : M A) (k : A -> M B) (d : Z) :
  lasts c 0 -> (forall a, lasts (k a) d) -> lasts (bind c k) d.
Proof.
  intros Hc Hk. apply (lasts_weaken _ (0 + d)); [|lia].
  apply lasts_bind; assumption.
Qed.

Lemma lasts_assert_some {A B} (a : A) (k : A -> M B) (d : Z) :
  lasts (k a) d -> lasts (bind (assert_some (Some a)) k) d.
Proof. intros Hk w. exact (Hk w). Qed.

Lemma lasts_emit (e : event) : lasts (emit e) 0.
Proof. intros w. eexists. eexists. split; [reflexivity | cbn [tb]; lia]. Qed.

Lemma lasts_access (H : hardware) (e : event) : lasts (access H e) 0.
Proof. intros w. eexists. eexists. split; [reflexivity | cbn [tb]; lia]. Qed.

Lemma lasts_read_loc (H : hardware) (l : location) : lasts (read_loc H l) 0.
Proof. intros w. eexists. eexists. split; [reflexivity | cbn [tb]; lia]. Qed.

Lemma lasts_time_wait (H : hardware) (ticks : Z) : lasts (time_wait H ticks) ticks.
Proof. intros w. eexists. eexists. split; [reflexivity | cbn [tb]; lia]. Qed.

Lemma lasts_reset_ocapi_loop (H : hardware) (port : Z) (todo : list (Z * Z * Z)) :
  lasts (reset_ocapi_loop H port todo) 0.
Proof.
  induction todo as [|[[n offset] data] todo IH]; cbn [reset_ocapi_loop].
  - apply lasts_ret.
  - apply lasts_step.
    + intros w. eexists. eexists. split; [reflexivity | cbn [tb]; lia].
    + intros rc. destruct (negb (rc =? 0)); [apply lasts_emit|].
      apply lasts_step; [|intros _; exact IH].
      destruct (negb (n =? 0)); [|apply lasts_ret].
      apply (lasts_weaken _ (msecs_to_tb 5)); [apply lasts_time_wait|].
      vm_compute. discriminate.
Qed.
End Lasts.

Section ResetUnseen.
Context {X : Type}.
Variable f : event -> option X.
Hypothesis Hi2c : forall p o d rc, f (EvI2c p o d rc) = None.
Hypothesis Hwait : forall t, f (EvWait t) = None.
Hypothesis Hlog : forall msg args, f (EvLog PR_ERR msg args) = None.

Lemma reset_ocapi_loop_unseen (H : hardware) (port : Z) (todo : list (Z * Z * Z)) :
  quiet f (reset_ocapi_loop H port todo).
Proof.
  induction todo as [|[[n offset] data] todo IH]; cbn [reset_ocapi_loop].
  - apply quiet_ret.
  - apply quiet_bind.
    + intros w. eexists. eexists. split; [reflexivity|].
      cbn [trace view_of]. rewrite Hi2c. reflexivity.
    + intros rc. destruct (negb (rc =? 0)); [apply quiet_emit; apply Hlog|].
      apply quiet_bind; [|intros _; exact IH].
      destruct (negb (n =? 0)); [apply quiet_time_wait; apply Hwait | apply quiet_ret].
Qed.
Lemma reset_ocapi_device_unseen (P : platform_ocapi) (H : hardware) (dev : npu2_dev) :
  valid_index (index dev) -> quiet f (reset_ocapi_device P H dev).
Proof.
  intros Hi. unfold reset_ocapi_device.
  destruct (i2c_offset P) as [[o0 o1] o2].
  destruct (i2c_odl0_data P) as [[d0 d1] d2].
  destruct (i2c_odl1_data P) as [[e0 e1] e2].
  index_cases Hi; rewrite Hi; apply quiet_bind_assert; apply reset_ocapi_loop_unseen.
Qed.
End ResetUnseen.

Lemma lasts_reset_ocapi_device (P : platform_ocapi) (H : hardware) (dev : npu2_dev) :
  valid_index (index dev) -> lasts (reset_ocapi_device P H dev) 0.
Proof.
  intros Hi. unfold reset_ocapi_device.
  destruct (i2c_offset P) as [[o0 o1] o2].
  destruct (i2c_odl0_data P) as [[d0 d1] d2].
  destruct (i2c_odl1_data P) as [[e0 e1] e2].
  index_cases Hi; rewrite Hi; apply lasts_assert_some; apply lasts_reset_ocapi_loop.
Qed.

Ltac lasts_prim :=
  lazymatch goal with
  | |- lasts (prlog _ _ _) _ => apply lasts_emit
  | |- lasts (emit _) _ => apply lasts_emit
  | |- lasts (xscom_write _ _ _ _) _ => apply lasts_access
  | |- lasts (xscom_read _ _ _) _ => apply lasts_read_loc
  | |- lasts (npu2_scom_write _ _ _ _ _) _ => apply lasts_access
  | |- lasts (npu2_scom_read _ _ _ _) _ => apply lasts_read_loc
  | |- lasts (access _ _) _ => apply lasts_access
  | |- lasts (ret _) _ => apply lasts_ret
  end.


Lemma status_is_valid_index (i : Z) (sr : xscom_reg) :
  odl_status_xscom i = Some sr -> valid_index i.
Proof.
  intros Hs.
  destruct (Z.eq_dec i 2); [left; assumption|].
  destruct (Z.eq_dec i 3); [right; left; assumption|].
  destruct (Z.eq_dec i 4); [right; right; left; assumption|].
  destruct (Z.eq_dec i 5); [right; right; right; assumption|].
  exfalso. assert (Hn : ~ valid_index i) by (unfold valid_index; lia).
  pose proof (brick_row_invalid i Hn) as E. unfold brick_row in E.
  injection E as _ _ _ E _ _. congruence.
Qed.

Lemma config_is_not_status (i : Z) (sr cr : xscom_reg) :
  odl_status_xscom i = Some sr -> odl_config_xscom i = Some cr ->
  xscom_reg_beq cr sr = false.
Proof.
  intros Hs Hc. pose proof (status_is_valid_index i sr Hs) as Hi.
  index_cases Hi; injection Hs as <-; injection Hc as <-; reflexivity.
Qed.

Section GivesUp.
Variable K : constants.
Variable P : platform_ocapi.
Variable H : hardware.
Variables gcid i : Z.
Variable sr : xscom_reg.
Variable cr : xscom_reg.
Hypothesis Hsr : odl_status_xscom i = Some sr.
Hypothesis Hcr : odl_config_xscom i = Some cr.
Hypothesis Hnever : never_trained K H gcid i.

Lemma status_load_observed (v : Z) :
  xscom_load_observe gcid sr (EvRead (Xscom gcid sr) v) = Some v.
Proof.
  cbn [xscom_load_observe]. rewrite Z.eqb_refl.
  replace (xscom_reg_beq sr sr) with true by (destruct sr; reflexivity).
  reflexivity.
Qed.

Lemma odl_poll_gives_up (timeout : nat) (w : world) :
  exists reg w' polls,
    odl_poll K H timeout gcid i w = Done (OdlTimedOut reg) w' /\
    view_of (xscom_load_observe gcid sr) (trace w')
      = rev polls ++ view_of (xscom_load_observe gcid sr) (trace w) /\
    List.length polls = S timeout /\
    tb w + Z.of_nat (S timeout) * msecs_to_tb 1 <= tb w'.
Proof.
  rewrite msecs_to_tb_1.
  revert w. induction timeout as [|t IH]; intros w; cbn [odl_poll];
    unfold get_odl_status; rewrite Hsr;
    unfold bind at 1; unfold bind at 1; cbn [assert_some];
    unfold xscom_read, read_loc, bind at 1, access, ret;
    set (v := u64 (hw_read H (Xscom gcid sr) (steps w)));
    set (w1 := {| steps := _; tb := _; trace := _ |});
    pose proof (Hnever sr (steps w) Hsr) as H7; fold v in H7;
    apply Z.eqb_neq in H7; rewrite H7;
    unfold bind at 1; unfold time_wait_ms, time_wait;
    set (w2 := {| steps := _; tb := _; trace := EvWait _ :: _ |});
    assert (Hview2 : view_of (xscom_load_observe gcid sr) (trace w2)
                     = v :: view_of (xscom_load_observe gcid sr) (trace w))
      by (subst w2 w1; cbn [trace view_of];
          rewrite status_load_observed; reflexivity);
    assert (Htb2 : tb w + 512000 <= tb w2)
      by (subst w2 w1; cbn [tb]; rewrite msecs_to_tb_1; lia).
  - exists v, w2, [v]. split; [reflexivity|]. split; [exact Hview2|].
    split; [reflexivity | simpl Z.of_nat; lia].
  - destruct (IH w2) as (reg & w' & polls & Hrun & Hview & Hlen & Htb).
    exists reg, w', (v :: polls). split; [exact Hrun|]. split.
    { rewrite Hview, Hview2. cbn [rev]. rewrite <- app_assoc. reflexivity. }
    split; [cbn [List.length]; lia|].
    rewrite (Nat2Z.inj_succ (S t)). lia.
Qed.

Lemma odl_train_polls (dev : npu2_dev) :
  index dev = i ->
  shows (xscom_load_observe gcid sr) (odl_train K P H gcid i dev)
    (fun rc polls => rc = OPAL_HARDWARE /\ List.length polls = 3001%nat).
Proof.
  intros Hi. pose proof (status_is_valid_index i sr Hsr) as Hv.
  pose proof (config_is_not_status i sr cr Hsr Hcr) as Hne.
  assert (Hwr : forall v, xscom_load_observe gcid sr (EvWrite (Xscom gcid cr) v) = None)
    by reflexivity.
  unfold odl_train. rewrite Hcr.
  apply shows_after_quiet; [quiet_auto | intros ?].
  apply shows_after_assert.
  apply shows_after_quiet; [quiet_auto | intros ?].
  apply shows_after_quiet; [quiet_auto | intros ?].
  apply shows_after_quiet;
    [apply reset_ocapi_device_unseen; try reflexivity; rewrite Hi; exact Hv
    | intros ?].
  apply shows_after_quiet; [quiet_auto | intros ?].
  apply shows_after_quiet; [quiet_auto | intros ?].
  apply shows_after_quiet;
    [unfold npu2_opencapi_bump_ui_lane; quiet_auto | intros ?].
  apply shows_after_quiet; [quiet_auto | intros ?].
  eapply shows_weaken.
  - eapply (shows_bind _ _ _
              (fun r polls => (exists reg, r = OdlTimedOut reg)
                              /\ List.length polls = 3001%nat)
              (fun r rc obs =>
                 match r with
                 | OdlTrained => True
                 | OdlTimedOut _ => rc = OPAL_HARDWARE
                 end /\ obs = [])).
    + intros w. destruct (odl_poll_gives_up 3000 w)
        as (reg & w' & polls & Hrun & Hview & Hlen & _).
      exists (OdlTimedOut reg), w', polls. split; [exact Hrun|].
      split; [exact Hview|]. split; [eexists; reflexivity | exact Hlen].
    + intros [|reg].
      * eapply shows_weaken; [apply shows_ret|]. cbv beta. intros ? ? [_ ->]. auto.
      * eapply shows_weaken.
        -- apply shows_after_quiet; [quiet_auto | intros ?].
           apply shows_after_quiet; [quiet_auto | intros ?].
           apply shows_ret.
        -- cbv beta. intros ? ? [-> ->]. auto.
  - cbv beta. intros rc obs (r & o1 & o2 & -> & ((reg & ->) & Hlen) & Hrc & ->).
    rewrite app_nil_r. auto.
Qed.

Lemma odl_train_lasts (dev : npu2_dev) :
  index dev = i ->
  lasts (odl_train K P H gcid i dev) (msecs_to_tb 3006).
Proof.
  intros Hi. pose proof (status_is_valid_index i sr Hsr) as Hv.
  unfold odl_train. rewrite Hcr.
  apply lasts_step; [lasts_prim | intros ?].
  apply lasts_assert_some.
  apply lasts_step; [lasts_prim | intros ?].
  apply lasts_step; [lasts_prim | intros ?].
  apply lasts_step; [apply lasts_reset_ocapi_device; rewrite Hi; exact Hv | intros ?].
  apply lasts_step; [lasts_prim | intros ?].
  apply (lasts_weaken _ (msecs_to_tb 5 + msecs_to_tb 3001));
    [|vm_compute; discriminate].
  apply lasts_bind; [apply lasts_time_wait | intros ?].
  apply lasts_step;
    [unfold npu2_opencapi_bump_ui_lane; lasts_prim | intros ?].
  apply lasts_step; [lasts_prim | intros ?].
  intros w. unfold bind at 1.
  destruct (odl_poll_gives_up 3000 w) as (reg & w' & polls & Hrun & _ & _ & Htb).
  rewrite Hrun. unfold bind, prlog, emit, ret. cbn [tb].
  eexists. eexists. split; [reflexivity|]. cbn [tb].
  change (msecs_to_tb 3001) with (Z.of_nat 3001 * msecs_to_tb 1). exact Htb.
Qed.
End GivesUp.

(** X13. When the training state of the brick's ODL never reads 7,
    [odl_train] returns [OPAL_HARDWARE] after exactly 3001 loads of the
    ODL status register (the [do ... while (timeout--)] loop from 3000),
    and not before 3006 ms have passed: 5 ms of pattern A and 1 ms after
    each load. *)
Theorem odl_train_gives_up (K : constants) (P : platform_ocapi) (H : hardware)
    (gcid i : Z) (dev : npu2_dev) (sr : xscom_reg) :
  odl_status_xscom i = Some sr ->
  index dev = i ->
  never_trained K H gcid i ->
  forall w, exists w' polls,
    odl_train K P H gcid i dev w = Done OPAL_HARDWARE w' /\
    view_of (xscom_load_observe gcid sr) (trace w')
      = rev polls ++ view_of (xscom_load_observe gcid sr) (trace w) /\
    List.length polls = 3001%nat /\
    tb w + msecs_to_tb 3006 <= tb w'.
Proof.
  intros Hsr Hi Hnever w.
  pose proof (status_is_valid_index i sr Hsr) as Hv.
  assert (Hcr : exists cr, odl_config_xscom i = Some cr).
  { unfold valid_index in Hv.
    destruct Hv as [Hv | [Hv | [Hv | Hv]]]; rewrite Hv; eexists; reflexivity. }
  destruct Hcr as (cr & Hcr).
  destruct (odl_train_polls K P H gcid i sr cr Hsr Hcr Hnever dev Hi w)
    as (rc & w1 & polls & Hrun & Hview & -> & Hlen).
  destruct (odl_train_lasts K P H gcid i sr cr Hsr Hcr Hnever dev Hi w)
    as (rc2 & w2 & Hrun2 & Htb).
  rewrite Hrun in Hrun2. injection Hrun2 as <- <-.
  exists w1, polls. auto.
Qed.

Lemma odl_train_gives_up_witness :
  never_trained p9_constants (constant_hw 0 true) 0 2 /\
  forall w, exists w' polls,
    odl_train p9_constants sample_platform (constant_hw 0 true) 0 2 (sample_dev 2) w
      = Done OPAL_HARDWARE w' /\
    view_of (xscom_load_observe 0 OB0_ODL0_STATUS) (trace w')
      = rev polls ++ view_of (xscom_load_observe 0 OB0_ODL0_STATUS) (trace w) /\
    List.length polls = 3001%nat /\
    tb w + msecs_to_tb 3006 <= tb w'.
Proof.
  assert (Hn : never_trained p9_constants (constant_hw 0 true) 0 2)
    by (intros reg n _; vm_compute; discriminate).
  split; [exact Hn|].
  exact (odl_train_gives_up p9_constants sample_platform (constant_hw 0 true) 0 2
           (sample_dev 2) OB0_ODL0_STATUS eq_refl eq_refl Hn).
Defined.

(** ** The orchestrator off the default path *)

Section Idle.
Lemma idle_ret {A} (a : A) (Q : A -> Prop) : Q a -> idle (ret a) Q.
Proof. intros HQ w. exists a, w. auto. Qed.

Lemma idle_emit (e : event) : idle (emit e) (fun _ => True).
Proof. intros w. eexists tt, _. split; [reflexivity|]. cbn [steps tb]. auto. Qed.

Lemma idle_prlog (lvl : log_level) (msg : string) (args : list Z) :
  idle (prlog lvl msg args) (fun _ => True).
Proof. apply idle_emit. Qed.

Lemma idle_bind {A B} (c : M A) (k : A -> M B) (Q : B -> Prop) :
  idle c (fun _ => True) -> (forall a, idle (k a) Q) -> idle (bind c k) Q.
Proof.
  intros Hc Hk w. destruct (Hc w) as (a & w1 & E1 & S1 & T1 & _).
  destruct (Hk a w1) as (b & w2 & E2 & S2 & T2 & HQ).
  exists b, w2. unfold bind. rewrite E1. split; [exact E2|].
  split; [congruence|]. split; [congruence | exact HQ].
Qed.
End Idle.

Ltac idle_step :=
  lazymatch goal with
  | |- idle (bind (emit _) _) _ => apply idle_bind; [apply idle_emit | intros ?]
  | |- idle (bind (prlog _ _ _) _) _ => apply idle_bind; [apply idle_prlog | intros ?]
  end.

Section NoPort.
Variable K : constants.
Variable P : platform_ocapi.
Variable H : hardware.
Variable mode : npu2_link_training_state.
Variable fuel : nat.
Variable dn_link : dt_link.
Variable n : npu2.
Variable dev : npu2_dev.
Hypothesis Hport : hw_i2c_port H (chip_id n) (i2c_engine P) (i2c_port P) = None.
Hypothesis Hid : i2c_port_id_ocapi dev = 0.

Lemma setup_device_no_port_idle :
  idle (npu2_opencapi_setup_device K P H mode fuel dn_link n dev)
    (fun r => total_devices (fst r) = total_devices n + 1 /\
              index (snd r) = ibm_npu_link_index dn_link /\
              npu (snd r) = fst r).
Proof.
  unfold npu2_opencapi_setup_device.
  destruct (hw_phys_map H (chip_id n) NPU_OCAPI_MMIO (ibm_npu_link_index dn_link))
    as [mm0 mm1].
  cbv zeta. cbn [chip_id i2c_port_id_ocapi]. rewrite Hport, Hid.
  change (0 =? 0) with true. cbv iota.
  repeat idle_step. apply idle_ret.
  cbn [fst snd total_devices index npu]. auto.
Qed.

Lemma setup_device_no_port_shows (st : npu2_stack) (bl : npu2_block) :
  shows (train_observe st bl)
    (npu2_opencapi_setup_device K P H mode fuel dn_link n dev)
    (fun _ obs => obs = [StatusError]).
Proof.
  unfold npu2_opencapi_setup_device.
  destruct (hw_phys_map H (chip_id n) NPU_OCAPI_MMIO (ibm_npu_link_index dn_link))
    as [mm0 mm1].
  cbv zeta. cbn [chip_id i2c_port_id_ocapi]. rewrite Hport, Hid.
  change (0 =? 0) with true. cbv iota.
  repeat skip_quiet.
  apply (shows_then _ _ _ [StatusError] []);
    [apply shows_emit; reflexivity | intros ?].
  apply quiet_shows. quiet_auto.
Qed.
End NoPort.

(** X14. When the device tree has no I2C port for the reset and the
    device carries no port id, [npu2_opencapi_setup_device] gives the
    brick up in every training mode and for every link index: it makes
    no hardware access and no wait, sets [status = "error"] on the PHB
    node and registers no PHB; the NPU still counts the device. *)
Theorem setup_device_without_i2c_port (K : constants) (P : platform_ocapi)
    (H : hardware) (mode : npu2_link_training_state) (fuel : nat)
    (dn_link : dt_link) (n : npu2) (dev : npu2_dev)
    (st : npu2_stack) (bl : npu2_block) (w : world) :
  hw_i2c_port H (chip_id n) (i2c_engine P) (i2c_port P) = None ->
  i2c_port_id_ocapi dev = 0 ->
  exists n' dev' w',
    npu2_opencapi_setup_device K P H mode fuel dn_link n dev w = Done (n', dev') w' /\
    steps w' = steps w /\
    tb w' = tb w /\
    total_devices n' = total_devices n + 1 /\
    index dev' = ibm_npu_link_index dn_link /\
    train_view st bl (trace w') = StatusError :: train_view st bl (trace w).
Proof.
  intros Hport Hid.
  destruct (setup_device_no_port_idle K P H mode fuel dn_link n dev Hport Hid w)
    as ([n' dev'] & w' & Hrun & Hsteps & Htb & Htot & Hidx & _).
  destruct (setup_device_no_port_shows K P H mode fuel dn_link n dev Hport Hid
              st bl w) as (r & w2 & obs & Hrun2 & Hview & ->).
  rewrite Hrun in Hrun2. injection Hrun2 as <- <-.
  exists n', dev', w'. cbn [fst snd] in *. auto 10.
Qed.

Lemma setup_device_without_i2c_port_witness :
  exists n' dev' w',
    npu2_opencapi_setup_device p9_constants sample_platform (constant_hw 0 false)
      NPU2_TRAIN_NONE 10 (sample_link 9) sample_npu (blank_dev sample_npu) world0
      = Done (n', dev') w' /\
    steps w' = O /\
    tb w' = 0 /\
    total_devices n' = 1 /\
    index dev' = 9 /\
    train_view NPU2_STACK_STCK_1 NPU2_BLOCK_OTL0 (trace w') = [StatusError].
Proof.
  exact (setup_device_without_i2c_port p9_constants sample_platform
           (constant_hw 0 false) NPU2_TRAIN_NONE 10 (sample_link 9) sample_npu
           (blank_dev sample_npu) NPU2_STACK_STCK_1 NPU2_BLOCK_OTL0 world0
           eq_refl eq_refl).
Defined.

Section UntrainedModes.
Variable K : constants.
Variable P : platform_ocapi.
Variable H : hardware.
Variable fuel : nat.
Variable dn_link : dt_link.
Variable n : npu2.
Variable dev : npu2_dev.
Variable st : npu2_stack.
Variable bl : npu2_block.
Variable id : Z.
Hypothesis Hrow :
  ibm_npu_link_index dn_link = 2 /\ st = NPU2_STACK_STCK_1 /\ bl = NPU2_BLOCK_OTL0 \/
  ibm_npu_link_index dn_link = 3 /\ st = NPU2_STACK_STCK_1 /\ bl = NPU2_BLOCK_OTL1 \/
  ibm_npu_link_index dn_link = 4 /\ st = NPU2_STACK_STCK_2 /\ bl = NPU2_BLOCK_OTL0 \/
  ibm_npu_link_index dn_link = 5 /\ st = NPU2_STACK_STCK_2 /\ bl = NPU2_BLOCK_OTL1.
Hypothesis Hfuel : (10 <= fuel)%nat.
Hypothesis Hport : hw_i2c_port H (chip_id n) (i2c_engine P) (i2c_port P) = Some id.
Hypothesis Hid : id <> 0.

Lemma setup_device_untrained_shows (mode : npu2_link_training_state) :
  mode <> NPU2_TRAIN_DEFAULT ->
  shows (train_observe st bl)
    (npu2_opencapi_setup_device K P H mode fuel dn_link n dev)
    (fun _ obs => obs = [PhbRegistered]).
Proof.
  intros Hmode. unfold npu2_opencapi_setup_device.
  destruct (hw_phys_map H (chip_id n) NPU_OCAPI_MMIO (ibm_npu_link_index dn_link))
    as [mm0 mm1].
  cbv zeta. cbn [chip_id xscom_base i2c_port_id_ocapi npu_index npu_phandle
                   mm_base mm_size].
  rewrite Hport. rewrite (proj2 (Z.eqb_neq id 0) Hid).
  repeat skip_quiet.
  eapply shows_after_silent;
    [apply (setup_afu_mmio_bars_shows K H (chip_id n) _ st bl Hrow); reflexivity
    | intros dev1 Hdev1].
  eapply shows_after_silent;
    [apply (setup_afu_config_bars_shows K H (chip_id n) _ st bl Hrow); exact Hdev1
    | intros dev2 Hdev2].
  rewrite Hdev2.
  apply shows_after_quiet;
    [apply (quiet_set_fence_control K H (chip_id n) _ st bl Hrow); exact Hfuel
    | intros ?].
  skip_quiet.
  destruct mode; [contradiction | |].
  - skip_quiet. skip_quiet.
    apply (shows_then _ _ _ [PhbRegistered] []);
      [apply shows_emit; reflexivity | intros ?].
    apply quiet_shows. quiet_auto.
  - skip_quiet.
    apply (shows_then _ _ _ [PhbRegistered] []);
      [apply shows_emit; reflexivity | intros ?].
    apply quiet_shows. quiet_auto.
Qed.
End UntrainedModes.

(** X15. In the training modes [NPU2_TRAIN_PRBS31] and [NPU2_TRAIN_NONE]
    the orchestrator, for a brick whose I2C port is found, registers the
    PHB and shows nothing else of the training: [odl_train] is not
    started, [OTL_CONFIG2] is not stored into (transmission stays off),
    and no error status is set. *)
Theorem setup_device_untrained_modes (K : constants) (P : platform_ocapi)
    (H : hardware) (mode : npu2_link_training_state) (fuel : nat)
    (dn_link : dt_link) (n : npu2) (dev : npu2_dev) (id : Z) :
  mode <> NPU2_TRAIN_DEFAULT ->
  valid_index (ibm_npu_link_index dn_link) ->
  (10 <= fuel)%nat ->
  hw_i2c_port H (chip_id n) (i2c_engine P) (i2c_port P) = Some id ->
  id <> 0 ->
  exists st bl,
    index_to_stack (ibm_npu_link_index dn_link) = Some st /\
    index_to_block (ibm_npu_link_index dn_link) = Some bl /\
    forall w, exists r w',
      npu2_opencapi_setup_device K P H mode fuel dn_link n dev w = Done r w' /\
      train_view st bl (trace w') = PhbRegistered :: train_view st bl (trace w).
Proof.
  intros Hmode Hi Hfuel Hport Hid.
  destruct (valid_index_stack_block _ Hi) as (st & bl & Hst & Hbl & Hrow).
  exists st, bl. split; [exact Hst|]. split; [exact Hbl|]. intros w.
  destruct (setup_device_untrained_shows K P H fuel dn_link n dev st bl id Hrow
              Hfuel Hport Hid mode Hmode w) as (r & w' & obs & Hrun & Hview & ->).
  exists r, w'. split; [exact Hrun | exact Hview].
Qed.

Lemma setup_device_untrained_modes_witness :
  exists st bl,
    index_to_stack 5 = Some st /\ index_to_block 5 = Some bl /\
    forall w, exists r w',
      npu2_opencapi_setup_device p9_constants sample_platform (constant_hw 0 true)
        NPU2_TRAIN_NONE 10 (sample_link 5) sample_npu (blank_dev sample_npu) w
        = Done r w' /\
      train_view st bl (trace w') = PhbRegistered :: train_view st bl (trace w).
Proof.
  assert (Hm : NPU2_TRAIN_NONE <> NPU2_TRAIN_DEFAULT) by discriminate.
  assert (Hi : valid_index 5) by (unfold valid_index; lia).
  assert (Hf : (10 <= 10)%nat) by lia.
  assert (Hid : 7 <> 0) by lia.
  exact (setup_device_untrained_modes p9_constants sample_platform
           (constant_hw 0 true) NPU2_TRAIN_NONE 10 (sample_link 5) sample_npu
           (blank_dev sample_npu) 7 Hm Hi Hf eq_refl Hid).
Defined.

(** ** Config-space writes and reads *)

Lemma land_3_mod (x : Z) : Z.land x 3 = x mod 4.
Proof. change 3 with (Z.ones 2). rewrite Z.land_ones by lia. reflexivity. Qed.

Lemma land_1_mod (x : Z) : Z.land x 1 = x mod 2.
Proof. change 1 with (Z.ones 1). rewrite Z.land_ones by lia. reflexivity. Qed.

Lemma land_2_even (x : Z) : x mod 2 = 0 -> Z.land x 2 = x mod 4.
Proof.
  intros Hx. rewrite <- land_3_mod. change 3 with (Z.lor 2 1).
  rewrite Z.land_lor_distr_r, land_1_mod, Hx, Z.lor_0_r. reflexivity.
Qed.

Lemma pcicfg_check_aligned (dev : npu2_dev) (offset size : Z) :
  size = 1 \/ size = 2 \/ size = 4 ->
  0 <= offset <= 4095 -> offset mod size = 0 ->
  npu2_opencapi_pcicfg_check (Some dev) offset size = OPAL_SUCCESS.
Proof.
  intros Hs Ho Ha. unfold npu2_opencapi_pcicfg_check.
  replace (offset >? 4095) with false by (symmetry; rewrite Z.gtb_ltb; apply Z.ltb_ge; lia).
  replace (Z.land offset (u32 (size - 1))) with 0; [reflexivity|].
  destruct Hs as [-> | [-> | ->]]; symmetry.
  - apply Z.land_0_r.
  - change (u32 (2 - 1)) with 1. rewrite land_1_mod. exact Ha.
  - change (u32 (4 - 1)) with 3. rewrite land_3_mod. exact Ha.
Qed.

Section ConfigRuns.
Variable K : constants.
Variable H : hardware.
Variable p : phb.
Variable dev : npu2_dev.
Variable block : npu2_block.
Variables bdfn offset size : Z.
Hypothesis Hdev : phb_to_npu2_dev_ocapi p = Some dev.
Hypothesis Hbl : index_to_block (index dev) = Some block.
Hypothesis Hs : size = 1 \/ size = 2 \/ size = 4.
Hypothesis Ho : 0 <= offset <= 4095.
Hypothesis Ha : offset mod size = 0.

Lemma pcicfg_write_run (data : Z) (w : world) :
  exists w',
    npu2_opencapi_pcicfg_write K H p bdfn offset size data w = Done OPAL_SUCCESS w' /\
    trace w' = EvWrite (Mmio (genid_window dev block + 128 + offset mod 4) size)
                 (data mod 2 ^ (8 * size))
               :: EvSync
               :: EvWrite (Mmio (genid_window dev block) 8)
                    (config_addr_word K bdfn offset)
               :: trace w.
Proof.
  pose proof (pcicfg_check_aligned dev offset size Hs Ho Ha) as Hck.
  unfold npu2_opencapi_pcicfg_write. rewrite Hdev, Hck.
  cbn [opal_rc_eqb negb].
  unfold bind at 1. cbn [assert_some]. rewrite Hbl.
  unfold bind at 1. cbn [assert_some].
  cbv zeta. fold (genid_window dev block). fold (config_addr_word K bdfn offset).
  destruct Hs as [E | [E | E]]; rewrite E in *;
    unfold mmio_write, write_loc, bind, access, emit, ret; cbn [steps tb trace];
    eexists; (split; [reflexivity|]); cbn [trace].
  - rewrite land_3_mod. reflexivity.
  - rewrite land_2_even by exact Ha. reflexivity.
  - rewrite Ha, Z.add_0_r. reflexivity.
Qed.

Lemma pcicfg_read_run (d0 : Z) (w : world) :
  exists raw w',
    npu2_opencapi_pcicfg_read K H p bdfn offset size d0 w
      = Done (OPAL_SUCCESS, raw mod 2 ^ (8 * size)) w' /\
    trace w' = EvRead (Mmio (genid_window dev block + 128 + offset mod 4) size) raw
               :: EvSync
               :: EvWrite (Mmio (genid_window dev block) 8)
                    (config_addr_word K bdfn offset)
               :: trace w.
Proof.
  pose proof (pcicfg_check_aligned dev offset size Hs Ho Ha) as Hck.
  unfold npu2_opencapi_pcicfg_read. rewrite Hdev, Hck.
  cbn [opal_rc_eqb negb].
  unfold bind at 1. cbn [assert_some]. rewrite Hbl.
  unfold bind at 1. cbn [assert_some].
  cbv zeta. fold (genid_window dev block). fold (config_addr_word K bdfn offset).
  destruct Hs as [E | [E | E]]; rewrite E in *;
    unfold mmio_read, read_loc, write_loc, bind, access, emit, ret;
    cbn [steps tb trace];
    eexists; eexists; (split; [reflexivity|]); cbn [trace].
  - rewrite land_3_mod. reflexivity.
  - rewrite land_2_even by exact Ha. reflexivity.
  - rewrite Ha, Z.add_0_r. reflexivity.
Qed.

Lemma cfg_window_bounds (base : Z) :
  base + 128 <= base + 128 + offset mod 4 /\
  base + 128 + offset mod 4 + size <= base + 132.
Proof.
  pose proof (Z.mod_pos_bound offset 4 ltac:(lia)) as Hm.
  split; [lia|].
  destruct Hs as [E | [E | E]]; rewrite E in *.
  - lia.
  - assert (offset mod 4 = 0 \/ offset mod 4 = 2).
    { pose proof (Z.mod_pos_bound offset 2 ltac:(lia)).
      pose proof Ha as Ha'.
      rewrite (Z.div_mod offset 4) in Ha' by lia.
      replace (4 * (offset / 4) + offset mod 4)
        with (offset mod 4 + (2 * (offset / 4)) * 2) in Ha' by lia.
      rewrite Z.mod_add in Ha' by lia.
      assert (offset mod 4 = 0 \/ offset mod 4 = 1 \/ offset mod 4 = 2 \/
              offset mod 4 = 3) as [E4 | [E4 | [E4 | E4]]] by lia;
        rewrite E4 in Ha'; cbv in Ha'; try discriminate; auto. }
    lia.
  - lia.
Qed.
End ConfigRuns.

(** X16. A config write and a config read of the same size (1, 2 or 4
    bytes) at the same aligned offset of a brick's device both succeed and
    go through the same window: each stores the same address word into
    the 8 bytes at the base of the device's window (256 bytes further for
    a brick in block OTL1), then a [sync], then makes one data access of
    that size at [base + 128 + offset mod 4], inside the 4 data bytes; the
    write stores the data cut to the size, the read returns what it loads
    cut to the size. *)
Theorem cfg_write_read_same_window (K : constants) (H : hardware) (p : phb)
    (dev : npu2_dev) (block : npu2_block) (bdfn offset size data d0 : Z)
    (w1 w2 : world) :
  phb_to_npu2_dev_ocapi p = Some dev ->
  index_to_block (index dev) = Some block ->
  size = 1 \/ size = 2 \/ size = 4 ->
  0 <= offset <= 4095 ->
  offset mod size = 0 ->
  let base := genid_window dev block in
  let win := base + 128 + offset mod 4 in
  exists cfg,
    (exists w1',
       npu2_opencapi_pcicfg_write K H p bdfn offset size data w1
         = Done OPAL_SUCCESS w1' /\
       trace w1' = EvWrite (Mmio win size) (data mod 2 ^ (8 * size))
                   :: EvSync :: EvWrite (Mmio base 8) cfg :: trace w1) /\
    (exists raw w2',
       npu2_opencapi_pcicfg_read K H p bdfn offset size d0 w2
         = Done (OPAL_SUCCESS, raw mod 2 ^ (8 * size)) w2' /\
       trace w2' = EvRead (Mmio win size) raw
                   :: EvSync :: EvWrite (Mmio base 8) cfg :: trace w2) /\
    base + 128 <= win /\ win + size <= base + 132.
Proof.
  intros Hdev Hbl Hs Ho Ha base win.
  exists (config_addr_word K bdfn offset). split; [|split].
  - exact (pcicfg_write_run K H p dev block bdfn offset size Hdev Hbl Hs Ho Ha data w1).
  - exact (pcicfg_read_run K H p dev block bdfn offset size Hdev Hbl Hs Ho Ha d0 w2).
  - exact (cfg_window_bounds offset size Hs Ha base).
Qed.

Lemma cfg_write_read_same_window_witness :
  exists cfg,
    (exists w1',
       npu2_opencapi_pcicfg_write p9_constants (constant_hw 0 true) (sample_phb 3)
         0 6 2 74565 world0 = Done OPAL_SUCCESS w1' /\
       trace w1' = EvWrite (Mmio (1048576 + 256 + 128 + 2) 2) 9029
                   :: EvSync :: EvWrite (Mmio (1048576 + 256) 8) cfg :: trace world0) /\
    (exists raw w2',
       npu2_opencapi_pcicfg_read p9_constants (constant_hw 0 true) (sample_phb 3)
         0 6 2 0 world0 = Done (OPAL_SUCCESS, raw mod 2 ^ (8 * 2)) w2' /\
       trace w2' = EvRead (Mmio (1048576 + 256 + 128 + 2) 2) raw
                   :: EvSync :: EvWrite (Mmio (1048576 + 256) 8) cfg :: trace world0) /\
    1048576 + 256 + 128 <= 1048576 + 256 + 128 + 2 /\
    1048576 + 256 + 128 + 2 + 2 <= 1048576 + 256 + 132.
Proof.
  assert (Hs : 2 = 1 \/ 2 = 2 \/ 2 = 4) by (right; left; reflexivity).
  assert (Ho : 0 <= 6 <= 4095) by lia.
  exact (cfg_write_read_same_window p9_constants (constant_hw 0 true) (sample_phb 3)
           (sample_dev 3) NPU2_BLOCK_OTL1 0 6 2 74565 0 world0 world0
           eq_refl eq_refl Hs Ho eq_refl).
Defined.

(** ** The OPAL calls and their calls of [lock] and [unlock] *)

Lemma repeat_snoc {A} (a : A) (n : nat) : repeat a n ++ [a] = a :: repeat a n.
Proof. induction n as [|n IH]; [reflexivity|]. cbn. rewrite IH. reflexivity. Qed.

Lemma rev_repeat {A} (a : A) (n : nat) : rev (repeat a n) = repeat a n.
Proof.
  induction n as [|n IH]; [reflexivity|]. cbn. rewrite IH. apply repeat_snoc.
Qed.

Lemma repeat_shift {A} (a : A) (n : nat) (l : list A) :
  repeat a n ++ a :: l = a :: repeat a n ++ l.
Proof. induction n as [|n IH]; [reflexivity|]. cbn. rewrite IH. reflexivity. Qed.

Lemma rev_locked_run (c : Z) (n : nat) (l : list lock_obs) :
  rev (locked_run c n) ++ l = UnlockCall c :: repeat Touch n ++ LockCall c :: l.
Proof.
  unfold locked_run. cbn [rev]. rewrite rev_app_distr. cbn [rev app].
  rewrite rev_repeat, <- app_assoc. reflexivity.
Qed.

Lemma clear_cache_poll_touches (H : hardware) (gcid sb : Z) (cc : npu2_reg)
    (retries : nat) :
  shows lock_observe (clear_cache_poll H retries gcid sb cc)
    (fun rc obs => (rc = OPAL_SUCCESS \/ rc = OPAL_HARDWARE) /\
                   exists n, (n <= 2 * retries)%nat /\ obs = repeat Touch n).
Proof.
  induction retries as [|r IH]; intros w.
  - exists OPAL_HARDWARE, w, []. split; [reflexivity|]. split; [reflexivity|].
    split; [auto|]. exists O. split; [lia | reflexivity].
  - cbn [clear_cache_poll]. unfold bind at 1.
    unfold npu2_scom_read, read_loc, bind, access, ret.
    set (v := u64 (hw_read H (NpuScom gcid sb cc) (steps w))).
    destruct (Z.land v (PPC_BIT 16) =? 0).
    + eexists OPAL_SUCCESS, _, [Touch]. split; [reflexivity|].
      split; [reflexivity|]. split; [auto|]. exists 1%nat. split; [lia | reflexivity].
    + unfold time_wait_us, time_wait.
      match goal with
      | |- context [clear_cache_poll H r gcid sb cc ?w1] =>
          destruct (IH w1) as (rc & w' & obs & Hrun & Hview & Hrc & n & Hn & ->)
      end.
      exists rc, w', (Touch :: Touch :: repeat Touch n).
      split; [exact Hrun|]. split.
      * rewrite Hview. cbn [trace view_of lock_observe rev].
        rewrite <- !app_assoc. reflexivity.
      * split; [exact Hrc|]. exists (S (S n)). split; [lia | reflexivity].
Qed.

Section NpuLock.
Variable K : constants.
Variable H : hardware.
Variable pci_get_phb : Z -> option phb.
Variable phb_id : Z.
Variable p : phb.
Variable dev : npu2_dev.
Hypothesis Hphb : pci_get_phb phb_id = Some p.
Hypothesis Hdev : phb_to_npu2_dev_ocapi p = Some dev.
Hypothesis Hidx : valid_index (index dev).

Lemma spa_setup_locked (bdfn addr PE_mask : Z) :
  shows lock_observe (opal_npu_spa_setup K H pci_get_phb phb_id bdfn addr PE_mask)
    (fun rc obs =>
       (rc = OPAL_PARAMETER /\ obs = []) \/
       (rc = OPAL_BUSY /\ obs = locked_run (chip_id (npu dev)) 1) \/
       (rc = OPAL_SUCCESS /\ obs = locked_run (chip_id (npu dev)) 4)).
Proof.
  intros w. unfold opal_npu_spa_setup. rewrite Hphb. cbn [option_map]. rewrite Hdev.
  destruct (valid_index_stack_block _ Hidx) as (st & bl & Hst & Hbl & _).
  destruct (negb (is_opencapi_phb (Some p)));
    [exists OPAL_PARAMETER, w, []; auto|].
  destruct (negb (Z.land addr 4095 =? 0));
    [exists OPAL_PARAMETER, w, []; auto|].
  destruct (PE_mask >? 15);
    [exists OPAL_PARAMETER, w, []; auto|].
  rewrite Hbl, Hst.
  unfold bind at 1. cbn [assert_some]. unfold bind at 1. cbn [assert_some].
  unfold lock_npu, unlock_npu, npu2_scom_read, npu2_scom_write, read_loc, write_loc,
    bind, access, emit, ret.
  cbn [steps tb trace].
  match goal with
  | |- context [if ?c then _ else _] => destruct c
  end.
  - eexists OPAL_BUSY, _, _. split; [reflexivity|]. cbn [trace view_of lock_observe].
    split; [|right; left; split; reflexivity]. reflexivity.
  - eexists OPAL_SUCCESS, _, _. split; [reflexivity|]. cbn [trace view_of lock_observe].
    split; [|right; right; split; reflexivity]. reflexivity.
Qed.

Lemma spa_clear_cache_locked (bdfn PE_handle : Z) :
  shows lock_observe (opal_npu_spa_clear_cache H pci_get_phb phb_id bdfn PE_handle)
    (fun rc obs =>
       (rc = OPAL_PARAMETER /\ obs = []) \/
       (rc = OPAL_BUSY /\ obs = locked_run (chip_id (npu dev)) 1) \/
       ((rc = OPAL_SUCCESS \/ rc = OPAL_HARDWARE) /\
        exists n, (2 <= n <= 12)%nat /\ obs = locked_run (chip_id (npu dev)) n)).
Proof.
  intros w. unfold opal_npu_spa_clear_cache. cbv zeta. rewrite Hphb.
  cbn [option_map]. rewrite Hdev.
  destruct (valid_index_stack_block _ Hidx) as (st & bl & Hst & Hbl & _).
  destruct (negb (is_opencapi_phb (Some p)));
    [exists OPAL_PARAMETER, w, []; auto|].
  destruct (PE_handle >? MAX_PE_HANDLE);
    [exists OPAL_PARAMETER, w, []; auto|].
  rewrite Hbl, Hst.
  unfold bind at 1. cbn [assert_some]. unfold bind at 1. cbn [assert_some].
  unfold bind at 1. unfold lock_npu at 1, emit at 1.
  unfold bind at 1. unfold npu2_scom_read at 1, read_loc at 1.
  cbv beta zeta. unfold bind at 1. unfold access at 1. unfold ret at 1.
  cbn [steps tb trace].
  match goal with
  | |- context [if ?c then _ else _] => destruct c
  end.
  - unfold unlock_npu, bind, emit, ret. cbn [steps tb trace].
    eexists OPAL_BUSY, _, _. split; [reflexivity|]. cbn [trace view_of lock_observe].
    split; [|right; left; split; reflexivity]. reflexivity.
  - unfold bind at 1. unfold npu2_scom_write at 1, write_loc at 1, access at 1.
    cbn [steps tb trace]. unfold bind at 1.
    match goal with
    | |- context [clear_cache_poll H 5 ?g ?sb ?cc ?w1] =>
        destruct (clear_cache_poll_touches H g sb cc 5 w1)
          as (rc & w' & obs & Hrun & Hview & Hrc & n & Hn & ->)
    end.
    rewrite Hrun. unfold unlock_npu, bind, emit, ret. cbn [steps tb trace].
    exists rc. eexists. exists (locked_run (chip_id (npu dev)) (2 + n)).
    split; [reflexivity|]. split.
    + cbn [trace view_of lock_observe]. rewrite Hview.
      cbn [trace view_of lock_observe]. rewrite rev_locked_run, rev_repeat.
      rewrite !repeat_shift. reflexivity.
    + right. right. split; [exact Hrc|]. exists (2 + n)%nat. split; [lia | reflexivity].
Qed.

Lemma tl_set_unlocked (opal_addr_valid : Z -> bool) (mem : Z -> Z)
    (char_is_signed : bool) (bdfn capabilities rate_phys rate_sz : Z) :
  shows lock_observe
    (opal_npu_tl_set K H pci_get_phb opal_addr_valid mem char_is_signed
       phb_id bdfn capabilities rate_phys rate_sz)
    (fun rc obs =>
       (rc = OPAL_PARAMETER /\ obs = []) \/
       (rc = OPAL_SUCCESS /\ obs = [Touch; Touch])).
Proof.
  intros w. unfold opal_npu_tl_set. cbv zeta. rewrite Hphb.
  cbn [option_map]. rewrite Hdev.
  destruct (valid_index_stack_block _ Hidx) as (st & bl & Hst & Hbl & _).
  destruct (negb (is_opencapi_phb (Some p)));
    [exists OPAL_PARAMETER, w, []; auto|].
  destruct (negb (opal_addr_valid rate_phys) || negb (rate_sz =? TL_RATE_BUF_SIZE));
    [exists OPAL_PARAMETER, w, []; auto|].
  rewrite Hbl, Hst.
  unfold bind at 1. cbn [assert_some]. unfold bind at 1. cbn [assert_some].
  destruct (negb (is_template_supported 0 capabilities));
    [exists OPAL_PARAMETER, w, []; auto|].
  unfold npu2_scom_read, npu2_scom_write, read_loc, write_loc, prlog,
    bind, access, emit, ret.
  cbn [steps tb trace].
  eexists OPAL_SUCCESS, _, _. split; [reflexivity|]. cbn [trace view_of lock_observe].
  split; [|right; split; reflexivity]. reflexivity.
Qed.
End NpuLock.

(** X17. On a PHB with a device of a valid brick, [opal_npu_spa_setup] and
    [opal_npu_spa_clear_cache] make every access to the hardware between a
    call of [lock] and a call of [unlock] on the lock of the device's NPU,
    and make the two calls once each on every path that reaches the
    hardware: a call that returns [OPAL_PARAMETER] has made no access and
    neither call; any other return ([OPAL_BUSY], [OPAL_SUCCESS],
    [OPAL_HARDWARE]) comes after the call of [lock], at least one access
    (at most 12 for the cache clear, with its 5 polls and waits) and the
    call of [unlock].  [opal_npu_tl_set] calls neither: its load and store
    of [OTL_CONFIG1] are made outside any such pair.  This is about where
    the calls stand; what [lock] does when called is the subject of the
    theorems on [lock_caller]. *)
Theorem opal_calls_and_npu_lock (K : constants) (H : hardware)
    (pci_get_phb : Z -> option phb) (opal_addr_valid : Z -> bool) (mem : Z -> Z)
    (char_is_signed : bool) (phb_id : Z) (p : phb) (dev : npu2_dev) :
  pci_get_phb phb_id = Some p ->
  phb_to_npu2_dev_ocapi p = Some dev ->
  valid_index (index dev) ->
  let c := chip_id (npu dev) in
  (forall bdfn addr PE_mask w, exists rc w' obs,
     opal_npu_spa_setup K H pci_get_phb phb_id bdfn addr PE_mask w = Done rc w' /\
     view_of lock_observe (trace w') = rev obs ++ view_of lock_observe (trace w) /\
     ((rc = OPAL_PARAMETER /\ obs = []) \/
      (rc = OPAL_BUSY /\ obs = locked_run c 1) \/
      (rc = OPAL_SUCCESS /\ obs = locked_run c 4))) /\
  (forall bdfn PE_handle w, exists rc w' obs,
     opal_npu_spa_clear_cache H pci_get_phb phb_id bdfn PE_handle w = Done rc w' /\
     view_of lock_observe (trace w') = rev obs ++ view_of lock_observe (trace w) /\
     ((rc = OPAL_PARAMETER /\ obs = []) \/
      (rc = OPAL_BUSY /\ obs = locked_run c 1) \/
      ((rc = OPAL_SUCCESS \/ rc = OPAL_HARDWARE) /\
       exists n, (2 <= n <= 12)%nat /\ obs = locked_run c n))) /\
  (forall bdfn capabilities rate_phys rate_sz w, exists rc w' obs,
     opal_npu_tl_set K H pci_get_phb opal_addr_valid mem char_is_signed
       phb_id bdfn capabilities rate_phys rate_sz w = Done rc w' /\
     view_of lock_observe (trace w') = rev obs ++ view_of lock_observe (trace w) /\
     ((rc = OPAL_PARAMETER /\ obs = []) \/
      (rc = OPAL_SUCCESS /\ obs = [Touch; Touch]))).
Proof.
  intros Hphb Hdev Hidx c. split; [|split].
  - intros bdfn addr PE_mask.
    exact (spa_setup_locked K H pci_get_phb phb_id p dev Hphb Hdev Hidx
             bdfn addr PE_mask).
  - intros bdfn PE_handle.
    exact (spa_clear_cache_locked H pci_get_phb phb_id p dev Hphb Hdev Hidx
             bdfn PE_handle).
  - intros bdfn capabilities rate_phys rate_sz.
    exact (tl_set_unlocked K H pci_get_phb phb_id p dev Hphb Hdev Hidx
             opal_addr_valid mem char_is_signed bdfn capabilities rate_phys rate_sz).
Qed.

Lemma opal_calls_and_npu_lock_witness :
  let get := fun _ : Z => Some (sample_phb 4) in
  (forall bdfn addr PE_mask w, exists rc w' obs,
     opal_npu_spa_setup p9_constants (constant_hw 0 true) get 1 bdfn addr PE_mask w
       = Done rc w' /\
     view_of lock_observe (trace w') = rev obs ++ view_of lock_observe (trace w) /\
     ((rc = OPAL_PARAMETER /\ obs = []) \/
      (rc = OPAL_BUSY /\ obs = locked_run 0 1) \/
      (rc = OPAL_SUCCESS /\ obs = locked_run 0 4))) /\
  (forall bdfn PE_handle w, exists rc w' obs,
     opal_npu_spa_clear_cache (constant_hw 0 true) get 1 bdfn PE_handle w
       = Done rc w' /\
     view_of lock_observe (trace w') = rev obs ++ view_of lock_observe (trace w) /\
     ((rc = OPAL_PARAMETER /\ obs = []) \/
      (rc = OPAL_BUSY /\ obs = locked_run 0 1) \/
      ((rc = OPAL_SUCCESS \/ rc = OPAL_HARDWARE) /\
       exists n, (2 <= n <= 12)%nat /\ obs = locked_run 0 n))) /\
  (forall bdfn capabilities rate_phys rate_sz w, exists rc w' obs,
     opal_npu_tl_set p9_constants (constant_hw 0 true) get (fun _ => true)
       sample_rate_mem false 1 bdfn capabilities rate_phys rate_sz w = Done rc w' /\
     view_of lock_observe (trace w') = rev obs ++ view_of lock_observe (trace w) /\
     ((rc = OPAL_PARAMETER /\ obs = []) \/
      (rc = OPAL_SUCCESS /\ obs = [Touch; Touch]))).
Proof.
  assert (Hi : valid_index 4) by (unfold valid_index; lia).
  exact (opal_calls_and_npu_lock p9_constants (constant_hw 0 true)
           (fun _ => Some (sample_phb 4)) (fun _ => true) sample_rate_mem false 1
           (sample_phb 4) (sample_dev 4) eq_refl eq_refl Hi).
Defined.

(** ** What [tl_config] leaves clear and set *)

Lemma SETFIELD_keeps_clear (m v val b : Z) :
  Z.land m b = 0 -> Z.land v b = 0 -> Z.land (SETFIELD m v val) b = 0.
Proof.
  intros Hm Hv. unfold SETFIELD. rewrite Z.land_lor_distr_l.
  rewrite <- !Z.land_assoc. rewrite Hm.
  rewrite (Z.land_comm (not64 m) b), Z.land_assoc, Hv.
  rewrite Z.land_0_l, Z.land_0_r. reflexivity.
Qed.

Lemma testbit_below_64 (e i : Z) :
  0 <= e < 2 ^ 64 -> Z.testbit e i = true -> i < 64.
Proof.
  intros He Hb. destruct (Z.ltb_spec i 64) as [Hlt | Hge]; [exact Hlt|].
  rewrite <- (Z.mod_small e (2 ^ 64)) in Hb by exact He.
  rewrite Z.mod_pow2_bits_high in Hb by lia. discriminate.
Qed.

Lemma SETFIELD_keeps_set (m v val e : Z) :
  0 <= e < 2 ^ 64 ->
  Z.land m e = 0 -> Z.land v e = e -> Z.land (SETFIELD m v val) e = e.
Proof.
  intros He Hm Hv. apply Z.bits_inj'. intros i Hi.
  unfold SETFIELD.
  rewrite Z.land_spec, Z.lor_spec, !Z.land_spec, testbit_not64 by exact Hi.
  destruct (Z.testbit e i) eqn:Hei; [|apply andb_false_r].
  assert (Hmi : Z.testbit m i = false).
  { pose proof (f_equal (fun x => Z.testbit x i) Hm) as E. cbv beta in E.
    rewrite Z.land_spec, Hei, Z.bits_0, andb_true_r in E. exact E. }
  assert (Hvi : Z.testbit v i = true).
  { pose proof (f_equal (fun x => Z.testbit x i) Hv) as E. cbv beta in E.
    rewrite Z.land_spec, Hei, andb_true_r in E. exact E. }
  pose proof (testbit_below_64 e i He Hei) as Hlt.
  rewrite Hmi, Hvi. replace (i <? 64) with true by (symmetry; apply Z.ltb_lt; lia).
  reflexivity.
Qed.

(** X18. [tl_config] of a valid brick makes three stores and no load:
    [OTL_CONFIG0], [OTL_CONFIG1] and [OTL_TLX_CREDITS] of the brick's stack
    and block.  In the word stored to [OTL_CONFIG1] every bit outside the
    seven fields set is 0, so that templates 1 to 3 stay disabled when
    their enable bits lie outside these fields; in the word stored to
    [OTL_CONFIG0] the OTL enable bit is set when the five fields set after
    it do not cover it. *)
Theorem tl_config_forces_template0 (K : constants) (T : tl_constants) (H : hardware)
    (gcid sb i b : Z) :
  valid_index i ->
  Forall (fun m => Z.land m b = 0) (config1_fields T) ->
  0 <= NPU2_OTL_CONFIG0_EN K < 2 ^ 64 ->
  Forall (fun m => Z.land m (NPU2_OTL_CONFIG0_EN K) = 0) (config0_fields T) ->
  exists st bl,
    index_to_stack i = Some st /\ index_to_block i = Some bl /\
    forall w, exists w' v0 v1 v2,
      tl_config K T H gcid sb i w = Done tt w' /\
      steps w' = (steps w + 3)%nat /\
      writes_of (trace w')
      = (NpuScom gcid sb (NPU2_OTL_TLX_CREDITS st bl), v2)
        :: (NpuScom gcid sb (NPU2_OTL_CONFIG1 st bl), v1)
        :: (NpuScom gcid sb (NPU2_OTL_CONFIG0 st bl), v0)
        :: writes_of (trace w) /\
      Z.land v1 b = 0 /\
      Z.land v0 (NPU2_OTL_CONFIG0_EN K) = NPU2_OTL_CONFIG0_EN K.
Proof.
  intros Hi H1 He H0.
  destruct (valid_index_stack_block _ Hi) as (st & bl & Hst & Hbl & _).
  exists st, bl. split; [exact Hst|]. split; [exact Hbl|]. intros w.
  unfold tl_config. rewrite Hst, Hbl.
  unfold bind at 1. cbn [assert_some]. unfold bind at 1. cbn [assert_some].
  cbv zeta.
  unfold npu2_scom_write, write_loc, prlog, bind, access, emit, ret.
  cbn [steps tb trace].
  do 4 eexists. split; [reflexivity|]. cbn [steps trace writes_of].
  split; [lia|]. split; [reflexivity|].
  unfold config1_fields in H1. unfold config0_fields in H0.
  repeat match goal with
         | Hf : Forall _ (_ :: _) |- _ => inversion Hf; subst; clear Hf
         | Hf : Forall _ [] |- _ => clear Hf
         end.
  split.
  - repeat (apply SETFIELD_keeps_clear; [assumption|]). apply Z.land_0_l.
  - repeat (apply SETFIELD_keeps_set; [exact He | assumption |]).
    rewrite Z.lor_0_l, Z.land_lor_distr_l, Z.land_diag.
    apply Z.bits_inj'. intros n Hn.
    rewrite Z.lor_spec, Z.land_spec.
    destruct (Z.testbit (NPU2_OTL_CONFIG0_EN K) n); [reflexivity|].
    rewrite andb_false_r. reflexivity.
Qed.

Lemma tl_config_forces_template0_witness :
  exists st bl,
    index_to_stack 3 = Some st /\ index_to_block 3 = Some bl /\
    forall w, exists w' v0 v1 v2,
      tl_config p9_constants p9_tl_constants (constant_hw 0 true) 0 84017152 3 w
        = Done tt w' /\
      steps w' = (steps w + 3)%nat /\
      writes_of (trace w')
      = (NpuScom 0 84017152 (NPU2_OTL_TLX_CREDITS st bl), v2)
        :: (NpuScom 0 84017152 (NPU2_OTL_CONFIG1 st bl), v1)
        :: (NpuScom 0 84017152 (NPU2_OTL_CONFIG0 st bl), v0)
        :: writes_of (trace w) /\
      Z.land v1 (Z.lor (Z.lor (PPC_BIT 1) (PPC_BIT 2)) (PPC_BIT 3)) = 0 /\
      Z.land v0 (PPC_BIT 0) = PPC_BIT 0.
Proof.
  assert (Hi : valid_index 3) by (unfold valid_index; lia).
  assert (H1 : Forall (fun m => Z.land m (Z.lor (Z.lor (PPC_BIT 1) (PPC_BIT 2))
                                               (PPC_BIT 3)) = 0)
                 (config1_fields p9_tl_constants)).
  { repeat constructor. }
  assert (He : 0 <= NPU2_OTL_CONFIG0_EN p9_constants < 2 ^ 64).
  { split; [discriminate | reflexivity]. }
  assert (H0 : Forall (fun m => Z.land m (NPU2_OTL_CONFIG0_EN p9_constants) = 0)
                 (config0_fields p9_tl_constants)).
  { repeat constructor. }
  exact (tl_config_forces_template0 p9_constants p9_tl_constants (constant_hw 0 true)
           0 84017152 3 _ Hi H1 He H0).
Defined.

(** ** Errata of the address translation *)

Section TranslationConfig.
Variable K : constants.
Variable T : tl_constants.
Variable H : hardware.
Variable chip : option proc_chip.
Variables gcid sb i : Z.
Variable st : npu2_stack.
Variable bl : npu2_block.
Hypothesis Hrow :
  i = 2 /\ st = NPU2_STACK_STCK_1 /\ bl = NPU2_BLOCK_OTL0 \/
  i = 3 /\ st = NPU2_STACK_STCK_1 /\ bl = NPU2_BLOCK_OTL1 \/
  i = 4 /\ st = NPU2_STACK_STCK_2 /\ bl = NPU2_BLOCK_OTL0 \/
  i = 5 /\ st = NPU2_STACK_STCK_2 /\ bl = NPU2_BLOCK_OTL1.

Lemma address_translation_config_own :
  quiet (stray_store gcid sb i st bl) (address_translation_config T H chip gcid sb i).
Proof.
  unfold address_translation_config.
  rewrite (row_stack i st bl Hrow). apply quiet_bind_assert. cbv zeta.
  destruct (get_nimbus_level chip =? 0x20); destruct (get_nimbus_level chip =? 0x21);
    cbn [orb]; brick_cases Hrow; home_auto.
Qed.

Lemma tl_config_own :
  quiet (stray_store gcid sb i st bl) (tl_config K T H gcid sb i).
Proof.
  unfold tl_config.
  rewrite (row_stack i st bl Hrow). apply quiet_bind_assert.
  rewrite (row_block i st bl Hrow). apply quiet_bind_assert. cbv zeta.
  brick_cases Hrow; home_auto.
Qed.

Lemma address_translation_config_errata (w : world) :
  let gp := u64 (hw_read H (NpuScom gcid sb
                              (NPU2_REG_OFFSET st NPU2_BLOCK_XSL NPU2_XSL_GP))
                   (S (S (steps w)))) in
  exists w',
    address_translation_config T H chip gcid sb i w = Done tt w' /\
    view_of errata_observe (trace w')
    = rev ((if get_nimbus_level chip =? 0x20
            then [GpLoad gp; GpStore 0x0523790323000000;
                  GpStore (Z.land gp (not64 (NPU2_XSL_GP_BLOOM_FILTER_ENABLE T)))]
            else [])
           ++ (if (get_nimbus_level chip =? 0x20) || (get_nimbus_level chip =? 0x21)
               then [DefStore 0x32F8000000000001] else []))
      ++ view_of errata_observe (trace w).
Proof.
  intros gp. subst gp. unfold address_translation_config.
  rewrite (row_stack i st bl Hrow).
  unfold bind at 1. cbn [assert_some]. cbv zeta.
  destruct (get_nimbus_level chip =? 0x20); destruct (get_nimbus_level chip =? 0x21);
    cbn [orb];
    unfold npu2_scom_read, npu2_scom_write, read_loc, write_loc, prlog,
      bind, access, emit, ret;
    cbn [steps tb trace];
    eexists; (split; [reflexivity|]);
    cbn [trace view_of errata_observe]; reflexivity.
Qed.
End TranslationConfig.



(** ** Config accesses stay in the window of the brick *)

Lemma brick_window_row (H : hardware) (gcid i : Z) (st : npu2_stack) (bl : npu2_block) :
  i = 2 /\ st = NPU2_STACK_STCK_1 /\ bl = NPU2_BLOCK_OTL0 \/
  i = 3 /\ st = NPU2_STACK_STCK_1 /\ bl = NPU2_BLOCK_OTL1 \/
  i = 4 /\ st = NPU2_STACK_STCK_2 /\ bl = NPU2_BLOCK_OTL0 \/
  i = 5 /\ st = NPU2_STACK_STCK_2 /\ bl = NPU2_BLOCK_OTL1 ->
  brick_window H gcid i
  = fst (hw_phys_map H gcid NPU_GENID (stack_num st))
    + (if npu2_block_beq bl NPU2_BLOCK_OTL1 then 256 else 0).
Proof. intros Hrow. brick_cases Hrow; reflexivity. Qed.

Section ConfigBars.
Variable K : constants.
Variable H : hardware.
Variables gcid sb i : Z.
Variable st : npu2_stack.
Variable bl : npu2_block.
Hypothesis Hrow :
  i = 2 /\ st = NPU2_STACK_STCK_1 /\ bl = NPU2_BLOCK_OTL0 \/
  i = 3 /\ st = NPU2_STACK_STCK_1 /\ bl = NPU2_BLOCK_OTL1 \/
  i = 4 /\ st = NPU2_STACK_STCK_2 /\ bl = NPU2_BLOCK_OTL0 \/
  i = 5 /\ st = NPU2_STACK_STCK_2 /\ bl = NPU2_BLOCK_OTL1.

Lemma setup_afu_config_bars_run (dev : npu2_dev) (w : world) :
  index dev = i ->
  exists dev' w',
    setup_afu_config_bars K H gcid sb dev w = Done dev' w' /\
    index dev' = i /\
    genid_window dev' bl = brick_window H gcid i.
Proof.
  intros Hi. unfold setup_afu_config_bars. rewrite Hi.
  rewrite (row_stack i st bl Hrow).
  unfold bind at 1. cbn [assert_some].
  rewrite (brick_window_row H gcid i st bl Hrow).
  destruct (hw_phys_map H gcid NPU_GENID (stack_num st)) as [addr size].
  unfold bind at 1. unfold prlog at 1, emit at 1.
  unfold bind at 1. unfold prlog at 1, emit at 1.
  unfold bind at 1.
  match goal with
  | |- context [write_bar K H gcid sb st NPU2_GENID_BAR addr size ?w1] =>
      destruct (quiet_write_bar K H gcid i st bl Hrow sb NPU2_GENID_BAR addr size w1)
        as ([] & w2 & Hrun & _)
  end.
  rewrite Hrun. unfold ret.
  eexists _, w2. split; [reflexivity|]. split; [exact Hi|].
  unfold genid_window. cbn [set_dev_bar1 bar1_base fst]. reflexivity.
Qed.
End ConfigBars.

(** X20. [setup_afu_config_bars] gives the device of a valid brick the
    GENID range of its stack, and every config write and config read made
    through the device afterwards, of 1, 2 or 4 bytes at an aligned offset
    up to 0xFFF, succeeds and touches only the 132 bytes from the start of
    the brick's window: the range start for bricks 2 and 4, 256 bytes
    further for bricks 3 and 5, so that the two bricks of a stack never
    touch each other's bytes. *)
Theorem config_accesses_stay_in_window (K : constants) (H : hardware)
    (gcid sb : Z) (dev : npu2_dev) (w : world) :
  valid_index (index dev) ->
  let lo := brick_window H gcid (index dev) in
  exists dev' w',
    setup_afu_config_bars K H gcid sb dev w = Done dev' w' /\
    index dev' = index dev /\
    forall p bdfn offset size data w1,
      phb_to_npu2_dev_ocapi p = Some dev' ->
      size = 1 \/ size = 2 \/ size = 4 ->
      0 <= offset <= 4095 ->
      offset mod size = 0 ->
      (exists w1' obs,
         npu2_opencapi_pcicfg_write K H p bdfn offset size data w1
           = Done OPAL_SUCCESS w1' /\
         view_of mmio_observe (trace w1')
           = rev obs ++ view_of mmio_observe (trace w1) /\
         List.length obs = 2%nat /\
         Forall (within lo (lo + 132)) obs) /\
      (exists v w1' obs,
         npu2_opencapi_pcicfg_read K H p bdfn offset size data w1
           = Done (OPAL_SUCCESS, v) w1' /\
         view_of mmio_observe (trace w1')
           = rev obs ++ view_of mmio_observe (trace w1) /\
         List.length obs = 2%nat /\
         Forall (within lo (lo + 132)) obs).
Proof.
  intros Hi lo.
  destruct (valid_index_stack_block _ Hi) as (st & bl & Hst & Hbl & Hrow).
  destruct (setup_afu_config_bars_run K H gcid sb (index dev) st bl Hrow dev w eq_refl)
    as (dev' & w' & Hrun & Hidx & Hwin).
  exists dev', w'. split; [exact Hrun|]. split; [exact Hidx|].
  intros p bdfn offset size data w1 Hdev Hs Ho Ha.
  assert (Hbl' : index_to_block (index dev') = Some bl) by (rewrite Hidx; exact Hbl).
  pose proof (cfg_window_bounds offset size Hs Ha lo) as [Hb1 Hb2].
  fold lo in Hwin.
  split.
  - destruct (pcicfg_write_run K H p dev' bl bdfn offset size Hdev Hbl' Hs Ho Ha data w1)
      as (w1' & Hrun1 & Htr).
    exists w1'. eexists. split; [exact Hrun1|]. rewrite Htr, Hwin.
    cbn [view_of mmio_observe]. split; [|split].
    + instantiate (1 := [(lo, lo + 8);
                         (lo + 128 + offset mod 4, lo + 128 + offset mod 4 + size)]).
      reflexivity.
    + reflexivity.
    + repeat constructor; cbn [fst snd]; lia.
  - destruct (pcicfg_read_run K H p dev' bl bdfn offset size Hdev Hbl' Hs Ho Ha data w1)
      as (raw & w1' & Hrun1 & Htr).
    eexists. exists w1'. eexists. split; [exact Hrun1|]. rewrite Htr, Hwin.
    cbn [view_of mmio_observe]. split; [|split].
    + instantiate (1 := [(lo, lo + 8);
                         (lo + 128 + offset mod 4, lo + 128 + offset mod 4 + size)]).
      reflexivity.
    + reflexivity.
    + repeat constructor; cbn [fst snd]; lia.
Qed.

Lemma config_accesses_stay_in_window_witness :
  let lo := brick_window (constant_hw 0 true) 0 5 in
  exists dev' w',
    setup_afu_config_bars p9_constants (constant_hw 0 true) 0 84017152
      (sample_dev 5) world0 = Done dev' w' /\
    index dev' = 5 /\
    let p := {| phb_type := phb_type_npu_v2_opencapi;
                phb_to_npu2_dev_ocapi := Some dev' |} in
    (exists w1' obs,
       npu2_opencapi_pcicfg_write p9_constants (constant_hw 0 true) p 0 6 2 74565 w'
         = Done OPAL_SUCCESS w1' /\
       view_of mmio_observe (trace w1')
         = rev obs ++ view_of mmio_observe (trace w') /\
       List.length obs = 2%nat /\
       Forall (within lo (lo + 132)) obs) /\
    (exists v w1' obs,
       npu2_opencapi_pcicfg_read p9_constants (constant_hw 0 true) p 0 6 2 0 w'
         = Done (OPAL_SUCCESS, v) w1' /\
       view_of mmio_observe (trace w1')
         = rev obs ++ view_of mmio_observe (trace w') /\
       List.length obs = 2%nat /\
       Forall (within lo (lo + 132)) obs).
Proof.
  assert (Hi : valid_index 5) by (unfold valid_index; lia).
  assert (Hs : 2 = 1 \/ 2 = 2 \/ 2 = 4) by (right; left; reflexivity).
  assert (Ho : 0 <= 6 <= 4095) by lia.
  destruct (config_accesses_stay_in_window p9_constants (constant_hw 0 true) 0 84017152
              (sample_dev 5) world0 Hi) as (dev' & w' & Hrun & Hidx & Hacc).
  exists dev', w'. split; [exact Hrun|]. split; [exact Hidx|].
  cbv zeta. split.
  - exact (proj1 (Hacc {| phb_type := phb_type_npu_v2_opencapi;
                          phb_to_npu2_dev_ocapi := Some dev' |}
                   0 6 2 74565 w' eq_refl Hs Ho eq_refl)).
  - exact (proj2 (Hacc {| phb_type := phb_type_npu_v2_opencapi;
                          phb_to_npu2_dev_ocapi := Some dev' |}
                   0 6 2 0 w' eq_refl Hs Ho eq_refl)).
Defined.
